(** * Grant_finder: ingestion pipeline, status engine and listing store

    A shallow embedding of the Go sources of the grant aggregator
    (packages [ingest], [db] and [api]) together with the properties its
    specification states about them.

    Conventions of the embedding:
    - Go strings are byte strings ([string] of the Standard Library); text
      is UTF-8, so a literal with an accent denotes its UTF-8 bytes.
    - [time.Time] is an instant (nanoseconds since the Unix epoch) together
      with the offset of its location; [*time.Time] is an [option].
    - [float64] values that occur here are decimal constants and their
      comparisons; they are rationals ([Q]).
    - a Go map used as a dictionary is a [gmap]; the database table is a
      [gmap] from its unique key to the row.
    - functions of libraries that are not part of the repository (the HTML
      parser, [time.Parse], the time-zone database, the LLM client, DNS)
      are fields of a class ([GoRuntime], [TimeZones], ...): every theorem
      holds for every behaviour of those functions unless it states a
      hypothesis on them. *)

From Stdlib Require Import ZArith QArith Lia List Bool Ascii String Sorted.
From stdpp Require Import base option gmap strings list.

Open Scope string_scope.
Open Scope list_scope.
Open Scope Z_scope.

(** ** Package [strings] of the Go library, on byte strings *)

Module GoStrings.

Definition byte_of (c : ascii) : Z := Z.of_N (N_of_ascii c).

Definition ascii_of_byte (z : Z) : ascii := ascii_of_N (Z.to_N z).

(** ASCII upper-case letters are mapped to lower case. *)
Definition lowerASCII (c : ascii) : ascii :=
  let n := byte_of c in
  if (65 <=? n) && (n <=? 90) then ascii_of_byte (n + 32) else c.

(** Second byte of a two-byte sequence [C3 xx] that encodes an upper-case
    letter of the Latin-1 supplement (U+00C0 .. U+00DE, U+00D7 excepted). *)
Definition latin1Upper (c : ascii) : bool :=
  let n := byte_of c in
  (128 <=? n) && (n <=? 158) && negb (n =? 151).

(** [lowerFrom lead s]: lower-cases [s]; [lead] tells that the byte before
    [s] was the lead byte [C3]. *)
Fixpoint lowerFrom (lead : bool) (s : string) : string :=
  match s with
  | EmptyString => EmptyString
  | String c s' =>
      if lead && latin1Upper c
      then String (ascii_of_byte (byte_of c + 32)) (lowerFrom false s')
      else String (lowerASCII c) (lowerFrom (byte_of c =? 195) s')
  end.

(** [strings.ToLower] on ASCII and Latin-1 letters of UTF-8 text (the
    letters of English and Spanish); other bytes are kept. *)
Definition ToLower (s : string) : string := lowerFrom false s.

(** [strings.HasPrefix]. *)
Fixpoint HasPrefix (s prefix : string) : bool :=
  match prefix with
  | EmptyString => true
  | String p prefix' =>
      match s with
      | EmptyString => false
      | String c s' => Ascii.eqb c p && HasPrefix s' prefix'
      end
  end.

(** [strings.Contains]. *)
Fixpoint Contains (s substr : string) : bool :=
  HasPrefix s substr ||
  match s with
  | EmptyString => false
  | String _ s' => Contains s' substr
  end.

(** [strings.HasSuffix]. *)
Definition HasSuffix (s suffix : string) : bool :=
  let n := String.length s in
  let k := String.length suffix in
  (k <=? n)%nat && String.eqb (substring (n - k) k s) suffix.

(** White space of [unicode.IsSpace] in the ASCII range. *)
Definition isSpace (c : ascii) : bool :=
  let n := byte_of c in
  ((9 <=? n) && (n <=? 13)) || (n =? 32).

Fixpoint TrimLeftSpace (s : string) : string :=
  match s with
  | EmptyString => EmptyString
  | String c s' => if isSpace c then TrimLeftSpace s' else s
  end.

Fixpoint TrimRightSpace (s : string) : string :=
  match s with
  | EmptyString => EmptyString
  | String c s' =>
      match TrimRightSpace s' with
      | EmptyString => if isSpace c then EmptyString else String c EmptyString
      | r => String c r
      end
  end.

(** [strings.TrimSpace]. *)
Definition TrimSpace (s : string) : string := TrimRightSpace (TrimLeftSpace s).

(** [strings.EqualFold] (simple folding of the letters [ToLower] knows). *)
Definition EqualFold (s t : string) : bool := String.eqb (ToLower s) (ToLower t).

(** [strings.Join]. *)
Fixpoint Join (elems : list string) (sep : string) : string :=
  match elems with
  | [] => EmptyString
  | [e] => e
  | e :: rest => e +:+ sep +:+ Join rest sep
  end.

(** [fieldsFrom cur s]: the fields of [s], [cur] being the reversed bytes
    of the field under construction. *)
Fixpoint fieldsFrom (cur : list ascii) (s : string) : list string :=
  let flush (rest : list string) :=
    match cur with
    | [] => rest
    | _ => string_of_list_ascii (rev cur) :: rest
    end in
  match s with
  | EmptyString => flush []
  | String c s' =>
      if isSpace c then flush (fieldsFrom [] s') else fieldsFrom (c :: cur) s'
  end.

(** [strings.Fields]. *)
Definition Fields (s : string) : list string := fieldsFrom [] s.

(** A loop [for _, hint := range hints { if strings.Contains(s, hint) {...} }]
    that returns at the first hit. *)
Definition containsAny (s : string) (hints : list string) : bool :=
  existsb (Contains s) hints.

(** [strings.Index]: the byte offset of the first occurrence. *)
Fixpoint indexFrom (i : nat) (s substr : string) : option nat :=
  if HasPrefix s substr then Some i
  else
    match s with
    | EmptyString => None
    | String _ s' => indexFrom (S i) s' substr
    end.

Definition Index (s substr : string) : option nat := indexFrom O s substr.

(** [s[i:]] and [s[i:j]]. *)
Definition sliceFrom (s : string) (i : nat) : string :=
  substring i (String.length s - i) s.

Definition slice (s : string) (i j : nat) : string := substring i (j - i) s.

(** [replaceFrom skip s]: [skip] bytes of an occurrence that has just been
    replaced remain to be dropped. *)
Fixpoint replaceFrom (old new : string) (skip : nat) (s : string) : string :=
  match s with
  | EmptyString => EmptyString
  | String c s' =>
      match skip with
      | S k => replaceFrom old new k s'
      | O =>
          if HasPrefix s old
          then new +:+ replaceFrom old new (pred (String.length old)) s'
          else String c (replaceFrom old new O s')
      end
  end.

(** [strings.ReplaceAll] for a pattern [old] that is not empty (every call
    of this repository passes a constant that is not). *)
Definition ReplaceAll (s old new : string) : string :=
  if String.eqb old "" then s else replaceFrom old new O s.

End GoStrings.

Import GoStrings.

(** ** [time.Time] *)

Module GoTime.

(** An instant and the zone offset (seconds east of UTC) of its location. *)
Record Time := mkTime { unixNano : Z; zoneOffset : Z }.

Definition UTC (t : Time) : Time := mkTime (unixNano t) 0.

(** [t.After(u)] and [t.Before(u)] compare instants. *)
Definition After (t u : Time) : bool := unixNano u <? unixNano t.
Definition Before (t u : Time) : bool := unixNano t <? unixNano u.

Definition RFC3339 : string := "2006-01-02T15:04:05Z07:00".

End GoTime.

Import GoTime.

(** ** A model of package [time] of the Go library

    Calendar arithmetic, [time.Date], the accessors [Year], [Month], [Day],
    [Format(time.RFC3339)] and [time.Parse] for the layout verbs that the
    layouts of this repository use. Locations are fixed offsets. *)

Module GoTimeModel.

(** Days since 1970-01-01 of a date of the proleptic Gregorian calendar;
    [m] in 1..12. Days outside the month spill over linearly, as
    [time.Date] normalises them. *)
Definition days_from_civil (y m d : Z) : Z :=
  let y := if m <=? 2 then y - 1 else y in
  let era := y / 400 in
  let yoe := y - era * 400 in
  let mp := if 2 <? m then m - 3 else m + 9 in
  let doy := (153 * mp + 2) / 5 + d - 1 in
  let doe := yoe * 365 + yoe / 4 - yoe / 100 + doy in
  era * 146097 + doe - 719468.

(** The date of a day number: year, month, day. *)
Definition civil_from_days (z : Z) : Z * Z * Z :=
  let z := z + 719468 in
  let era := z / 146097 in
  let doe := z - era * 146097 in
  let yoe := (doe - doe / 1460 + doe / 36524 - doe / 146096) / 365 in
  let y := yoe + era * 400 in
  let doy := doe - (365 * yoe + yoe / 4 - yoe / 100) in
  let mp := (5 * doy + 2) / 153 in
  let d := doy - (153 * mp + 2) / 5 + 1 in
  let m := if mp <? 10 then mp + 3 else mp - 9 in
  (if m <=? 2 then y + 1 else y, m, d).

Definition isLeap (y : Z) : bool :=
  (y mod 4 =? 0) && (negb (y mod 100 =? 0) || (y mod 400 =? 0)).

Definition daysIn (m y : Z) : Z :=
  if m =? 2 then (if isLeap y then 29 else 28)
  else if (m =? 4) || (m =? 6) || (m =? 9) || (m =? 11) then 30
  else 31.

Definition nanosPerSecond : Z := 1000000000.

(** A location with a fixed offset, in seconds east of UTC. *)
Definition Location := Z.
Definition UTCLocation : Location := 0.

(** [time.Date(year, month, day, hour, min, sec, nsec, loc)]. *)
Definition Date (year month day hour min sec nsec : Z) (loc : Location) : Time :=
  let m := month - 1 in
  let year := year + m / 12 in
  let month := m mod 12 + 1 in
  let secs := days_from_civil year month day * 86400 + hour * 3600 + min * 60 + sec - loc in
  mkTime (secs * nanosPerSecond + nsec) loc.

(** Seconds of the wall clock of [t] since the epoch of its location. *)
Definition wallSeconds (t : Time) : Z := unixNano t / nanosPerSecond + zoneOffset t.

Definition civil (t : Time) : Z * Z * Z := civil_from_days (wallSeconds t / 86400).

Definition Year (t : Time) : Z := fst (fst (civil t)).
Definition Month (t : Time) : Z := snd (fst (civil t)).
Definition Day (t : Time) : Z := snd (civil t).
Definition Hour (t : Time) : Z := (wallSeconds t mod 86400) / 3600.
Definition Minute (t : Time) : Z := (wallSeconds t mod 3600) / 60.
Definition Second (t : Time) : Z := wallSeconds t mod 60.

(** *** Printing *)

Definition digit (n : Z) : ascii := ascii_of_byte (48 + n mod 10).

Definition pad2 (n : Z) : string :=
  String (digit (n / 10)) (String (digit n) EmptyString).

Definition pad4 (n : Z) : string :=
  String (digit (n / 1000)) (String (digit (n / 100)) (pad2 n)).

(** [t.Format(time.RFC3339)] of a time in UTC with a year in 0..9999. *)
Definition FormatRFC3339 (t : Time) : string :=
  pad4 (Year t) +:+ "-" +:+ pad2 (Month t) +:+ "-" +:+ pad2 (Day t) +:+ "T" +:+
  pad2 (Hour t) +:+ ":" +:+ pad2 (Minute t) +:+ ":" +:+ pad2 (Second t) +:+ "Z".

(** *** Parsing *)

(** The layout verbs ([std...] of format.go). *)
Inductive verb :=
| stdLongMonth | stdMonth | stdNumMonth | stdZeroMonth
| stdDay | stdZeroDay
| stdHour | stdHour12 | stdZeroHour12
| stdMinute | stdZeroMinute | stdSecond | stdZeroSecond
| stdLongYear | stdPM | stdpm | stdISO8601ColonTZ | stdNumColonTZ.

Inductive chunk := Lit (c : ascii) | Std (v : verb).

Definition dropn (n : nat) (s : string) : string :=
  substring n (String.length s - n) s.

Definition startsWithLowerCase (s : string) : bool :=
  match s with
  | String c _ => (97 <=? byte_of c) && (byte_of c <=? 122)
  | EmptyString => false
  end.

(** The verb a layout starts with and its length ([nextStdChunk] at the
    current position). *)
Definition stdAt (layout : string) : option (verb * nat) :=
  if HasPrefix layout "January" then Some (stdLongMonth, 7%nat)
  else if HasPrefix layout "Jan" && negb (startsWithLowerCase (dropn 3 layout))
  then Some (stdMonth, 3%nat)
  else if HasPrefix layout "01" then Some (stdZeroMonth, 2%nat)
  else if HasPrefix layout "02" then Some (stdZeroDay, 2%nat)
  else if HasPrefix layout "03" then Some (stdZeroHour12, 2%nat)
  else if HasPrefix layout "04" then Some (stdZeroMinute, 2%nat)
  else if HasPrefix layout "05" then Some (stdZeroSecond, 2%nat)
  else if HasPrefix layout "15" then Some (stdHour, 2%nat)
  else if HasPrefix layout "1" then Some (stdNumMonth, 1%nat)
  else if HasPrefix layout "2006" then Some (stdLongYear, 4%nat)
  else if HasPrefix layout "2" then Some (stdDay, 1%nat)
  else if HasPrefix layout "3" then Some (stdHour12, 1%nat)
  else if HasPrefix layout "4" then Some (stdMinute, 1%nat)
  else if HasPrefix layout "5" then Some (stdSecond, 1%nat)
  else if HasPrefix layout "PM" then Some (stdPM, 2%nat)
  else if HasPrefix layout "pm" then Some (stdpm, 2%nat)
  else if HasPrefix layout "Z07:00" then Some (stdISO8601ColonTZ, 6%nat)
  else if HasPrefix layout "-07:00" then Some (stdNumColonTZ, 6%nat)
  else None.

(** The chunks of a layout; [skip] bytes of the current verb remain. *)
Fixpoint chunksFrom (skip : nat) (layout : string) : list chunk :=
  match layout with
  | EmptyString => []
  | String c rest =>
      match skip with
      | S k => chunksFrom k rest
      | O =>
          match stdAt layout with
          | Some (v, n) => Std v :: chunksFrom (pred n) rest
          | None => Lit c :: chunksFrom O rest
          end
      end
  end.

Definition isDigit (s : string) (i : nat) : bool :=
  match String.get i s with
  | Some c => (48 <=? byte_of c) && (byte_of c <=? 57)
  | None => false
  end.

Definition digitAt (s : string) (i : nat) : Z :=
  match String.get i s with
  | Some c => byte_of c - 48
  | None => 0
  end.

(** [getnum]: a one- or two-digit number; two digits when [fixed]. *)
Definition getnum (s : string) (fixed : bool) : option (Z * string) :=
  if negb (isDigit s 0) then None
  else if negb (isDigit s 1) then
    (if fixed then None else Some (digitAt s 0, dropn 1 s))
  else Some (digitAt s 0 * 10 + digitAt s 1, dropn 2 s).

Definition longMonthNames : list string :=
  [ "January"; "February"; "March"; "April"; "May"; "June"; "July";
    "August"; "September"; "October"; "November"; "December" ].

Definition shortMonthNames : list string :=
  [ "Jan"; "Feb"; "Mar"; "Apr"; "May"; "Jun"; "Jul"; "Aug"; "Sep"; "Oct"; "Nov"; "Dec" ].

(** [match]: equality of two bytes up to the case of ASCII letters. *)
Definition matchByte (c1 c2 : ascii) : bool :=
  if Ascii.eqb c1 c2 then true
  else
    let l1 := Z.lor (byte_of c1) 32 in
    let l2 := Z.lor (byte_of c2) 32 in
    (l1 =? l2) && (97 <=? l1) && (l1 <=? 122).

Fixpoint matchPrefix (val name : string) : bool :=
  match name with
  | EmptyString => true
  | String n name' =>
      match val with
      | EmptyString => false
      | String v val' => matchByte v n && matchPrefix val' name'
      end
  end.

(** [lookup]: the index of the first name [val] starts with. *)
Fixpoint lookup (tab : list string) (i : Z) (val : string) : option (Z * string) :=
  match tab with
  | [] => None
  | v :: rest =>
      if matchPrefix val v then Some (i, dropn (String.length v) val)
      else lookup rest (i + 1) val
  end.

Fixpoint cutspace (s : string) : string :=
  match s with
  | String " " s' => cutspace s'
  | _ => s
  end.

(** The fields [Parse] fills in; [zone] is the offset the value gave. *)
Record fields := mkFields {
  fYear : Z; fMonth : Z; fDay : Z; fHour : Z; fMin : Z; fSec : Z; fNsec : Z;
  fPM : bool; fAM : bool; fZone : option Z
}.

Definition noFields : fields := mkFields 0 (-1) (-1) 0 0 0 0 false false None.

(** The digits of a fractional second, as nanoseconds ([parseNanoseconds]
    on at most nine digits; more digits are dropped). *)
Fixpoint fracDigits (s : string) (scale acc : Z) : Z * string :=
  match s with
  | String c s' =>
      if (48 <=? byte_of c) && (byte_of c <=? 57)
      then fracDigits s' (scale / 10) (acc + (byte_of c - 48) * scale)
      else (acc, s)
  | EmptyString => (acc, s)
  end.

Definition numericZone (value : string) : option (Z * string) :=
  if (String.length value <? 6)%nat then None
  else if negb (Ascii.eqb (default "x"%char (String.get 3 value)) ":"%char) then None
  else
    match getnum (substring 1 2 value) true, getnum (substring 4 2 value) true with
    | Some (hr, _), Some (mm, _) =>
        if (24 <? hr) || (60 <? mm) then None
        else
          let off := (hr * 60 + mm) * 60 in
          match String.get 0 value with
          | Some "+"%char => Some (off, dropn 6 value)
          | Some "-"%char => Some (- off, dropn 6 value)
          | _ => None
          end
    | _, _ => None
    end.

(** One verb of the layout against the value. *)
Definition parseVerb (v : verb) (value : string) (f : fields) : option (fields * string) :=
  match v with
  | stdLongYear =>
      if (String.length value <? 4)%nat || negb (isDigit value 0) ||
         negb (isDigit value 1) || negb (isDigit value 2) || negb (isDigit value 3)
      then None
      else
        let y := digitAt value 0 * 1000 + digitAt value 1 * 100 +
                 digitAt value 2 * 10 + digitAt value 3 in
        Some (mkFields y (fMonth f) (fDay f) (fHour f) (fMin f) (fSec f) (fNsec f)
                (fPM f) (fAM f) (fZone f), dropn 4 value)
  | stdMonth | stdLongMonth =>
      match lookup (match v with stdMonth => shortMonthNames | _ => longMonthNames end) 0 value with
      | Some (i, rest) =>
          Some (mkFields (fYear f) (i + 1) (fDay f) (fHour f) (fMin f) (fSec f) (fNsec f)
                  (fPM f) (fAM f) (fZone f), rest)
      | None => None
      end
  | stdNumMonth | stdZeroMonth =>
      match getnum value (match v with stdZeroMonth => true | _ => false end) with
      | Some (m, rest) =>
          if (m <=? 0) || (12 <? m) then None
          else Some (mkFields (fYear f) m (fDay f) (fHour f) (fMin f) (fSec f) (fNsec f)
                       (fPM f) (fAM f) (fZone f), rest)
      | None => None
      end
  | stdDay | stdZeroDay =>
      match getnum value (match v with stdZeroDay => true | _ => false end) with
      | Some (d, rest) =>
          Some (mkFields (fYear f) (fMonth f) d (fHour f) (fMin f) (fSec f) (fNsec f)
                  (fPM f) (fAM f) (fZone f), rest)
      | None => None
      end
  | stdHour =>
      match getnum value false with
      | Some (h, rest) =>
          if 24 <=? h then None
          else Some (mkFields (fYear f) (fMonth f) (fDay f) h (fMin f) (fSec f) (fNsec f)
                       (fPM f) (fAM f) (fZone f), rest)
      | None => None
      end
  | stdHour12 | stdZeroHour12 =>
      match getnum value (match v with stdZeroHour12 => true | _ => false end) with
      | Some (h, rest) =>
          if 12 <? h then None
          else Some (mkFields (fYear f) (fMonth f) (fDay f) h (fMin f) (fSec f) (fNsec f)
                       (fPM f) (fAM f) (fZone f), rest)
      | None => None
      end
  | stdMinute | stdZeroMinute =>
      match getnum value (match v with stdZeroMinute => true | _ => false end) with
      | Some (m, rest) =>
          if 60 <=? m then None
          else Some (mkFields (fYear f) (fMonth f) (fDay f) (fHour f) m (fSec f) (fNsec f)
                       (fPM f) (fAM f) (fZone f), rest)
      | None => None
      end
  | stdSecond | stdZeroSecond =>
      match getnum value (match v with stdZeroSecond => true | _ => false end) with
      | Some (s, rest) =>
          if 60 <=? s then None
          else
            let '(ns, rest) :=
              match rest with
              | String c rest' =>
                  if (Ascii.eqb c "."%char || Ascii.eqb c ","%char) && isDigit rest' 0
                  then fracDigits rest' 100000000 0
                  else (0, rest)
              | EmptyString => (0, rest)
              end in
            Some (mkFields (fYear f) (fMonth f) (fDay f) (fHour f) (fMin f) s ns
                    (fPM f) (fAM f) (fZone f), rest)
      | None => None
      end
  | stdPM | stdpm =>
      let p := substring 0 2 value in
      let '(pmWord, amWord) :=
        match v with stdPM => ("PM", "AM") | _ => ("pm", "am") end in
      if (String.length value <? 2)%nat then None
      else if String.eqb p pmWord then
        Some (mkFields (fYear f) (fMonth f) (fDay f) (fHour f) (fMin f) (fSec f) (fNsec f)
                true (fAM f) (fZone f), dropn 2 value)
      else if String.eqb p amWord then
        Some (mkFields (fYear f) (fMonth f) (fDay f) (fHour f) (fMin f) (fSec f) (fNsec f)
                (fPM f) true (fZone f), dropn 2 value)
      else None
  | stdISO8601ColonTZ | stdNumColonTZ =>
      match v, value with
      | stdISO8601ColonTZ, String "Z" rest =>
          Some (mkFields (fYear f) (fMonth f) (fDay f) (fHour f) (fMin f) (fSec f) (fNsec f)
                  (fPM f) (fAM f) (Some 0), rest)
      | _, _ =>
          match numericZone value with
          | Some (off, rest) =>
              Some (mkFields (fYear f) (fMonth f) (fDay f) (fHour f) (fMin f) (fSec f) (fNsec f)
                      (fPM f) (fAM f) (Some off), rest)
          | None => None
          end
      end
  end.

(** The loop of [parse] over the chunks; [inSpaces] tells that the layout
    is inside a run of spaces that [skip] has already matched. *)
Fixpoint parseChunks (cs : list chunk) (inSpaces : bool) (value : string) (f : fields)
    : option fields :=
  match cs with
  | [] => if String.eqb value "" then Some f else None
  | Lit " " :: cs' =>
      if inSpaces then parseChunks cs' true value f
      else
        match value with
        | EmptyString => parseChunks cs' true value f
        | String " " _ => parseChunks cs' true (cutspace value) f
        | _ => None
        end
  | Lit c :: cs' =>
      match value with
      | String d value' => if Ascii.eqb c d then parseChunks cs' false value' f else None
      | EmptyString => None
      end
  | Std v :: cs' =>
      match parseVerb v value f with
      | Some (f', value') => parseChunks cs' false value' f'
      | None => None
      end
  end.

(** [time.Parse(layout, value)]. *)
Definition Parse (layout value : string) : option Time :=
  match parseChunks (chunksFrom O layout) false value noFields with
  | None => None
  | Some f =>
      let hour :=
        if fPM f && (fHour f <? 12) then fHour f + 12
        else if fAM f && (fHour f =? 12) then 0
        else fHour f in
      let month := if fMonth f <? 0 then 1 else fMonth f in
      let day := if fDay f <? 0 then 1 else fDay f in
      if (day <? 1) || (daysIn month (fYear f) <? day) then None
      else
        Some (Date (fYear f) month day hour (fMin f) (fSec f) (fNsec f)
                (default UTCLocation (fZone f)))
  end.

End GoTimeModel.

(** ** The data model of package [ingest] *)

Module Models.

Definition float64 := Q.

(** A value of type [interface{}] as the evidence bags hold them. *)
Inductive any :=
| AnyBool (b : bool)
| AnyString (s : string)
| AnyInt (n : Z)
| AnyFloat (q : float64)
| AnyStrings (l : list string)
| AnyJSON (raw : string).

Record DeadlineEvidenceT := mkDeadlineEvidence {
  Source : string;
  URL : string;
  Snippet : string;
  ParsedDateISO : string;
  Label : string;
  Confidence : float64
}.

Arguments mkDeadlineEvidence _ _ _ _ _ _%_Q.

(** [type Opportunity struct] (the field [Type] is spelled [Type_]). A nil
    map is [None]. *)
Record Opportunity := mkOpportunity {
  Title : string;
  Summary : string;
  Description : string;
  ExternalURL : string;
  SourceDomain : string;
  SourceID : string;
  OpportunityNumber : string;
  AgencyName : string;
  AgencyCode : string;
  FunderType : string;
  DeadlineStr : string;
  DeadlineAt : option Time;
  OpenDate : option Time;
  CloseDateRaw : string;
  SourceStatusRaw : string;
  NormalizedStatus : string;
  StatusReason : string;
  StatusConfidence : float64;
  NextDeadlineAt : option Time;
  ExpirationAt : option Time;
  CloseAt : option Time;
  OpenAt : option Time;
  Deadlines : list string;
  DeadlineEvidence : list DeadlineEvidenceT;
  IsResultsPage : bool;
  RollingEvidence : bool;
  SourceEvidenceJSON : option (gmap string any);
  AmountMin : float64;
  AmountMax : float64;
  Currency : string;
  IsRolling : bool;
  DocType : string;
  CfdaList : list string;
  OppStatus : string;
  Region : string;
  Country : string;
  Category : string;
  Type_ : string;
  Eligibility : list string;
  Categories : list string;
  RawHTML : string;
  Embedding : list float64;
  SourceRunID : string;
  CanonicalURL : string;
  RawURL : string;
  ContentType : string;
  DataQualityScore : option (gmap string any)
}.


(** Assignments [opp.F = v]. *)

Definition set_NormalizedStatus (v : string) (o : Opportunity) : Opportunity :=
  {|
    Title := Title o; Summary := Summary o; Description := Description o;
    ExternalURL := ExternalURL o; SourceDomain := SourceDomain o;
    SourceID := SourceID o; OpportunityNumber := OpportunityNumber o;
    AgencyName := AgencyName o; AgencyCode := AgencyCode o;
    FunderType := FunderType o; DeadlineStr := DeadlineStr o;
    DeadlineAt := DeadlineAt o; OpenDate := OpenDate o;
    CloseDateRaw := CloseDateRaw o; SourceStatusRaw := SourceStatusRaw o;
    NormalizedStatus := v; StatusReason := StatusReason o;
    StatusConfidence := StatusConfidence o;
    NextDeadlineAt := NextDeadlineAt o; ExpirationAt := ExpirationAt o;
    CloseAt := CloseAt o; OpenAt := OpenAt o; Deadlines := Deadlines o;
    DeadlineEvidence := DeadlineEvidence o; IsResultsPage := IsResultsPage o;
    RollingEvidence := RollingEvidence o;
    SourceEvidenceJSON := SourceEvidenceJSON o; AmountMin := AmountMin o;
    AmountMax := AmountMax o; Currency := Currency o;
    IsRolling := IsRolling o; DocType := DocType o; CfdaList := CfdaList o;
    OppStatus := OppStatus o; Region := Region o; Country := Country o;
    Category := Category o; Type_ := Type_ o; Eligibility := Eligibility o;
    Categories := Categories o; RawHTML := RawHTML o;
    Embedding := Embedding o; SourceRunID := SourceRunID o;
    CanonicalURL := CanonicalURL o; RawURL := RawURL o;
    ContentType := ContentType o; DataQualityScore := DataQualityScore o
  |}.

Definition set_StatusReason (v : string) (o : Opportunity) : Opportunity :=
  {|
    Title := Title o; Summary := Summary o; Description := Description o;
    ExternalURL := ExternalURL o; SourceDomain := SourceDomain o;
    SourceID := SourceID o; OpportunityNumber := OpportunityNumber o;
    AgencyName := AgencyName o; AgencyCode := AgencyCode o;
    FunderType := FunderType o; DeadlineStr := DeadlineStr o;
    DeadlineAt := DeadlineAt o; OpenDate := OpenDate o;
    CloseDateRaw := CloseDateRaw o; SourceStatusRaw := SourceStatusRaw o;
    NormalizedStatus := NormalizedStatus o; StatusReason := v;
    StatusConfidence := StatusConfidence o;
    NextDeadlineAt := NextDeadlineAt o; ExpirationAt := ExpirationAt o;
    CloseAt := CloseAt o; OpenAt := OpenAt o; Deadlines := Deadlines o;
    DeadlineEvidence := DeadlineEvidence o; IsResultsPage := IsResultsPage o;
    RollingEvidence := RollingEvidence o;
    SourceEvidenceJSON := SourceEvidenceJSON o; AmountMin := AmountMin o;
    AmountMax := AmountMax o; Currency := Currency o;
    IsRolling := IsRolling o; DocType := DocType o; CfdaList := CfdaList o;
    OppStatus := OppStatus o; Region := Region o; Country := Country o;
    Category := Category o; Type_ := Type_ o; Eligibility := Eligibility o;
    Categories := Categories o; RawHTML := RawHTML o;
    Embedding := Embedding o; SourceRunID := SourceRunID o;
    CanonicalURL := CanonicalURL o; RawURL := RawURL o;
    ContentType := ContentType o; DataQualityScore := DataQualityScore o
  |}.

Definition set_StatusConfidence (v : float64) (o : Opportunity) : Opportunity :=
  {|
    Title := Title o; Summary := Summary o; Description := Description o;
    ExternalURL := ExternalURL o; SourceDomain := SourceDomain o;
    SourceID := SourceID o; OpportunityNumber := OpportunityNumber o;
    AgencyName := AgencyName o; AgencyCode := AgencyCode o;
    FunderType := FunderType o; DeadlineStr := DeadlineStr o;
    DeadlineAt := DeadlineAt o; OpenDate := OpenDate o;
    CloseDateRaw := CloseDateRaw o; SourceStatusRaw := SourceStatusRaw o;
    NormalizedStatus := NormalizedStatus o; StatusReason := StatusReason o;
    StatusConfidence := v; NextDeadlineAt := NextDeadlineAt o;
    ExpirationAt := ExpirationAt o; CloseAt := CloseAt o; OpenAt := OpenAt o;
    Deadlines := Deadlines o; DeadlineEvidence := DeadlineEvidence o;
    IsResultsPage := IsResultsPage o; RollingEvidence := RollingEvidence o;
    SourceEvidenceJSON := SourceEvidenceJSON o; AmountMin := AmountMin o;
    AmountMax := AmountMax o; Currency := Currency o;
    IsRolling := IsRolling o; DocType := DocType o; CfdaList := CfdaList o;
    OppStatus := OppStatus o; Region := Region o; Country := Country o;
    Category := Category o; Type_ := Type_ o; Eligibility := Eligibility o;
    Categories := Categories o; RawHTML := RawHTML o;
    Embedding := Embedding o; SourceRunID := SourceRunID o;
    CanonicalURL := CanonicalURL o; RawURL := RawURL o;
    ContentType := ContentType o; DataQualityScore := DataQualityScore o
  |}.

Definition set_NextDeadlineAt (v : option Time) (o : Opportunity) : Opportunity :=
  {|
    Title := Title o; Summary := Summary o; Description := Description o;
    ExternalURL := ExternalURL o; SourceDomain := SourceDomain o;
    SourceID := SourceID o; OpportunityNumber := OpportunityNumber o;
    AgencyName := AgencyName o; AgencyCode := AgencyCode o;
    FunderType := FunderType o; DeadlineStr := DeadlineStr o;
    DeadlineAt := DeadlineAt o; OpenDate := OpenDate o;
    CloseDateRaw := CloseDateRaw o; SourceStatusRaw := SourceStatusRaw o;
    NormalizedStatus := NormalizedStatus o; StatusReason := StatusReason o;
    StatusConfidence := StatusConfidence o; NextDeadlineAt := v;
    ExpirationAt := ExpirationAt o; CloseAt := CloseAt o; OpenAt := OpenAt o;
    Deadlines := Deadlines o; DeadlineEvidence := DeadlineEvidence o;
    IsResultsPage := IsResultsPage o; RollingEvidence := RollingEvidence o;
    SourceEvidenceJSON := SourceEvidenceJSON o; AmountMin := AmountMin o;
    AmountMax := AmountMax o; Currency := Currency o;
    IsRolling := IsRolling o; DocType := DocType o; CfdaList := CfdaList o;
    OppStatus := OppStatus o; Region := Region o; Country := Country o;
    Category := Category o; Type_ := Type_ o; Eligibility := Eligibility o;
    Categories := Categories o; RawHTML := RawHTML o;
    Embedding := Embedding o; SourceRunID := SourceRunID o;
    CanonicalURL := CanonicalURL o; RawURL := RawURL o;
    ContentType := ContentType o; DataQualityScore := DataQualityScore o
  |}.

Definition set_IsResultsPage (v : bool) (o : Opportunity) : Opportunity :=
  {|
    Title := Title o; Summary := Summary o; Description := Description o;
    ExternalURL := ExternalURL o; SourceDomain := SourceDomain o;
    SourceID := SourceID o; OpportunityNumber := OpportunityNumber o;
    AgencyName := AgencyName o; AgencyCode := AgencyCode o;
    FunderType := FunderType o; DeadlineStr := DeadlineStr o;
    DeadlineAt := DeadlineAt o; OpenDate := OpenDate o;
    CloseDateRaw := CloseDateRaw o; SourceStatusRaw := SourceStatusRaw o;
    NormalizedStatus := NormalizedStatus o; StatusReason := StatusReason o;
    StatusConfidence := StatusConfidence o;
    NextDeadlineAt := NextDeadlineAt o; ExpirationAt := ExpirationAt o;
    CloseAt := CloseAt o; OpenAt := OpenAt o; Deadlines := Deadlines o;
    DeadlineEvidence := DeadlineEvidence o; IsResultsPage := v;
    RollingEvidence := RollingEvidence o;
    SourceEvidenceJSON := SourceEvidenceJSON o; AmountMin := AmountMin o;
    AmountMax := AmountMax o; Currency := Currency o;
    IsRolling := IsRolling o; DocType := DocType o; CfdaList := CfdaList o;
    OppStatus := OppStatus o; Region := Region o; Country := Country o;
    Category := Category o; Type_ := Type_ o; Eligibility := Eligibility o;
    Categories := Categories o; RawHTML := RawHTML o;
    Embedding := Embedding o; SourceRunID := SourceRunID o;
    CanonicalURL := CanonicalURL o; RawURL := RawURL o;
    ContentType := ContentType o; DataQualityScore := DataQualityScore o
  |}.

Definition set_OppStatus (v : string) (o : Opportunity) : Opportunity :=
  {|
    Title := Title o; Summary := Summary o; Description := Description o;
    ExternalURL := ExternalURL o; SourceDomain := SourceDomain o;
    SourceID := SourceID o; OpportunityNumber := OpportunityNumber o;
    AgencyName := AgencyName o; AgencyCode := AgencyCode o;
    FunderType := FunderType o; DeadlineStr := DeadlineStr o;
    DeadlineAt := DeadlineAt o; OpenDate := OpenDate o;
    CloseDateRaw := CloseDateRaw o; SourceStatusRaw := SourceStatusRaw o;
    NormalizedStatus := NormalizedStatus o; StatusReason := StatusReason o;
    StatusConfidence := StatusConfidence o;
    NextDeadlineAt := NextDeadlineAt o; ExpirationAt := ExpirationAt o;
    CloseAt := CloseAt o; OpenAt := OpenAt o; Deadlines := Deadlines o;
    DeadlineEvidence := DeadlineEvidence o; IsResultsPage := IsResultsPage o;
    RollingEvidence := RollingEvidence o;
    SourceEvidenceJSON := SourceEvidenceJSON o; AmountMin := AmountMin o;
    AmountMax := AmountMax o; Currency := Currency o;
    IsRolling := IsRolling o; DocType := DocType o; CfdaList := CfdaList o;
    OppStatus := v; Region := Region o; Country := Country o;
    Category := Category o; Type_ := Type_ o; Eligibility := Eligibility o;
    Categories := Categories o; RawHTML := RawHTML o;
    Embedding := Embedding o; SourceRunID := SourceRunID o;
    CanonicalURL := CanonicalURL o; RawURL := RawURL o;
    ContentType := ContentType o; DataQualityScore := DataQualityScore o
  |}.

Definition set_RollingEvidence (v : bool) (o : Opportunity) : Opportunity :=
  {|
    Title := Title o; Summary := Summary o; Description := Description o;
    ExternalURL := ExternalURL o; SourceDomain := SourceDomain o;
    SourceID := SourceID o; OpportunityNumber := OpportunityNumber o;
    AgencyName := AgencyName o; AgencyCode := AgencyCode o;
    FunderType := FunderType o; DeadlineStr := DeadlineStr o;
    DeadlineAt := DeadlineAt o; OpenDate := OpenDate o;
    CloseDateRaw := CloseDateRaw o; SourceStatusRaw := SourceStatusRaw o;
    NormalizedStatus := NormalizedStatus o; StatusReason := StatusReason o;
    StatusConfidence := StatusConfidence o;
    NextDeadlineAt := NextDeadlineAt o; ExpirationAt := ExpirationAt o;
    CloseAt := CloseAt o; OpenAt := OpenAt o; Deadlines := Deadlines o;
    DeadlineEvidence := DeadlineEvidence o; IsResultsPage := IsResultsPage o;
    RollingEvidence := v; SourceEvidenceJSON := SourceEvidenceJSON o;
    AmountMin := AmountMin o; AmountMax := AmountMax o;
    Currency := Currency o; IsRolling := IsRolling o; DocType := DocType o;
    CfdaList := CfdaList o; OppStatus := OppStatus o; Region := Region o;
    Country := Country o; Category := Category o; Type_ := Type_ o;
    Eligibility := Eligibility o; Categories := Categories o;
    RawHTML := RawHTML o; Embedding := Embedding o;
    SourceRunID := SourceRunID o; CanonicalURL := CanonicalURL o;
    RawURL := RawURL o; ContentType := ContentType o;
    DataQualityScore := DataQualityScore o
  |}.

Definition set_SourceStatusRaw (v : string) (o : Opportunity) : Opportunity :=
  {|
    Title := Title o; Summary := Summary o; Description := Description o;
    ExternalURL := ExternalURL o; SourceDomain := SourceDomain o;
    SourceID := SourceID o; OpportunityNumber := OpportunityNumber o;
    AgencyName := AgencyName o; AgencyCode := AgencyCode o;
    FunderType := FunderType o; DeadlineStr := DeadlineStr o;
    DeadlineAt := DeadlineAt o; OpenDate := OpenDate o;
    CloseDateRaw := CloseDateRaw o; SourceStatusRaw := v;
    NormalizedStatus := NormalizedStatus o; StatusReason := StatusReason o;
    StatusConfidence := StatusConfidence o;
    NextDeadlineAt := NextDeadlineAt o; ExpirationAt := ExpirationAt o;
    CloseAt := CloseAt o; OpenAt := OpenAt o; Deadlines := Deadlines o;
    DeadlineEvidence := DeadlineEvidence o; IsResultsPage := IsResultsPage o;
    RollingEvidence := RollingEvidence o;
    SourceEvidenceJSON := SourceEvidenceJSON o; AmountMin := AmountMin o;
    AmountMax := AmountMax o; Currency := Currency o;
    IsRolling := IsRolling o; DocType := DocType o; CfdaList := CfdaList o;
    OppStatus := OppStatus o; Region := Region o; Country := Country o;
    Category := Category o; Type_ := Type_ o; Eligibility := Eligibility o;
    Categories := Categories o; RawHTML := RawHTML o;
    Embedding := Embedding o; SourceRunID := SourceRunID o;
    CanonicalURL := CanonicalURL o; RawURL := RawURL o;
    ContentType := ContentType o; DataQualityScore := DataQualityScore o
  |}.

Definition set_OpenAt (v : option Time) (o : Opportunity) : Opportunity :=
  {|
    Title := Title o; Summary := Summary o; Description := Description o;
    ExternalURL := ExternalURL o; SourceDomain := SourceDomain o;
    SourceID := SourceID o; OpportunityNumber := OpportunityNumber o;
    AgencyName := AgencyName o; AgencyCode := AgencyCode o;
    FunderType := FunderType o; DeadlineStr := DeadlineStr o;
    DeadlineAt := DeadlineAt o; OpenDate := OpenDate o;
    CloseDateRaw := CloseDateRaw o; SourceStatusRaw := SourceStatusRaw o;
    NormalizedStatus := NormalizedStatus o; StatusReason := StatusReason o;
    StatusConfidence := StatusConfidence o;
    NextDeadlineAt := NextDeadlineAt o; ExpirationAt := ExpirationAt o;
    CloseAt := CloseAt o; OpenAt := v; Deadlines := Deadlines o;
    DeadlineEvidence := DeadlineEvidence o; IsResultsPage := IsResultsPage o;
    RollingEvidence := RollingEvidence o;
    SourceEvidenceJSON := SourceEvidenceJSON o; AmountMin := AmountMin o;
    AmountMax := AmountMax o; Currency := Currency o;
    IsRolling := IsRolling o; DocType := DocType o; CfdaList := CfdaList o;
    OppStatus := OppStatus o; Region := Region o; Country := Country o;
    Category := Category o; Type_ := Type_ o; Eligibility := Eligibility o;
    Categories := Categories o; RawHTML := RawHTML o;
    Embedding := Embedding o; SourceRunID := SourceRunID o;
    CanonicalURL := CanonicalURL o; RawURL := RawURL o;
    ContentType := ContentType o; DataQualityScore := DataQualityScore o
  |}.

Definition set_SourceEvidenceJSON (v : option (gmap string any)) (o : Opportunity) : Opportunity :=
  {|
    Title := Title o; Summary := Summary o; Description := Description o;
    ExternalURL := ExternalURL o; SourceDomain := SourceDomain o;
    SourceID := SourceID o; OpportunityNumber := OpportunityNumber o;
    AgencyName := AgencyName o; AgencyCode := AgencyCode o;
    FunderType := FunderType o; DeadlineStr := DeadlineStr o;
    DeadlineAt := DeadlineAt o; OpenDate := OpenDate o;
    CloseDateRaw := CloseDateRaw o; SourceStatusRaw := SourceStatusRaw o;
    NormalizedStatus := NormalizedStatus o; StatusReason := StatusReason o;
    StatusConfidence := StatusConfidence o;
    NextDeadlineAt := NextDeadlineAt o; ExpirationAt := ExpirationAt o;
    CloseAt := CloseAt o; OpenAt := OpenAt o; Deadlines := Deadlines o;
    DeadlineEvidence := DeadlineEvidence o; IsResultsPage := IsResultsPage o;
    RollingEvidence := RollingEvidence o; SourceEvidenceJSON := v;
    AmountMin := AmountMin o; AmountMax := AmountMax o;
    Currency := Currency o; IsRolling := IsRolling o; DocType := DocType o;
    CfdaList := CfdaList o; OppStatus := OppStatus o; Region := Region o;
    Country := Country o; Category := Category o; Type_ := Type_ o;
    Eligibility := Eligibility o; Categories := Categories o;
    RawHTML := RawHTML o; Embedding := Embedding o;
    SourceRunID := SourceRunID o; CanonicalURL := CanonicalURL o;
    RawURL := RawURL o; ContentType := ContentType o;
    DataQualityScore := DataQualityScore o
  |}.

Definition set_IsRolling (v : bool) (o : Opportunity) : Opportunity :=
  {|
    Title := Title o; Summary := Summary o; Description := Description o;
    ExternalURL := ExternalURL o; SourceDomain := SourceDomain o;
    SourceID := SourceID o; OpportunityNumber := OpportunityNumber o;
    AgencyName := AgencyName o; AgencyCode := AgencyCode o;
    FunderType := FunderType o; DeadlineStr := DeadlineStr o;
    DeadlineAt := DeadlineAt o; OpenDate := OpenDate o;
    CloseDateRaw := CloseDateRaw o; SourceStatusRaw := SourceStatusRaw o;
    NormalizedStatus := NormalizedStatus o; StatusReason := StatusReason o;
    StatusConfidence := StatusConfidence o;
    NextDeadlineAt := NextDeadlineAt o; ExpirationAt := ExpirationAt o;
    CloseAt := CloseAt o; OpenAt := OpenAt o; Deadlines := Deadlines o;
    DeadlineEvidence := DeadlineEvidence o; IsResultsPage := IsResultsPage o;
    RollingEvidence := RollingEvidence o;
    SourceEvidenceJSON := SourceEvidenceJSON o; AmountMin := AmountMin o;
    AmountMax := AmountMax o; Currency := Currency o; IsRolling := v;
    DocType := DocType o; CfdaList := CfdaList o; OppStatus := OppStatus o;
    Region := Region o; Country := Country o; Category := Category o;
    Type_ := Type_ o; Eligibility := Eligibility o;
    Categories := Categories o; RawHTML := RawHTML o;
    Embedding := Embedding o; SourceRunID := SourceRunID o;
    CanonicalURL := CanonicalURL o; RawURL := RawURL o;
    ContentType := ContentType o; DataQualityScore := DataQualityScore o
  |}.


Definition set_ExternalURL (v : string) (o : Opportunity) : Opportunity :=
  {|
    Title := Title o; Summary := Summary o; Description := Description o;
    ExternalURL := v; SourceDomain := SourceDomain o; SourceID := SourceID o;
    OpportunityNumber := OpportunityNumber o; AgencyName := AgencyName o;
    AgencyCode := AgencyCode o; FunderType := FunderType o;
    DeadlineStr := DeadlineStr o; DeadlineAt := DeadlineAt o;
    OpenDate := OpenDate o; CloseDateRaw := CloseDateRaw o;
    SourceStatusRaw := SourceStatusRaw o;
    NormalizedStatus := NormalizedStatus o; StatusReason := StatusReason o;
    StatusConfidence := StatusConfidence o;
    NextDeadlineAt := NextDeadlineAt o; ExpirationAt := ExpirationAt o;
    CloseAt := CloseAt o; OpenAt := OpenAt o; Deadlines := Deadlines o;
    DeadlineEvidence := DeadlineEvidence o; IsResultsPage := IsResultsPage o;
    RollingEvidence := RollingEvidence o;
    SourceEvidenceJSON := SourceEvidenceJSON o; AmountMin := AmountMin o;
    AmountMax := AmountMax o; Currency := Currency o;
    IsRolling := IsRolling o; DocType := DocType o; CfdaList := CfdaList o;
    OppStatus := OppStatus o; Region := Region o; Country := Country o;
    Category := Category o; Type_ := Type_ o; Eligibility := Eligibility o;
    Categories := Categories o; RawHTML := RawHTML o;
    Embedding := Embedding o; SourceRunID := SourceRunID o;
    CanonicalURL := CanonicalURL o; RawURL := RawURL o;
    ContentType := ContentType o; DataQualityScore := DataQualityScore o
  |}.

Definition set_Title (v : string) (o : Opportunity) : Opportunity :=
  {|
    Title := v; Summary := Summary o; Description := Description o;
    ExternalURL := ExternalURL o; SourceDomain := SourceDomain o;
    SourceID := SourceID o; OpportunityNumber := OpportunityNumber o;
    AgencyName := AgencyName o; AgencyCode := AgencyCode o;
    FunderType := FunderType o; DeadlineStr := DeadlineStr o;
    DeadlineAt := DeadlineAt o; OpenDate := OpenDate o;
    CloseDateRaw := CloseDateRaw o; SourceStatusRaw := SourceStatusRaw o;
    NormalizedStatus := NormalizedStatus o; StatusReason := StatusReason o;
    StatusConfidence := StatusConfidence o;
    NextDeadlineAt := NextDeadlineAt o; ExpirationAt := ExpirationAt o;
    CloseAt := CloseAt o; OpenAt := OpenAt o; Deadlines := Deadlines o;
    DeadlineEvidence := DeadlineEvidence o; IsResultsPage := IsResultsPage o;
    RollingEvidence := RollingEvidence o;
    SourceEvidenceJSON := SourceEvidenceJSON o; AmountMin := AmountMin o;
    AmountMax := AmountMax o; Currency := Currency o;
    IsRolling := IsRolling o; DocType := DocType o; CfdaList := CfdaList o;
    OppStatus := OppStatus o; Region := Region o; Country := Country o;
    Category := Category o; Type_ := Type_ o; Eligibility := Eligibility o;
    Categories := Categories o; RawHTML := RawHTML o;
    Embedding := Embedding o; SourceRunID := SourceRunID o;
    CanonicalURL := CanonicalURL o; RawURL := RawURL o;
    ContentType := ContentType o; DataQualityScore := DataQualityScore o
  |}.

Definition set_Summary (v : string) (o : Opportunity) : Opportunity :=
  {|
    Title := Title o; Summary := v; Description := Description o;
    ExternalURL := ExternalURL o; SourceDomain := SourceDomain o;
    SourceID := SourceID o; OpportunityNumber := OpportunityNumber o;
    AgencyName := AgencyName o; AgencyCode := AgencyCode o;
    FunderType := FunderType o; DeadlineStr := DeadlineStr o;
    DeadlineAt := DeadlineAt o; OpenDate := OpenDate o;
    CloseDateRaw := CloseDateRaw o; SourceStatusRaw := SourceStatusRaw o;
    NormalizedStatus := NormalizedStatus o; StatusReason := StatusReason o;
    StatusConfidence := StatusConfidence o;
    NextDeadlineAt := NextDeadlineAt o; ExpirationAt := ExpirationAt o;
    CloseAt := CloseAt o; OpenAt := OpenAt o; Deadlines := Deadlines o;
    DeadlineEvidence := DeadlineEvidence o; IsResultsPage := IsResultsPage o;
    RollingEvidence := RollingEvidence o;
    SourceEvidenceJSON := SourceEvidenceJSON o; AmountMin := AmountMin o;
    AmountMax := AmountMax o; Currency := Currency o;
    IsRolling := IsRolling o; DocType := DocType o; CfdaList := CfdaList o;
    OppStatus := OppStatus o; Region := Region o; Country := Country o;
    Category := Category o; Type_ := Type_ o; Eligibility := Eligibility o;
    Categories := Categories o; RawHTML := RawHTML o;
    Embedding := Embedding o; SourceRunID := SourceRunID o;
    CanonicalURL := CanonicalURL o; RawURL := RawURL o;
    ContentType := ContentType o; DataQualityScore := DataQualityScore o
  |}.

Definition set_Region (v : string) (o : Opportunity) : Opportunity :=
  {|
    Title := Title o; Summary := Summary o; Description := Description o;
    ExternalURL := ExternalURL o; SourceDomain := SourceDomain o;
    SourceID := SourceID o; OpportunityNumber := OpportunityNumber o;
    AgencyName := AgencyName o; AgencyCode := AgencyCode o;
    FunderType := FunderType o; DeadlineStr := DeadlineStr o;
    DeadlineAt := DeadlineAt o; OpenDate := OpenDate o;
    CloseDateRaw := CloseDateRaw o; SourceStatusRaw := SourceStatusRaw o;
    NormalizedStatus := NormalizedStatus o; StatusReason := StatusReason o;
    StatusConfidence := StatusConfidence o;
    NextDeadlineAt := NextDeadlineAt o; ExpirationAt := ExpirationAt o;
    CloseAt := CloseAt o; OpenAt := OpenAt o; Deadlines := Deadlines o;
    DeadlineEvidence := DeadlineEvidence o; IsResultsPage := IsResultsPage o;
    RollingEvidence := RollingEvidence o;
    SourceEvidenceJSON := SourceEvidenceJSON o; AmountMin := AmountMin o;
    AmountMax := AmountMax o; Currency := Currency o;
    IsRolling := IsRolling o; DocType := DocType o; CfdaList := CfdaList o;
    OppStatus := OppStatus o; Region := v; Country := Country o;
    Category := Category o; Type_ := Type_ o; Eligibility := Eligibility o;
    Categories := Categories o; RawHTML := RawHTML o;
    Embedding := Embedding o; SourceRunID := SourceRunID o;
    CanonicalURL := CanonicalURL o; RawURL := RawURL o;
    ContentType := ContentType o; DataQualityScore := DataQualityScore o
  |}.

Definition set_Country (v : string) (o : Opportunity) : Opportunity :=
  {|
    Title := Title o; Summary := Summary o; Description := Description o;
    ExternalURL := ExternalURL o; SourceDomain := SourceDomain o;
    SourceID := SourceID o; OpportunityNumber := OpportunityNumber o;
    AgencyName := AgencyName o; AgencyCode := AgencyCode o;
    FunderType := FunderType o; DeadlineStr := DeadlineStr o;
    DeadlineAt := DeadlineAt o; OpenDate := OpenDate o;
    CloseDateRaw := CloseDateRaw o; SourceStatusRaw := SourceStatusRaw o;
    NormalizedStatus := NormalizedStatus o; StatusReason := StatusReason o;
    StatusConfidence := StatusConfidence o;
    NextDeadlineAt := NextDeadlineAt o; ExpirationAt := ExpirationAt o;
    CloseAt := CloseAt o; OpenAt := OpenAt o; Deadlines := Deadlines o;
    DeadlineEvidence := DeadlineEvidence o; IsResultsPage := IsResultsPage o;
    RollingEvidence := RollingEvidence o;
    SourceEvidenceJSON := SourceEvidenceJSON o; AmountMin := AmountMin o;
    AmountMax := AmountMax o; Currency := Currency o;
    IsRolling := IsRolling o; DocType := DocType o; CfdaList := CfdaList o;
    OppStatus := OppStatus o; Region := Region o; Country := v;
    Category := Category o; Type_ := Type_ o; Eligibility := Eligibility o;
    Categories := Categories o; RawHTML := RawHTML o;
    Embedding := Embedding o; SourceRunID := SourceRunID o;
    CanonicalURL := CanonicalURL o; RawURL := RawURL o;
    ContentType := ContentType o; DataQualityScore := DataQualityScore o
  |}.

Definition set_FunderType (v : string) (o : Opportunity) : Opportunity :=
  {|
    Title := Title o; Summary := Summary o; Description := Description o;
    ExternalURL := ExternalURL o; SourceDomain := SourceDomain o;
    SourceID := SourceID o; OpportunityNumber := OpportunityNumber o;
    AgencyName := AgencyName o; AgencyCode := AgencyCode o; FunderType := v;
    DeadlineStr := DeadlineStr o; DeadlineAt := DeadlineAt o;
    OpenDate := OpenDate o; CloseDateRaw := CloseDateRaw o;
    SourceStatusRaw := SourceStatusRaw o;
    NormalizedStatus := NormalizedStatus o; StatusReason := StatusReason o;
    StatusConfidence := StatusConfidence o;
    NextDeadlineAt := NextDeadlineAt o; ExpirationAt := ExpirationAt o;
    CloseAt := CloseAt o; OpenAt := OpenAt o; Deadlines := Deadlines o;
    DeadlineEvidence := DeadlineEvidence o; IsResultsPage := IsResultsPage o;
    RollingEvidence := RollingEvidence o;
    SourceEvidenceJSON := SourceEvidenceJSON o; AmountMin := AmountMin o;
    AmountMax := AmountMax o; Currency := Currency o;
    IsRolling := IsRolling o; DocType := DocType o; CfdaList := CfdaList o;
    OppStatus := OppStatus o; Region := Region o; Country := Country o;
    Category := Category o; Type_ := Type_ o; Eligibility := Eligibility o;
    Categories := Categories o; RawHTML := RawHTML o;
    Embedding := Embedding o; SourceRunID := SourceRunID o;
    CanonicalURL := CanonicalURL o; RawURL := RawURL o;
    ContentType := ContentType o; DataQualityScore := DataQualityScore o
  |}.

Definition set_AgencyName (v : string) (o : Opportunity) : Opportunity :=
  {|
    Title := Title o; Summary := Summary o; Description := Description o;
    ExternalURL := ExternalURL o; SourceDomain := SourceDomain o;
    SourceID := SourceID o; OpportunityNumber := OpportunityNumber o;
    AgencyName := v; AgencyCode := AgencyCode o; FunderType := FunderType o;
    DeadlineStr := DeadlineStr o; DeadlineAt := DeadlineAt o;
    OpenDate := OpenDate o; CloseDateRaw := CloseDateRaw o;
    SourceStatusRaw := SourceStatusRaw o;
    NormalizedStatus := NormalizedStatus o; StatusReason := StatusReason o;
    StatusConfidence := StatusConfidence o;
    NextDeadlineAt := NextDeadlineAt o; ExpirationAt := ExpirationAt o;
    CloseAt := CloseAt o; OpenAt := OpenAt o; Deadlines := Deadlines o;
    DeadlineEvidence := DeadlineEvidence o; IsResultsPage := IsResultsPage o;
    RollingEvidence := RollingEvidence o;
    SourceEvidenceJSON := SourceEvidenceJSON o; AmountMin := AmountMin o;
    AmountMax := AmountMax o; Currency := Currency o;
    IsRolling := IsRolling o; DocType := DocType o; CfdaList := CfdaList o;
    OppStatus := OppStatus o; Region := Region o; Country := Country o;
    Category := Category o; Type_ := Type_ o; Eligibility := Eligibility o;
    Categories := Categories o; RawHTML := RawHTML o;
    Embedding := Embedding o; SourceRunID := SourceRunID o;
    CanonicalURL := CanonicalURL o; RawURL := RawURL o;
    ContentType := ContentType o; DataQualityScore := DataQualityScore o
  |}.


Definition set_Description (v : string) (o : Opportunity) : Opportunity :=
  {|
    Title := Title o; Summary := Summary o; Description := v;
    ExternalURL := ExternalURL o; SourceDomain := SourceDomain o;
    SourceID := SourceID o; OpportunityNumber := OpportunityNumber o;
    AgencyName := AgencyName o; AgencyCode := AgencyCode o;
    FunderType := FunderType o; DeadlineStr := DeadlineStr o;
    DeadlineAt := DeadlineAt o; OpenDate := OpenDate o;
    CloseDateRaw := CloseDateRaw o; SourceStatusRaw := SourceStatusRaw o;
    NormalizedStatus := NormalizedStatus o; StatusReason := StatusReason o;
    StatusConfidence := StatusConfidence o;
    NextDeadlineAt := NextDeadlineAt o; ExpirationAt := ExpirationAt o;
    CloseAt := CloseAt o; OpenAt := OpenAt o; Deadlines := Deadlines o;
    DeadlineEvidence := DeadlineEvidence o; IsResultsPage := IsResultsPage o;
    RollingEvidence := RollingEvidence o;
    SourceEvidenceJSON := SourceEvidenceJSON o; AmountMin := AmountMin o;
    AmountMax := AmountMax o; Currency := Currency o;
    IsRolling := IsRolling o; DocType := DocType o; CfdaList := CfdaList o;
    OppStatus := OppStatus o; Region := Region o; Country := Country o;
    Category := Category o; Type_ := Type_ o; Eligibility := Eligibility o;
    Categories := Categories o; RawHTML := RawHTML o;
    Embedding := Embedding o; SourceRunID := SourceRunID o;
    CanonicalURL := CanonicalURL o; RawURL := RawURL o;
    ContentType := ContentType o; DataQualityScore := DataQualityScore o
  |}.

Definition set_SourceDomain (v : string) (o : Opportunity) : Opportunity :=
  {|
    Title := Title o; Summary := Summary o; Description := Description o;
    ExternalURL := ExternalURL o; SourceDomain := v; SourceID := SourceID o;
    OpportunityNumber := OpportunityNumber o; AgencyName := AgencyName o;
    AgencyCode := AgencyCode o; FunderType := FunderType o;
    DeadlineStr := DeadlineStr o; DeadlineAt := DeadlineAt o;
    OpenDate := OpenDate o; CloseDateRaw := CloseDateRaw o;
    SourceStatusRaw := SourceStatusRaw o;
    NormalizedStatus := NormalizedStatus o; StatusReason := StatusReason o;
    StatusConfidence := StatusConfidence o;
    NextDeadlineAt := NextDeadlineAt o; ExpirationAt := ExpirationAt o;
    CloseAt := CloseAt o; OpenAt := OpenAt o; Deadlines := Deadlines o;
    DeadlineEvidence := DeadlineEvidence o; IsResultsPage := IsResultsPage o;
    RollingEvidence := RollingEvidence o;
    SourceEvidenceJSON := SourceEvidenceJSON o; AmountMin := AmountMin o;
    AmountMax := AmountMax o; Currency := Currency o;
    IsRolling := IsRolling o; DocType := DocType o; CfdaList := CfdaList o;
    OppStatus := OppStatus o; Region := Region o; Country := Country o;
    Category := Category o; Type_ := Type_ o; Eligibility := Eligibility o;
    Categories := Categories o; RawHTML := RawHTML o;
    Embedding := Embedding o; SourceRunID := SourceRunID o;
    CanonicalURL := CanonicalURL o; RawURL := RawURL o;
    ContentType := ContentType o; DataQualityScore := DataQualityScore o
  |}.

Definition set_SourceID (v : string) (o : Opportunity) : Opportunity :=
  {|
    Title := Title o; Summary := Summary o; Description := Description o;
    ExternalURL := ExternalURL o; SourceDomain := SourceDomain o;
    SourceID := v; OpportunityNumber := OpportunityNumber o;
    AgencyName := AgencyName o; AgencyCode := AgencyCode o;
    FunderType := FunderType o; DeadlineStr := DeadlineStr o;
    DeadlineAt := DeadlineAt o; OpenDate := OpenDate o;
    CloseDateRaw := CloseDateRaw o; SourceStatusRaw := SourceStatusRaw o;
    NormalizedStatus := NormalizedStatus o; StatusReason := StatusReason o;
    StatusConfidence := StatusConfidence o;
    NextDeadlineAt := NextDeadlineAt o; ExpirationAt := ExpirationAt o;
    CloseAt := CloseAt o; OpenAt := OpenAt o; Deadlines := Deadlines o;
    DeadlineEvidence := DeadlineEvidence o; IsResultsPage := IsResultsPage o;
    RollingEvidence := RollingEvidence o;
    SourceEvidenceJSON := SourceEvidenceJSON o; AmountMin := AmountMin o;
    AmountMax := AmountMax o; Currency := Currency o;
    IsRolling := IsRolling o; DocType := DocType o; CfdaList := CfdaList o;
    OppStatus := OppStatus o; Region := Region o; Country := Country o;
    Category := Category o; Type_ := Type_ o; Eligibility := Eligibility o;
    Categories := Categories o; RawHTML := RawHTML o;
    Embedding := Embedding o; SourceRunID := SourceRunID o;
    CanonicalURL := CanonicalURL o; RawURL := RawURL o;
    ContentType := ContentType o; DataQualityScore := DataQualityScore o
  |}.

Definition set_DeadlineAt (v : option Time) (o : Opportunity) : Opportunity :=
  {|
    Title := Title o; Summary := Summary o; Description := Description o;
    ExternalURL := ExternalURL o; SourceDomain := SourceDomain o;
    SourceID := SourceID o; OpportunityNumber := OpportunityNumber o;
    AgencyName := AgencyName o; AgencyCode := AgencyCode o;
    FunderType := FunderType o; DeadlineStr := DeadlineStr o; DeadlineAt := v;
    OpenDate := OpenDate o; CloseDateRaw := CloseDateRaw o;
    SourceStatusRaw := SourceStatusRaw o;
    NormalizedStatus := NormalizedStatus o; StatusReason := StatusReason o;
    StatusConfidence := StatusConfidence o;
    NextDeadlineAt := NextDeadlineAt o; ExpirationAt := ExpirationAt o;
    CloseAt := CloseAt o; OpenAt := OpenAt o; Deadlines := Deadlines o;
    DeadlineEvidence := DeadlineEvidence o; IsResultsPage := IsResultsPage o;
    RollingEvidence := RollingEvidence o;
    SourceEvidenceJSON := SourceEvidenceJSON o; AmountMin := AmountMin o;
    AmountMax := AmountMax o; Currency := Currency o;
    IsRolling := IsRolling o; DocType := DocType o; CfdaList := CfdaList o;
    OppStatus := OppStatus o; Region := Region o; Country := Country o;
    Category := Category o; Type_ := Type_ o; Eligibility := Eligibility o;
    Categories := Categories o; RawHTML := RawHTML o;
    Embedding := Embedding o; SourceRunID := SourceRunID o;
    CanonicalURL := CanonicalURL o; RawURL := RawURL o;
    ContentType := ContentType o; DataQualityScore := DataQualityScore o
  |}.

Definition set_CloseAt (v : option Time) (o : Opportunity) : Opportunity :=
  {|
    Title := Title o; Summary := Summary o; Description := Description o;
    ExternalURL := ExternalURL o; SourceDomain := SourceDomain o;
    SourceID := SourceID o; OpportunityNumber := OpportunityNumber o;
    AgencyName := AgencyName o; AgencyCode := AgencyCode o;
    FunderType := FunderType o; DeadlineStr := DeadlineStr o;
    DeadlineAt := DeadlineAt o; OpenDate := OpenDate o;
    CloseDateRaw := CloseDateRaw o; SourceStatusRaw := SourceStatusRaw o;
    NormalizedStatus := NormalizedStatus o; StatusReason := StatusReason o;
    StatusConfidence := StatusConfidence o;
    NextDeadlineAt := NextDeadlineAt o; ExpirationAt := ExpirationAt o;
    CloseAt := v; OpenAt := OpenAt o; Deadlines := Deadlines o;
    DeadlineEvidence := DeadlineEvidence o; IsResultsPage := IsResultsPage o;
    RollingEvidence := RollingEvidence o;
    SourceEvidenceJSON := SourceEvidenceJSON o; AmountMin := AmountMin o;
    AmountMax := AmountMax o; Currency := Currency o;
    IsRolling := IsRolling o; DocType := DocType o; CfdaList := CfdaList o;
    OppStatus := OppStatus o; Region := Region o; Country := Country o;
    Category := Category o; Type_ := Type_ o; Eligibility := Eligibility o;
    Categories := Categories o; RawHTML := RawHTML o;
    Embedding := Embedding o; SourceRunID := SourceRunID o;
    CanonicalURL := CanonicalURL o; RawURL := RawURL o;
    ContentType := ContentType o; DataQualityScore := DataQualityScore o
  |}.

Definition set_ExpirationAt (v : option Time) (o : Opportunity) : Opportunity :=
  {|
    Title := Title o; Summary := Summary o; Description := Description o;
    ExternalURL := ExternalURL o; SourceDomain := SourceDomain o;
    SourceID := SourceID o; OpportunityNumber := OpportunityNumber o;
    AgencyName := AgencyName o; AgencyCode := AgencyCode o;
    FunderType := FunderType o; DeadlineStr := DeadlineStr o;
    DeadlineAt := DeadlineAt o; OpenDate := OpenDate o;
    CloseDateRaw := CloseDateRaw o; SourceStatusRaw := SourceStatusRaw o;
    NormalizedStatus := NormalizedStatus o; StatusReason := StatusReason o;
    StatusConfidence := StatusConfidence o;
    NextDeadlineAt := NextDeadlineAt o; ExpirationAt := v;
    CloseAt := CloseAt o; OpenAt := OpenAt o; Deadlines := Deadlines o;
    DeadlineEvidence := DeadlineEvidence o; IsResultsPage := IsResultsPage o;
    RollingEvidence := RollingEvidence o;
    SourceEvidenceJSON := SourceEvidenceJSON o; AmountMin := AmountMin o;
    AmountMax := AmountMax o; Currency := Currency o;
    IsRolling := IsRolling o; DocType := DocType o; CfdaList := CfdaList o;
    OppStatus := OppStatus o; Region := Region o; Country := Country o;
    Category := Category o; Type_ := Type_ o; Eligibility := Eligibility o;
    Categories := Categories o; RawHTML := RawHTML o;
    Embedding := Embedding o; SourceRunID := SourceRunID o;
    CanonicalURL := CanonicalURL o; RawURL := RawURL o;
    ContentType := ContentType o; DataQualityScore := DataQualityScore o
  |}.

Definition set_Deadlines (v : list string) (o : Opportunity) : Opportunity :=
  {|
    Title := Title o; Summary := Summary o; Description := Description o;
    ExternalURL := ExternalURL o; SourceDomain := SourceDomain o;
    SourceID := SourceID o; OpportunityNumber := OpportunityNumber o;
    AgencyName := AgencyName o; AgencyCode := AgencyCode o;
    FunderType := FunderType o; DeadlineStr := DeadlineStr o;
    DeadlineAt := DeadlineAt o; OpenDate := OpenDate o;
    CloseDateRaw := CloseDateRaw o; SourceStatusRaw := SourceStatusRaw o;
    NormalizedStatus := NormalizedStatus o; StatusReason := StatusReason o;
    StatusConfidence := StatusConfidence o;
    NextDeadlineAt := NextDeadlineAt o; ExpirationAt := ExpirationAt o;
    CloseAt := CloseAt o; OpenAt := OpenAt o; Deadlines := v;
    DeadlineEvidence := DeadlineEvidence o; IsResultsPage := IsResultsPage o;
    RollingEvidence := RollingEvidence o;
    SourceEvidenceJSON := SourceEvidenceJSON o; AmountMin := AmountMin o;
    AmountMax := AmountMax o; Currency := Currency o;
    IsRolling := IsRolling o; DocType := DocType o; CfdaList := CfdaList o;
    OppStatus := OppStatus o; Region := Region o; Country := Country o;
    Category := Category o; Type_ := Type_ o; Eligibility := Eligibility o;
    Categories := Categories o; RawHTML := RawHTML o;
    Embedding := Embedding o; SourceRunID := SourceRunID o;
    CanonicalURL := CanonicalURL o; RawURL := RawURL o;
    ContentType := ContentType o; DataQualityScore := DataQualityScore o
  |}.

Definition set_DeadlineEvidence (v : list DeadlineEvidenceT) (o : Opportunity) : Opportunity :=
  {|
    Title := Title o; Summary := Summary o; Description := Description o;
    ExternalURL := ExternalURL o; SourceDomain := SourceDomain o;
    SourceID := SourceID o; OpportunityNumber := OpportunityNumber o;
    AgencyName := AgencyName o; AgencyCode := AgencyCode o;
    FunderType := FunderType o; DeadlineStr := DeadlineStr o;
    DeadlineAt := DeadlineAt o; OpenDate := OpenDate o;
    CloseDateRaw := CloseDateRaw o; SourceStatusRaw := SourceStatusRaw o;
    NormalizedStatus := NormalizedStatus o; StatusReason := StatusReason o;
    StatusConfidence := StatusConfidence o;
    NextDeadlineAt := NextDeadlineAt o; ExpirationAt := ExpirationAt o;
    CloseAt := CloseAt o; OpenAt := OpenAt o; Deadlines := Deadlines o;
    DeadlineEvidence := v; IsResultsPage := IsResultsPage o;
    RollingEvidence := RollingEvidence o;
    SourceEvidenceJSON := SourceEvidenceJSON o; AmountMin := AmountMin o;
    AmountMax := AmountMax o; Currency := Currency o;
    IsRolling := IsRolling o; DocType := DocType o; CfdaList := CfdaList o;
    OppStatus := OppStatus o; Region := Region o; Country := Country o;
    Category := Category o; Type_ := Type_ o; Eligibility := Eligibility o;
    Categories := Categories o; RawHTML := RawHTML o;
    Embedding := Embedding o; SourceRunID := SourceRunID o;
    CanonicalURL := CanonicalURL o; RawURL := RawURL o;
    ContentType := ContentType o; DataQualityScore := DataQualityScore o
  |}.


(** The zero value [Opportunity{}]. *)
Definition emptyOpportunity : Opportunity :=
  {|
    Title := ""; Summary := ""; Description := ""; ExternalURL := "";
    SourceDomain := ""; SourceID := ""; OpportunityNumber := "";
    AgencyName := ""; AgencyCode := ""; FunderType := ""; DeadlineStr := "";
    DeadlineAt := None; OpenDate := None; CloseDateRaw := "";
    SourceStatusRaw := ""; NormalizedStatus := ""; StatusReason := "";
    StatusConfidence := 0%Q; NextDeadlineAt := None; ExpirationAt := None;
    CloseAt := None; OpenAt := None; Deadlines := []; DeadlineEvidence := [];
    IsResultsPage := false; RollingEvidence := false;
    SourceEvidenceJSON := None; AmountMin := 0%Q; AmountMax := 0%Q;
    Currency := ""; IsRolling := false; DocType := ""; CfdaList := [];
    OppStatus := ""; Region := ""; Country := ""; Category := ""; Type_ := "";
    Eligibility := []; Categories := []; RawHTML := ""; Embedding := [];
    SourceRunID := ""; CanonicalURL := ""; RawURL := ""; ContentType := "";
    DataQualityScore := None
  |}.

(** [m[key].(bool)]: the value and whether the key holds a [bool]. A nil
    map holds nothing. *)
Definition lookupBool (m : option (gmap string any)) (key : string) : option bool :=
  match m with
  | Some m =>
      match m !! key with
      | Some (AnyBool b) => Some b
      | _ => None
      end
  | None => None
  end.

End Models.

Import Models.

(** ** What the Go runtime and the external libraries provide *)

Class GoRuntime := {
  (** [goquery.NewDocumentFromReader] followed by [doc.Text()]; [None] when
      the document cannot be read. *)
  goquery_Text : string -> option string;
  (** [time.Parse(layout, value)]; [None] on error. *)
  time_Parse : string -> string -> option Time;
  (** [t.Format(time.RFC3339)]. *)
  time_FormatRFC3339 : Time -> string
}.

(** ** Text helpers of package [ingest] (helpers.go, normalizer.go) *)

Module Helpers.

(** [normalizeSpace]: [strings.Join(strings.Fields(s), " ")]. *)
Definition normalizeSpace (s : string) : string := Join (Fields s) " ".

Definition cleanText (s : string) : string := normalizeSpace s.

(** [HTMLToText]: the text of the parsed document with white space
    collapsed; the input itself when it cannot be parsed. *)
Definition HTMLToText `{GoRuntime} (html : string) : string :=
  match goquery_Text html with
  | None => html
  | Some text => cleanText text
  end.

End Helpers.

Import Helpers.

(** ** The status engine (status_engine.go) *)

Module StatusEngine.

Record StatusDecision := mkDecision {
  dNormalizedStatus : string;
  dStatusReason : string;
  dStatusConfidence : float64;
  dNextDeadlineAt : option Time;
  dIsResultsPage : bool
}.

Arguments mkDecision _ _ _%_Q _ _.

Definition resultsKeywords : list string :=
  [ "resultados finales";
    "ganadores";
    "final results";
    "winners announced";
    "awards announced";
    "awarded to";
    "awardees selected";
    "convocatoria cerrada";
    "cierre de postulaciones";
    "results published";
    "results available";
    "ranking final" ].

Definition rollingHints : list string :=
  [ "rolling"; "rolling basis"; "open continuously"; "ongoing call";
    "open until filled"; "no deadline"; "ventanilla abierta";
    "convocatoria permanente"; "sin fecha límite"; "abierta permanentemente" ].

Definition sep : string := String " " (String (ascii_of_byte 10) (String " " EmptyString)).

Definition detectRollingEvidence `{GoRuntime} (opp : Opportunity) : bool :=
  if RollingEvidence opp then true
  else
    let joined := ToLower (Join [SourceStatusRaw opp; OppStatus opp; Title opp;
                                 Summary opp; HTMLToText (Description opp)] sep) in
    if containsAny joined rollingHints then true
    else
      match lookupBool (SourceEvidenceJSON opp) "rolling_evidence" with
      | Some true => true
      | _ => false
      end.

Definition deadlineFormats : list string :=
  [ RFC3339; "2006-01-02"; "2006-01-02 15:04:05"; "2006-01-02T15:04:05" ].

(** The loop over [formats]: the first layout that parses. *)
Fixpoint firstParse `{GoRuntime} (formats : list string) (raw : string) : option Time :=
  match formats with
  | [] => None
  | format :: rest =>
      match time_Parse format raw with
      | Some t => Some t
      | None => firstParse rest raw
      end
  end.

Definition parseDeadlineCandidate `{GoRuntime} (raw : string) : option Time :=
  let raw := TrimSpace raw in
  if String.eqb raw "" then None else firstParse deadlineFormats raw.

Definition isStartLike (label : string) : bool :=
  Contains label "inicio" || Contains label "apertura" ||
  Contains label "start" || Contains label "opening".

Definition isCloseLike (label : string) : bool :=
  Contains label "cierre" || Contains label "deadline" ||
  Contains label "closes" || Contains label "submission" ||
  (Contains label "postul" && negb (isStartLike label)).

(** First loop of [pickNextDeadline]: the legacy deadline strings. *)
Definition deadlineStep `{GoRuntime} (candidates : list Time) (raw : string) : list Time :=
  match parseDeadlineCandidate raw with
  | Some t => candidates ++ [UTC t]
  | None => candidates
  end.

(** Second loop: one evidence entry; the state is [candidates] and
    [labeledCloseBest]. *)
Definition evidenceStep `{GoRuntime} (now : Time) (st : list Time * option Time)
    (ev : DeadlineEvidenceT) : list Time * option Time :=
  let '(candidates, labeledCloseBest) := st in
  match parseDeadlineCandidate (ParsedDateISO ev) with
  | Some t =>
      let candidates := candidates ++ [UTC t] in
      let label := ToLower (Label ev +:+ " " +:+ Snippet ev) in
      if isCloseLike label && negb (isStartLike label) && After t now then
        let tu := UTC t in
        match labeledCloseBest with
        | None => (candidates, Some tu)
        | Some b => if Before tu b then (candidates, Some tu) else (candidates, Some b)
        end
      else (candidates, labeledCloseBest)
  | None => st
  end.

(** Third loop: the earliest candidate strictly after [now]. *)
Definition bestStep (now : Time) (best : option Time) (candidate : Time) : option Time :=
  if negb (After candidate now) then best
  else
    match best with
    | None => Some candidate
    | Some b => if Before candidate b then Some candidate else Some b
    end.

Definition pickNextDeadline `{GoRuntime} (opp : Opportunity) (now : Time) : option Time :=
  let candidates := fold_left deadlineStep (Deadlines opp) [] in
  let '(candidates, labeledCloseBest) :=
    fold_left (evidenceStep now) (DeadlineEvidence opp) (candidates, None) in
  match labeledCloseBest with
  | Some t => Some t
  | None =>
      let candidates :=
        match NextDeadlineAt opp with
        | Some t => candidates ++ [UTC t]
        | None => candidates
        end in
      let candidates :=
        match DeadlineAt opp with
        | Some t => candidates ++ [UTC t]
        | None => candidates
        end in
      match fold_left (bestStep now) candidates None with
      | Some best => Some best
      | None =>
          match NextDeadlineAt opp with
          | Some t => Some (UTC t)
          | None => None
          end
      end
  end.

Definition hasAnyDeadlineEvidence (opp : Opportunity) : bool :=
  if (0 <? Z.of_nat (length (DeadlineEvidence opp))) || (0 <? Z.of_nat (length (Deadlines opp)))
  then true
  else bool_decide (DeadlineAt opp <> None) || bool_decide (NextDeadlineAt opp <> None).

(** [p != nil && p.After(now)]. *)
Definition isAfter (p : option Time) (now : Time) : bool :=
  match p with
  | Some t => After t now
  | None => false
  end.

(** [p != nil && !p.After(now)]. *)
Definition notAfter (p : option Time) (now : Time) : bool :=
  match p with
  | Some t => negb (After t now)
  | None => false
  end.

Definition hasFutureDeadlineEvidence `{GoRuntime} (opp : Opportunity) (now : Time) : bool :=
  if isAfter (pickNextDeadline opp now) now then true
  else if isAfter (CloseAt opp) now then true
  else false.

Definition detectResultsPage `{GoRuntime} (opp : Opportunity) : bool :=
  let text := ToLower (Join [Title opp; Summary opp; HTMLToText (Description opp);
                             SourceStatusRaw opp] sep) in
  let srcLower := ToLower (OppStatus opp) in
  if String.eqb srcLower "posted" || String.eqb srcLower "active" ||
     String.eqb srcLower "open" || String.eqb srcLower "forecasted"
  then false
  else if containsAny text resultsKeywords then true
  else if Contains text "proinnovate" &&
          (Contains text "resultados finales" || Contains text "ganadores")
  then true
  else false.

Definition closedHints : list string :=
  [ "closed"; "cerrad"; "finaliz"; "cancel"; "funded"; "expired"; "no longer accepting" ].
Definition archivedHints : list string :=
  [ "archived"; "historic"; "results"; "winners"; "awardees"; "ganadores"; "resultados" ].
Definition upcomingHints : list string :=
  [ "forthcoming"; "upcoming"; "coming soon"; "próxim"; "anticipated" ].
Definition openHints : list string :=
  [ "open"; "posted"; "active"; "abierta"; "vigente"; "rolling" ].

Definition mapSourceStatusRaw (raw : string) : string :=
  let raw := ToLower (TrimSpace raw) in
  if String.eqb raw "" then ""
  else if containsAny raw closedHints then "closed"
  else if containsAny raw archivedHints then "archived"
  else if containsAny raw upcomingHints then "upcoming"
  else if containsAny raw openHints then "open"
  else "".

Definition ComputeStatusDecision `{GoRuntime} (opp : Opportunity) (now : Time) : StatusDecision :=
  let now := UTC now in
  let nextDeadline := pickNextDeadline opp now in
  let isResults := detectResultsPage opp in
  let hasRollingEvidence := detectRollingEvidence opp in
  let effectiveRolling := hasRollingEvidence in
  if isResults || IsResultsPage opp then
    mkDecision "closed" "results_page" 0.99 nextDeadline true
  else
    let mappedSource := mapSourceStatusRaw (SourceStatusRaw opp) in
    let mappedSource :=
      if String.eqb mappedSource "" then mapSourceStatusRaw (OppStatus opp) else mappedSource in
    if String.eqb mappedSource "archived" then
      mkDecision "archived" "source_archived" 0.95 nextDeadline false
    else if String.eqb mappedSource "closed" then
      if effectiveRolling || isAfter nextDeadline now || isAfter (CloseAt opp) now then
        mkDecision "needs_review" "inconsistent_dates" 0.35 nextDeadline false
      else
        mkDecision "closed" "source_closed" 0.92 nextDeadline false
    else if isAfter (OpenAt opp) now then
      mkDecision "upcoming" "open_date_in_future" 0.9 nextDeadline false
    else if IsRolling opp && negb hasRollingEvidence then
      mkDecision "needs_review" "rolling_without_evidence" 0.2 nextDeadline false
    else if effectiveRolling then
      mkDecision "open" "rolling_open" 0.96 nextDeadline false
    else if isAfter nextDeadline now then
      mkDecision "open" "future_deadline" 0.93 nextDeadline false
    else if isAfter (CloseAt opp) now then
      mkDecision "open" "future_close_date" 0.9 nextDeadline false
    else if notAfter (CloseAt opp) now then
      mkDecision "closed" "close_date_passed" 0.94 nextDeadline false
    else if notAfter (ExpirationAt opp) now then
      mkDecision "closed" "expiration_passed" 0.9 nextDeadline false
    else if notAfter (DeadlineAt opp) now then
      mkDecision "closed" "deadline_passed" 0.95 nextDeadline false
    else if hasAnyDeadlineEvidence opp && negb (hasFutureDeadlineEvidence opp now) then
      mkDecision "closed" "deadline_passed" 0.95 nextDeadline false
    else if String.eqb mappedSource "upcoming" then
      mkDecision "upcoming" "source_upcoming" 0.75 nextDeadline false
    else if String.eqb mappedSource "open" then
      mkDecision "needs_review" "source_open_without_time_evidence" 0.3 nextDeadline false
    else if bool_decide (nextDeadline = None) && negb effectiveRolling &&
            (bool_decide (CloseAt opp = None) || negb (isAfter (CloseAt opp) now)) then
      mkDecision "needs_review" "missing_deadline" 0.25 None false
    else
      mkDecision "needs_review" "inconsistent_dates" 0.4 nextDeadline false.

End StatusEngine.

Import StatusEngine.

(** ** The normalizer (normalizer.go) *)

Module Normalizer.

Definition normalizeRegion (s : string) : string := cleanText s.
Definition normalizeCountry (s : string) : string := cleanText s.
Definition normalizeFunderType (s : string) : string := cleanText s.

(** [NormalizeOpportunity] cleans the opportunity in place. *)
Definition NormalizeOpportunity (opp : Opportunity) : Opportunity :=
  let opp := set_Title (cleanText (Title opp)) opp in
  let opp := set_Summary (cleanText (Summary opp)) opp in
  let opp := set_Region (normalizeRegion (Region opp)) opp in
  let opp := set_Country (normalizeCountry (Country opp)) opp in
  let opp := set_FunderType (normalizeFunderType (FunderType opp)) opp in
  set_AgencyName (cleanText (AgencyName opp)) opp.

(** [UpdateStatus]; [now] is the value of [time.Now().UTC()]. *)
Definition UpdateStatus `{GoRuntime} (now : Time) (opp : Opportunity) : Opportunity :=
  let decision := ComputeStatusDecision opp now in
  let opp := set_NormalizedStatus (dNormalizedStatus decision) opp in
  let opp := set_StatusReason (dStatusReason decision) opp in
  let opp := set_StatusConfidence (dStatusConfidence decision) opp in
  let opp := set_NextDeadlineAt (dNextDeadlineAt decision) opp in
  let opp := set_IsResultsPage (dIsResultsPage decision) opp in
  if String.eqb (dNormalizedStatus decision) "closed" ||
     String.eqb (dNormalizedStatus decision) "archived"
  then set_OppStatus (dNormalizedStatus decision) opp
  else if String.eqb (OppStatus opp) "" || String.eqb (OppStatus opp) "unknown"
  then set_OppStatus "posted" opp
  else opp.

End Normalizer.

Import Normalizer.

(** ** A runtime to evaluate examples with

    [time.Parse] is the model above; the HTML parser is applied to text
    without markup only, whose document text is the text itself. *)

Definition plainRuntime : GoRuntime :=
  {| goquery_Text := fun html => Some html;
     time_Parse := GoTimeModel.Parse;
     time_FormatRFC3339 := GoTimeModel.FormatRFC3339 |}.

(** ** The selection of [next_deadline_at], as the specification words it *)

Module DeadlineSpec.

(** A date string parsed and brought to UTC. *)
Definition parsedUTC `{GoRuntime} (raw : string) : option Time :=
  UTC <$> parseDeadlineCandidate raw.

Definition option_to_list {A} (o : option A) : list A :=
  match o with
  | Some a => [a]
  | None => []
  end.

(** All parsed candidates from [deadlines[]], [deadline_evidence[]], the
    stored [next_deadline_at] and [deadline_at]. *)
Definition allCandidates `{GoRuntime} (opp : Opportunity) : list Time :=
  omap parsedUTC (Deadlines opp) ++
  omap (fun ev => parsedUTC (ParsedDateISO ev)) (DeadlineEvidence opp) ++
  option_to_list (UTC <$> NextDeadlineAt opp) ++
  option_to_list (UTC <$> DeadlineAt opp).

(** The text of an evidence entry that is inspected: label and snippet. *)
Definition evidenceLabel (ev : DeadlineEvidenceT) : string :=
  ToLower (Label ev +:+ " " +:+ Snippet ev).

(** Close-like in the words of the specification: cierre / deadline /
    closes / submission / fecha máxima, or postul when not start-like. *)
Definition claimedCloseLike (label : string) : bool :=
  Contains label "cierre" || Contains label "deadline" ||
  Contains label "closes" || Contains label "submission" ||
  Contains label "fecha máxima" ||
  (Contains label "postul" && negb (isStartLike label)).

(** The labeled-close candidates for a given notion of close-like: the
    evidence dates that are close-like and strictly in the future. *)
Definition labeledClose `{GoRuntime} (closeLike : string -> bool) (opp : Opportunity)
    (now : Time) : list Time :=
  omap (fun ev =>
          match parseDeadlineCandidate (ParsedDateISO ev) with
          | Some t => if closeLike (evidenceLabel ev) && After t now then Some (UTC t) else None
          | None => None
          end) (DeadlineEvidence opp).

(** [t] is an earliest element of [l]. *)
Definition earliest (l : list Time) (t : Time) : Prop :=
  t ∈ l /\ forall u, u ∈ l -> unixNano t <= unixNano u.

(** The rule of the specification: the earliest labeled-close candidate if
    any; otherwise the earliest strictly-future candidate overall;
    otherwise the stored [next_deadline_at]; otherwise nil. *)
Definition selects `{GoRuntime} (closeLike : string -> bool) (opp : Opportunity)
    (now : Time) (r : option Time) : Prop :=
  match labeledClose closeLike opp now,
        filter (fun t => After t now) (allCandidates opp) with
  | (_ :: _) as labeled, _ => exists t, r = Some t /\ earliest labeled t
  | [], (_ :: _) as future => exists t, r = Some t /\ earliest future t
  | [], [] => r = (UTC <$> NextDeadlineAt opp)
  end.

(** The running minimum of the two selection loops: an earlier candidate
    replaces the current one, a tie keeps it. *)
Definition minStep (best : option Time) (t : Time) : option Time :=
  match best with
  | None => Some t
  | Some b => if Before t b then Some t else Some b
  end.

(** The condition the second loop tests on the label of an entry. *)
Definition codeCloseLike (label : string) : bool :=
  isCloseLike label && negb (isStartLike label).

(** Close-like in the words of the specification, and not start-like. *)
Definition amendedCloseLike (label : string) : bool :=
  claimedCloseLike label && negb (isStartLike label).

End DeadlineSpec.

Import DeadlineSpec.

(** ** Inputs of the worked examples of the specification *)

Module Examples.

Import GoTimeModel.

Definition at_2026_02_01 : Time := Date 2026 2 1 0 0 0 0 UTCLocation.
Definition at_2026_02_20_eod : Time := Date 2026 2 20 23 59 59 0 UTCLocation.

(** "Labeled close wins over start": three evidence entries. *)
Definition labeledCloseOpp : Opportunity :=
  set_DeadlineEvidence
    [ mkDeadlineEvidence "html" "" "Inicio de postulaciones" "2026-02-10T23:59:59Z"
        "inicio de postulaciones" 0.8;
      mkDeadlineEvidence "html" "" "Cierre de postulaciones" "2026-02-20T23:59:59Z"
        "cierre de postulaciones" 0.8;
      mkDeadlineEvidence "html" "" "Submission deadline" "2026-03-01T23:59:59Z"
        "deadline" 0.8 ]
    emptyOpportunity.

(** An evidence entry labeled "deadline" whose snippet is start-like, next
    to an earlier unlabeled date. *)
Definition startLikeDeadlineOpp : Opportunity :=
  set_DeadlineEvidence
    [ mkDeadlineEvidence "html" "" "opening of the submission window" "2026-03-01T23:59:59Z"
        "deadline" 0.8 ]
    (set_Deadlines [ "2026-02-15T23:59:59Z" ] emptyOpportunity).

(** A stored [next_deadline_at] in the past and nothing else. *)
Definition staleNextDeadlineOpp : Opportunity :=
  set_NextDeadlineAt (Some (Date 2026 1 15 23 59 59 0 UTCLocation)) emptyOpportunity.

(** "Grants.gov detail URL": posted, deadline thirty days ahead. *)
Definition grantsGovDetailOpp (now : Time) : Opportunity :=
  set_DeadlineAt (Some (mkTime (unixNano now + 30 * 86400 * nanosPerSecond) 0))
    (set_OppStatus "posted"
       (set_ExternalURL "https://www.grants.gov/search-results-detail/HHS-NIH-123"
          emptyOpportunity)).

(** An opportunity flagged as a results page by its source, without text. *)
Definition flaggedResultsOpp : Opportunity := set_IsResultsPage true emptyOpportunity.

End Examples.

(** ** The results-page rule, as the specification words it *)

Module ResultsSpec.

(** The four texts the rule inspects. *)
Definition inspectedFields `{GoRuntime} (opp : Opportunity) : list string :=
  [ Title opp; Summary opp; HTMLToText (Description opp); SourceStatusRaw opp ].

(** One of title / summary / description / source_status_raw contains a
    results keyword (letter case apart). *)
Definition keywordHit `{GoRuntime} (opp : Opportunity) : bool :=
  existsb (fun field => containsAny (ToLower field) resultsKeywords) (inspectedFields opp).

(** [opp_status] is one of the whitelisted active values (letter case
    apart). *)
Definition whitelistedStatus (opp : Opportunity) : bool :=
  existsb (String.eqb (ToLower (OppStatus opp))) [ "posted"; "active"; "open"; "forecasted" ].

(** The decision of the results-page rule. *)
Definition resultsClassified (d : StatusDecision) : Prop :=
  dNormalizedStatus d = "closed" /\ dStatusReason d = "results_page" /\
  dStatusConfidence d = 0.99%Q /\ dIsResultsPage d = true.

(** A keyword that cannot match across the separator [" \n "] of the
    joined text: not empty, no line feed, no space at either end. *)
Fixpoint noLineFeedNoSpaceEnd (kw : string) : bool :=
  match kw with
  | EmptyString => true
  | String c kw' =>
      negb (byte_of c =? 10) &&
      (match kw' with EmptyString => negb (byte_of c =? 32) | _ => true end) &&
      noLineFeedNoSpaceEnd kw'
  end.

Definition separable (kw : string) : bool :=
  match kw with
  | EmptyString => false
  | String c _ => negb (byte_of c =? 32) && noLineFeedNoSpaceEnd kw
  end.

End ResultsSpec.

Import ResultsSpec.

(** ** The frame of the status pass *)

Module StatusFrame.

(** [a] and [b] agree on every field other than the five status fields of
    the engine and [OppStatus]. *)
Definition agreeOutsideStatus (a b : Opportunity) : Prop :=
  Title a = Title b /\ Summary a = Summary b /\
  Description a = Description b /\ ExternalURL a = ExternalURL b /\
  SourceDomain a = SourceDomain b /\ SourceID a = SourceID b /\
  OpportunityNumber a = OpportunityNumber b /\ AgencyName a = AgencyName b /\
  AgencyCode a = AgencyCode b /\ FunderType a = FunderType b /\
  DeadlineStr a = DeadlineStr b /\ DeadlineAt a = DeadlineAt b /\
  OpenDate a = OpenDate b /\ CloseDateRaw a = CloseDateRaw b /\
  SourceStatusRaw a = SourceStatusRaw b /\ ExpirationAt a = ExpirationAt b /\
  CloseAt a = CloseAt b /\ OpenAt a = OpenAt b /\ Deadlines a = Deadlines b /\
  DeadlineEvidence a = DeadlineEvidence b /\
  RollingEvidence a = RollingEvidence b /\
  SourceEvidenceJSON a = SourceEvidenceJSON b /\ AmountMin a = AmountMin b /\
  AmountMax a = AmountMax b /\ Currency a = Currency b /\
  IsRolling a = IsRolling b /\ DocType a = DocType b /\
  CfdaList a = CfdaList b /\ Region a = Region b /\ Country a = Country b /\
  Category a = Category b /\ Type_ a = Type_ b /\
  Eligibility a = Eligibility b /\ Categories a = Categories b /\
  RawHTML a = RawHTML b /\ Embedding a = Embedding b /\
  SourceRunID a = SourceRunID b /\ CanonicalURL a = CanonicalURL b /\
  RawURL a = RawURL b /\ ContentType a = ContentType b /\
  DataQualityScore a = DataQualityScore b.

End StatusFrame.

Import StatusFrame.

(** ** The table [opportunities] and the SQL the code sends *)

Module Db.

(** SQL values are nullable: [None] is NULL. A comparison with NULL is
    unknown ([None : option bool]); a row passes a WHERE clause, and a CASE
    or IF branch is taken, only when the condition is true. *)

Definition COALESCE {A} (a b : option A) : option A :=
  match a with
  | Some _ => a
  | None => b
  end.

(** [NULLIF(s, '')]. *)
Definition NULLIF_empty (s : option string) : option string :=
  match s with
  | Some s' => if String.eqb s' "" then None else s
  | None => None
  end.

(** [NULLIF(x, 0)]. *)
Definition NULLIF_zero (x : option Q) : option Q :=
  match x with
  | Some q => if Qeq_bool q 0 then None else x
  | None => None
  end.

(** [NULLIF(a, '{}'::text[])] on an array column; NULL and the empty
    array are both []. *)
Definition keepIfEmpty (new old : list string) : list string :=
  match new with
  | [] => old
  | _ => new
  end.

(** [GREATEST(a, b)] on non-null numbers. *)
Definition GREATEST (a b : Q) : Q := if Qle_bool a b then b else a.

Definition sql_and (a b : option bool) : option bool :=
  match a, b with
  | Some false, _ | _, Some false => Some false
  | Some true, Some true => Some true
  | _, _ => None
  end.

Definition sql_or (a b : option bool) : option bool :=
  match a, b with
  | Some true, _ | _, Some true => Some true
  | Some false, Some false => Some false
  | _, _ => None
  end.

Definition sql_not (a : option bool) : option bool := negb <$> a.

(** [x IN (v1, ..., vn)] for a text value. *)
Definition sql_in (x : option string) (vs : list string) : option bool :=
  (fun s => existsb (String.eqb s) vs) <$> x.

(** [x = v]. *)
Definition sql_eq_text (x : option string) (v : string) : option bool :=
  (fun s => String.eqb s v) <$> x.

Definition sql_eq_bool (x : option bool) (v : bool) : option bool :=
  (fun b => Bool.eqb b v) <$> x.

(** [t >= now] and [t < now] on timestamps. *)
Definition sql_ge_time (t : option Time) (now : Time) : option bool :=
  (fun t' => unixNano now <=? unixNano t') <$> t.

Definition sql_lt_time (t : option Time) (now : Time) : option bool :=
  (fun t' => unixNano t' <? unixNano now) <$> t.

(** The condition holds (is true, not false or unknown). *)
Definition holds (c : option bool) : bool :=
  match c with
  | Some true => true
  | _ => false
  end.

(** A row: the columns the INSERT of [SaveOpportunity] lists, in its
    order, and [updated_at]. The columns declared NOT NULL by the
    migrations carry a plain value. *)
Record Row := mkRow {
  title : option string;
  summary : option string;
  description_html : option string;
  external_url : option string;
  source_domain : string;
  source_id : string;
  opportunity_number : option string;
  agency_name : option string;
  agency_code : option string;
  funder_type : option string;
  amount_min : option Q;
  amount_max : option Q;
  currency : option string;
  deadline_at : option Time;
  open_date : option Time;
  is_rolling : option bool;
  doc_type : option string;
  cfda_list : list string;
  opp_status : option string;
  close_date_raw : option string;
  region : option string;
  country : option string;
  categories : list string;
  eligibility : list string;
  embedding : option (list Q);
  source_run_id : option string;
  canonical_url : option string;
  raw_url : option string;
  content_type : option string;
  data_quality_score : option (gmap string any);
  source_status_raw : option string;
  normalized_status : string;
  status_reason : option string;
  next_deadline_at : option Time;
  expiration_at : option Time;
  close_at : option Time;
  open_at : option Time;
  deadlines : option (list DeadlineEvidenceT);
  is_results_page : bool;
  source_evidence_json : option (gmap string any);
  status_confidence : Q;
  rolling_evidence : bool;
  updated_at : option Time
}.

(** The table, by its unique key [(source_domain, source_id)]. *)
Abbreviation Table := (gmap (string * string) Row).

Definition key (r : Row) : string * string := (source_domain r, source_id r).

(** [opp_status = CASE WHEN ... END] of the ON CONFLICT clause. *)
Definition merge_opp_status (old excluded : option string) : option string :=
  if holds (sql_and (sql_in old ["closed"; "archived"; "funded"])
                    (sql_in (COALESCE excluded (Some "posted")) ["posted"; ""]))
  then old
  else COALESCE (NULLIF_empty excluded) old.

(** [ON CONFLICT (source_domain, source_id) DO UPDATE SET ...]: the row
    the update leaves, from the stored row [old] and the proposed row
    [excluded]. *)
Definition on_conflict_update (now : Time) (old excluded : Row) : Row :=
  {|
    updated_at := Some now;
    title := title excluded;
    summary := summary excluded;
    description_html := COALESCE (NULLIF_empty (description_html excluded)) (description_html old);
    deadline_at := COALESCE (deadline_at excluded) (deadline_at old);
    amount_min := COALESCE (NULLIF_zero (amount_min excluded)) (amount_min old);
    amount_max := COALESCE (NULLIF_zero (amount_max excluded)) (amount_max old);
    currency := COALESCE (NULLIF_empty (currency excluded)) (currency old);
    open_date := COALESCE (open_date excluded) (open_date old);
    close_date_raw := COALESCE (NULLIF_empty (close_date_raw excluded)) (close_date_raw old);
    doc_type := COALESCE (NULLIF_empty (doc_type excluded)) (doc_type old);
    opp_status := merge_opp_status (opp_status old) (opp_status excluded);
    is_rolling :=
      Some (default false (is_rolling old) || default false (is_rolling excluded));
    opportunity_number :=
      COALESCE (NULLIF_empty (opportunity_number excluded)) (opportunity_number old);
    categories := keepIfEmpty (categories excluded) (categories old);
    eligibility := keepIfEmpty (eligibility excluded) (eligibility old);
    cfda_list := keepIfEmpty (cfda_list excluded) (cfda_list old);
    embedding := COALESCE (embedding excluded) (embedding old);
    source_run_id := source_run_id excluded;
    canonical_url := canonical_url excluded;
    raw_url := raw_url excluded;
    content_type := content_type excluded;
    data_quality_score := data_quality_score excluded;
    source_status_raw :=
      COALESCE (NULLIF_empty (source_status_raw excluded)) (source_status_raw old);
    normalized_status := normalized_status excluded;
    status_reason := status_reason excluded;
    next_deadline_at := next_deadline_at excluded;
    expiration_at := COALESCE (expiration_at excluded) (expiration_at old);
    close_at := COALESCE (close_at excluded) (close_at old);
    open_at := COALESCE (open_at excluded) (open_at old);
    deadlines := COALESCE (deadlines excluded) (deadlines old);
    is_results_page := is_results_page excluded;
    source_evidence_json :=
      COALESCE (source_evidence_json excluded) (source_evidence_json old);
    status_confidence := GREATEST (status_confidence excluded) (status_confidence old);
    rolling_evidence := rolling_evidence excluded;
    (* columns the SET list does not name keep the stored value *)
    external_url := external_url old;
    source_domain := source_domain old;
    source_id := source_id old;
    agency_name := agency_name old;
    agency_code := agency_code old;
    funder_type := funder_type old;
    region := region old;
    country := country old
  |}.

Definition set_opp_status (v : option string) (r : Row) : Row :=
  {|
    title := title r; summary := summary r; description_html := description_html r;
    external_url := external_url r; source_domain := source_domain r;
    source_id := source_id r; opportunity_number := opportunity_number r;
    agency_name := agency_name r; agency_code := agency_code r;
    funder_type := funder_type r; amount_min := amount_min r;
    amount_max := amount_max r; currency := currency r;
    deadline_at := deadline_at r; open_date := open_date r;
    is_rolling := is_rolling r; doc_type := doc_type r; cfda_list := cfda_list r;
    opp_status := v; close_date_raw := close_date_raw r; region := region r;
    country := country r; categories := categories r;
    eligibility := eligibility r; embedding := embedding r;
    source_run_id := source_run_id r; canonical_url := canonical_url r;
    raw_url := raw_url r; content_type := content_type r;
    data_quality_score := data_quality_score r;
    source_status_raw := source_status_raw r;
    normalized_status := normalized_status r; status_reason := status_reason r;
    next_deadline_at := next_deadline_at r; expiration_at := expiration_at r;
    close_at := close_at r; open_at := open_at r; deadlines := deadlines r;
    is_results_page := is_results_page r;
    source_evidence_json := source_evidence_json r;
    status_confidence := status_confidence r;
    rolling_evidence := rolling_evidence r; updated_at := updated_at r
  |}.

(** Migration 008: the trigger [update_opportunity_status_on_deadline],
    BEFORE INSERT OR UPDATE OF deadline_at, opp_status. *)
Definition update_opportunity_status_on_deadline (now : Time) (new : Row) : Row :=
  if holds (sql_and (sql_and (Some (bool_decide (deadline_at new <> None)))
                             (sql_lt_time (deadline_at new) now))
                    (sql_not (sql_in (opp_status new) ["closed"; "archived"; "funded"])))
  then set_opp_status (Some "closed") new
  else new.

(** The statement [INSERT ... ON CONFLICT ... DO UPDATE] on the proposed
    row. PostgreSQL runs the BEFORE INSERT trigger on the proposed row
    first, and [EXCLUDED] shows its effect; the row an update leaves then
    passes the BEFORE UPDATE trigger. *)
Definition upsert (now : Time) (tbl : Table) (proposed : Row) : Table :=
  let excluded := update_opportunity_status_on_deadline now proposed in
  match tbl !! key excluded with
  | None => <[key excluded := excluded]> tbl
  | Some old =>
      <[key excluded := update_opportunity_status_on_deadline now
                          (on_conflict_update now old excluded)]> tbl
  end.

End Db.

(** ** The pipeline: [SaveOpportunity] (pipeline.go) *)

Module Pipeline.

Import Db.

(** The steps of [SaveOpportunity] that call services outside the
    repository's control are parameters: the normalisation, sanitising,
    LLM extraction, defaults and embedding that precede the check of
    [source_id] (they read the stored row of the same key), and the
    evidence enrichment, which fetches the page of the opportunity. *)
Class PipelineEnv := {
  augment : Table -> Opportunity -> Opportunity;
  applyEvidenceEnrichment : Opportunity -> Opportunity
}.

Definition shouldEnrichEvidence (opp : Opportunity) : bool :=
  negb (RollingEvidence opp) && bool_decide (NextDeadlineAt opp = None) &&
  bool_decide (CloseAt opp = None) && bool_decide (DeadlineAt opp = None).

Definition apiDomains : list string :=
  [ "grants.gov"; "api.grants.gov"; "ec.europa.eu"; "europa.eu"; "nsf.gov"; "nih.gov" ].

Definition isAPIFirstSource (domain : string) : bool :=
  containsAny (ToLower (TrimSpace domain)) apiDomains.

(** [nilIfEmpty]. *)
Definition nilIfEmpty (s : string) : option string :=
  if String.eqb s "" then None else Some s.

(** First loop of [mergeDeadlineEvidence]; [seen] are the dates kept. *)
Fixpoint mergeExisting (existing : list DeadlineEvidenceT) (fallbackURL : string)
    (seen : list string) : list DeadlineEvidenceT * list string :=
  match existing with
  | [] => ([], seen)
  | ev :: rest =>
      let iso := TrimSpace (ParsedDateISO ev) in
      if String.eqb iso "" || existsb (String.eqb iso) seen
      then mergeExisting rest fallbackURL seen
      else
        let ev' :=
          mkDeadlineEvidence
            (if String.eqb (Source ev) "" then "html" else Source ev)
            (if String.eqb (URL ev) "" then fallbackURL else URL ev)
            (Snippet ev) (ParsedDateISO ev) (Label ev)
            (if Qeq_bool (Confidence ev) 0 then 0.7%Q else Confidence ev) in
        let '(out, seen') := mergeExisting rest fallbackURL (iso :: seen) in
        (ev' :: out, seen')
  end.

(** Second loop: the legacy date strings. *)
Fixpoint mergeLegacy `{GoRuntime} (legacyDates : list string) (fallbackURL : string)
    (seen : list string) : list DeadlineEvidenceT :=
  match legacyDates with
  | [] => []
  | raw :: rest =>
      match parseDeadlineCandidate raw with
      | Some dt =>
          let iso := time_FormatRFC3339 (UTC dt) in
          if existsb (String.eqb iso) seen then mergeLegacy rest fallbackURL seen
          else mkDeadlineEvidence "legacy" fallbackURL raw iso "legacy_deadline" 0.5
                 :: mergeLegacy rest fallbackURL (iso :: seen)
      | None => mergeLegacy rest fallbackURL seen
      end
  end.

Definition mergeDeadlineEvidence `{GoRuntime} (existing : list DeadlineEvidenceT)
    (legacyDates : list string) (fallbackURL : string) : list DeadlineEvidenceT :=
  let '(out, seen) := mergeExisting existing fallbackURL [] in
  out ++ mergeLegacy legacyDates fallbackURL seen.

(** [buildDeadlinesJSON]: the payload is the merged list; nil when empty. *)
Definition buildDeadlinesJSON `{GoRuntime} (deadlines : list string)
    (evidence : list DeadlineEvidenceT) (fallbackURL : string)
    : option (list DeadlineEvidenceT) :=
  match mergeDeadlineEvidence evidence deadlines fallbackURL with
  | [] => None
  | merged => Some merged
  end.

(** [buildEvidenceJSON]: nil for a map without entries. *)
Definition buildEvidenceJSON (evidence : option (gmap string any)) : option (gmap string any) :=
  match evidence with
  | Some m => if bool_decide (m = ∅) then None else Some m
  | None => None
  end.

(** The part of [SaveOpportunity] from the recomputation of
    [RollingEvidence] to the arguments of the statement; [now] is
    [time.Now().UTC()]. *)
Definition finalize `{GoRuntime} (now : Time) (opp : Opportunity) : Opportunity :=
  let opp := set_RollingEvidence (detectRollingEvidence opp) opp in
  let statusDecision := ComputeStatusDecision opp now in
  let opp := set_NormalizedStatus (dNormalizedStatus statusDecision) opp in
  let opp := set_StatusReason (dStatusReason statusDecision) opp in
  let opp := set_StatusConfidence (dStatusConfidence statusDecision) opp in
  let opp := set_NextDeadlineAt (dNextDeadlineAt statusDecision) opp in
  let opp := set_IsResultsPage (dIsResultsPage statusDecision) opp in
  let opp :=
    if String.eqb (SourceStatusRaw opp) "" then set_SourceStatusRaw (OppStatus opp) opp
    else opp in
  let opp :=
    match OpenAt opp, OpenDate opp with
    | None, Some d => set_OpenAt (Some d) opp
    | _, _ => opp
    end in
  let opp :=
    match SourceEvidenceJSON opp with
    | None => set_SourceEvidenceJSON (Some ∅) opp
    | Some _ => opp
    end in
  let opp :=
    if isAPIFirstSource (SourceDomain opp) &&
       (bool_decide (OpenAt opp <> None) || bool_decide (CloseAt opp <> None) ||
        bool_decide (ExpirationAt opp <> None) || (0 <? Z.of_nat (length (Deadlines opp))))
    then
      let opp :=
        set_SourceEvidenceJSON
          (Some (<["authority" := AnyString "api"]> (default ∅ (SourceEvidenceJSON opp)))) opp in
      if negb (Qle_bool 0.95 (StatusConfidence opp)) then set_StatusConfidence 0.95%Q opp
      else opp
    else opp in
  if negb (RollingEvidence opp) then set_IsRolling false opp else opp.

(** The arguments [$1 .. $42] of the statement. *)
Definition proposedRow `{GoRuntime} (dbNow : Time) (opp : Opportunity) : Row :=
  {|
    title := Some (Title opp);
    summary := Some (Summary opp);
    description_html := Some (Description opp);
    external_url := Some (ExternalURL opp);
    source_domain := SourceDomain opp;
    source_id := SourceID opp;
    opportunity_number := nilIfEmpty (OpportunityNumber opp);
    agency_name := nilIfEmpty (AgencyName opp);
    agency_code := nilIfEmpty (AgencyCode opp);
    funder_type := nilIfEmpty (FunderType opp);
    amount_min := Some (AmountMin opp);
    amount_max := Some (AmountMax opp);
    currency := Some (Currency opp);
    deadline_at := DeadlineAt opp;
    open_date := OpenDate opp;
    is_rolling := Some (IsRolling opp);
    doc_type := nilIfEmpty (DocType opp);
    cfda_list := CfdaList opp;
    opp_status := nilIfEmpty (OppStatus opp);
    close_date_raw := nilIfEmpty (CloseDateRaw opp);
    region := nilIfEmpty (Region opp);
    country := nilIfEmpty (Country opp);
    categories := Categories opp;
    eligibility := Eligibility opp;
    embedding := match Embedding opp with [] => None | e => Some e end;
    source_run_id := nilIfEmpty (SourceRunID opp);
    canonical_url := Some (CanonicalURL opp);
    raw_url := Some (RawURL opp);
    content_type := Some (ContentType opp);
    data_quality_score := DataQualityScore opp;
    source_status_raw := nilIfEmpty (SourceStatusRaw opp);
    normalized_status := NormalizedStatus opp;
    status_reason := nilIfEmpty (StatusReason opp);
    next_deadline_at := NextDeadlineAt opp;
    expiration_at := ExpirationAt opp;
    close_at := CloseAt opp;
    open_at := OpenAt opp;
    deadlines := buildDeadlinesJSON (Deadlines opp) (DeadlineEvidence opp) (ExternalURL opp);
    is_results_page := IsResultsPage opp;
    source_evidence_json := buildEvidenceJSON (SourceEvidenceJSON opp);
    status_confidence := StatusConfidence opp;
    rolling_evidence := RollingEvidence opp;
    updated_at := Some dbNow
  |}.

Inductive result :=
| Ok (tbl : Table)
| Err (msg : string).

(** [SaveOpportunity]: [now] is the clock of the process, [dbNow] the
    [NOW()] of the database. The column [source_domain] is NOT NULL, so
    the statement fails for an empty domain. *)
Definition SaveOpportunity `{GoRuntime} `{PipelineEnv} (now dbNow : Time) (tbl : Table)
    (opp : Opportunity) : result :=
  let opp := augment tbl opp in
  if String.eqb (TrimSpace (SourceID opp)) "" then Err "missing source_id"
  else
    let opp :=
      if shouldEnrichEvidence opp && negb (String.eqb (ExternalURL opp) "")
      then applyEvidenceEnrichment opp
      else opp in
    let opp := finalize now opp in
    if String.eqb (SourceDomain opp) "" then Err "null value in column source_domain"
    else Ok (upsert dbNow tbl (proposedRow dbNow opp)).

(** A sequence of writes of proposed rows, each at its own [NOW()]. *)
Definition upserts (tbl : Table) (writes : list (Time * Row)) : Table :=
  fold_left (fun tbl w => upsert (fst w) tbl (snd w)) writes tbl.

End Pipeline.

(** ** Statements about re-upserts, as the specification words them *)

Module UpsertSpec.

Import Db Pipeline.

(** [opp_status] in {closed, archived, funded}. *)
Definition isProtected (s : option string) : bool :=
  holds (sql_in s ["closed"; "archived"; "funded"]).

(** An incoming [opp_status] that is empty (passed as NULL) or 'posted'. *)
Definition isWeak (s : option string) : Prop := s = None \/ s = Some "posted".

(** The proposed row carries 'posted' and a deadline already past: the
    deadline trigger closes it before the conflict is resolved. *)
Definition closedByTrigger (now : Time) (r : Row) : bool :=
  bool_decide (opp_status r = Some "posted") && holds (sql_lt_time (deadline_at r) now).

(** The confidences the writes carry. *)
Definition confidences (writes : list (Time * Row)) : list Q :=
  (fun w => status_confidence (snd w)) <$> writes.

(** A row of the examples: key [("example.org", "1")], the given status,
    deadline, confidence and rolling flags, other columns empty. *)
Definition exampleRow (status : option string) (deadline : option Time) (confidence : Q)
    (rolling evidence : bool) : Row :=
  {|
    title := Some "Call"; summary := Some ""; description_html := Some "";
    external_url := Some "https://example.org/call"; source_domain := "example.org";
    source_id := "1"; opportunity_number := None; agency_name := None;
    agency_code := None; funder_type := None; amount_min := Some 0%Q;
    amount_max := Some 0%Q; currency := Some ""; deadline_at := deadline;
    open_date := None; is_rolling := Some rolling; doc_type := None; cfda_list := [];
    opp_status := status; close_date_raw := None; region := None; country := None;
    categories := []; eligibility := []; embedding := None; source_run_id := None;
    canonical_url := Some "https://example.org/call";
    raw_url := Some "https://example.org/call"; content_type := Some "html";
    data_quality_score := None; source_status_raw := None;
    normalized_status := "needs_review"; status_reason := None;
    next_deadline_at := None; expiration_at := None; close_at := None; open_at := None;
    deadlines := None; is_results_page := false; source_evidence_json := None;
    status_confidence := confidence; rolling_evidence := evidence; updated_at := None
  |}.

(** Rows and writes of the examples. *)
Definition archivedRow : Row := exampleRow (Some "archived") None 0.95 false false.
Definition postedPastRow : Row :=
  exampleRow (Some "posted") (Some (GoTimeModel.Date 2026 1 15 23 59 59 0 0)) 0.4 false false.

Definition exampleKey : string * string := ("example.org", "1").

Definition exampleWrites : list (Time * Row) :=
  [ (Examples.at_2026_02_01, exampleRow (Some "closed") None 0.93 false false);
    (Examples.at_2026_02_01, exampleRow (Some "posted") None 0.99 false false);
    (Examples.at_2026_02_01, exampleRow None None 0.4 false false) ].

Definition rollingRow : Row := exampleRow (Some "posted") None 0.96 true true.
Definition noLongerRollingRow : Row := exampleRow (Some "posted") None 0.25 false false.

End UpsertSpec.

(** ** The safe HTTP fetcher (fetcher.go) and the check of api/server.go *)

Module Fetcher.

(** [net.IP]: a slice of bytes, four for IPv4 and sixteen for IPv6; the
    nil slice is []. *)
Definition IP := list Z.

Definition byteAt (ip : IP) (i : nat) : Z := nth i ip 0.

Definition v4InV6Prefix : list Z := [0; 0; 0; 0; 0; 0; 0; 0; 0; 0; 255; 255].

Definition bytesEqual (a b : list Z) : bool := bool_decide (a = b).

(** [ip.To4()]; nil is [None]. *)
Definition To4 (ip : IP) : option IP :=
  if (length ip =? 4)%nat then Some ip
  else if (length ip =? 16)%nat && bytesEqual (take 12 ip) v4InV6Prefix then Some (drop 12 ip)
  else None.

(** [ip.Equal(x)]. *)
Definition IPEqual (ip x : IP) : bool :=
  if (length ip =? length x)%nat then bytesEqual ip x
  else if (length ip =? 4)%nat && (length x =? 16)%nat
  then bytesEqual (take 12 x) v4InV6Prefix && bytesEqual ip (drop 12 x)
  else if (length ip =? 16)%nat && (length x =? 4)%nat
  then bytesEqual (take 12 ip) v4InV6Prefix && bytesEqual (drop 12 ip) x
  else false.

Definition IPv4zero : IP := v4InV6Prefix ++ [0; 0; 0; 0].
Definition IPv6unspecified : IP := repeat 0 16.
Definition IPv6loopback : IP := repeat 0 15 ++ [1].

Definition IsUnspecified (ip : IP) : bool := IPEqual ip IPv4zero || IPEqual ip IPv6unspecified.

Definition IsLoopback (ip : IP) : bool :=
  match To4 ip with
  | Some ip4 => byteAt ip4 0 =? 127
  | None => IPEqual ip IPv6loopback
  end.

Definition IsPrivate (ip : IP) : bool :=
  match To4 ip with
  | Some ip4 =>
      (byteAt ip4 0 =? 10) ||
      ((byteAt ip4 0 =? 172) && (Z.land (byteAt ip4 1) 240 =? 16)) ||
      ((byteAt ip4 0 =? 192) && (byteAt ip4 1 =? 168))
  | None => (length ip =? 16)%nat && (Z.land (byteAt ip 0) 254 =? 252)
  end.

Definition IsMulticast (ip : IP) : bool :=
  match To4 ip with
  | Some ip4 => Z.land (byteAt ip4 0) 240 =? 224
  | None => (length ip =? 16)%nat && (byteAt ip 0 =? 255)
  end.

Definition IsLinkLocalMulticast (ip : IP) : bool :=
  match To4 ip with
  | Some ip4 => (byteAt ip4 0 =? 224) && (byteAt ip4 1 =? 0) && (byteAt ip4 2 =? 0)
  | None => (length ip =? 16)%nat && (byteAt ip 0 =? 255) && (Z.land (byteAt ip 1) 15 =? 2)
  end.

Definition IsLinkLocalUnicast (ip : IP) : bool :=
  match To4 ip with
  | Some ip4 => (byteAt ip4 0 =? 169) && (byteAt ip4 1 =? 254)
  | None => (length ip =? 16)%nat && (byteAt ip 0 =? 254) && (Z.land (byteAt ip 1) 192 =? 128)
  end.

(** [netip.Addr] without zone: the bit length of the family and the
    address as a number. *)
Record Addr := mkAddr { bitLen : Z; addrValue : Z }.

Fixpoint bytesValue (bs : list Z) (acc : Z) : Z :=
  match bs with
  | [] => acc
  | b :: rest => bytesValue rest (acc * 256 + b)
  end.

(** [netip.AddrFromSlice]. *)
Definition AddrFromSlice (ip : IP) : option Addr :=
  if (length ip =? 4)%nat then Some (mkAddr 32 (bytesValue ip 0))
  else if (length ip =? 16)%nat then Some (mkAddr 128 (bytesValue ip 0))
  else None.

(** [addr.Unmap()]: an IPv4-mapped IPv6 address becomes the IPv4 one. *)
Definition Unmap (a : Addr) : Addr :=
  if (bitLen a =? 128) && (Z.shiftr (addrValue a) 32 =? 65535)
  then mkAddr 32 (Z.land (addrValue a) 4294967295)
  else a.

Record Prefix := mkPrefix { prefixAddr : Addr; prefixBits : Z }.

(** [prefix.Contains(addr)]. *)
Definition PrefixContains (p : Prefix) (a : Addr) : bool :=
  (bitLen (prefixAddr p) =? bitLen a) &&
  (Z.shiftr (Z.lxor (addrValue a) (addrValue (prefixAddr p))) (bitLen a - prefixBits p) =? 0).

Definition blockedPrefixStrings : list string :=
  [ "127.0.0.0/8"; "10.0.0.0/8"; "172.16.0.0/12"; "192.168.0.0/16";
    "169.254.0.0/16"; "::1/128"; "fc00::/7"; "fe80::/10" ].

(** [netip.ParsePrefix] of [blockedPrefixStrings], entry by entry. *)
Definition blockedPrefixes : list Prefix :=
  [ mkPrefix (mkAddr 32 (bytesValue [127; 0; 0; 0] 0)) 8;
    mkPrefix (mkAddr 32 (bytesValue [10; 0; 0; 0] 0)) 8;
    mkPrefix (mkAddr 32 (bytesValue [172; 16; 0; 0] 0)) 12;
    mkPrefix (mkAddr 32 (bytesValue [192; 168; 0; 0] 0)) 16;
    mkPrefix (mkAddr 32 (bytesValue [169; 254; 0; 0] 0)) 16;
    mkPrefix (mkAddr 128 (bytesValue IPv6loopback 0)) 128;
    mkPrefix (mkAddr 128 (bytesValue (252 :: repeat 0 15) 0)) 7;
    mkPrefix (mkAddr 128 (bytesValue (254 :: 128 :: repeat 0 14) 0)) 10 ].

(** [isPrivateIP] of the fetcher. *)
Definition isPrivateIP (ip : IP) : bool :=
  if bool_decide (ip = []) then true
  else if IsLoopback ip || IsLinkLocalMulticast ip || IsLinkLocalUnicast ip ||
          IsMulticast ip || IsPrivate ip || IsUnspecified ip
  then true
  else if match AddrFromSlice ip with
          | Some addr => existsb (fun prefix => PrefixContains prefix (Unmap addr)) blockedPrefixes
          | None => false
          end
  then true
  else
    match To4 ip with
    | Some ip4 =>
        if byteAt ip4 0 =? 10 then true
        else if (byteAt ip4 0 =? 172) && (16 <=? byteAt ip4 1) && (byteAt ip4 1 <=? 31) then true
        else if (byteAt ip4 0 =? 192) && (byteAt ip4 1 =? 168) then true
        else if (byteAt ip4 0 =? 169) && (byteAt ip4 1 =? 254) then true
        else false
    | None => false
    end.

(** [isPrivateOrSpecialIP] of api/server.go. *)
Definition isPrivateOrSpecialIP (ip : IP) : bool :=
  if bool_decide (ip = []) then true
  else if IsLoopback ip || IsPrivate ip || IsUnspecified ip || IsMulticast ip ||
          IsLinkLocalUnicast ip || IsLinkLocalMulticast ip
  then true
  else
    match To4 ip with
    | Some ip4 =>
        if (byteAt ip4 0 =? 100) && (Z.land (byteAt ip4 1) 192 =? 64) then true
        else if (byteAt ip4 0 =? 169) && (byteAt ip4 1 =? 254) then true
        else false
    | None => false
    end.

(** [net.LookupIP]: the addresses a host resolves to, or an error. *)
Definition Resolver := string -> option (list IP).

Inductive verdict :=
| Proceed                 (* the dial, or the redirect, goes ahead *)
| Rejected (msg : string).

(** [safeDialContext], for the host of [addr]: the decision taken before
    [d.DialContext]. *)
Definition safeDialContext (LookupIP : Resolver) (host : string) : verdict :=
  match LookupIP host with
  | None => Rejected "lookup failed"
  | Some ips =>
      if existsb isPrivateIP ips then Rejected "blocked private IP" else Proceed
  end.

(** [safeCheckRedirect] for a redirect to [scheme://host], the [via]-th
    redirect of the request. *)
Definition safeCheckRedirect (LookupIP : Resolver) (via : nat) (scheme host : string) : verdict :=
  if (10 <=? via)%nat then Rejected "stopped after 10 redirects"
  else if negb (String.eqb scheme "http") && negb (String.eqb scheme "https")
  then Rejected "redirect scheme blocked"
  else if String.eqb host "" then Rejected "redirect host missing"
  else if EqualFold host "localhost" || HasSuffix (ToLower host) ".local"
  then Rejected "redirect to internal host blocked"
  else
    match LookupIP host with
    | None => Rejected "lookup failed"
    | Some [] => Rejected "redirect host resolved to no addresses"
    | Some ips =>
        if existsb isPrivateIP ips then Rejected "redirect to private IP blocked" else Proceed
    end.

(** The ranges the specification lists, on the bytes of an address. *)
Definition inCGNAT (ip : IP) : bool :=
  (length ip =? 4)%nat && (byteAt ip 0 =? 100) && (64 <=? byteAt ip 1) && (byteAt ip 1 <=? 127).

(** An address of the carrier-grade NAT range and a resolver that maps
    every host to it. *)
Definition cgnatAddress : IP := [100; 64; 0; 1].
Definition cgnatResolver : Resolver := fun _ => Some [cgnatAddress].

(** A public address and a resolver that maps every host to it. *)
Definition publicAddress : IP := [93; 184; 216; 34].
Definition publicResolver : Resolver := fun _ => Some [publicAddress].


End Fetcher.

(** ** The address ranges of the fetcher's policy, on the bytes of an address *)

Module Ranges.

Import Fetcher.

Definition isByte (b : Z) : Prop := 0 <= b < 256.


(** IPv4: loopback 127/8, link-local 169.254/16, RFC 1918 (10/8,
    172.16/12, 192.168/16), multicast 224/4, unspecified 0.0.0.0. *)
Definition listedV4 (a b : Z) (ip : IP) : bool :=
  (a =? 127) || ((a =? 169) && (b =? 254)) ||
  (a =? 10) || ((a =? 172) && (16 <=? b) && (b <=? 31)) || ((a =? 192) && (b =? 168)) ||
  ((224 <=? a) && (a <=? 239)) ||
  bool_decide (ip = [0; 0; 0; 0]).



End Ranges.

(** ** The listing query of the store (store.go) *)

Module Store.

Import Db.

Record ListParams := mkListParams {
  Query : string;
  QueryEmbedding : list Q;
  lpSource : string;
  MinAmount : Q;
  MaxAmount : Q;
  DeadlineDays : Z;
  lpIsRolling : option bool;
  Limit : Z;
  Offset : Z;
  lpCategories : list string;
  lpEligibility : list string;
  lpRegion : list string;
  lpFunderType : list string;
  lpCountry : list string;
  lpAgencyCode : string;
  lpAgencyName : list string;
  SortBy : string;
  Status : string;
  ExcludeExpired : bool
}.

(** The full-text and ILIKE match of the keyword filter is PostgreSQL's:
    [search_vector @@ plainto_tsquery('english', q) OR title ILIKE '%q%']. *)
Class StoreEnv := {
  keywordMatch : Row -> string -> option bool
}.

(** A condition of the WHERE clause: its value on a row at [NOW()]. *)
Definition Condition := Time -> Row -> option bool.

Definition sql_ge_num (x : option Q) (v : Q) : option bool := (fun q => Qle_bool v q) <$> x.
Definition sql_le_num (x : option Q) (v : Q) : option bool := (fun q => Qle_bool q v) <$> x.

(** [a && b] on text arrays: they share an element. *)
Definition sql_overlap (a b : list string) : option bool :=
  Some (existsb (fun x => existsb (String.eqb x) b) a).

Definition sanitizeStringSlice (values : list string) : list string :=
  filter (fun s => s <> "") (TrimSpace <$> values).

(** [buildOpenTabConstraint]. *)
Definition buildOpenTabConstraint : Condition := fun now row =>
  sql_and
    (sql_and (sql_eq_text (Some (normalized_status row)) "open")
             (sql_eq_bool (Some (is_results_page row)) false))
    (sql_or
       (sql_or (sql_eq_bool (Some (rolling_evidence row)) true)
               (sql_ge_time (next_deadline_at row) now))
       (sql_ge_time (close_at row) now)).

(** [where += ...] under a Go condition. *)
Definition addIf (b : bool) (c : Condition) (where_ : list Condition) : list Condition :=
  if b then where_ ++ [c] else where_.

(** The status filter of [ListOpportunities]. *)
Definition statusConditions (status : string) : list Condition :=
  let targetStatus := if String.eqb status "" then "open" else status in
  let targetStatus := if String.eqb targetStatus "active" then "open" else targetStatus in
  if String.eqb targetStatus "open" then [buildOpenTabConstraint]
  else if String.eqb targetStatus "all" then []
  else if String.eqb targetStatus "closed"
  then [fun _ row => sql_in (Some (normalized_status row)) ["closed"; "archived"]]
  else
    let targetStatus := if String.eqb targetStatus "posted" then "open" else targetStatus in
    [fun _ row => sql_eq_text (Some (normalized_status row)) targetStatus].

(** The WHERE clause [ListOpportunities] builds, conjunct by conjunct. *)
Definition whereClause `{StoreEnv} (params : ListParams) : list Condition :=
  let where_ : list Condition := [] in
  let where_ := addIf (negb (String.eqb (Query params) ""))
                  (fun _ row => keywordMatch row (Query params)) where_ in
  let where_ := addIf (negb (String.eqb (lpSource params) ""))
                  (fun _ row => sql_eq_text (Some (source_domain row)) (lpSource params)) where_ in
  let where_ := addIf (0 <? Z.of_nat (length (lpRegion params)))
                  (fun _ row => sql_in (region row) (lpRegion params)) where_ in
  let where_ := addIf (0 <? Z.of_nat (length (lpFunderType params)))
                  (fun _ row => sql_in (funder_type row) (lpFunderType params)) where_ in
  let where_ := addIf (0 <? Z.of_nat (length (lpCountry params)))
                  (fun _ row => sql_in (country row) (lpCountry params)) where_ in
  let where_ := addIf (negb (String.eqb (lpAgencyCode params) ""))
                  (fun _ row => sql_eq_text (agency_code row) (lpAgencyCode params)) where_ in
  let where_ := addIf (0 <? Z.of_nat (length (lpAgencyName params)))
                  (fun _ row => sql_in (agency_name row) (lpAgencyName params)) where_ in
  let where_ := addIf (negb (Qle_bool (MinAmount params) 0))
                  (fun _ row => sql_ge_num (amount_max row) (MinAmount params)) where_ in
  let where_ := addIf (negb (Qle_bool (MaxAmount params) 0))
                  (fun _ row => sql_le_num (amount_min row) (MaxAmount params)) where_ in
  let where_ := where_ ++ statusConditions (Status params) in
  let where_ := addIf (0 <? DeadlineDays params)
                  (fun now row =>
                     sql_or (sql_eq_bool (is_rolling row) true)
                       (sql_and
                          (sql_and (Some (bool_decide (next_deadline_at row <> None)))
                                   (sql_ge_time (next_deadline_at row) now))
                          ((fun t => unixNano t <=?
                                       unixNano now + DeadlineDays params * 86400 * 1000000000)
                             <$> next_deadline_at row))) where_ in
  let where_ := match lpIsRolling params with
                | Some b => where_ ++ [fun _ row => sql_eq_bool (is_rolling row) b]
                | None => where_
                end in
  let categories := sanitizeStringSlice (lpCategories params) in
  let where_ := addIf (0 <? Z.of_nat (length categories))
                  (fun _ row => sql_overlap (Db.categories row) categories) where_ in
  let eligibility := sanitizeStringSlice (lpEligibility params) in
  let where_ := addIf (0 <? Z.of_nat (length eligibility))
                  (fun _ row => sql_overlap (Db.eligibility row) eligibility) where_ in
  where_.

(** The row passes the WHERE clause: every conjunct is true. *)
Definition rowIncluded `{StoreEnv} (params : ListParams) (now : Time) (row : Row) : bool :=
  forallb (fun c : Condition => holds (c now row)) (whereClause params).

(** The rows [ListOpportunities] counts and selects from; ORDER BY, LIMIT
    and OFFSET then choose the page among them. *)
Definition selectedRows `{StoreEnv} (params : ListParams) (now : Time) (rows : list Row)
    : list Row :=
  filter (fun row => rowIncluded params now row) rows.

(** The status tab is "open": the default, "open" itself, or "active". *)
Definition openTab (params : ListParams) : Prop :=
  Status params = "" \/ Status params = "open" \/ Status params = "active".

(** The condition of the open tab, as the listing states it. *)
Definition openListed (now : Time) (row : Row) : Prop :=
  normalized_status row = "open" /\
  is_results_page row = false /\
  (rolling_evidence row = true \/
   (exists t, next_deadline_at row = Some t /\ unixNano now <= unixNano t) \/
   (exists t, close_at row = Some t /\ unixNano now <= unixNano t)).

(** A keyword match for the examples: the title contains the query,
    letter case apart. *)
Definition titleStore : StoreEnv :=
  {| keywordMatch := fun row q =>
       (fun t => GoStrings.Contains (GoStrings.ToLower t) (GoStrings.ToLower q)) <$> title row |}.

(** The request of the examples: the status tab alone. *)
Definition tabRequest (status : string) : ListParams :=
  {| Query := ""; QueryEmbedding := []; lpSource := ""; MinAmount := 0%Q; MaxAmount := 0%Q;
     DeadlineDays := 0; lpIsRolling := None; Limit := 20; Offset := 0;
     lpCategories := []; lpEligibility := []; lpRegion := []; lpFunderType := [];
     lpCountry := []; lpAgencyCode := ""; lpAgencyName := []; SortBy := "";
     Status := status; ExcludeExpired := false |}.

(** A row of the examples: the columns the status filter reads, other
    columns empty. *)
Definition listedRow (status : string) (results evidence : bool) (next close : option Time)
    : Row :=
  {|
    title := Some "Call"; summary := Some ""; description_html := Some "";
    external_url := Some "https://example.org/call"; source_domain := "example.org";
    source_id := "1"; opportunity_number := None; agency_name := None;
    agency_code := None; funder_type := None; amount_min := Some 0%Q;
    amount_max := Some 0%Q; currency := Some ""; deadline_at := None;
    open_date := None; is_rolling := Some false; doc_type := None; cfda_list := [];
    opp_status := Some "posted"; close_date_raw := None; region := None; country := None;
    categories := []; eligibility := []; embedding := None; source_run_id := None;
    canonical_url := Some "https://example.org/call";
    raw_url := Some "https://example.org/call"; content_type := Some "html";
    data_quality_score := None; source_status_raw := None;
    normalized_status := status; status_reason := None;
    next_deadline_at := next; expiration_at := None; close_at := close; open_at := None;
    deadlines := None; is_results_page := results; source_evidence_json := None;
    status_confidence := 0.9%Q; rolling_evidence := evidence; updated_at := None
  |}.

(** What the status tab [status] asks of a row. *)
Definition statusAdmits (status : string) (now : Time) (row : Row) : Prop :=
  if String.eqb status "" || String.eqb status "open" || String.eqb status "active"
  then openListed now row
  else if String.eqb status "all" then True
  else if String.eqb status "closed"
  then normalized_status row = "closed" \/ normalized_status row = "archived"
  else normalized_status row = (if String.eqb status "posted" then "open" else status).

(** The arrays share an element. *)
Definition overlap (a b : list string) : Prop := exists x, x ∈ a /\ x ∈ b.

(** A request of the examples: every tab, one source, the rolling rows
    excluded. *)
Definition sourceRequest : ListParams :=
  {| Query := ""; QueryEmbedding := []; lpSource := "example.org"; MinAmount := 0%Q;
     MaxAmount := 0%Q; DeadlineDays := 0; lpIsRolling := Some false; Limit := 20; Offset := 0;
     lpCategories := []; lpEligibility := []; lpRegion := []; lpFunderType := [];
     lpCountry := []; lpAgencyCode := ""; lpAgencyName := []; SortBy := "";
     Status := "all"; ExcludeExpired := false |}.

End Store.

(** ** Package [regexp] of the Go library, for the patterns of this repository

    Patterns are syntax trees; matching is on bytes, leftmost first, with
    the preferences of the Go matcher: the left branch of an alternation,
    and as many repetitions as possible. The classes [\d], [\s], [\b] are
    those of ASCII, as in Go. Under [(?i)] a letter matches both cases, and
    [s] and [k] also match U+017F and U+212A, the other members of their
    folding orbits. *)

Module GoRegexp.

Inductive Regexp :=
| Empty
| Class (p : ascii -> bool)
| Cat (r1 r2 : Regexp)
| Alt (r1 r2 : Regexp)
| Star (p : ascii -> bool)
| WordBoundary
| Group (i : nat) (r : Regexp).

Definition isDigitByte (c : ascii) : bool := (48 <=? byte_of c) && (byte_of c <=? 57).

(** [\s]: tab, line feed, form feed, carriage return, space. *)
Definition isSpaceByte (c : ascii) : bool :=
  let n := byte_of c in
  (n =? 9) || (n =? 10) || (n =? 12) || (n =? 13) || (n =? 32).

(** [\w]: letters, digits and the underscore. *)
Definition isWordByte (c : ascii) : bool :=
  let n := byte_of c in
  ((48 <=? n) && (n <=? 57)) || ((65 <=? n) && (n <=? 90)) ||
  ((97 <=? n) && (n <=? 122)) || (n =? 95).

Definition isWordAt (c : option ascii) : bool :=
  match c with
  | Some c => isWordByte c
  | None => false
  end.

Definition never : Regexp := Class (fun _ => false).

Definition cats (rs : list Regexp) : Regexp := fold_right Cat Empty rs.

Fixpoint alts (rs : list Regexp) : Regexp :=
  match rs with
  | [] => never
  | [r] => r
  | r :: rs' => Alt r (alts rs')
  end.

(** [r?], [c+], [\d], [\s+], [\s*], [\d{1,2}], [\d{2}]. *)
Definition opt (r : Regexp) : Regexp := Alt r Empty.
Definition plus (p : ascii -> bool) : Regexp := Cat (Class p) (Star p).
Definition d : Regexp := Class isDigitByte.
Definition spaces1 : Regexp := plus isSpaceByte.
Definition spaces0 : Regexp := Star isSpaceByte.
Definition d12 : Regexp := Cat d (opt d).
Definition d2 : Regexp := Cat d d.

(** The bytes of a literal; [fold] is the flag [(?i)]. *)
Definition bytes (s : string) : Regexp :=
  cats ((fun c => Class (Ascii.eqb c)) <$> list_ascii_of_string s).

Definition litByte (fold : bool) (c : ascii) : Regexp :=
  if fold then
    let same := Class (fun b => Ascii.eqb (lowerASCII b) (lowerASCII c)) in
    if Ascii.eqb (lowerASCII c) "s" then Alt same (bytes (String (ascii_of_byte 197) (String (ascii_of_byte 191) "")))
    else if Ascii.eqb (lowerASCII c) "k"
    then Alt same (bytes (String (ascii_of_byte 226) (String (ascii_of_byte 132)
                            (String (ascii_of_byte 170) ""))))
    else same
  else Class (Ascii.eqb c).

Definition lit (fold : bool) (s : string) : Regexp :=
  cats (litByte fold <$> list_ascii_of_string s).

Definition words (fold : bool) (ws : list string) : Regexp := alts (lit fold <$> ws).

(** The groups matched so far: number, start and end offset; the latest
    first. *)
Definition Captures := list (nat * (nat * nat)).

(** What remains to be matched after a pattern: it receives the byte before
    the position, the offset, the rest of the text and the captures. *)
Definition Cont (R : Type) := option ascii -> nat -> string -> Captures -> option R.

Fixpoint starBytes {R : Type} (p : ascii -> bool) (prev : option ascii) (off : nat)
    (s : string) (caps : Captures) (k : Cont R) : option R :=
  match s with
  | String c s' =>
      if p c then
        match starBytes p (Some c) (S off) s' caps k with
        | Some r => Some r
        | None => k prev off s caps
        end
      else k prev off s caps
  | EmptyString => k prev off s caps
  end.

Definition firstByte (s : string) : option ascii :=
  match s with
  | String c _ => Some c
  | EmptyString => None
  end.

Fixpoint matchHere {R : Type} (r : Regexp) (prev : option ascii) (off : nat) (s : string)
    (caps : Captures) (k : Cont R) : option R :=
  match r with
  | Empty => k prev off s caps
  | Class p =>
      match s with
      | String c s' => if p c then k (Some c) (S off) s' caps else None
      | EmptyString => None
      end
  | Cat r1 r2 =>
      matchHere r1 prev off s caps
        (fun prev' off' s' caps' => matchHere r2 prev' off' s' caps' k)
  | Alt r1 r2 =>
      match matchHere r1 prev off s caps k with
      | Some x => Some x
      | None => matchHere r2 prev off s caps k
      end
  | Star p => starBytes p prev off s caps k
  | WordBoundary =>
      if xorb (isWordAt prev) (isWordAt (firstByte s)) then k prev off s caps else None
  | Group i r1 =>
      matchHere r1 prev off s caps
        (fun prev' off' s' caps' => k prev' off' s' ((i, (off, off')) :: caps'))
  end.

(** The leftmost match at or after the position: start, end, captures. *)
Fixpoint findFrom (r : Regexp) (prev : option ascii) (off : nat) (s : string)
    : option (nat * nat * Captures) :=
  match matchHere r prev off s [] (fun _ off' _ caps => Some (off', caps)) with
  | Some (e, caps) => Some (off, e, caps)
  | None =>
      match s with
      | String c s' => findFrom r (Some c) (S off) s'
      | EmptyString => None
      end
  end.

Fixpoint numGroups (r : Regexp) : nat :=
  match r with
  | Cat r1 r2 | Alt r1 r2 => Nat.max (numGroups r1) (numGroups r2)
  | Group i r1 => Nat.max i (numGroups r1)
  | _ => O
  end.

Fixpoint capture (caps : Captures) (i : nat) : option (nat * nat) :=
  match caps with
  | [] => None
  | (j, span) :: caps' => if Nat.eqb i j then Some span else capture caps' i
  end.

(** [re.FindStringSubmatch(text)]: the match and its groups, a group that
    did not take part being empty; [None] for [nil]. *)
Definition FindStringSubmatch (r : Regexp) (text : string) : option (list string) :=
  match findFrom r None O text with
  | None => None
  | Some (a, b, caps) =>
      Some (slice text a b ::
            ((fun i => match capture caps i with
                       | Some (x, y) => slice text x y
                       | None => ""
                       end) <$> seq 1 (numGroups r)))
  end.

(** The byte before offset [i] of [text]. *)
Definition byteBefore (text : string) (i : nat) : option ascii :=
  match i with
  | O => None
  | S j => String.get j text
  end.

(** Successive matches that do not overlap; after an empty match the
    search moves on by one byte. *)
Fixpoint findAllFrom (fuel : nat) (r : Regexp) (text : string) (off : nat)
    : list (nat * nat) :=
  match fuel with
  | O => []
  | S fuel' =>
      match findFrom r (byteBefore text off) off (sliceFrom text off) with
      | None => []
      | Some (a, b, _) =>
          (a, b) :: (if (a <? b)%nat then findAllFrom fuel' r text b
                     else if (b <? String.length text)%nat
                     then findAllFrom fuel' r text (S b)
                     else [])
      end
  end.

(** [re.FindAllStringIndex(text, -1)]. *)
Definition FindAllStringIndex (r : Regexp) (text : string) : list (nat * nat) :=
  findAllFrom (S (String.length text)) r text O.

End GoRegexp.

(** ** The time-zone database and the order of map iteration *)

(** [time.LoadLocation(name)]; [None] on error. A location is its offset:
    the dates read here are of the years 20xx, in which America/Lima keeps
    one offset. *)
Class TimeZones := {
  time_LoadLocation : string -> option GoTimeModel.Location
}.

(** The time-zone database: America/Lima is five hours west of UTC. *)
Definition tzdata : TimeZones :=
  {| time_LoadLocation := fun name =>
       if String.eqb name "America/Lima" then Some (-18000)
       else if String.eqb name "UTC" then Some 0
       else None |}.

(** A runtime without a time-zone database. *)
Definition noTzdata : TimeZones := {| time_LoadLocation := fun _ => None |}.

(** ** The date parser (date_parser.go) *)

Module DateParser.

Import GoTimeModel GoRegexp.

(** [time.Time{}], January 1 of year 1 in UTC, and [t.IsZero()]. *)
Definition zeroTime : Time := Date 1 1 1 0 0 0 0 UTCLocation.
Definition IsZero (t : Time) : bool := unixNano t =? unixNano zeroTime.

Definition toEndOfDay (t : Time) : Time :=
  Date (Year t) (Month t) (Day t) 23 59 59 999999999 UTCLocation.

Definition datePrefixes : list string :=
  [ "Closing date:"; "Deadline:"; "Open:"; "Publication date:";
    "Fecha límite:"; "Fecha de cierre:"; "Cierre:";
    "Due date:"; "Expires:"; "Ends:" ].

Definition cleanDateString (s : string) : string :=
  let sLower := ToLower s in
  let step (st : string * string) (p : string) : string * string :=
    let '(s, sLower) := st in
    match Index sLower (ToLower p) with
    | Some idx => (sliceFrom s (idx + String.length p), sliceFrom sLower (idx + String.length p))
    | None => st
    end in
  TrimSpace (fst (fold_left step datePrefixes (s, sLower))).

(** The entries of the map [spanishMonths] of [parseSpanishDate]. *)
Definition spanishMonths : list (string * string) :=
  [ ("enero", "January"); ("febrero", "February"); ("marzo", "March");
    ("abril", "April"); ("mayo", "May"); ("junio", "June"); ("julio", "July");
    ("agosto", "August"); ("septiembre", "September"); ("octubre", "October");
    ("noviembre", "November"); ("diciembre", "December");
    ("ene", "Jan"); ("feb", "Feb"); ("mar", "Mar"); ("abr", "Apr"); ("may", "May");
    ("jun", "Jun"); ("jul", "Jul"); ("ago", "Aug"); ("sep", "Sep"); ("oct", "Oct");
    ("nov", "Nov"); ("dic", "Dec") ].

(** [parseSpanishDate]; [order] is the order in which the loop
    [for es, en := range spanishMonths] visits the entries, which the
    runtime chooses at every call. *)
Definition parseSpanishDate `{GoRuntime} (order : list (string * string))
    (text format : string) : option Time :=
  let textLower := ToLower text in
  let textLower :=
    fold_left (fun t (e : string * string) => ReplaceAll t (fst e) (snd e)) order textLower in
  let textLower := ReplaceAll textLower " de " " " in
  let englishFormat := ReplaceAll format "enero" "January" in
  let englishFormat := ReplaceAll englishFormat "ene" "Jan" in
  let englishFormat := ReplaceAll englishFormat " de " " " in
  time_Parse englishFormat textLower.

Definition englishMonthsLong : list string :=
  [ "January"; "February"; "March"; "April"; "May"; "June"; "July"; "August";
    "September"; "October"; "November"; "December" ].

Definition year20 (fold : bool) : Regexp := Cat (lit fold "20") d2.

(** [\b(20\d{2})-(\d{2})-(\d{2})\b] *)
Definition isoRegex : Regexp :=
  cats [ WordBoundary; Group 1 (year20 false); lit false "-"; Group 2 d2; lit false "-";
         Group 3 d2; WordBoundary ].

(** [\b(\d{1,2})/(\d{1,2})/(20\d{2})\b], of [usRegex] and [ukRegex]. *)
Definition usRegex : Regexp :=
  cats [ WordBoundary; Group 1 d12; lit false "/"; Group 2 d12; lit false "/";
         Group 3 (year20 false); WordBoundary ].

(** [\b(January|...|December|Jan|Feb|Mar|Apr|May|Jun|Jul|Aug|Sep|Oct|Nov|Dec)\s+(\d{1,2}),?\s+(20\d{2})\b] *)
Definition monthRegex : Regexp :=
  cats [ WordBoundary;
         Group 1 (words false (englishMonthsLong ++
                    [ "Jan"; "Feb"; "Mar"; "Apr"; "May"; "Jun"; "Jul"; "Aug"; "Sep";
                      "Oct"; "Nov"; "Dec" ]));
         spaces1; Group 2 d12; opt (lit false ","); spaces1; Group 3 (year20 false);
         WordBoundary ].

Definition spanishMonthNames : list string :=
  [ "enero"; "febrero"; "marzo"; "abril"; "mayo"; "junio"; "julio"; "agosto";
    "septiembre"; "octubre"; "noviembre"; "diciembre" ].

(** [(?i)\b(\d{1,2})\s+de\s+(enero|...|diciembre)\s+(?:de|del)\s+(20\d{2})\b] *)
Definition spanishMonthRegex : Regexp :=
  cats [ WordBoundary; Group 1 d12; spaces1; lit true "de"; spaces1;
         Group 2 (words true spanishMonthNames); spaces1;
         words true ["de"; "del"]; spaces1; Group 3 (year20 true); WordBoundary ].

(** [matches[i]] of a match with three groups. *)
Definition group (matches : list string) (i : nat) : string := nth i matches "".

Definition firstParse `{GoRuntime} (formats : list string) (value : string) : option Time :=
  fold_left (fun r format => match r with Some t => Some t | None => time_Parse format value end)
    formats None.

(** [parseDateWithRegex]; the zero time when nothing is found. *)
Definition parseDateWithRegex `{GoRuntime} (text : string) : Time :=
  let iso :=
    match FindStringSubmatch isoRegex text with
    | Some matches => time_Parse "2006-01-02" (group matches 0)
    | None => None
    end in
  let us :=
    match FindStringSubmatch usRegex text with
    | Some matches =>
        firstParse ["1/2/2006"; "01/02/2006"]
          (group matches 1 +:+ "/" +:+ group matches 2 +:+ "/" +:+ group matches 3)
    | None => None
    end in
  let uk :=
    match FindStringSubmatch usRegex text with
    | Some matches =>
        time_Parse "01/02/2006"
          (group matches 2 +:+ "/" +:+ group matches 1 +:+ "/" +:+ group matches 3)
    | None => None
    end in
  let month :=
    match FindStringSubmatch monthRegex text with
    | Some matches =>
        firstParse ["January 2, 2006"; "Jan 2, 2006"; "2 January 2006"; "2 Jan 2006"]
          (group matches 1 +:+ " " +:+ group matches 2 +:+ " " +:+ group matches 3)
    | None => None
    end in
  match iso, us, uk, month with
  | Some t, _, _, _ | None, Some t, _, _ | None, None, Some t, _ | None, None, None, Some t => t
  | None, None, None, None => zeroTime
  end.

(** [parseSpanishDateWithRegex]; the zero time when nothing is found. *)
Definition parseSpanishDateWithRegex `{GoRuntime} (text : string) : Time :=
  match FindStringSubmatch spanishMonthRegex text with
  | Some matches =>
      let day := group matches 1 in
      let month := ToLower (group matches 2) in
      let year := group matches 3 in
      match List.find (fun e : string * string => String.eqb (fst e) month)
              (firstn 12 spanishMonths) with
      | Some (_, englishMonth) =>
          match time_Parse "2 January 2006" (day +:+ " " +:+ englishMonth +:+ " " +:+ year) with
          | Some t => t
          | None => zeroTime
          end
      | None => zeroTime
      end
  | None => zeroTime
  end.

Definition englishFormats : list string :=
  [ "2 January 2006"; "02 January 2006"; "2 January 2006 3 PM"; "2 January 2006 3:04 PM";
    "January 2, 2006"; "January 2, 2006 3 PM"; "January 2, 2006 3:04 PM"; "Jan 2, 2006";
    "2 Jan 2006"; "02 Jan 2006"; "01/02/2006"; "01/02/2006 3 PM"; "02/01/2006";
    "2006-01-02 15:04:05" ].

Definition spanishFormats : list string :=
  [ "2 de enero de 2006"; "02 de enero de 2006"; "2 de ene de 2006"; "02/01/2006";
    "2-01-2006" ].

(** The loop over [englishFormats]. *)
Fixpoint tryEnglish `{GoRuntime} (formats : list string) (text : string) : option Time :=
  match formats with
  | [] => None
  | format :: rest =>
      match time_Parse format text with
      | Some t => Some (if Contains format ":" then t else toEndOfDay t)
      | None => tryEnglish rest text
      end
  end.

(** The loop over [spanishFormats]; the call number [n] of
    [parseSpanishDate] selects the map order. *)
Fixpoint trySpanishFormats `{GoRuntime} (order : nat -> list (string * string)) (n : nat)
    (formats : list string) (text : string) : option Time :=
  match formats with
  | [] => None
  | format :: rest =>
      match parseSpanishDate (order n) text format with
      | Some t => Some (toEndOfDay t)
      | None => trySpanishFormats order (S n) rest text
      end
  end.

(** The loop over [locales]. *)
Fixpoint trySpanish `{GoRuntime} (order : nat -> list (string * string)) (n : nat)
    (locales : list string) (text : string) : option Time :=
  match locales with
  | [] => None
  | locale :: rest =>
      if String.eqb locale "es" || HasPrefix locale "es" then
        match trySpanishFormats order n spanishFormats text with
        | Some t => Some t
        | None =>
            let t := parseSpanishDateWithRegex text in
            if negb (IsZero t) then Some (toEndOfDay t)
            else trySpanish order (n + length spanishFormats) rest text
        end
      else trySpanish order n rest text
  end.

(** The first lines of [parseDateRobust]: the text it then parses. *)
Definition cleanedDateText (text : string) : string :=
  let text := cleanDateString text in
  let text := ReplaceAll text "a.m." "AM" in
  let text := ReplaceAll text "p.m." "PM" in
  let text := ReplaceAll text "a.m" "AM" in
  let text := ReplaceAll text "p.m" "PM" in
  let text := ReplaceAll text " am" " AM" in
  ReplaceAll text " pm" " PM".

(** [parseDateRobust]; [None] is the error. *)
Definition parseDateRobust `{GoRuntime} (order : nat -> list (string * string))
    (text : string) (locales : list string) : option Time :=
  let text := cleanedDateText text in
  match time_Parse RFC3339 text with
  | Some t => Some t
  | None =>
  match time_Parse "2006-01-02" text with
  | Some t => Some (toEndOfDay t)
  | None =>
  match time_Parse "2006-01-02T15:04:05Z" text with
  | Some t => Some t
  | None =>
  match tryEnglish englishFormats text with
  | Some t => Some t
  | None =>
  match trySpanish order O locales text with
  | Some t => Some t
  | None =>
      let t := parseDateWithRegex text in
      if negb (IsZero t) then Some (toEndOfDay t) else None
  end end end end end.

End DateParser.

(** ** Dates in the text of a page (pdf_deadline_extractor.go) *)

Module DeadlineExtractor.

Import GoTimeModel GoRegexp DateParser.

Definition deadlineLabelHints : list string :=
  [ "inicio de postulaciones"; "cierre de postulaciones"; "fecha máxima"; "deadline";
    "closes"; "fecha límite"; "cronograma"; "calendario"; "postulación" ].

Definition englishMonthNames : list string :=
  englishMonthsLong ++
  [ "Jan"; "Feb"; "Mar"; "Apr"; "Jun"; "Jul"; "Aug"; "Sep"; "Oct"; "Nov"; "Dec" ].

(** [(\s+\d{1,2}(:\d{2})?\s*(a\.?m\.?|p\.?m\.?))?], whose groups are
    numbered from [i]. *)
Definition clockSuffix (i : nat) : Regexp :=
  opt (Group i
         (cats [ spaces1; d12; opt (Group (i + 1) (Cat (lit true ":") d2)); spaces0;
                 Group (i + 2)
                   (Alt (cats [lit true "a"; opt (lit true "."); lit true "m"; opt (lit true ".")])
                        (cats [lit true "p"; opt (lit true "."); lit true "m"; opt (lit true ".")])) ])).

Definition dateSnippetRegexes : list Regexp :=
  [ (* (?i)\b\d{1,2}/\d{1,2}/20\d{2}\b *)
    cats [ WordBoundary; d12; lit true "/"; d12; lit true "/"; year20 true; WordBoundary ];
    (* (?i)\b20\d{2}-\d{2}-\d{2}\b *)
    cats [ WordBoundary; year20 true; lit true "-"; d2; lit true "-"; d2; WordBoundary ];
    (* (?i)\b\d{1,2}\s+de\s+(enero|...|diciembre)\s+(de|del)\s+20\d{2}\b *)
    cats [ WordBoundary; d12; spaces1; lit true "de"; spaces1;
           Group 1 (words true spanishMonthNames); spaces1;
           Group 2 (words true ["de"; "del"]); spaces1; year20 true; WordBoundary ];
    (* (?i)\b\d{1,2}\s+(January|...|Dec)\s+20\d{2}(\s+\d{1,2}(:\d{2})?\s*(a\.?m\.?|p\.?m\.?))?\b *)
    cats [ WordBoundary; d12; spaces1; Group 1 (words true englishMonthNames); spaces1;
           year20 true; clockSuffix 2; WordBoundary ];
    (* (?i)\b(January|...|Dec)\s+\d{1,2},?\s+20\d{2}(\s+\d{1,2}(:\d{2})?\s*(a\.?m\.?|p\.?m\.?))?\b *)
    cats [ WordBoundary; Group 1 (words true englishMonthNames); spaces1; d12;
           opt (lit true ","); spaces1; year20 true; clockSuffix 2; WordBoundary ] ].

Definition hasExplicitTimeToken (token : string) : bool :=
  let lower := ToLower token in
  Contains lower ":" ||
  containsAny lower [" am"; " pm"; "a.m"; "p.m"; "utc"; "gmt"; "hora"; "hrs"].

(** The test of [normalizeDateOnlyBySource] on the source URL. *)
Definition limaSource (sourceURL : string) : bool :=
  let lowerURL := ToLower sourceURL in
  Contains lowerURL "gob.pe" || Contains lowerURL "proinnovate" ||
  Contains lowerURL "prociencia".

Definition normalizeDateOnlyBySource `{TimeZones} (parsed : Time) (sourceURL : string) : Time :=
  let loc :=
    if limaSource sourceURL then
      match time_LoadLocation "America/Lima" with
      | Some lima => lima
      | None => UTCLocation
      end
    else UTCLocation in
  let localized := Date (Year parsed) (Month parsed) (Day parsed) 23 59 59 0 loc in
  UTC localized.

(** The instant a token stands for: the body of the loop of
    [parseDeadlineEvidenceFromText] up to [iso]. *)
Definition tokenTime `{GoRuntime} `{TimeZones} (order : nat -> list (string * string))
    (token sourceURL : string) : option Time :=
  match parseDateRobust order token ["en"; "es"] with
  | None => None
  | Some parsed =>
      Some (UTC (if negb (hasExplicitTimeToken token)
                 then normalizeDateOnlyBySource parsed sourceURL
                 else parsed))
  end.

(** One match [loc] of a pattern: the entry it adds to [matches]. *)
Definition matchEntry `{GoRuntime} `{TimeZones} (order : nat -> list (string * string))
    (text source sourceURL : string) (defaultConfidence : Q) (loc : nat * nat)
    : option (string * DeadlineEvidenceT) :=
  let token := TrimSpace (slice text (fst loc) (snd loc)) in
  match tokenTime order token sourceURL with
  | None => None
  | Some t =>
      let iso := time_FormatRFC3339 t in
      let start := (fst loc - 80)%nat in
      let end_ := Nat.min (snd loc + 80) (String.length text) in
      let snippet := TrimSpace (ReplaceAll (slice text start end_) (String (ascii_of_byte 10) "") " ") in
      let snippetLower := ToLower snippet in
      let label := default "deadline" (List.find (Contains snippetLower) deadlineLabelHints) in
      Some (iso, mkDeadlineEvidence source sourceURL snippet iso label defaultConfidence)
  end.

(** The matches of all patterns, in the order of the two loops, each with
    the number of its pattern and its number among the matches of the
    pattern. *)
Definition allMatches (text : string) : list (nat * nat * (nat * nat)) :=
  concat (imap (fun i expr => imap (fun j loc => (i, j, loc)) (FindAllStringIndex expr text))
            dateSnippetRegexes).

(** [ordered[i]] is before [ordered[j]] for [sort.Slice]. *)
Definition isoTime `{GoRuntime} (iso : string) : Time :=
  default zeroTime (time_Parse RFC3339 iso).

Fixpoint insertByTime `{GoRuntime} (ev : DeadlineEvidenceT) (l : list DeadlineEvidenceT)
    : list DeadlineEvidenceT :=
  match l with
  | [] => [ev]
  | x :: l' =>
      if Before (isoTime (ParsedDateISO ev)) (isoTime (ParsedDateISO x))
      then ev :: l else x :: insertByTime ev l'
  end.

Definition sortByTime `{GoRuntime} (l : list DeadlineEvidenceT) : list DeadlineEvidenceT :=
  fold_right insertByTime [] l.

(** [parseDeadlineEvidenceFromText]. The map [matches] keeps the last entry
    of every ISO date; its entries are then sorted by instant (entries of
    distinct ISO dates have distinct instants, so the order in which the
    map is visited does not show). [order i j n] is the map order of the
    [n]-th call of [parseSpanishDate] for match [j] of pattern [i]. *)
Definition parseDeadlineEvidenceFromText `{GoRuntime} `{TimeZones}
    (order : nat -> nat -> nat -> list (string * string))
    (text source sourceURL : string) (defaultConfidence : Q) : list DeadlineEvidenceT :=
  let matches : gmap string DeadlineEvidenceT :=
    fold_left
      (fun (matches : gmap string DeadlineEvidenceT) (m : nat * nat * (nat * nat)) =>
         match matchEntry (order (fst (fst m)) (snd (fst m))) text source sourceURL
                 defaultConfidence (snd m) with
         | Some (iso, ev) => <[iso := ev]> matches
         | None => matches
         end)
      (allMatches text) ∅ in
  sortByTime (snd <$> map_to_list matches).

(** The ISO dates of a list of entries, each once, in order. *)
Fixpoint uniqueISO (seen : list string) (evidence : list DeadlineEvidenceT) : list string :=
  match evidence with
  | [] => []
  | ev :: rest =>
      let iso := ParsedDateISO ev in
      if existsb (String.eqb iso) seen then uniqueISO seen rest
      else iso :: uniqueISO (iso :: seen) rest
  end.

(** [parseDateCandidatesFromText]: the source URL it passes on is empty. *)
Definition parseDateCandidatesFromText `{GoRuntime} `{TimeZones}
    (order : nat -> nat -> nat -> list (string * string)) (text : string) : list string :=
  uniqueISO [] (parseDeadlineEvidenceFromText order text "text" "" 0.7).

End DeadlineExtractor.

(** ** The generic source adapter (source_adapter.go) *)

(** What the selections of [buildStructuredExtractionText] find in a parsed
    page: the text of [body]; for every [table tr], the texts of its
    [th, td]; for every element of the selector [p, li, div, td, th, h1, ...,
    strong], in document order, its text and the text of its next sibling. *)
Record Document := mkDocument {
  bodyText : string;
  tableRows : list (list string);
  blocks : list (string * string)
}.

(** [goquery.NewDocumentFromReader]; [None] on error. *)
Class Goquery := {
  goquery_NewDocument : string -> option Document
}.

Module SourceAdapter.

Import DeadlineExtractor.

Record SourceAdapterRaw := mkRaw {
  rURL : string;
  rDomain : string;
  rBodyHTML : string;
  rAttachmentURLs : list string;
  (** The entries of the map, in the order the [range] loop visits them. *)
  rAttachmentTexts : list (string * string);
  rFetchMeta : any
}.

Record SourceAdapterCandidates := mkCandidates {
  cSourceStatusRaw : string;
  cDeadlineCandidates : list string;
  cDeadlineEvidence : list DeadlineEvidenceT;
  cOpenISO : string;
  cCloseISO : string;
  cExpirationISO : string;
  cIsResultsPage : bool;
  cEvidence : gmap string any;
  cStatusConfidence : float64;
  cRollingEvidence : bool;
  cPDFsParsed : Z;
  cDeadlinesAdded : Z
}.

(** [mergeUniqueFold] (helpers.go); [seen] holds the keys met so far. *)
Fixpoint mergeItems (seen : list string) (items : list string) : list string :=
  match items with
  | [] => []
  | v :: rest =>
      let v := TrimSpace v in
      if String.eqb v "" then mergeItems seen rest
      else
        let k := ToLower v in
        if existsb (String.eqb k) seen then mergeItems seen rest
        else v :: mergeItems (k :: seen) rest
  end.

Definition mergeUniqueFold (dst items : list string) : list string :=
  let seen := filter (fun k => k <> "") ((fun v => ToLower (TrimSpace v)) <$> dst) in
  dst ++ mergeItems seen items.

(** The part of a table row in the text. *)
Definition rowPart (cellTexts : list string) : list string :=
  let cells := filter (fun value => value <> "") (cleanText <$> cellTexts) in
  match cells with
  | [] => []
  | [cell] => [cell]
  | cell :: others => [cell +:+ ": " +:+ Join others " | "]
  end.

Definition labelKeywords : list string :=
  [ "cierre"; "postul"; "deadline"; "closing"; "submission"; "fecha límite";
    "fecha maxima"; "cronograma"; "calendario"; "opening"; "apertura" ].

(** The part of a labelled element in the text. *)
Definition blockPart (block : string * string) : list string :=
  let text := cleanText (fst block) in
  if String.eqb text "" || (220 <? String.length text)%nat then []
  else if containsAny (ToLower text) labelKeywords then
    let nextText := cleanText (snd block) in
    if negb (String.eqb nextText "") && negb (String.eqb nextText text)
    then [text +:+ " | " +:+ nextText]
    else [text]
  else [].

Definition buildStructuredExtractionText `{GoRuntime} `{Goquery} (htmlBody : string) : string :=
  match goquery_NewDocument htmlBody with
  | None => HTMLToText htmlBody
  | Some doc =>
      let body := cleanText (bodyText doc) in
      let parts := if String.eqb body "" then [] else [body] in
      let parts := parts ++ concat (rowPart <$> tableRows doc) in
      let parts := parts ++ concat (blockPart <$> blocks doc) in
      Join parts (String (ascii_of_byte 10) "")
  end.

Definition rollingTextHints : list string :=
  [ "rolling"; "open continuously"; "ongoing call"; "ventanilla abierta";
    "convocatoria permanente"; "sin fecha límite"; "no deadline" ].

(** The loop over [raw.AttachmentTexts]: candidates, evidence, number of
    texts read, and whether a text added a candidate. [order k] is the map
    order of the calls of the [k]-th extraction. *)
Fixpoint attachmentsLoop `{GoRuntime} `{TimeZones}
    (order : nat -> nat -> nat -> nat -> list (string * string)) (k : nat)
    (sourceURL : string) (texts : list (string * string))
    (st : list string * list DeadlineEvidenceT * Z * bool)
    : list string * list DeadlineEvidenceT * Z * bool :=
  match texts with
  | [] => st
  | (_, attachmentText) :: rest =>
      let '(candidates, deadlineEvidence, pdfsParsed, found) := st in
      let candidates' :=
        mergeUniqueFold candidates
          (parseDateCandidatesFromText (order k) (ToLower attachmentText)) in
      let pdfEvidence :=
        parseDeadlineEvidenceFromText (order (S k)) (ToLower attachmentText) "pdf"
          sourceURL 0.85 in
      attachmentsLoop order (S (S k)) sourceURL rest
        (candidates', deadlineEvidence ++ pdfEvidence, pdfsParsed + 1,
         found || (length candidates <? length candidates')%nat)
  end.

(** [ExtractCandidates]. *)
Definition ExtractCandidates `{GoRuntime} `{TimeZones} `{Goquery}
    (order : nat -> nat -> nat -> nat -> list (string * string)) (raw : SourceAdapterRaw)
    : SourceAdapterCandidates :=
  let text := ToLower (buildStructuredExtractionText (rBodyHTML raw)) in
  let htmlEvidence := parseDeadlineEvidenceFromText (order 0%nat) text "html" (rURL raw) 0.8 in
  let htmlCandidates := parseDateCandidatesFromText (order 1%nat) text in
  let evidence : gmap string any :=
    <["fetch_meta" := rFetchMeta raw]>
    (<["evidence_snippets" := AnyStrings []]>
    (<["rolling_evidence" := AnyBool false]>
    (<["attachment_count" := AnyInt (Z.of_nat (length (rAttachmentURLs raw)))]>
    (<["attachment_urls" := AnyStrings (rAttachmentURLs raw)]>
    (<["authority" := AnyString "inference"]> ∅))))) in
  let rollingEvidence := containsAny text rollingTextHints in
  let evidence :=
    if rollingEvidence then <["rolling_evidence" := AnyBool true]> evidence else evidence in
  let '(candidates, deadlineEvidence, pdfsParsed, attachmentCandidatesFound) :=
    attachmentsLoop order 2%nat (rURL raw) (rAttachmentTexts raw)
      (htmlCandidates, htmlEvidence, 0, false) in
  let statusRaw :=
    if Contains text "closed" || Contains text "cerrad" || Contains text "finalizada"
    then "closed" else "" in
  let statusRaw :=
    if Contains text "results" || Contains text "winners" || Contains text "ganadores" ||
       Contains text "resultados finales" || Contains text "ranking"
    then "results" else statusRaw in
  let statusRaw :=
    if String.eqb statusRaw "" &&
       (Contains text "open" || Contains text "abierta" || Contains text "vigente")
    then "open" else statusRaw in
  let isResults := String.eqb statusRaw "results" in
  let hasHTML := (0 <? length htmlCandidates)%nat in
  let confidence := if hasHTML then 0.8%Q else 0.4%Q in
  let evidence :=
    if hasHTML then <["authority" := AnyString "official_page_html"]> evidence else evidence in
  let fromAttachments := attachmentCandidatesFound && negb hasHTML in
  let confidence := if fromAttachments then 0.7%Q else confidence in
  let evidence :=
    if fromAttachments then <["authority" := AnyString "attachments"]> evidence else evidence in
  let confidence := if isResults then 0.95%Q else confidence in
  let discoveryOnly :=
    Contains (ToLower (rDomain raw)) "proinnovate" && (length candidates =? 0)%nat in
  let evidence :=
    if discoveryOnly then <["proinnovate_discovery_only" := AnyBool true]> evidence
    else evidence in
  let statusRaw :=
    if discoveryOnly && String.eqb statusRaw "" then "calendar_discovery_only" else statusRaw in
  let confidence :=
    if discoveryOnly && negb (Qle_bool confidence 0.3) then 0.3%Q else confidence in
  {| cSourceStatusRaw := statusRaw; cDeadlineCandidates := candidates;
     cDeadlineEvidence := deadlineEvidence; cOpenISO := ""; cCloseISO := "";
     cExpirationISO := ""; cIsResultsPage := isResults; cEvidence := evidence;
     cStatusConfidence := confidence; cRollingEvidence := rollingEvidence;
     cPDFsParsed := pdfsParsed; cDeadlinesAdded := Z.of_nat (length candidates) |}.

End SourceAdapter.

(** ** Enrichment from the page of the opportunity (pipeline.go) *)

Module Enrichment.

Import StatusEngine Pipeline SourceAdapter.

(** One entry of [candidates.DeadlineEvidence] in the loop that promotes
    labelled dates to [OpenAt] and [CloseAt]. *)
Definition promoteStep `{GoRuntime} (opp : Opportunity) (ev : DeadlineEvidenceT) : Opportunity :=
  match parseDeadlineCandidate (ParsedDateISO ev) with
  | None => opp
  | Some parsed =>
      let label := ToLower (Label ev +:+ " " +:+ Snippet ev) in
      let opp :=
        if (Contains label "inicio" || Contains label "opening" || Contains label "open") &&
           bool_decide (OpenAt opp = None)
        then set_OpenAt (Some (UTC parsed)) opp else opp in
      if Contains label "cierre" || Contains label "deadline" || Contains label "closes" ||
         Contains label "fecha máxima"
      then
        match CloseAt opp with
        | None => set_CloseAt (Some (UTC parsed)) opp
        | Some closeAt =>
            if Before (UTC parsed) closeAt then set_CloseAt (Some (UTC parsed)) opp else opp
        end
      else opp
  end.

(** [applyEvidenceEnrichment] once the adapter has returned [candidates]. *)
Definition enrichWith `{GoRuntime} (candidates : SourceAdapterCandidates) (opp : Opportunity)
    : Opportunity :=
  let opp :=
    if negb (String.eqb (cSourceStatusRaw candidates) "")
    then set_SourceStatusRaw (cSourceStatusRaw candidates) opp else opp in
  let opp := if cIsResultsPage candidates then set_IsResultsPage true opp else opp in
  let opp :=
    match cDeadlineCandidates candidates with
    | [] => opp
    | first :: _ =>
        let opp := set_Deadlines (mergeUniqueFold (Deadlines opp) (cDeadlineCandidates candidates)) opp in
        let opp :=
          set_DeadlineEvidence
            (mergeDeadlineEvidence (DeadlineEvidence opp) [] (ExternalURL opp) ++
             cDeadlineEvidence candidates) opp in
        let opp := fold_left promoteStep (cDeadlineEvidence candidates) opp in
        match DeadlineAt opp, parseDeadlineCandidate first with
        | None, Some parsed => set_DeadlineAt (Some parsed) opp
        | _, _ => opp
        end
    end in
  let json : gmap string any := cEvidence candidates ∪ default ∅ (SourceEvidenceJSON opp) in
  let json := <["pdfs_parsed" := AnyInt (cPDFsParsed candidates)]> json in
  let json := <["deadlines_added" := AnyInt (cDeadlinesAdded candidates)]> json in
  let opp := set_SourceEvidenceJSON (Some json) opp in
  let opp :=
    if cRollingEvidence candidates then
      set_SourceEvidenceJSON (Some (<["rolling_evidence" := AnyBool true]> json))
        (set_RollingEvidence true (set_IsRolling true opp))
    else opp in
  if negb (Qle_bool (cStatusConfidence candidates) (StatusConfidence opp))
  then set_StatusConfidence (cStatusConfidence candidates) opp else opp.

(** [applyEvidenceEnrichment]; [raw] is what [FetchOpportunityRaw] returned
    for [opp.ExternalURL], [None] being its error, which leaves the
    opportunity as it is. *)
Definition applyEvidenceEnrichmentFrom `{GoRuntime} `{TimeZones} `{Goquery}
    (order : nat -> nat -> nat -> nat -> list (string * string))
    (raw : option SourceAdapterRaw) (opp : Opportunity) : Opportunity :=
  match raw with
  | None => opp
  | Some raw => enrichWith (ExtractCandidates order raw) opp
  end.

End Enrichment.

(** ** The end of a day in a location, as the specification words it *)

Module NormalizationSpec.

Import GoTimeModel DateParser DeadlineExtractor.

(** [t.In(loc)]. *)
Definition In_ (loc : Location) (t : Time) : Time := mkTime (unixNano t) loc.

(** [t] is 23:59:59 of the calendar day [day] in [loc], given in UTC. *)
Definition endOfDayIn (loc : Location) (day : Z * Z * Z) (t : Time) : Prop :=
  zoneOffset t = 0 /\
  civil (In_ loc t) = day /\
  Hour (In_ loc t) = 23 /\ Minute (In_ loc t) = 59 /\ Second (In_ loc t) = 59 /\
  unixNano t mod nanosPerSecond = 0.

(** The location of the end of day for a source: America/Lima for the
    Peruvian sources, UTC otherwise. *)
Definition sourceLocation (lima : Location) (sourceURL : string) : Location :=
  if limaSource sourceURL then lima else UTCLocation.

(** A visit order of [spanishMonths] lists entries of the map. *)
Definition visitOrder (order : list (string * string)) : Prop :=
  forall e, e ∈ order -> e ∈ spanishMonths.

End NormalizationSpec.

(** ** A page with one table row, from a source of gob.pe *)

Module RowExamples.

Import DateParser SourceAdapter Enrichment Pipeline Examples.

Definition rowHTML (label date : string) : string :=
  "<table><tr><td>" +:+ label +:+ "</td><td>" +:+ date +:+ "</td></tr></table>".

(** The document of [rowHTML]: the body text is the text of the two cells;
    the cells are the elements the selectors find. *)
Definition rowPage (label date : string) : Document :=
  {| bodyText := label +:+ date;
     tableRows := [[label; date]];
     blocks := [(label, date); (date, "")] |}.

(** An HTML parser that knows the page [html]. *)
Definition pageParser (html : string) (doc : Document) : Goquery :=
  {| goquery_NewDocument := fun h => if String.eqb h html then Some doc else None |}.

Definition rowParser (label date : string) : Goquery :=
  pageParser (rowHTML label date) (rowPage label date).

Definition gobPeURL : string := "https://www.gob.pe/institucion/proinnovate/campanas/1".

Definition gobPeRaw (label date : string) : SourceAdapterRaw :=
  {| rURL := gobPeURL; rDomain := "www.gob.pe"; rBodyHTML := rowHTML label date;
     rAttachmentURLs := []; rAttachmentTexts := []; rFetchMeta := AnyJSON "{}" |}.

(** An opportunity of the source without any date yet. *)
Definition gobPeOpp : Opportunity :=
  set_SourceID "1" (set_SourceDomain "gob.pe" (set_ExternalURL gobPeURL
    (set_Title "Concurso" emptyOpportunity))).

(** What [SaveOpportunity] proposes to store for [gobPeOpp] at
    2026-02-01T00:00:00Z when the page holds the row. *)
Definition savedFromRow `{TimeZones} (order : nat -> nat -> nat -> nat -> list (string * string))
    (label date : string) : Opportunity :=
  finalize (H := plainRuntime) at_2026_02_01
    (applyEvidenceEnrichmentFrom (H := plainRuntime) (H1 := rowParser label date) order
       (Some (gobPeRaw label date)) gobPeOpp).

(** The entries in the order of the declaration. *)
Definition declaredOrder : nat -> nat -> nat -> nat -> list (string * string) :=
  fun _ _ _ _ => spanishMonths.

(** The date of the row, and the texts [parseSpanishDate] can reach from it
    by replacing month names, whatever the order of the replacements. *)
Definition rowDate : string := "18 de febrero del 2026".

Definition rowDateTexts : list string :=
  [ "18 de febrero del 2026"; "18 de Febrero del 2026"; "18 de February del 2026" ].

(** Every date the patterns find in [text] is [token]. *)
Definition tokensAre (token text : string) : bool :=
  forallb (fun m : nat * nat * (nat * nat) =>
             String.eqb (TrimSpace (slice text (fst (snd m)) (snd (snd m)))) token)
    (DeadlineExtractor.allMatches text).

(** Every map order of [order] is a visit order. *)
Definition visitOrders (order : nat -> nat -> nat -> nat -> list (string * string)) : Prop :=
  forall k i j n, NormalizationSpec.visitOrder (order k i j n).

End RowExamples.

(** ** Checking a property of every day of an era *)

Module Calendar.

(** The day of an era of 400 years: the year of the era, the month and
    the day that [civil_from_days] computes give the day back under
    [days_from_civil]. *)
Definition dayOfEraOK (doe : Z) : bool :=
  let yoe := (doe - doe / 1460 + doe / 36524 - doe / 146096) / 365 in
  let doy := doe - (365 * yoe + yoe / 4 - yoe / 100) in
  let mp := (5 * doy + 2) / 153 in
  let d := doy - (153 * mp + 2) / 5 + 1 in
  let m := if mp <? 10 then mp + 3 else mp - 9 in
  let mp' := if 2 <? m then m - 3 else m + 9 in
  (0 <=? yoe) && (yoe <=? 399) && (1 <=? m) && (m <=? 12) && (1 <=? d) && (d <=? 31) &&
  (yoe * 365 + yoe / 4 - yoe / 100 + ((153 * mp' + 2) / 5 + d - 1) =? doe).

(** [f] holds for the [n] integers from [start] on. *)
Fixpoint allFrom (f : Z -> bool) (n : nat) (start : Z) : bool :=
  match n with
  | O => true
  | S n' => f start && allFrom f n' (start + 1)
  end.

End Calendar.

(** ** Package [net/url] of the Go library and [CanonicalizeURL] *)

Module GoURL.

(** [url.URL]; [User] is the user information as [u.User.String()] prints
    it. *)
Record URL := mkURL {
  Scheme : string;
  Opaque : string;
  User : option string;
  Host : string;
  Path : string;
  RawPath : string;
  OmitHost : bool;
  ForceQuery : bool;
  RawQuery : string;
  Fragment : string;
  RawFragment : string
}.

(** [url.Values]. *)
Abbreviation Values := (gmap string (list string)).

Class NetURL := {
  (** [url.Parse]; [None] on error. *)
  url_Parse : string -> option URL;
  (** [u.String()]. *)
  url_String : URL -> string;
  (** [u.Query()] as a function of [u.RawQuery]: [url.ParseQuery] with the
      error dropped. *)
  url_ParseQuery : string -> Values;
  (** [v.Encode()]. *)
  url_Encode : Values -> string
}.

End GoURL.

Module Canonical.

Import GoURL.

Definition set_Host (v : string) (u : URL) : URL :=
  mkURL (Scheme u) (Opaque u) (User u) v (Path u) (RawPath u) (OmitHost u) (ForceQuery u)
    (RawQuery u) (Fragment u) (RawFragment u).

Definition set_Fragment (v : string) (u : URL) : URL :=
  mkURL (Scheme u) (Opaque u) (User u) (Host u) (Path u) (RawPath u) (OmitHost u)
    (ForceQuery u) (RawQuery u) v (RawFragment u).

Definition set_RawQuery (v : string) (u : URL) : URL :=
  mkURL (Scheme u) (Opaque u) (User u) (Host u) (Path u) (RawPath u) (OmitHost u)
    (ForceQuery u) v (Fragment u) (RawFragment u).

Definition paramsToRemovePrefix : list string := ["utm_"].

Definition exactParamsToRemove : list string :=
  [ "fbclid"; "gclid"; "mc_cid"; "mc_eid"; "mkt_tok"; "ref"; "session"; "s_cid" ].

(** The two loops over [q]: the keys with a prefix of the first list are
    deleted, then the keys of the second list. *)
Definition removeTracking (q : Values) : Values :=
  let q := filter (fun kv : string * list string =>
                     existsb (HasPrefix (fst kv)) paramsToRemovePrefix = false) q in
  fold_left (fun q p => delete p q) exactParamsToRemove q.

(** The URL that [CanonicalizeURL] prints for the parsed [u]. *)
Definition canonicalURL `{NetURL} (u : URL) : URL :=
  let u := set_Host (ToLower (Host u)) u in
  let u := set_Fragment "" u in
  let q := url_ParseQuery (RawQuery u) in
  set_RawQuery (url_Encode (removeTracking q)) u.

Definition CanonicalizeURL `{NetURL} (rawURL : string) : string :=
  match url_Parse rawURL with
  | None => rawURL
  | Some u => url_String (canonicalURL u)
  end.

(** A query parameter name that the specification lists. *)
Definition isTracking (k : string) : bool :=
  HasPrefix k "utm_" || existsb (String.eqb k) exactParamsToRemove.

(** Printing and parsing again gives [c] back, as far as
    [CanonicalizeURL] reads and prints a URL: the host, the empty fragment
    and the query are those of [c], the query of [c] is read back as it was
    encoded, and the URL read prints as [c] does. *)
Definition roundTrips `{NetURL} (q : Values) (c : URL) : Prop :=
  forall c', url_Parse (url_String c) = Some c' ->
    Host c' = Host c /\ Fragment c' = "" /\ RawQuery c' = RawQuery c /\
    url_ParseQuery (RawQuery c) = q /\ url_String c' = url_String c.

End Canonical.

(** ** A URL library for URLs without escapes

    [scheme://host/path?k=v&k=v#fragment], every part after the host
    optional; enough to evaluate examples. *)

Module SimpleURLs.

Import GoURL.

(** [s] before and after the first occurrence of [sep]. *)
Definition cut (s sep : string) : string * option string :=
  match Index s sep with
  | Some i => (slice s O i, Some (sliceFrom s (i + String.length sep)))
  | None => (s, None)
  end.

Definition Parse (rawURL : string) : option URL :=
  let '(rest, frag) := cut rawURL "#" in
  let '(rest, query) := cut rest "?" in
  match cut rest "://" with
  | (scheme, Some rest) =>
      if String.eqb scheme "" then None
      else
        let '(host, path) := cut rest "/" in
        if Contains host " " then None
        else
          Some (mkURL (ToLower scheme) "" None host
                  (match path with Some p => "/" +:+ p | None => "" end) "" false
                  (match query with Some "" => true | _ => false end)
                  (default "" query) (default "" frag) "")
  | (_, None) => None
  end.

Definition String_ (u : URL) : string :=
  Scheme u +:+ "://" +:+ Host u +:+ Path u +:+
  (if ForceQuery u || negb (String.eqb (RawQuery u) "") then "?" +:+ RawQuery u else "") +:+
  (if String.eqb (Fragment u) "" then "" else "#" +:+ Fragment u).

Fixpoint splitOn (fuel : nat) (s sep : string) : list string :=
  match fuel with
  | O => [s]
  | S fuel' =>
      match cut s sep with
      | (a, Some b) => a :: splitOn fuel' b sep
      | (a, None) => [a]
      end
  end.

Definition ParseQuery (query : string) : Values :=
  fold_left
    (fun (m : Values) (pair : string) =>
       if String.eqb pair "" then m
       else
         let '(k, v) := cut pair "=" in
         <[k := default [] (m !! k) ++ [default "" v]]> m)
    (splitOn (String.length query) query "&") ∅.

Fixpoint insertKey (k : string) (l : list string) : list string :=
  match l with
  | [] => [k]
  | x :: l' => if String.leb k x then k :: l else x :: insertKey k l'
  end.

Definition Encode (v : Values) : string :=
  let keys := fold_right insertKey [] (fst <$> map_to_list v) in
  Join (concat ((fun k => (fun x => k +:+ "=" +:+ x) <$> default [] (v !! k)) <$> keys)) "&".

Definition library : NetURL :=
  {| url_Parse := Parse; url_String := String_;
     url_ParseQuery := ParseQuery; url_Encode := Encode |}.

(** A link with a tracking parameter, a referrer and a fragment, and what
    [Parse] reads in it. *)
Definition trackedLink : string :=
  "HTTPS://Example.COM/grants?utm_source=news&id=7&ref=x#top".

Definition trackedLinkURL : URL :=
  mkURL "https" "" None "Example.COM" "/grants" "" false false
    "utm_source=news&id=7&ref=x" "top" "".

Definition canonicalLinkURL : URL :=
  mkURL "https" "" None "example.com" "/grants" "" false false "id=7" "" "".

End SimpleURLs.

(** ** More helpers of package [ingest] (helpers.go, normalizer.go) *)

Module TextHelpers.

(** [TruncateText]; [None] is the panic of a slice with a negative bound. *)
Definition TruncateText (text : string) (maxLen : Z) : option string :=
  if Z.of_nat (String.length text) <=? maxLen then Some text
  else if 3 <? maxLen then Some (slice text 0 (Z.to_nat (maxLen - 3)) +:+ "...")
  else if maxLen <? 0 then None
  else Some (slice text 0 (Z.to_nat maxLen)).


(** The text starts with white space. *)
Definition startsWithSpace (s : string) : bool :=
  match s with
  | String c _ => isSpace c
  | EmptyString => false
  end.

(** The key under which [mergeUniqueFold] and [appendUnique] compare. *)
Definition foldKey (v : string) : string := ToLower (TrimSpace v).

End TextHelpers.

(** ** The decisions of the status engine, as a table *)

Module DecisionSpec.

(** Status, reason and confidence of every decision
    [ComputeStatusDecision] can take. *)
Definition decisionTable : list (string * string * Q) :=
  [ ("closed", "results_page", 0.99%Q);
    ("archived", "source_archived", 0.95%Q);
    ("needs_review", "inconsistent_dates", 0.35%Q);
    ("closed", "source_closed", 0.92%Q);
    ("upcoming", "open_date_in_future", 0.9%Q);
    ("needs_review", "rolling_without_evidence", 0.2%Q);
    ("open", "rolling_open", 0.96%Q);
    ("open", "future_deadline", 0.93%Q);
    ("open", "future_close_date", 0.9%Q);
    ("closed", "close_date_passed", 0.94%Q);
    ("closed", "expiration_passed", 0.9%Q);
    ("closed", "deadline_passed", 0.95%Q);
    ("upcoming", "source_upcoming", 0.75%Q);
    ("needs_review", "source_open_without_time_evidence", 0.3%Q);
    ("needs_review", "missing_deadline", 0.25%Q);
    ("needs_review", "inconsistent_dates", 0.4%Q) ].

(** The values of the column [normalized_status]. *)
Definition statusValues : list string :=
  [ "open"; "closed"; "upcoming"; "archived"; "needs_review" ].

(** The status the source declares: [source_status_raw] if it maps to
    one, [opp_status] otherwise. *)
Definition declaredStatus (opp : Opportunity) : string :=
  let mappedSource := mapSourceStatusRaw (SourceStatusRaw opp) in
  if String.eqb mappedSource "" then mapSourceStatusRaw (OppStatus opp) else mappedSource.

End DecisionSpec.

(** ** Tables keyed by [(source_domain, source_id)] *)

Module TableSpec.

Import Db.

(** Every row is stored under the key its own columns give: the unique
    index of the table. *)
Definition wellKeyed (tbl : Table) : Prop :=
  forall k r, tbl !! k = Some r -> key r = k.

(** A column that holds a value keeps holding one. *)
Definition stays {A} (old new : option A) : Prop := is_Some old -> is_Some new.

(** The deadline of the row is set and before [now]. *)
Definition deadlinePassed (now : Time) (r : Row) : Prop :=
  exists t, deadline_at r = Some t /\ Before t now = true.

End TableSpec.

(** ** The periodic update of migration 008 *)

Module Maintenance.

Import Db.

(** The WHERE clause of [update_expired_opportunities_status]. *)
Definition expired (now : Time) (r : Row) : bool :=
  holds (sql_and (sql_and (Some (bool_decide (deadline_at r <> None)))
                          (sql_lt_time (deadline_at r) now))
                 (sql_not (sql_in (opp_status r) ["closed"; "archived"; "funded"]))).

(** [update_expired_opportunities_status()]: the table the UPDATE leaves
    (each updated row passes the BEFORE UPDATE trigger) and the row count
    it returns. *)
Definition update_expired_opportunities_status (now : Time) (tbl : Table) : Table * Z :=
  ((fun r => if expired now r
             then update_opportunity_status_on_deadline now (set_opp_status (Some "closed") r)
             else r) <$> tbl,
   Z.of_nat (size (filter (fun kr => expired now kr.2 = true) tbl))).

End Maintenance.

(** ** Merged deadline evidence *)

Module EvidenceSpec.

(** The date of an entry as [mergeDeadlineEvidence] compares it. *)
Definition dateKey (ev : DeadlineEvidenceT) : string := TrimSpace (ParsedDateISO ev).

(** The defaults [mergeDeadlineEvidence] fills in are in place. *)
Definition filled (fallbackURL : string) (ev : DeadlineEvidenceT) : Prop :=
  Source ev <> "" /\ Qeq_bool (Confidence ev) 0 = false /\
  (fallbackURL <> "" -> URL ev <> "").

(** [Format(time.RFC3339)] yields text without white space around it. *)
Definition formatsTrimmed `{GoRuntime} : Prop :=
  forall t, TrimSpace (time_FormatRFC3339 t) = time_FormatRFC3339 t.

End EvidenceSpec.

(** ** What the enrichment may change *)

Module EnrichmentSpec.

(** A value that is set is left as it is. *)
Definition kept {A} (old new : option A) : Prop := is_Some old -> new = old.

(** A date that is set stays set and does not move later. *)
Definition notLater (old new : option Time) : Prop :=
  forall t, old = Some t -> exists t', new = Some t' /\ unixNano t' <= unixNano t.

End EnrichmentSpec.

(** ** Days of the month over an era *)

Module MonthDays.

Import GoTimeModel.

(** The day [civil_from_days] computes for a day of an era exists in its
    month; [y] is the year within the era. *)
Definition dayInMonthOK (doe : Z) : bool :=
  let '(y, m, d) := civil_from_days (doe - 719468) in
  (1 <=? d) && (d <=? daysIn m y).

(** A byte is the decimal digit [v]. *)
Definition digitChar (c : ascii) (v : Z) : Prop := byte_of c = 48 + v /\ 0 <= v <= 9.

(** [t] cut to whole seconds, in UTC. *)
Definition wholeSeconds (t : Time) : Time :=
  mkTime (unixNano t / nanosPerSecond * nanosPerSecond) 0.

End MonthDays.

(** ** The order of extracted evidence *)

Module ExtractionSpec.

Import DeadlineExtractor.

(** The instant of [x] is not after the instant of [y], as the sort of
    [parseDeadlineEvidenceFromText] reads them. *)
Definition notAfterISO `{GoRuntime} (x y : DeadlineEvidenceT) : Prop :=
  unixNano (isoTime (ParsedDateISO x)) <= unixNano (isoTime (ParsedDateISO y)).

(** An entry as the extractor builds it for the given arguments. *)
Definition extractedWith (source sourceURL : string) (defaultConfidence : Q)
    (ev : DeadlineEvidenceT) : Prop :=
  Source ev = source /\ URL ev = sourceURL /\ Confidence ev = defaultConfidence /\
  (Label ev = "deadline" \/ Label ev ∈ deadlineLabelHints) /\
  TrimSpace (Snippet ev) = Snippet ev.

End ExtractionSpec.

(** ** The tokens of a text *)

Module TokenSpec.

Import DeadlineExtractor.

(** The instant the token of match [m] stands for; [m] carries the number
    of its pattern, its number among the matches of the pattern and its
    bounds in the text. *)
Definition tokenInstant `{GoRuntime} `{TimeZones}
    (order : nat -> nat -> nat -> list (string * string)) (text sourceURL : string)
    (m : nat * nat * (nat * nat)) : option Time :=
  tokenTime (order (fst (fst m)) (snd (fst m)))
    (TrimSpace (slice text (fst (snd m)) (snd (snd m)))) sourceURL.

End TokenSpec.

(** ** A save without services *)

Module SaveExamples.

Import Pipeline Examples.

(** No stored row is consulted, no model is called and the page of the
    opportunity cannot be fetched: the opportunity reaches the check of
    [source_id] as it is and the enrichment leaves it as it is. *)
Definition offlineEnv : PipelineEnv :=
  {| augment := fun _ opp => opp; applyEvidenceEnrichment := fun opp => opp |}.

(** The Grants.gov opportunity of the examples with its key. *)
Definition grantsGovSaved : Opportunity :=
  set_SourceID "HHS-NIH-123" (set_SourceDomain "grants.gov" (grantsGovDetailOpp at_2026_02_01)).

End SaveExamples.

(** ** What [ExtractCandidates] reports *)

Module CandidatesSpec.

(** The values [SourceStatusRaw] and [StatusConfidence] can take. *)
Definition adapterStatuses : list string :=
  [ ""; "closed"; "results"; "open"; "calendar_discovery_only" ].

Definition adapterConfidences : list Q := [ 0.3%Q; 0.4%Q; 0.7%Q; 0.8%Q; 0.95%Q ].

(** An evidence entry read from the page or from an attachment of [url]. *)
Definition fromPageOrAttachment (url : string) (ev : DeadlineEvidenceT) : Prop :=
  URL ev = url /\
  ((Source ev = "html" /\ Confidence ev = 0.8%Q) \/
   (Source ev = "pdf" /\ Confidence ev = 0.85%Q)).

End CandidatesSpec.

(** ** Words *)

Module WordSpec.

(** No byte of [s] is white space. *)
Fixpoint noSpace (s : string) : bool :=
  match s with
  | EmptyString => true
  | String c s' => negb (isSpace c) && noSpace s'
  end.

(** A field as [strings.Fields] returns them. *)
Definition isWord (w : string) : Prop := w <> "" /\ noSpace w = true.

(** Every white-space byte of [s] is a single space. *)
Fixpoint spacesOnly (s : string) : bool :=
  match s with
  | EmptyString => true
  | String c s' => (negb (isSpace c) || Ascii.eqb c " ") && spacesOnly s'
  end.

End WordSpec.

(** ** The domain of a URL (pipeline.go) *)

Module Domains.

(** The loop of [findSubstring] from [i] on, [fuel] iterations being left. *)
Fixpoint findLoop (fuel i : nat) (s substr : string) : Z :=
  match fuel with
  | O => -1
  | S fuel' =>
      if String.eqb (slice s i (i + String.length substr)) substr then Z.of_nat i
      else findLoop fuel' (S i) s substr
  end.

(** [findSubstring]: [i] runs from 0 to [len(s)-len(substr)]. *)
Definition findSubstring (s substr : string) : Z :=
  if (String.length substr <=? String.length s)%nat
  then findLoop (S (String.length s - String.length substr)) 0 s substr
  else -1.

(** [extractDomain]. *)
Definition extractDomain (url : string) : string :=
  let u := url in
  let idx := findSubstring u "://" in
  let u := if 0 <=? idx then sliceFrom u (Z.to_nat idx + 3) else u in
  let idx := findSubstring u "/" in
  if 0 <=? idx then slice u 0 (Z.to_nat idx) else u.

End Domains.

(* ===================================================================== *)
(** * Properties *)
(* ===================================================================== *)

Import Examples.

(** ** The selection of [next_deadline_at] *)

Section PickNextDeadline.
Context `{GoRuntime}.

Lemma fold_deadlineStep (ds : list string) (acc : list Time) :
  fold_left deadlineStep ds acc = acc ++ omap parsedUTC ds.
Proof.
  revert acc. induction ds as [|raw ds IH]; intros acc; simpl.
  - by rewrite app_nil_r.
  - rewrite IH. unfold deadlineStep, parsedUTC.
    destruct (parseDeadlineCandidate raw); simpl; [|done].
    by rewrite <- app_assoc.
Qed.

Lemma fold_evidenceStep now (evs : list DeadlineEvidenceT) (c : list Time) (b : option Time) :
  fold_left (evidenceStep now) evs (c, b) =
  (c ++ omap (fun ev => parsedUTC (ParsedDateISO ev)) evs,
   fold_left minStep
     (omap (fun ev =>
          match parseDeadlineCandidate (ParsedDateISO ev) with
          | Some t =>
              if isCloseLike (evidenceLabel ev) && negb (isStartLike (evidenceLabel ev)) && After t now
              then Some (UTC t) else None
          | None => None
          end) evs) b).
Proof.
  revert c b. induction evs as [|ev evs IH]; intros c b; cbn [fold_left omap list_omap].
  - by rewrite app_nil_r.
  - unfold evidenceStep at 2, parsedUTC, evidenceLabel.
    destruct (parseDeadlineCandidate (ParsedDateISO ev)) as [t|]; cbn [fmap option_fmap option_map];
      [|by rewrite IH].
    destruct (isCloseLike _ && negb (isStartLike _) && After t now); cbn [fold_left].
    + destruct b as [b|]; cbn [minStep].
      * destruct (Before (UTC t) b); rewrite IH; by rewrite <- app_assoc.
      * rewrite IH. by rewrite <- app_assoc.
    + rewrite IH. by rewrite <- app_assoc.
Qed.

Lemma fold_bestStep now (cs : list Time) (b : option Time) :
  fold_left (bestStep now) cs b = fold_left minStep (filter (fun t => After t now) cs) b.
Proof.
  revert b. induction cs as [|t cs IH]; intros b; cbn [fold_left]; [done|].
  rewrite filter_cons. unfold bestStep at 2.
  destruct (After t now) eqn:E; cbn [negb].
  - case_decide; [|done]. cbn [fold_left]. apply IH.
  - case_decide; [done|]. apply IH.
Qed.

Lemma fold_minStep_some (l : list Time) (b : Time) :
  exists t, fold_left minStep l (Some b) = Some t /\ earliest (b :: l) t.
Proof.
  revert b. induction l as [|x l IH]; intros b; simpl.
  - exists b. split; [done|]. split; [by left|].
    intros u Hu. apply list_elem_of_singleton in Hu as ->. lia.
  - unfold Before. destruct (unixNano x <? unixNano b) eqn:E.
    + apply Z.ltb_lt in E. destruct (IH x) as (t & -> & Hin & Hmin).
      exists t. split; [done|]. split.
      * right. done.
      * intros u Hu. apply elem_of_cons in Hu as [->|Hu].
        -- specialize (Hmin x ltac:(by left)). lia.
        -- by apply Hmin.
    + apply Z.ltb_ge in E. destruct (IH b) as (t & -> & Hin & Hmin).
      exists t. split; [done|]. split.
      * apply elem_of_cons in Hin as [->|Hin]; [by left|by do 2 right].
      * intros u Hu. apply elem_of_cons in Hu as [->|Hu]; [by apply Hmin; left|].
        apply elem_of_cons in Hu as [->|Hu].
        -- specialize (Hmin b ltac:(by left)). lia.
        -- apply Hmin. by right.
Qed.

Lemma fold_minStep_none (l : list Time) :
  match l with
  | [] => fold_left minStep l None = None
  | _ :: _ => exists t, fold_left minStep l None = Some t /\ earliest l t
  end.
Proof.
  destruct l as [|x l]; [done|]. simpl. apply fold_minStep_some.
Qed.

Lemma pickNextDeadline_unfold (opp : Opportunity) (now : Time) :
  pickNextDeadline opp now =
  match fold_left minStep (labeledClose codeCloseLike opp now) None with
  | Some t => Some t
  | None =>
      match fold_left minStep (filter (fun t => After t now) (allCandidates opp)) None with
      | Some best => Some best
      | None => UTC <$> NextDeadlineAt opp
      end
  end.
Proof.
  unfold pickNextDeadline, labeledClose, codeCloseLike, allCandidates.
  rewrite fold_deadlineStep, fold_evidenceStep.
  match goal with |- context [fold_left minStep ?l None] => destruct (fold_left minStep l None) end;
    [done|].
  rewrite <- fold_bestStep.
  destruct (NextDeadlineAt opp), (DeadlineAt opp); cbn [option_to_list fmap option_fmap option_map];
    rewrite <- ?app_assoc, ?app_nil_r; cbn [app]; try done.

Qed.

Lemma pickNextDeadline_selects (opp : Opportunity) (now : Time) :
  selects codeCloseLike opp now (pickNextDeadline opp now).
Proof.
  rewrite pickNextDeadline_unfold. unfold selects.
  pose proof (fold_minStep_none (labeledClose codeCloseLike opp now)) as HL.
  destruct (labeledClose codeCloseLike opp now) as [|l0 L].
  - rewrite HL.
    pose proof (fold_minStep_none (filter (fun t => After t now) (allCandidates opp))) as HF.
    destruct (filter (fun t => After t now) (allCandidates opp)) as [|f0 F].
    + by rewrite HF.
    + destruct HF as (t & -> & Ht). exists t. split; [reflexivity|exact Ht].
  - destruct HL as (t & -> & Ht). exists t. split; [reflexivity|exact Ht].
Qed.

End PickNextDeadline.


Lemma labeledClose_ext `{GoRuntime} (f g : string -> bool) opp now :
  (forall ev, ev ∈ DeadlineEvidence opp -> f (evidenceLabel ev) = g (evidenceLabel ev)) ->
  labeledClose f opp now = labeledClose g opp now.
Proof.
  unfold labeledClose. induction (DeadlineEvidence opp) as [|ev evs IH]; intros Hfg; [done|].
  cbn [omap list_omap]. rewrite (Hfg ev) by (by left).
  rewrite IH; [done|]. intros ev' Hev'. apply Hfg. by right.
Qed.

Lemma selects_ext `{GoRuntime} (f g : string -> bool) opp now r :
  labeledClose f opp now = labeledClose g opp now ->
  selects f opp now r -> selects g opp now r.
Proof. unfold selects. by intros ->. Qed.

Lemma amended_code_closeLike (label : string) :
  Contains label "fecha máxima" = false ->
  codeCloseLike label = amendedCloseLike label.
Proof.
  intros Hf. unfold codeCloseLike, amendedCloseLike, claimedCloseLike, isCloseLike.
  rewrite Hf. by rewrite orb_false_r.
Qed.

(** C3. [pickNextDeadline] returns the earliest date strictly after [now]
    among the evidence entries whose label and snippet are close-like
    (cierre, deadline, closes, submission, or postul) and not start-like, if
    there is one; otherwise the earliest candidate strictly after [now]
    among the deadlines, the evidence, the stored next_deadline_at and
    deadline_at; otherwise the stored next_deadline_at; otherwise nothing.
    This is stated for evidence that does not hold "fecha máxima", the one
    hint of the list that the function does not look for. *)
Theorem next_deadline_selection `{GoRuntime} (opp : Opportunity) (now : Time) :
  (forall ev, ev ∈ DeadlineEvidence opp ->
     Contains (evidenceLabel ev) "fecha máxima" = false) ->
  selects amendedCloseLike opp now (pickNextDeadline opp now).
Proof.
  intros Hno. apply (selects_ext codeCloseLike).
  - apply labeledClose_ext. intros ev Hev. by apply amended_code_closeLike, Hno.
  - apply pickNextDeadline_selects.
Qed.

(** C3, as claimed: an entry labelled "deadline" whose snippet speaks of
    the opening is close-like for the claim, but the function skips every
    start-like entry and returns an earlier plain candidate. *)
Lemma next_deadline_claimed_fails :
  ~ (forall (rt : GoRuntime) (opp : Opportunity) (now : Time),
       selects claimedCloseLike opp now (pickNextDeadline opp now)).
Proof.
  intros Hc. specialize (Hc plainRuntime startLikeDeadlineOpp at_2026_02_01).
  unfold selects in Hc.
  assert (E : labeledClose (H := plainRuntime) claimedCloseLike startLikeDeadlineOpp at_2026_02_01
              = [GoTimeModel.Date 2026 3 1 23 59 59 0 0]) by (vm_compute; reflexivity).
  assert (E' : pickNextDeadline (H := plainRuntime) startLikeDeadlineOpp at_2026_02_01
              = Some (GoTimeModel.Date 2026 2 15 23 59 59 0 0)) by (vm_compute; reflexivity).
  rewrite E, E' in Hc. 
  destruct Hc as (t & Heq & Hin & _).
  injection Heq as <-. 
  apply list_elem_of_singleton in Hin. 
  discriminate Hin.
Qed.

Lemma labeledCloseOpp_no_fecha_maxima (ev : DeadlineEvidenceT) :
  ev ∈ DeadlineEvidence labeledCloseOpp ->
  Contains (evidenceLabel ev) "fecha máxima" = false.
Proof.
  intros Hev.
  repeat (apply elem_of_cons in Hev as [->|Hev]; [vm_compute; reflexivity|]).
  by apply elem_of_nil in Hev.
Qed.

(** C3, the example: with evidence "inicio de postulaciones" on 2026-02-10,
    "cierre de postulaciones" on 2026-02-20 and "deadline" on 2026-03-01, at
    2026-02-01 the selection is 2026-02-20T23:59:59Z. *)
Lemma next_deadline_labeled_close_example :
  pickNextDeadline (H := plainRuntime) labeledCloseOpp at_2026_02_01 = Some at_2026_02_20_eod.
Proof.
  pose proof (next_deadline_selection (H := plainRuntime) labeledCloseOpp at_2026_02_01
                labeledCloseOpp_no_fecha_maxima) as Hsel.
  unfold selects in Hsel.
  assert (E : labeledClose (H := plainRuntime) amendedCloseLike labeledCloseOpp at_2026_02_01
              = [at_2026_02_20_eod; GoTimeModel.Date 2026 3 1 23 59 59 0 0])
    by (vm_compute; reflexivity).
  rewrite E in Hsel. clear E.
  destruct Hsel as (t & Heq & Hin & Hmin).
  rewrite Heq. clear Heq. f_equal.
  apply elem_of_cons in Hin as [Hin|Hin]; [exact Hin|].
  apply list_elem_of_singleton in Hin.
  specialize (Hmin at_2026_02_20_eod ltac:(left)).
  exfalso. subst t. revert Hmin. vm_compute. intros Hmin. apply Hmin. reflexivity.
Defined.

(** ** The decision is a function of its inputs; the returned deadline *)

Section Decision.
Context `{GoRuntime}.

Lemma decision_next_deadline (opp : Opportunity) (now : Time) (t : Time) :
  dNextDeadlineAt (ComputeStatusDecision opp now) = Some t ->
  pickNextDeadline opp (UTC now) = Some t.
Proof.
  unfold ComputeStatusDecision. cbv zeta.
  repeat match goal with
         | |- context [if ?c then _ else _] => destruct c
         end; cbn [dNextDeadlineAt]; try done.
Qed.

Lemma labeledClose_future (f : string -> bool) opp now t :
  t ∈ labeledClose f opp now -> After t now = true.
Proof.
  unfold labeledClose. intros Hin. apply list_elem_of_omap in Hin as (ev & _ & Hev).
  destruct (parseDeadlineCandidate (ParsedDateISO ev)) as [u|]; [|done].
  destruct (f (evidenceLabel ev)); [|done]. cbn [andb] in Hev.
  destruct (After u now) eqn:E; [|done]. by injection Hev as <-.
Qed.

Lemma pickNextDeadline_future_or_stored (opp : Opportunity) (now t : Time) :
  pickNextDeadline opp now = Some t ->
  After t now = true \/
  ((UTC <$> NextDeadlineAt opp) = Some t /\
   filter (fun u => After u now) (allCandidates opp) = []).
Proof.
  intros Hp. pose proof (pickNextDeadline_selects opp now) as Hsel.
  rewrite Hp in Hsel. unfold selects in Hsel.
  destruct (labeledClose codeCloseLike opp now) as [|l0 L] eqn:EL.
  - destruct (filter (fun u => After u now) (allCandidates opp)) as [|f0 F] eqn:EF.
    + right. by split.
    + left. destruct Hsel as (u & Hu & Hin & _). injection Hu as ->.
      rewrite <- EF in Hin. apply list_elem_of_filter in Hin as [Hafter _].
      by apply Is_true_true.
  - left. destruct Hsel as (u & Hu & Hin & _). injection Hu as ->.
    rewrite <- EL in Hin. by apply labeledClose_future in Hin.
Qed.

(** C4. [ComputeStatusDecision] is a function of the opportunity and of the
    instant; a next_deadline_at it returns is strictly after [now], or it is
    the stored next_deadline_at, returned as it is when no candidate is
    after [now]. *)
Theorem decision_pure_and_deadline_bound (opp : Opportunity) (now : Time) :
  (forall opp' now', opp' = opp -> unixNano now' = unixNano now ->
     ComputeStatusDecision opp' now' = ComputeStatusDecision opp now) /\
  (forall t, dNextDeadlineAt (ComputeStatusDecision opp now) = Some t ->
     After t now = true \/
     ((UTC <$> NextDeadlineAt opp) = Some t /\
      filter (fun u => After u now) (allCandidates opp) = [])).
Proof.
  split.
  - intros opp' now' -> Hnow. unfold ComputeStatusDecision, UTC. by rewrite Hnow.
  - intros t Ht. apply decision_next_deadline in Ht.
    apply pickNextDeadline_future_or_stored in Ht. exact Ht.
Qed.

End Decision.

(** C4, as claimed: a stored next_deadline_at of 2026-01-15 is returned at
    2026-02-01, although it is past. *)
Lemma deadline_bound_claimed_fails :
  ~ (forall (rt : GoRuntime) (opp : Opportunity) (now t : Time),
       dNextDeadlineAt (ComputeStatusDecision opp now) = Some t -> After t now = true).
Proof.
  intros Hc.
  specialize (Hc plainRuntime staleNextDeadlineOpp at_2026_02_01
                (GoTimeModel.Date 2026 1 15 23 59 59 0 0)).
  assert (E : dNextDeadlineAt (ComputeStatusDecision (H := plainRuntime) staleNextDeadlineOpp at_2026_02_01)
              = Some (GoTimeModel.Date 2026 1 15 23 59 59 0 0)) by (vm_compute; reflexivity).
  specialize (Hc E). revert Hc. vm_compute. discriminate.
Qed.

(** ** Facts about the string functions *)

Section StringFacts.

Lemma append_String (c : ascii) (a b : string) : String c a +:+ b = String c (a +:+ b).
Proof. reflexivity. Qed.

Lemma append_empty (b : string) : "" +:+ b = b.
Proof. reflexivity. Qed.

Lemma lowerFrom_app (lead : bool) (a : string) (c : ascii) (b : string) :
  latin1Upper c = false ->
  lowerFrom lead (a +:+ String c b) = lowerFrom lead a +:+ lowerFrom false (String c b).
Proof.
  intros Hc. revert lead. induction a as [|x a IH]; intros lead.
  - rewrite !append_empty. cbn [lowerFrom]. rewrite Hc, andb_false_r. reflexivity.
  - rewrite append_String. cbn [lowerFrom].
    destruct (lead && latin1Upper x); rewrite IH, append_String; reflexivity.
Qed.

Lemma ToLower_join2 (a rest : string) :
  ToLower (a +:+ sep +:+ rest) = ToLower a +:+ sep +:+ ToLower rest.
Proof.
  unfold ToLower, sep. rewrite !append_String, append_empty.
  rewrite lowerFrom_app by reflexivity. reflexivity.
Qed.

Lemma HasPrefix_empty (s : string) : HasPrefix s "" = true.
Proof. by destruct s. Qed.

Lemma Contains_empty (s : string) : Contains s "" = true.
Proof. destruct s; cbn [Contains]; by rewrite HasPrefix_empty. Qed.

Lemma noLineFeedNoSpaceEnd_tail (c : ascii) (kw : string) :
  noLineFeedNoSpaceEnd (String c kw) = true -> noLineFeedNoSpaceEnd kw = true.
Proof. cbn [noLineFeedNoSpaceEnd]. intros Hk. by apply andb_true_iff in Hk as [_ Hk]. Qed.

(** A keyword never starts inside the separator when it would have to run
    over the line feed. *)
Lemma HasPrefix_sep (kw y : string) :
  noLineFeedNoSpaceEnd kw = true -> kw <> "" -> HasPrefix (sep +:+ y) kw = false.
Proof.
  intros Hk Hne. destruct kw as [|k kw]; [done|]. clear Hne.
  unfold sep. rewrite !append_String, append_empty. cbn [HasPrefix].
  destruct (Ascii.eqb " " k) eqn:Ek; [|reflexivity]. apply Ascii.eqb_eq in Ek as <-.
  cbn [andb]. destruct kw as [|k' kw]; [by vm_compute in Hk|].
  apply noLineFeedNoSpaceEnd_tail in Hk. cbn [noLineFeedNoSpaceEnd] in Hk.
  apply andb_true_iff in Hk as [Hk _]. apply andb_true_iff in Hk as [Hk _].
  cbn [HasPrefix].
  destruct (Ascii.eqb (ascii_of_byte 10) k') eqn:Ek'; [|reflexivity].
  apply Ascii.eqb_eq in Ek' as <-. by vm_compute in Hk.
Qed.

Lemma HasPrefix_app_sep (x y kw : string) :
  noLineFeedNoSpaceEnd kw = true ->
  HasPrefix (x +:+ sep +:+ y) kw = HasPrefix x kw.
Proof.
  revert kw. induction x as [|c x IH]; intros kw Hk.
  - destruct kw as [|k kw]; [by rewrite !HasPrefix_empty|].
    rewrite append_empty. by rewrite HasPrefix_sep.
  - destruct kw as [|k kw]; [reflexivity|].
    rewrite append_String. cbn [HasPrefix]. rewrite IH; [reflexivity|].
    by apply noLineFeedNoSpaceEnd_tail in Hk.
Qed.

Lemma Contains_app_sep (x y kw : string) :
  noLineFeedNoSpaceEnd kw = true ->
  Contains (x +:+ sep +:+ y) kw = Contains x kw || Contains (sep +:+ y) kw.
Proof.
  intros Hk. induction x as [|c x IH].
  - rewrite append_empty. destruct kw; [by rewrite !Contains_empty|reflexivity].
  - rewrite append_String. cbn [Contains].
    change (String c (x +:+ sep +:+ y)) with (String c x +:+ sep +:+ y).
    rewrite HasPrefix_app_sep by done. rewrite IH. by rewrite orb_assoc.
Qed.

Lemma Contains_sep (y kw : string) :
  separable kw = true -> Contains (sep +:+ y) kw = Contains y kw.
Proof.
  intros Hs. destruct kw as [|k kw]; [done|].
  cbn [separable] in Hs. apply andb_true_iff in Hs as [Hk1 Hk].
  assert (Hk' := Hk). cbn [noLineFeedNoSpaceEnd] in Hk'.
  apply andb_true_iff in Hk' as [Hk' _]. apply andb_true_iff in Hk' as [Hk2 _].
  unfold sep. rewrite !append_String, append_empty. cbn [Contains HasPrefix].
  replace (Ascii.eqb " " k) with false.
  2:{ symmetry. apply Ascii.eqb_neq. intros <-. by vm_compute in Hk1. }
  replace (Ascii.eqb (ascii_of_byte 10) k) with false.
  2:{ symmetry. apply Ascii.eqb_neq. intros <-. by vm_compute in Hk2. }
  reflexivity.
Qed.

Lemma Contains_join2 (x y kw : string) :
  separable kw = true ->
  Contains (x +:+ sep +:+ y) kw = Contains x kw || Contains y kw.
Proof.
  intros Hs. rewrite Contains_app_sep, Contains_sep; [reflexivity|done|].
  destruct kw; [done|]. cbn [separable] in Hs. by apply andb_true_iff in Hs as [_ Hs].
Qed.

Lemma containsAny_join2 (x y : string) (kws : list string) :
  forallb separable kws = true ->
  containsAny (x +:+ sep +:+ y) kws = containsAny x kws || containsAny y kws.
Proof.
  unfold containsAny. induction kws as [|kw kws IH]; intros Hs; [reflexivity|].
  cbn [forallb] in Hs. apply andb_true_iff in Hs as [Hkw Hs].
  cbn [existsb]. rewrite Contains_join2, IH by done.
  destruct (Contains x kw), (Contains y kw), (existsb (Contains x) kws); reflexivity.
Qed.

End StringFacts.

(** ** The results-page rule *)

Section ResultsPage.
Context `{GoRuntime}.

Lemma resultsKeywords_separable : forallb separable resultsKeywords = true.
Proof. vm_compute. reflexivity. Qed.

Lemma whitelistedStatus_unfold (opp : Opportunity) :
  (String.eqb (ToLower (OppStatus opp)) "posted" || String.eqb (ToLower (OppStatus opp)) "active" ||
   String.eqb (ToLower (OppStatus opp)) "open" || String.eqb (ToLower (OppStatus opp)) "forecasted")
  = whitelistedStatus opp.
Proof.
  unfold whitelistedStatus. cbn [existsb].
  by destruct (String.eqb _ "posted"), (String.eqb _ "active"), (String.eqb _ "open"),
     (String.eqb _ "forecasted").
Qed.

Lemma joined_keywordHit (opp : Opportunity) :
  containsAny (ToLower (Join [Title opp; Summary opp; HTMLToText (Description opp);
                              SourceStatusRaw opp] sep)) resultsKeywords
  = keywordHit opp.
Proof.
  unfold keywordHit, inspectedFields. cbn [Join existsb].
  rewrite !ToLower_join2.
  rewrite !containsAny_join2 by apply resultsKeywords_separable.
  by rewrite orb_false_r, !orb_assoc.
Qed.

Lemma containsAny_false_elem (s : string) (kws : list string) (kw : string) :
  containsAny s kws = false -> kw ∈ kws -> Contains s kw = false.
Proof.
  unfold containsAny. intros Hf Hin.
  destruct (Contains s kw) eqn:E; [|reflexivity].
  rewrite <- Hf. symmetry. apply existsb_exists. exists kw. split; [|done].
  by apply list_elem_of_In.
Qed.

Lemma detectResultsPage_spec (opp : Opportunity) :
  detectResultsPage opp = negb (whitelistedStatus opp) && keywordHit opp.
Proof.
  unfold detectResultsPage. cbv zeta.
  rewrite whitelistedStatus_unfold.
  destruct (whitelistedStatus opp); [reflexivity|]. cbn [negb andb].
  rewrite <- joined_keywordHit.
  destruct (containsAny _ resultsKeywords) eqn:E; [reflexivity|].
  rewrite (containsAny_false_elem _ _ "resultados finales" E) by (vm_compute; set_solver).
  rewrite (containsAny_false_elem _ _ "ganadores" E) by (vm_compute; set_solver).
  by rewrite andb_false_r.
Qed.

End ResultsPage.

Section ResultsRule.
Context `{GoRuntime}.

Lemma decision_results_flag (opp : Opportunity) (now : Time) :
  dIsResultsPage (ComputeStatusDecision opp now) = detectResultsPage opp || IsResultsPage opp.
Proof.
  unfold ComputeStatusDecision. cbv zeta.
  destruct (detectResultsPage opp || IsResultsPage opp); [reflexivity|].
  repeat match goal with
         | |- context [if ?c then _ else _] => destruct c
         end; reflexivity.
Qed.

Lemma decision_results_classified (opp : Opportunity) (now : Time) :
  resultsClassified (ComputeStatusDecision opp now) <->
  dIsResultsPage (ComputeStatusDecision opp now) = true.
Proof.
  split; [by intros (_ & _ & _ & Hr)|].
  rewrite decision_results_flag. unfold ComputeStatusDecision. cbv zeta.
  intros ->. by repeat split.
Qed.

Lemma decision_ignores_url (url : string) (opp : Opportunity) (now : Time) :
  ComputeStatusDecision (set_ExternalURL url opp) now = ComputeStatusDecision opp now.
Proof. reflexivity. Qed.

Lemma grantsGov_pick (now : Time) :
  pickNextDeadline (grantsGovDetailOpp now) (UTC now)
  = Some (mkTime (unixNano now + 30 * 86400 * GoTimeModel.nanosPerSecond) 0).
Proof.
  unfold pickNextDeadline, grantsGovDetailOpp.
  cbn [Deadlines DeadlineEvidence NextDeadlineAt DeadlineAt set_DeadlineAt set_OppStatus
       set_ExternalURL emptyOpportunity fold_left app UTC unixNano].
  unfold bestStep, After. cbn [UTC unixNano].
  replace (unixNano now <? unixNano now + 30 * 86400 * GoTimeModel.nanosPerSecond) with true.
  - reflexivity.
  - symmetry. apply Z.ltb_lt. unfold GoTimeModel.nanosPerSecond. lia.
Qed.

Lemma grantsGov_open (now : Time) :
  dNormalizedStatus (ComputeStatusDecision (grantsGovDetailOpp now) now) = "open".
Proof.
  unfold ComputeStatusDecision. cbv zeta.
  rewrite detectResultsPage_spec, grantsGov_pick.
  replace (whitelistedStatus (grantsGovDetailOpp now)) with true by (vm_compute; reflexivity).
  replace (IsResultsPage (grantsGovDetailOpp now)) with false by reflexivity.
  replace (mapSourceStatusRaw (SourceStatusRaw (grantsGovDetailOpp now))) with ""
    by (vm_compute; reflexivity).
  replace (mapSourceStatusRaw (OppStatus (grantsGovDetailOpp now))) with "open"
    by (vm_compute; reflexivity).
  replace (OpenAt (grantsGovDetailOpp now)) with (@None Time) by reflexivity.
  replace (IsRolling (grantsGovDetailOpp now)) with false by reflexivity.
  cbn [negb andb orb String.eqb Ascii.eqb Bool.eqb isAfter].
  destruct (detectRollingEvidence (grantsGovDetailOpp now)); [reflexivity|].
  unfold After. cbn [UTC unixNano].
  replace (unixNano now <? unixNano now + 30 * 86400 * GoTimeModel.nanosPerSecond) with true.
  - reflexivity.
  - symmetry. apply Z.ltb_lt. unfold GoTimeModel.nanosPerSecond. lia.
Qed.

(** C2. The engine classifies a record as a results page (closed,
    results_page, confidence 0.99) exactly when its input flag
    is_results_page is set, or one of title, summary, description and
    source_status_raw holds a results keyword and opp_status is not one of
    posted, active, open, forecasted; the flag of the decision says the
    same; the external URL is not read; the grants.gov record with a
    results-detail URL, opp_status posted and a deadline ahead is open. *)
Theorem results_page_rule (opp : Opportunity) (now : Time) :
  (resultsClassified (ComputeStatusDecision opp now) <->
   IsResultsPage opp = true \/ (keywordHit opp = true /\ whitelistedStatus opp = false)) /\
  (dIsResultsPage (ComputeStatusDecision opp now) = true <->
   resultsClassified (ComputeStatusDecision opp now)) /\
  (forall url, ComputeStatusDecision (set_ExternalURL url opp) now =
               ComputeStatusDecision opp now) /\
  dNormalizedStatus (ComputeStatusDecision (grantsGovDetailOpp now) now) = "open".
Proof.
  split; [|split; [|split]].
  - rewrite decision_results_classified, decision_results_flag, detectResultsPage_spec.
    destruct (whitelistedStatus opp), (keywordHit opp), (IsResultsPage opp); cbn; intuition congruence.
  - symmetry. apply decision_results_classified.
  - intros url. apply decision_ignores_url.
  - apply grantsGov_open.
Qed.

End ResultsRule.

(** C2, as claimed: a record without any keyword whose flag is_results_page
    is set is classified as a results page. *)
Lemma results_page_claimed_fails :
  ~ (forall (rt : GoRuntime) (opp : Opportunity) (now : Time),
       resultsClassified (ComputeStatusDecision opp now) <->
       keywordHit opp = true /\ whitelistedStatus opp = false).
Proof.
  intros Hc. specialize (Hc plainRuntime flaggedResultsOpp at_2026_02_01).
  destruct Hc as [Hc _].
  assert (Hk : keywordHit (H := plainRuntime) flaggedResultsOpp = false) by (vm_compute; reflexivity).
  rewrite Hk in Hc. destruct Hc as [Hc _]; [|discriminate Hc].
  vm_compute. repeat split.
Qed.

(** ** The status pass of the normalizer *)

Section StatusPass.
Context `{GoRuntime}.

(** C10. The status pass overwrites opp_status with the decision when the
    decision is closed or archived, and otherwise replaces an empty or
    unknown opp_status by posted; it stores the decision in
    normalized_status, status_reason, status_confidence, next_deadline_at
    and is_results_page, and leaves every other field of the opportunity
    as it was. *)
Theorem update_status_frame (now : Time) (opp : Opportunity) :
  let decision := ComputeStatusDecision opp now in
  let opp' := UpdateStatus now opp in
  OppStatus opp' =
    (if String.eqb (dNormalizedStatus decision) "closed" ||
        String.eqb (dNormalizedStatus decision) "archived"
     then dNormalizedStatus decision
     else if String.eqb (OppStatus opp) "" || String.eqb (OppStatus opp) "unknown"
     then "posted"
     else OppStatus opp) /\
  NormalizedStatus opp' = dNormalizedStatus decision /\
  StatusReason opp' = dStatusReason decision /\
  StatusConfidence opp' = dStatusConfidence decision /\
  NextDeadlineAt opp' = dNextDeadlineAt decision /\
  IsResultsPage opp' = dIsResultsPage decision /\
  agreeOutsideStatus opp' opp.
Proof.
  cbv zeta. unfold UpdateStatus. cbv zeta.
  set (decision := ComputeStatusDecision opp now). clearbody decision.
  cbn [OppStatus set_IsResultsPage set_NextDeadlineAt set_StatusConfidence set_StatusReason
       set_NormalizedStatus].
  destruct (String.eqb (dNormalizedStatus decision) "closed" ||
            String.eqb (dNormalizedStatus decision) "archived");
    [|destruct (String.eqb (OppStatus opp) "" || String.eqb (OppStatus opp) "unknown")];
    (split; [reflexivity|]); repeat (split; [reflexivity|]); unfold agreeOutsideStatus;
    repeat split.
Qed.

End StatusPass.

(** ** Re-upserts of the same key *)

Section Upsert.

Import Db Pipeline UpsertSpec.

Lemma trigger_key (now : Time) (r : Row) :
  key (update_opportunity_status_on_deadline now r) = key r.
Proof. unfold update_opportunity_status_on_deadline. by destruct (holds _). Qed.

Lemma trigger_confidence (now : Time) (r : Row) :
  status_confidence (update_opportunity_status_on_deadline now r) = status_confidence r.
Proof. unfold update_opportunity_status_on_deadline. by destruct (holds _). Qed.

Lemma trigger_deadline (now : Time) (r : Row) :
  deadline_at (update_opportunity_status_on_deadline now r) = deadline_at r.
Proof. unfold update_opportunity_status_on_deadline. by destruct (holds _). Qed.

Lemma on_conflict_key (now : Time) (old excluded : Row) :
  key (on_conflict_update now old excluded) = key old.
Proof. reflexivity. Qed.

(** What a write leaves under its key. *)
Lemma upsert_lookup (now : Time) (tbl : Table) (r : Row) :
  upsert now tbl r !! key r =
  Some (match tbl !! key r with
        | None => update_opportunity_status_on_deadline now r
        | Some old =>
            update_opportunity_status_on_deadline now
              (on_conflict_update now old (update_opportunity_status_on_deadline now r))
        end).
Proof.
  unfold upsert. cbv zeta. rewrite trigger_key.
  destruct (tbl !! key r); by rewrite lookup_insert_eq.
Qed.

Lemma upsert_lookup_ne (now : Time) (tbl : Table) (r : Row) (k : string * string) :
  k <> key r -> upsert now tbl r !! k = tbl !! k.
Proof.
  intros Hk. unfold upsert. cbv zeta. rewrite trigger_key.
  destruct (tbl !! key r); by rewrite lookup_insert_ne.
Qed.

Lemma GREATEST_ge_l (a b : Q) : (a <= GREATEST a b)%Q.
Proof.
  unfold GREATEST. destruct (Qle_bool a b) eqn:E.
  - by apply Qle_bool_iff.
  - apply Qle_refl.
Qed.

Lemma GREATEST_ge_r (a b : Q) : (b <= GREATEST a b)%Q.
Proof.
  unfold GREATEST. destruct (Qle_bool a b) eqn:E.
  - apply Qle_refl.
  - apply Qlt_le_weak, Qnot_le_lt. intros Hle. apply Qle_bool_iff in Hle. congruence.
Qed.

Lemma GREATEST_cases (a b : Q) : GREATEST a b = a \/ GREATEST a b = b.
Proof. unfold GREATEST. destruct (Qle_bool a b); auto. Qed.

(** One write: the stored confidence is the greater of the two. *)
Lemma upsert_confidence (now : Time) (tbl : Table) (r : Row) :
  exists new, upsert now tbl r !! key r = Some new /\
    status_confidence new =
      match tbl !! key r with
      | None => status_confidence r
      | Some old => GREATEST (status_confidence r) (status_confidence old)
      end.
Proof.
  rewrite upsert_lookup. eexists. split; [reflexivity|].
  destruct (tbl !! key r); rewrite !trigger_confidence; [|reflexivity].
  cbn [on_conflict_update status_confidence]. by rewrite trigger_confidence.
Qed.

(** A run of writes on a stored row: the confidence only grows, bounds
    every written confidence, and is the stored one or a written one. *)
Lemma upserts_confidence (k : string * string) (writes : list (Time * Row)) :
  forall (tbl : Table) (old : Row),
  tbl !! k = Some old ->
  (forall w, w ∈ writes -> key (snd w) = k) ->
  exists new, upserts tbl writes !! k = Some new /\
    (status_confidence old <= status_confidence new)%Q /\
    (forall c, c ∈ confidences writes -> (c <= status_confidence new)%Q) /\
    (status_confidence new = status_confidence old \/
     status_confidence new ∈ confidences writes).
Proof.
  induction writes as [|[now r] writes IH]; intros tbl old Hold Hkeys.
  - exists old. cbn. split; [done|]. split; [apply Qle_refl|].
    split; [|by left]. intros c Hc. by apply elem_of_nil in Hc.
  - assert (Hk : key r = k) by (apply (Hkeys (now, r)); by left).
    destruct (upsert_confidence now tbl r) as (mid & Hmid & Hconf).
    rewrite Hk, Hold in Hconf. rewrite Hk in Hmid.
    destruct (IH (upsert now tbl r) mid Hmid) as (new & Hnew & Hge & Hall & Hin).
    { intros w Hw. apply Hkeys. by right. }
    exists new. split; [exact Hnew|]. rewrite Hconf in Hge.
    split; [|split].
    + eapply Qle_trans; [apply GREATEST_ge_r|exact Hge].
    + intros c Hc. unfold confidences in Hc. rewrite fmap_cons in Hc.
      apply elem_of_cons in Hc as [->|Hc]; [|by apply Hall].
      cbn [snd]. eapply Qle_trans; [apply GREATEST_ge_l|exact Hge].
    + unfold confidences. rewrite fmap_cons. cbn [snd].
      destruct Hin as [Hin|Hin]; [|by right; right].
      rewrite Hin, Hconf.
      destruct (GREATEST_cases (status_confidence r) (status_confidence old)) as [->| ->];
        [right; by left|by left].
Qed.

End Upsert.

Section UpsertStatus.

Import Db Pipeline UpsertSpec.

Lemma isProtected_cases (s : option string) :
  isProtected s = true ->
  s = Some "closed" \/ s = Some "archived" \/ s = Some "funded".
Proof.
  destruct s as [v|]; [|done]. unfold isProtected, sql_in, holds. cbn [fmap option_fmap option_map existsb].
  destruct (String.eqb v "closed") eqn:E1; [apply String.eqb_eq in E1 as ->; auto|].
  destruct (String.eqb v "archived") eqn:E2; [apply String.eqb_eq in E2 as ->; auto|].
  destruct (String.eqb v "funded") eqn:E3; [apply String.eqb_eq in E3 as ->; auto|].
  done.
Qed.

(** The trigger leaves a protected status alone. *)
Lemma trigger_protected (now : Time) (r : Row) :
  isProtected (opp_status r) = true ->
  update_opportunity_status_on_deadline now r = r.
Proof.
  intros Hp. unfold update_opportunity_status_on_deadline.
  apply isProtected_cases in Hp as [Hp|[Hp|Hp]]; rewrite Hp;
    by destruct (deadline_at r) as [d|]; cbn; [destruct (unixNano d <? unixNano now)|].
Qed.

(** The trigger on a weak proposed row. *)
Lemma trigger_weak (now : Time) (r : Row) :
  isWeak (opp_status r) ->
  opp_status (update_opportunity_status_on_deadline now r) =
  if closedByTrigger now r then Some "closed" else opp_status r.
Proof.
  intros [Hw|Hw]; unfold update_opportunity_status_on_deadline, closedByTrigger; rewrite Hw.
  - replace (bool_decide (@None string = Some "posted")) with false by reflexivity.
    destruct (deadline_at r) as [d|]; [|exact Hw].
    replace (bool_decide (Some d <> None)) with true by reflexivity.
    cbn. destruct (unixNano d <? unixNano now); exact Hw.
  - replace (bool_decide (Some "posted" = Some "posted")) with true by reflexivity.
    destruct (deadline_at r) as [d|]; [|exact Hw].
    replace (bool_decide (Some d <> None)) with true by reflexivity.
    cbn. destruct (unixNano d <? unixNano now); [reflexivity|exact Hw].
Qed.

(** One weak write on a protected row. *)
Lemma upsert_protected_status (now : Time) (tbl : Table) (r old : Row) :
  tbl !! key r = Some old ->
  isProtected (opp_status old) = true ->
  isWeak (opp_status r) ->
  exists new, upsert now tbl r !! key r = Some new /\
    isProtected (opp_status new) = true /\
    opp_status new = if closedByTrigger now r then Some "closed" else opp_status old.
Proof.
  intros Hold Hp Hw. rewrite upsert_lookup, Hold. eexists. split; [reflexivity|].
  assert (Hm : opp_status (on_conflict_update now old (update_opportunity_status_on_deadline now r))
               = if closedByTrigger now r then Some "closed" else opp_status old).
  { cbn [on_conflict_update opp_status]. rewrite (trigger_weak now r Hw).
    unfold merge_opp_status. fold (isProtected (opp_status old)).
    destruct (closedByTrigger now r).
    - apply isProtected_cases in Hp as [Hp|[Hp|Hp]]; rewrite Hp; reflexivity.
    - apply isProtected_cases in Hp as [Hp|[Hp|Hp]]; rewrite Hp;
        destruct Hw as [Hw|Hw]; rewrite Hw; reflexivity. }
  assert (Hp' : isProtected (opp_status
                  (on_conflict_update now old (update_opportunity_status_on_deadline now r))) = true).
  { rewrite Hm. by destruct (closedByTrigger now r). }
  rewrite (trigger_protected now _ Hp'). split; [exact Hp'|exact Hm].
Qed.

End UpsertStatus.

Section MonotonicTrust.

Import Db Pipeline UpsertSpec.

(** Every successful [SaveOpportunity] is one upsert of a proposed row. *)
Lemma SaveOpportunity_is_upsert `{GoRuntime} `{PipelineEnv} (now dbNow : Time) (tbl tbl' : Table)
    (opp : Opportunity) :
  SaveOpportunity now dbNow tbl opp = Ok tbl' ->
  exists opp', tbl' = upsert dbNow tbl (proposedRow dbNow (finalize now opp')).
Proof.
  unfold SaveOpportunity. cbv zeta.
  destruct (String.eqb (TrimSpace (SourceID (augment tbl opp))) ""); [discriminate|].
  match goal with |- context [finalize now ?o] => set (opp' := o) end.
  destruct (String.eqb (SourceDomain (finalize now opp')) ""); [discriminate|].
  intros Heq. injection Heq as <-. by exists opp'.
Qed.

Lemma upserts_cons (tbl : Table) (w : Time * Row) (writes : list (Time * Row)) :
  upserts tbl (w :: writes) = upserts (upsert (fst w) tbl (snd w)) writes.
Proof. reflexivity. Qed.

(** C1. After any sequence of upserts of one key the stored
    status_confidence is at least the one stored before and at least every
    confidence written, and it is one of those written when the key was
    new. A write whose opp_status is empty or posted leaves a stored
    opp_status of closed, archived or funded in that set: it is unchanged,
    except that a posted write whose deadline is already past is closed by
    the deadline trigger before the conflict is resolved, and closed is
    then what is stored. *)
Theorem reupsert_monotonic_trust (k : string * string) (tbl : Table)
    (writes : list (Time * Row)) :
  (forall w, w ∈ writes -> key (snd w) = k) ->
  (forall old, tbl !! k = Some old ->
     exists new, upserts tbl writes !! k = Some new /\
       (status_confidence old <= status_confidence new)%Q /\
       (forall c, c ∈ confidences writes -> (c <= status_confidence new)%Q)) /\
  (tbl !! k = None -> writes <> [] ->
     exists new, upserts tbl writes !! k = Some new /\
       status_confidence new ∈ confidences writes /\
       (forall c, c ∈ confidences writes -> (c <= status_confidence new)%Q)) /\
  (forall now r old,
     key r = k -> tbl !! k = Some old ->
     isProtected (opp_status old) = true -> isWeak (opp_status r) ->
     exists new, upsert now tbl r !! k = Some new /\
       isProtected (opp_status new) = true /\
       opp_status new = if closedByTrigger now r then Some "closed" else opp_status old).
Proof.
  intros Hkeys. split; [|split].
  - intros old Hold.
    destruct (upserts_confidence k writes tbl old Hold Hkeys) as (new & Hnew & Hge & Hall & _).
    by exists new.
  - intros Hnone Hne. destruct writes as [|[now r] writes]; [done|]. clear Hne.
    assert (Hk : key r = k) by (apply (Hkeys (now, r)); by left).
    rewrite upserts_cons. cbn [fst snd].
    destruct (upsert_confidence now tbl r) as (mid & Hmid & Hconf).
    rewrite Hk, Hnone in Hconf. rewrite Hk in Hmid.
    destruct (upserts_confidence k writes _ mid Hmid) as (new & Hnew & Hge & Hall & Hin).
    { intros w Hw. apply Hkeys. by right. }
    exists new. split; [exact Hnew|]. unfold confidences. rewrite fmap_cons. cbn [snd].
    rewrite Hconf in Hge, Hin. split.
    + destruct Hin as [->|Hin]; [by left|by right].
    + intros c Hc. apply elem_of_cons in Hc as [->|Hc]; [exact Hge|by apply Hall].
  - intros now r old Hk Hold Hp Hw. rewrite <- Hk in Hold |- *.
    by apply upsert_protected_status.
Qed.

End MonotonicTrust.

Import Db Pipeline UpsertSpec.

(** C1, as claimed: over a stored archived row, a posted write with a past
    deadline stores closed. *)
Lemma protected_status_claimed_fails :
  ~ (forall (now : Time) (tbl : Table) (r old : Row),
       tbl !! key r = Some old ->
       isProtected (opp_status old) = true ->
       isWeak (opp_status r) ->
       exists new, upsert now tbl r !! key r = Some new /\ opp_status new = opp_status old).
Proof.
  intros Hc.
  assert (Hstored : upsert at_2026_02_01 ∅ archivedRow !! key postedPastRow = Some archivedRow).
  { change (key postedPastRow) with (key archivedRow).
    rewrite upsert_lookup, lookup_empty. reflexivity. }
  destruct (Hc at_2026_02_01 (upsert at_2026_02_01 ∅ archivedRow) postedPastRow archivedRow
              Hstored eq_refl (or_intror eq_refl)) as (new & Hnew & Hst).
  rewrite upsert_lookup, Hstored in Hnew.
  injection Hnew as <-. revert Hst. vm_compute. discriminate.
Qed.



Lemma exampleWrites_keys (w : Time * Row) : w ∈ exampleWrites -> key (snd w) = exampleKey.
Proof.
  intros Hw. repeat (apply elem_of_cons in Hw as [->|Hw]; [reflexivity|]).
  by apply elem_of_nil in Hw.
Qed.

(** C1, an example: three writes of one new key with confidences 0.93,
    0.99 and 0.4. *)
Lemma reupsert_monotonic_trust_example :
  exists new, upserts ∅ exampleWrites !! exampleKey = Some new /\
    status_confidence new ∈ confidences exampleWrites /\
    (forall c, c ∈ confidences exampleWrites -> (c <= status_confidence new)%Q).
Proof.
  apply (proj1 (proj2 (reupsert_monotonic_trust exampleKey ∅ exampleWrites exampleWrites_keys))).
  - apply lookup_empty.
  - discriminate.
Defined.

(** ** Rolling flags of the stored row *)

Lemma trigger_rolling_evidence (now : Time) (r : Row) :
  rolling_evidence (update_opportunity_status_on_deadline now r) = rolling_evidence r.
Proof. unfold update_opportunity_status_on_deadline. by destruct (holds _). Qed.

Lemma trigger_is_rolling (now : Time) (r : Row) :
  is_rolling (update_opportunity_status_on_deadline now r) = is_rolling r.
Proof. unfold update_opportunity_status_on_deadline. by destruct (holds _). Qed.

Section Rolling.
Context `{GoRuntime}.

(** The row [SaveOpportunity] proposes never claims rolling without
    evidence. *)
Lemma proposedRow_rolling (now dbNow : Time) (opp : Opportunity) :
  rolling_evidence (proposedRow dbNow (finalize now opp)) = false ->
  is_rolling (proposedRow dbNow (finalize now opp)) = Some false.
Proof.
  cbn [proposedRow rolling_evidence is_rolling]. unfold finalize. cbv zeta.
  match goal with |- context [if negb (RollingEvidence ?o) then _ else _] => set (opp' := o) end.
  destruct (RollingEvidence opp') eqn:E; cbn [negb]; [by rewrite E|reflexivity].
Qed.

(** A first write of a key stores the proposed row with its flags. *)
Lemma insert_rolling (now dbNow : Time) (tbl : Table) (opp : Opportunity) (stored : Row) :
  let proposed := proposedRow dbNow (finalize now opp) in
  tbl !! key proposed = None ->
  upsert dbNow tbl proposed !! key proposed = Some stored ->
  rolling_evidence stored = false -> is_rolling stored = Some false.
Proof.
  cbv zeta. intros Hnone Hst. rewrite upsert_lookup, Hnone in Hst.
  apply (inj Some) in Hst. rewrite <- Hst.
  rewrite trigger_rolling_evidence, trigger_is_rolling.
  exact (proposedRow_rolling now dbNow opp).
Qed.

End Rolling.


(** C5. Two writes of one key, the first rolling with evidence, the second
    with neither: the stored row has rolling_evidence false and is_rolling
    true, because the update keeps is_rolling once it was true and replaces
    rolling_evidence. *)
Lemma rolling_flag_survives_lost_evidence :
  exists stored,
    upserts ∅ [(at_2026_02_01, rollingRow); (at_2026_02_01, noLongerRollingRow)]
      !! exampleKey = Some stored /\
    rolling_evidence stored = false /\ is_rolling stored = Some true.
Proof.
  eexists. split.
  - unfold upserts. cbn [fold_left fst snd].
    change exampleKey with (key noLongerRollingRow).
    rewrite upsert_lookup.
    change (key noLongerRollingRow) with (key rollingRow).
    rewrite upsert_lookup, lookup_empty. reflexivity.
  - split; vm_compute; reflexivity.
Qed.

(** ** The address check of the fetcher *)

Section FetcherCheck.

Import Fetcher.

(** C6. The fetcher lets an address of the carrier-grade NAT range
    100.64.0.0/10 through, on the first request and on a redirect; the check
    of the API handler refuses the same address. *)
Lemma fetcher_admits_cgnat :
  inCGNAT cgnatAddress = true /\
  isPrivateIP cgnatAddress = false /\
  isPrivateOrSpecialIP cgnatAddress = true /\
  safeDialContext cgnatResolver "intranet.example.org" = Proceed /\
  safeCheckRedirect cgnatResolver 0 "http" "intranet.example.org" = Proceed.
Proof. repeat split; vm_compute; reflexivity. Qed.

(** The dial does not look at the name: a host called localhost or ending
    in .local is dialled when it resolves to a public address, while a
    redirect to it is refused. *)
Lemma dial_ignores_host_name :
  safeDialContext publicResolver "localhost" = Proceed /\
  safeDialContext publicResolver "printer.local" = Proceed /\
  (exists msg, safeCheckRedirect publicResolver 0 "http" "localhost" = Rejected msg) /\
  (exists msg, safeCheckRedirect publicResolver 0 "http" "printer.local" = Rejected msg).
Proof. repeat split; try (eexists; vm_compute; reflexivity); vm_compute; reflexivity. Qed.

End FetcherCheck.

Section ListedRanges.

Import Fetcher Ranges.











End ListedRanges.

(** ** The open tab of the listing *)

Section OpenTab.

Import GoTime Db Store.

Context `{StoreEnv}.

Lemma holds_and (a b : option bool) :
  holds (sql_and a b) = true <-> holds a = true /\ holds b = true.
Proof. destruct a as [[]|], b as [[]|]; cbn; intuition congruence. Qed.

Lemma holds_or (a b : option bool) :
  holds (sql_or a b) = true <-> holds a = true \/ holds b = true.
Proof. destruct a as [[]|], b as [[]|]; cbn; intuition congruence. Qed.

Lemma holds_ge_time (t : option Time) (now : Time) :
  holds (sql_ge_time t now) = true <-> exists t', t = Some t' /\ unixNano now <= unixNano t'.
Proof.
  destruct t as [t'|]; cbn.
  - destruct (Z.leb_spec (unixNano now) (unixNano t')); split.
    + intros _. exists t'. split; [reflexivity | assumption].
    + reflexivity.
    + discriminate.
    + intros (u & [= <-] & Hu). lia.
  - split; [discriminate | intros (u & Hu & _); discriminate].
Qed.

Lemma buildOpenTabConstraint_spec (now : Time) (row : Row) :
  holds (buildOpenTabConstraint now row) = true <-> openListed now row.
Proof.
  unfold buildOpenTabConstraint, openListed.
  rewrite !holds_and, !holds_or, !holds_ge_time. cbn.
  destruct (String.eqb_spec (normalized_status row) "open") as [-> | Hne];
    destruct (is_results_page row), (rolling_evidence row); cbn;
    intuition congruence.
Qed.

Lemma statusConditions_open (status : string) :
  status = "" \/ status = "open" \/ status = "active" ->
  statusConditions status = [buildOpenTabConstraint].
Proof. intros [-> | [-> | ->]]; reflexivity. Qed.

Lemma addIf_incl (b : bool) (c d : Condition) (where_ : list Condition) :
  d ∈ where_ -> d ∈ addIf b c where_.
Proof. destruct b; cbn; [rewrite elem_of_app; tauto | tauto]. Qed.

Lemma whereClause_status (params : ListParams) (c : Condition) :
  c ∈ statusConditions (Status params) -> c ∈ whereClause params.
Proof.
  intros Hc. unfold whereClause.
  do 2 apply addIf_incl.
  destruct (lpIsRolling params).
  - apply elem_of_app. left. apply addIf_incl. apply elem_of_app. right. exact Hc.
  - apply addIf_incl. apply elem_of_app. right. exact Hc.
Qed.

Lemma whereClause_tabRequest (status : string) :
  whereClause (tabRequest status) = statusConditions status.
Proof. reflexivity. Qed.

(** C8. For a listing request whose status tab is "open" (the default, "open"
    or "active"), a row is included only if normalized_status = 'open' and
    is_results_page = false and (rolling_evidence = true or next_deadline_at
    >= NOW or close_at >= NOW); a row with is_results_page = true is excluded
    even when normalized_status = 'open'; and for a request that sets the
    status tab alone the condition is also sufficient. *)
Theorem open_tab_listing (params : ListParams) (now : Time) (row : Row) :
  openTab params ->
  (rowIncluded params now row = true -> openListed now row) /\
  (normalized_status row = "open" -> is_results_page row = true ->
   rowIncluded params now row = false) /\
  (params = tabRequest (Status params) -> openListed now row ->
   rowIncluded params now row = true).
Proof.
  intros Htab.
  assert (Hin : rowIncluded params now row = true -> openListed now row).
  { intros Hrow. unfold rowIncluded in Hrow. rewrite forallb_forall in Hrow.
    apply buildOpenTabConstraint_spec.
    apply (Hrow buildOpenTabConstraint). apply list_elem_of_In.
    apply whereClause_status. rewrite (statusConditions_open _ Htab).
    apply list_elem_of_singleton. reflexivity. }
  split; [exact Hin |]. split.
  - intros _ Hres. destruct (rowIncluded params now row) eqn:E; [| reflexivity].
    destruct (Hin eq_refl) as (_ & Hno & _). congruence.
  - intros -> Hopen. unfold rowIncluded.
    rewrite whereClause_tabRequest, (statusConditions_open _ Htab).
    cbn [forallb]. rewrite andb_true_r.
    apply buildOpenTabConstraint_spec. exact Hopen.
Qed.

End OpenTab.

(** C8, an example: the default tab lists an open row with a deadline
    ahead and leaves out the same row flagged as a results page. *)
Lemma open_tab_listing_example :
  Store.openTab (Store.tabRequest "") /\
  Store.rowIncluded (H := Store.titleStore) (Store.tabRequest "") Examples.at_2026_02_01
    (Store.listedRow "open" false false (Some Examples.at_2026_02_20_eod) None) = true /\
  Store.rowIncluded (H := Store.titleStore) (Store.tabRequest "") Examples.at_2026_02_01
    (Store.listedRow "open" true false (Some Examples.at_2026_02_20_eod) None) = false.
Proof.
  split; [left; reflexivity |].
  split.
  - apply (open_tab_listing (H := Store.titleStore) (Store.tabRequest "") Examples.at_2026_02_01);
      [left; reflexivity | reflexivity |].
    split; [reflexivity |]. split; [reflexivity |].
    right; left. eexists. split; [reflexivity |]. vm_compute. discriminate.
  - apply (open_tab_listing (H := Store.titleStore) (Store.tabRequest "") Examples.at_2026_02_01);
      [left; reflexivity | reflexivity | reflexivity].
Defined.

(** ** Calendar arithmetic *)

Section CalendarFacts.

Import GoTime GoTimeModel Calendar.

Lemma allFrom_spec (f : Z -> bool) (n : nat) (start : Z) :
  allFrom f n start = true -> forall z, start <= z < start + Z.of_nat n -> f z = true.
Proof.
  revert start. induction n as [| n IH]; intros start Hall z Hz; [lia |].
  cbn [allFrom] in Hall. apply andb_true_iff in Hall as [Hhere Hrest].
  destruct (Z.eq_dec z start) as [-> | Hne]; [exact Hhere |].
  apply (IH (start + 1) Hrest). lia.
Qed.

Lemma dayOfEraOK_all : allFrom dayOfEraOK (Z.to_nat 146097) 0 = true.
Proof. vm_compute. reflexivity. Qed.

Lemma dayOfEraOK_holds (doe : Z) : 0 <= doe < 146097 -> dayOfEraOK doe = true.
Proof.
  intros Hdoe. apply (allFrom_spec _ _ _ dayOfEraOK_all). lia.
Qed.

Lemma days_from_civil_from_days (z : Z) :
  let '(y, m, d) := civil_from_days z in
  days_from_civil y m d = z /\ 1 <= m <= 12 /\ 1 <= d <= 31.
Proof.
  unfold civil_from_days.
  set (z' := z + 719468).
  set (era := z' / 146097).
  set (doe := z' - era * 146097).
  assert (Hdoe : 0 <= doe < 146097).
  { subst doe era. pose proof (Z.div_mod z' 146097 ltac:(lia)) as Hdm.
    pose proof (Z.mod_pos_bound z' 146097 ltac:(lia)). lia. }
  pose proof (dayOfEraOK_holds doe Hdoe) as Hok. unfold dayOfEraOK in Hok.
  cbv zeta in Hok |- *.
  set (yoe := (doe - doe / 1460 + doe / 36524 - doe / 146096) / 365) in *.
  set (doy := doe - (365 * yoe + yoe / 4 - yoe / 100)) in *.
  set (mp := (5 * doy + 2) / 153) in *.
  set (d := doy - (153 * mp + 2) / 5 + 1) in *.
  set (m := if mp <? 10 then mp + 3 else mp - 9) in *.
  rewrite !andb_true_iff in Hok.
  destruct Hok as ((((((H1 & H2) & H3) & H4) & H5) & H6) & H7).
  apply Z.leb_le in H1, H2, H3, H4, H5, H6. apply Z.eqb_eq in H7.
  split; [| lia].
  unfold days_from_civil.
  assert (Hy : (if m <=? 2 then (if m <=? 2 then yoe + era * 400 + 1 else yoe + era * 400) - 1
                else (if m <=? 2 then yoe + era * 400 + 1 else yoe + era * 400))
               = yoe + era * 400) by (destruct (m <=? 2); lia).
  rewrite Hy. cbv zeta.
  assert (He : (yoe + era * 400) / 400 = era).
  { rewrite Z.div_add by lia. rewrite Z.div_small by lia. lia. }
  rewrite He.
  replace (yoe + era * 400 - era * 400) with yoe by lia.
  subst z'. lia.
Qed.

End CalendarFacts.

(** ** Dates without a time of day *)

Section DateOnly.

Import GoTime GoTimeModel DateParser DeadlineExtractor NormalizationSpec.

Lemma civil_from_days_from_civil (z : Z) :
  let '(y, m, d) := civil_from_days z in civil_from_days (days_from_civil y m d) = (y, m, d).
Proof.
  pose proof (days_from_civil_from_days z) as Hz.
  destruct (civil_from_days z) as [[y m] d] eqn:E.
  destruct Hz as (-> & _). exact E.
Qed.

(** [time.Date] at 23:59:59 of the day of [parsed], in any location. *)
Lemma Date_endOfDay (parsed : Time) (loc : Location) :
  endOfDayIn loc (civil parsed)
    (UTC (Date (Year parsed) (Month parsed) (Day parsed) 23 59 59 0 loc)).
Proof.
  unfold Year, Month, Day, civil at 1 2 3.
  set (z := wallSeconds parsed / 86400).
  pose proof (days_from_civil_from_days z) as Hz.
  unfold civil. fold z.
  destruct (civil_from_days z) as [[y m] d] eqn:E. cbn [fst snd].
  destruct Hz as (Hdays & Hm & Hd).
  unfold Date.
  replace ((m - 1) / 12) with 0 by (symmetry; apply Z.div_small; lia).
  replace ((m - 1) mod 12 + 1) with m by (rewrite Z.mod_small; lia).
  replace (y + 0) with y by lia. rewrite Hdays.
  unfold endOfDayIn, In_, UTC, Hour, Minute, Second, civil, wallSeconds, nanosPerSecond.
  cbn [unixNano zoneOffset].
  replace ((z * 86400 + 23 * 3600 + 59 * 60 + 59 - loc) * 1000000000 + 0)
    with ((z * 86400 + 86399 - loc) * 1000000000) by lia.
  rewrite Z.div_mul by lia. rewrite Z.mod_mul by lia.
  replace (z * 86400 + 86399 - loc + loc) with (86399 + z * 86400) by lia.
  rewrite Z.div_add by lia. rewrite Z.mod_add by lia.
  replace (86399 + z * 86400) with (86399 + (z * 24) * 3600) by lia.
  rewrite Z.mod_add by lia.
  replace (86399 + z * 24 * 3600) with (86399 + (z * 1440) * 60) by lia.
  rewrite Z.mod_add by lia.
  change (86399 / 86400) with 0. rewrite Z.add_0_l.
  repeat split; try reflexivity. exact E.
Qed.

Context `{GoRuntime} `{TimeZones}.

Lemma normalizeDateOnlyBySource_spec (parsed : Time) (sourceURL : string) (lima : Location) :
  time_LoadLocation "America/Lima" = Some lima ->
  endOfDayIn (sourceLocation lima sourceURL) (civil parsed)
    (normalizeDateOnlyBySource parsed sourceURL).
Proof.
  intros Hlima. unfold normalizeDateOnlyBySource, sourceLocation. rewrite Hlima.
  destruct (limaSource sourceURL); apply Date_endOfDay.
Qed.

(** Without a time-zone database every source gets the end of day of UTC. *)
Lemma normalizeDateOnlyBySource_no_tzdata (parsed : Time) (sourceURL : string) :
  time_LoadLocation "America/Lima" = None ->
  endOfDayIn UTCLocation (civil parsed) (normalizeDateOnlyBySource parsed sourceURL).
Proof.
  intros Hlima. unfold normalizeDateOnlyBySource. rewrite Hlima.
  destruct (limaSource sourceURL); apply Date_endOfDay.
Qed.

(** A token without an explicit time token stands for 23:59:59 of the day
    the parser read, in UTC, or in America/Lima for a source whose URL
    contains gob.pe, proinnovate or prociencia (in any letter case). *)
Lemma token_end_of_day (order : nat -> list (string * string)) (token sourceURL : string)
    (lima : Location) (t : Time) :
  time_LoadLocation "America/Lima" = Some lima ->
  hasExplicitTimeToken token = false ->
  tokenTime order token sourceURL = Some t ->
  exists parsed,
    parseDateRobust order token ["en"; "es"] = Some parsed /\
    endOfDayIn (sourceLocation lima sourceURL) (civil parsed) t.
Proof.
  intros Hlima Htok Ht. unfold tokenTime in Ht.
  destruct (parseDateRobust order token ["en"; "es"]) as [parsed |]; [| discriminate].
  exists parsed. split; [reflexivity |].
  rewrite Htok in Ht. cbn [negb] in Ht. apply (inj Some) in Ht. subst t.
  pose proof (normalizeDateOnlyBySource_spec parsed sourceURL lima Hlima) as Hend.
  unfold UTC at 1. destruct Hend as (Hz & Hrest).
  unfold endOfDayIn, In_ in *. cbn [unixNano zoneOffset]. split; [reflexivity | exact Hrest].
Qed.

End DateOnly.

(** ** The order of map iteration does not show on the date of the row *)

Section MapOrder.

Import GoTime GoTimeModel DateParser DeadlineExtractor NormalizationSpec SourceAdapter
  Enrichment Pipeline RowExamples.

Local Existing Instance plainRuntime.

Lemma rowDateTexts_closed (s : string) (e : string * string) :
  s ∈ rowDateTexts -> e ∈ spanishMonths -> ReplaceAll s (fst e) (snd e) ∈ rowDateTexts.
Proof.
  intros Hs He.
  assert (Hall : forallb (fun s => forallb (fun e : string * string =>
                   existsb (String.eqb (ReplaceAll s (fst e) (snd e))) rowDateTexts)
                   spanishMonths) rowDateTexts = true) by (vm_compute; reflexivity).
  rewrite forallb_forall in Hall. apply list_elem_of_In in Hs, He.
  specialize (Hall s Hs). rewrite forallb_forall in Hall. specialize (Hall e He).
  apply existsb_exists in Hall as (x & Hx & Heq).
  apply String.eqb_eq in Heq. rewrite Heq. apply list_elem_of_In. exact Hx.
Qed.

Lemma replaced_in_rowDateTexts (order : list (string * string)) (s : string) :
  visitOrder order -> s ∈ rowDateTexts ->
  fold_left (fun t (e : string * string) => ReplaceAll t (fst e) (snd e)) order s
    ∈ rowDateTexts.
Proof.
  revert s. induction order as [| e order IH]; intros s Hord Hs; [exact Hs |].
  cbn [fold_left]. apply IH.
  - intros e' He'. apply Hord. apply elem_of_cons. right. exact He'.
  - apply rowDateTexts_closed; [exact Hs |]. apply Hord. apply elem_of_cons. left. reflexivity.
Qed.

(** Whatever the order of the replacements, [parseSpanishDate] does not
    read the date of the row: "del" stays in the way. *)
Lemma parseSpanishDate_rowDate (order : list (string * string)) (format : string) :
  visitOrder order -> format ∈ spanishFormats ->
  parseSpanishDate order rowDate format = None.
Proof.
  intros Hord Hf. unfold parseSpanishDate.
  assert (Hstart : ToLower rowDate ∈ rowDateTexts).
  { apply list_elem_of_In. left. vm_compute. reflexivity. }
  pose proof (replaced_in_rowDateTexts order _ Hord Hstart) as Hin.
  set (t := fold_left _ order (ToLower rowDate)) in *. clearbody t.
  assert (Hall : forallb (fun t => forallb (fun format =>
            bool_decide (time_Parse
              (ReplaceAll (ReplaceAll (ReplaceAll format "enero" "January") "ene" "Jan")
                 " de " " ")
              (ReplaceAll t " de " " ") = None)) spanishFormats) rowDateTexts = true)
    by (vm_compute; reflexivity).
  rewrite forallb_forall in Hall. apply list_elem_of_In in Hin, Hf.
  specialize (Hall t Hin). rewrite forallb_forall in Hall. specialize (Hall format Hf).
  apply bool_decide_eq_true in Hall. exact Hall.
Qed.

Lemma trySpanishFormats_rowDate (order : nat -> list (string * string)) (n : nat)
    (formats : list string) :
  (forall k, visitOrder (order k)) -> (forall f, f ∈ formats -> f ∈ spanishFormats) ->
  trySpanishFormats order n formats rowDate = None.
Proof.
  intros Hord. revert n. induction formats as [| f formats IH]; intros n Hf; [reflexivity |].
  cbn [trySpanishFormats].
  rewrite parseSpanishDate_rowDate; [| apply Hord | apply Hf; apply elem_of_cons; left; reflexivity].
  apply IH. intros f' Hf'. apply Hf. apply elem_of_cons. right. exact Hf'.
Qed.

Lemma trySpanish_unfold (order : nat -> list (string * string)) (n : nat) (locale : string)
    (rest : list string) (text : string) :
  trySpanish order n (locale :: rest) text =
  if String.eqb locale "es" || HasPrefix locale "es" then
    match trySpanishFormats order n spanishFormats text with
    | Some t => Some t
    | None =>
        let t := parseSpanishDateWithRegex text in
        if negb (IsZero t) then Some (toEndOfDay t)
        else trySpanish order (n + length spanishFormats) rest text
    end
  else trySpanish order n rest text.
Proof. reflexivity. Qed.

(** The date of the row is read by the pattern for Spanish dates: the end
    of 18 February 2026 in UTC, whatever the map orders. *)
Lemma parseDateRobust_rowDate (order : nat -> list (string * string)) :
  (forall k, visitOrder (order k)) ->
  parseDateRobust order rowDate ["en"; "es"] =
  Some (Date 2026 2 18 23 59 59 999999999 UTCLocation).
Proof.
  intros Hord. unfold parseDateRobust.
  assert (E0 : cleanedDateText rowDate = rowDate) by (vm_compute; reflexivity).
  rewrite E0. cbv zeta.
  assert (E1 : time_Parse RFC3339 rowDate = None) by (vm_compute; reflexivity).
  assert (E2 : time_Parse "2006-01-02" rowDate = None) by (vm_compute; reflexivity).
  assert (E3 : time_Parse "2006-01-02T15:04:05Z" rowDate = None) by (vm_compute; reflexivity).
  assert (E4 : tryEnglish englishFormats rowDate = None) by (vm_compute; reflexivity).
  rewrite E1, E2, E3, E4.
  rewrite !trySpanish_unfold.
  replace (String.eqb "en" "es" || HasPrefix "en" "es") with false by reflexivity.
  replace (String.eqb "es" "es" || HasPrefix "es" "es") with true by reflexivity.
  rewrite (trySpanishFormats_rowDate order O spanishFormats Hord (fun f Hf => Hf)).
  assert (E5 : parseSpanishDateWithRegex rowDate = Date 2026 2 18 0 0 0 0 UTCLocation)
    by (vm_compute; reflexivity).
  rewrite E5. cbv zeta.
  replace (negb (IsZero (Date 2026 2 18 0 0 0 0 UTCLocation))) with true
    by (vm_compute; reflexivity).
  assert (E6 : toEndOfDay (Date 2026 2 18 0 0 0 0 UTCLocation) =
               Date 2026 2 18 23 59 59 999999999 UTCLocation) by (vm_compute; reflexivity).
  rewrite E6. reflexivity.
Qed.

Context `{TimeZones}.

Lemma tokenTime_rowDate (order order' : nat -> list (string * string)) (sourceURL : string) :
  (forall k, visitOrder (order k)) -> (forall k, visitOrder (order' k)) ->
  tokenTime order rowDate sourceURL = tokenTime order' rowDate sourceURL.
Proof.
  intros Hord Hord'. unfold tokenTime.
  rewrite (parseDateRobust_rowDate order Hord), (parseDateRobust_rowDate order' Hord').
  reflexivity.
Qed.

Lemma fold_left_ext_in {A B : Type} (f g : A -> B -> A) (l : list B) (a : A) :
  (forall a x, x ∈ l -> f a x = g a x) -> fold_left f l a = fold_left g l a.
Proof.
  revert a. induction l as [| x l IH]; intros a Hfg; [reflexivity |].
  cbn [fold_left]. rewrite (Hfg a x) by (apply elem_of_cons; left; reflexivity).
  apply IH. intros a' x' Hx'. apply Hfg. apply elem_of_cons. right. exact Hx'.
Qed.

(** On a text whose dates are all the date of the row, the evidence does
    not depend on the map orders. *)
Lemma parseDeadlineEvidenceFromText_rowDate
    (order order' : nat -> nat -> nat -> list (string * string))
    (text source sourceURL : string) (conf : Q) :
  tokensAre rowDate text = true ->
  (forall i j k, visitOrder (order i j k)) -> (forall i j k, visitOrder (order' i j k)) ->
  parseDeadlineEvidenceFromText order text source sourceURL conf =
  parseDeadlineEvidenceFromText order' text source sourceURL conf.
Proof.
  intros Htok Hord Hord'. unfold parseDeadlineEvidenceFromText. cbv zeta.
  apply (f_equal (fun matches : gmap string DeadlineEvidenceT =>
                    sortByTime (snd <$> map_to_list matches))).
  apply fold_left_ext_in.
  intros acc m Hm. unfold tokensAre in Htok. rewrite forallb_forall in Htok.
  specialize (Htok m (proj1 (list_elem_of_In _ _) Hm)). apply String.eqb_eq in Htok.
  unfold matchEntry. cbv zeta. rewrite Htok.
  rewrite (tokenTime_rowDate (order (fst (fst m)) (snd (fst m)))
             (order' (fst (fst m)) (snd (fst m))) sourceURL); [reflexivity | |].
  - intros k. apply Hord.
  - intros k. apply Hord'.
Qed.

Lemma parseDateCandidatesFromText_rowDate
    (order order' : nat -> nat -> nat -> list (string * string)) (text : string) :
  tokensAre rowDate text = true ->
  (forall i j k, visitOrder (order i j k)) -> (forall i j k, visitOrder (order' i j k)) ->
  parseDateCandidatesFromText order text = parseDateCandidatesFromText order' text.
Proof.
  intros Htok Hord Hord'. unfold parseDateCandidatesFromText.
  rewrite (parseDeadlineEvidenceFromText_rowDate order order') by assumption. reflexivity.
Qed.

Context `{Goquery}.

(** Without attachments, and on a page whose dates are all the date of the
    row, [ExtractCandidates] does not depend on the map orders. *)
Lemma ExtractCandidates_rowDate (order order' : nat -> nat -> nat -> nat -> list (string * string))
    (raw : SourceAdapterRaw) :
  rAttachmentTexts raw = [] ->
  tokensAre rowDate (ToLower (buildStructuredExtractionText (rBodyHTML raw))) = true ->
  visitOrders order -> visitOrders order' ->
  ExtractCandidates order raw = ExtractCandidates order' raw.
Proof.
  intros Hatt Htok Hord Hord'. unfold ExtractCandidates. cbv zeta.
  rewrite Hatt. cbn [attachmentsLoop].
  rewrite (parseDeadlineEvidenceFromText_rowDate (order 0%nat) (order' 0%nat))
    by (first [assumption | intros i j k; apply Hord | intros i j k; apply Hord']).
  rewrite (parseDateCandidatesFromText_rowDate (order 1%nat) (order' 1%nat))
    by (first [assumption | intros i j k; apply Hord | intros i j k; apply Hord']).
  reflexivity.
Qed.

End MapOrder.


(** ** The table row of a page of gob.pe *)

Section RowOfGobPe.

Import GoTime GoTimeModel DateParser DeadlineExtractor NormalizationSpec SourceAdapter
  Enrichment Pipeline RowExamples.

Lemma savedFromRow_any_order `{TimeZones}
    (order : nat -> nat -> nat -> nat -> list (string * string)) (label : string) :
  tokensAre rowDate
    (ToLower (buildStructuredExtractionText (H := plainRuntime) (H0 := rowParser label rowDate)
                (rowHTML label rowDate))) = true ->
  visitOrders order ->
  savedFromRow order label rowDate = savedFromRow declaredOrder label rowDate.
Proof.
  intros Htok Hord. unfold savedFromRow, applyEvidenceEnrichmentFrom.
  rewrite (ExtractCandidates_rowDate (H0 := rowParser label rowDate) order declaredOrder
             (gobPeRaw label rowDate) eq_refl Htok Hord).
  - reflexivity.
  - intros k i j n e He. exact He.
Qed.

(** C7. A page of gob.pe with the table row "Cierre de postulaciones |
    18 de febrero del 2026", saved at 2026-02-01T00:00:00Z: next_deadline_at
    is 2026-02-19T04:59:59Z, the end of the day in America/Lima, and the
    status is open with reason future_deadline, as the specification says.
    But the candidate list of the same page is read with an empty source
    URL: the date it holds, and deadline_at, are the end of the day in UTC,
    2026-02-18T23:59:59Z. When the label of the row is "Fecha límite", no
    evidence is close-like, and next_deadline_at itself is the end of the
    day in UTC although the evidence of the page holds the end of the
    day in America/Lima. This holds for every order in which the runtime
    visits the map of month names. *)
Theorem date_only_candidates_ignore_source
    (order : nat -> nat -> nat -> nat -> list (string * string)) :
  visitOrders order ->
  let cierre := savedFromRow (H := tzdata) order "Cierre de postulaciones" rowDate in
  let limite := savedFromRow (H := tzdata) order "Fecha límite" rowDate in
  (FormatRFC3339 <$> NextDeadlineAt cierre = Some "2026-02-19T04:59:59Z" /\
   NormalizedStatus cierre = "open" /\ StatusReason cierre = "future_deadline" /\
   Deadlines cierre = ["2026-02-18T23:59:59Z"] /\
   FormatRFC3339 <$> DeadlineAt cierre = Some "2026-02-18T23:59:59Z") /\
  (ParsedDateISO <$> DeadlineEvidence limite = ["2026-02-19T04:59:59Z"] /\
   Deadlines limite = ["2026-02-18T23:59:59Z"] /\
   FormatRFC3339 <$> DeadlineAt limite = Some "2026-02-18T23:59:59Z" /\
   FormatRFC3339 <$> NextDeadlineAt limite = Some "2026-02-18T23:59:59Z").
Proof.
  intros Hord cierre limite.
  assert (Ec : cierre = savedFromRow (H := tzdata) declaredOrder "Cierre de postulaciones" rowDate).
  { apply savedFromRow_any_order; [vm_compute; reflexivity | exact Hord]. }
  assert (El : limite = savedFromRow (H := tzdata) declaredOrder "Fecha límite" rowDate).
  { apply savedFromRow_any_order; [vm_compute; reflexivity | exact Hord]. }
  rewrite Ec, El. clear Ec El cierre limite.
  vm_compute. repeat split; reflexivity.
Qed.

End RowOfGobPe.

(** C7, for the order of the declaration. *)
Lemma date_only_candidates_ignore_source_example :
  RowExamples.visitOrders RowExamples.declaredOrder /\
  Deadlines (RowExamples.savedFromRow (H := tzdata) RowExamples.declaredOrder
               "Fecha límite" RowExamples.rowDate) = ["2026-02-18T23:59:59Z"].
Proof.
  assert (Hord : RowExamples.visitOrders RowExamples.declaredOrder).
  { intros k i j n e He. exact He. }
  split; [exact Hord |].
  exact (proj1 (proj2 (proj2 (date_only_candidates_ignore_source RowExamples.declaredOrder Hord)))).
Defined.

(** ** Canonical URLs *)

Section LowerCase.

(** A byte that [lowerFrom] has written is left alone by a second pass. *)
Lemma lowered_byte_stable (lead : bool) (c : ascii) :
  let c' := if lead && latin1Upper c then ascii_of_byte (byte_of c + 32) else lowerASCII c in
  (lead && latin1Upper c') = false /\ lowerASCII c' = c' /\
  (byte_of c' =? 195) = (if lead && latin1Upper c then false else byte_of c =? 195).
Proof.
  destruct lead; destruct c as [[] [] [] [] [] [] [] []]; vm_compute; repeat split; reflexivity.
Qed.

Lemma lowerFrom_idempotent (lead : bool) (s : string) :
  lowerFrom lead (lowerFrom lead s) = lowerFrom lead s.
Proof.
  revert lead. induction s as [| c s IH]; intros lead; [reflexivity |].
  pose proof (lowered_byte_stable lead c) as Hc. cbv zeta in Hc.
  cbn [lowerFrom].
  destruct (lead && latin1Upper c) eqn:E; cbn [lowerFrom];
    destruct Hc as (H1 & H2 & H3); rewrite H1, H2, H3, IH; reflexivity.
Qed.

Lemma ToLower_idempotent (s : string) : ToLower (ToLower s) = ToLower s.
Proof. apply lowerFrom_idempotent. Qed.

End LowerCase.

Section CanonicalURL.

Import GoURL Canonical.

Lemma lookup_delete_all (ps : list string) (q : Values) (k : string) :
  fold_left (fun q p => delete p q) ps q !! k =
  if existsb (String.eqb k) ps then None else q !! k.
Proof.
  revert q. induction ps as [| p ps IH]; intros q; [reflexivity |].
  cbn [fold_left existsb]. rewrite IH.
  destruct (String.eqb_spec k p) as [-> | Hne]; cbn [orb].
  - rewrite lookup_delete_eq. destruct (existsb _ ps); reflexivity.
  - rewrite lookup_delete_ne by congruence. reflexivity.
Qed.

(** The parameters that remain: the tracking parameters are gone, every
    other parameter keeps its values. *)
Lemma removeTracking_lookup (q : Values) (k : string) :
  removeTracking q !! k = if isTracking k then None else q !! k.
Proof.
  unfold removeTracking, isTracking. rewrite lookup_delete_all.
  destruct (existsb (String.eqb k) exactParamsToRemove); [rewrite orb_true_r; reflexivity |].
  rewrite orb_false_r, map_lookup_filter.
  destruct (q !! k) as [v |]; [| destruct (HasPrefix k "utm_"); reflexivity].
  cbn [mbind option_bind fst paramsToRemovePrefix existsb].
  destruct (HasPrefix k "utm_"); cbn [orb]; case_guard; cbn; congruence.
Qed.

Lemma removeTracking_idempotent (q : Values) :
  removeTracking (removeTracking q) = removeTracking q.
Proof.
  apply map_eq. intros k. rewrite !removeTracking_lookup.
  destruct (isTracking k); reflexivity.
Qed.

Lemma set_Host_same (u : URL) : set_Host (Host u) u = u.
Proof. destruct u; reflexivity. Qed.

Lemma set_Fragment_same (u : URL) : set_Fragment (Fragment u) u = u.
Proof. destruct u; reflexivity. Qed.

Lemma set_RawQuery_same (u : URL) : set_RawQuery (RawQuery u) u = u.
Proof. destruct u; reflexivity. Qed.

Context `{NetURL}.

Lemma canonicalURL_fields (u : URL) :
  Host (canonicalURL u) = ToLower (Host u) /\
  Fragment (canonicalURL u) = "" /\
  RawQuery (canonicalURL u) = url_Encode (removeTracking (url_ParseQuery (RawQuery u))).
Proof. repeat split. Qed.

(** A URL that is canonical already is printed as it is. *)
Lemma canonicalURL_fixed (c : URL) :
  ToLower (Host c) = Host c -> Fragment c = "" ->
  url_Encode (removeTracking (url_ParseQuery (RawQuery c))) = RawQuery c ->
  canonicalURL c = c.
Proof.
  destruct c as [scheme opaque user host path rawPath omitHost forceQuery rawQuery frag rawFrag].
  unfold canonicalURL, set_Host, set_Fragment, set_RawQuery.
  cbn [Scheme Opaque User Host Path RawPath OmitHost ForceQuery RawQuery Fragment RawFragment].
  intros -> -> ->. reflexivity.
Qed.

(** C9. [CanonicalizeURL] returns a string that [url.Parse] rejects as it
    is. For a URL that parses, it prints the URL with the host in lower
    case, without fragment and with the query encoded from the parameters
    that are left when those whose name starts with utm_ or is one of
    fbclid, gclid, mc_cid, mc_eid, mkt_tok, ref, session, s_cid are deleted.
    Canonicalizing twice gives what canonicalizing once gives, for a
    library whose printing and parsing round-trip on the printed URL. *)
Theorem canonicalize_url (rawURL : string) :
  (forall u, url_Parse rawURL = Some u ->
     roundTrips (removeTracking (url_ParseQuery (RawQuery u))) (canonicalURL u)) ->
  CanonicalizeURL (CanonicalizeURL rawURL) = CanonicalizeURL rawURL /\
  (url_Parse rawURL = None -> CanonicalizeURL rawURL = rawURL) /\
  (forall u, url_Parse rawURL = Some u ->
     CanonicalizeURL rawURL = url_String (canonicalURL u) /\
     Host (canonicalURL u) = ToLower (Host u) /\
     ToLower (Host (canonicalURL u)) = Host (canonicalURL u) /\
     Fragment (canonicalURL u) = "" /\
     exists q : Values,
       RawQuery (canonicalURL u) = url_Encode q /\
       (forall k, isTracking k = true -> q !! k = None) /\
       (forall k, isTracking k = false -> q !! k = url_ParseQuery (RawQuery u) !! k)).
Proof.
  intros Hround. split; [| split].
  - unfold CanonicalizeURL at 2 3.
    destruct (url_Parse rawURL) as [u |] eqn:Hparse.
    + specialize (Hround u eq_refl).
      set (c := canonicalURL u) in *.
      unfold CanonicalizeURL.
      destruct (url_Parse (url_String c)) as [c' |] eqn:Hagain; [| reflexivity].
      destruct (Hround c' Hagain) as (Hhost & Hfrag & Hquery & Hread & Hprint).
      destruct (canonicalURL_fields u) as (Hc_host & _ & Hc_query). fold c in Hc_host, Hc_query.
      assert (Hsame : canonicalURL c' = c').
      { apply canonicalURL_fixed.
        - rewrite Hhost, Hc_host. apply ToLower_idempotent.
        - exact Hfrag.
        - rewrite Hquery, Hread, removeTracking_idempotent. symmetry. exact Hc_query. }
      rewrite Hsame. exact Hprint.
    + unfold CanonicalizeURL. rewrite Hparse. reflexivity.
  - intros Hnone. unfold CanonicalizeURL. rewrite Hnone. reflexivity.
  - intros u Hu. unfold CanonicalizeURL. rewrite Hu.
    destruct (canonicalURL_fields u) as (Hc_host & Hc_frag & Hc_query).
    split; [reflexivity |]. split; [exact Hc_host |].
    split; [rewrite Hc_host; apply ToLower_idempotent |].
    split; [exact Hc_frag |].
    exists (removeTracking (url_ParseQuery (RawQuery u))).
    split; [exact Hc_query |].
    split; intros k Hk; rewrite removeTracking_lookup, Hk; reflexivity.
Qed.

End CanonicalURL.

(** C9, an example: a link with a tracking parameter, a referrer and a
    fragment. *)
Lemma canonicalize_url_example :
  Canonical.CanonicalizeURL (H := SimpleURLs.library) SimpleURLs.trackedLink =
    "https://example.com/grants?id=7" /\
  Canonical.CanonicalizeURL (H := SimpleURLs.library)
    (Canonical.CanonicalizeURL (H := SimpleURLs.library) SimpleURLs.trackedLink) =
  Canonical.CanonicalizeURL (H := SimpleURLs.library) SimpleURLs.trackedLink.
Proof.
  assert (Hround : forall u,
             GoURL.url_Parse (NetURL := SimpleURLs.library) SimpleURLs.trackedLink = Some u ->
             Canonical.roundTrips (H := SimpleURLs.library)
               (Canonical.removeTracking
                  (GoURL.url_ParseQuery (NetURL := SimpleURLs.library) (GoURL.RawQuery u)))
               (Canonical.canonicalURL (H := SimpleURLs.library) u)).
  { intros u Hu.
    assert (E : GoURL.url_Parse (NetURL := SimpleURLs.library) SimpleURLs.trackedLink =
                Some SimpleURLs.trackedLinkURL) by (vm_compute; reflexivity).
    rewrite E in Hu. apply (inj Some) in Hu. subst u.
    assert (Ec : Canonical.canonicalURL (H := SimpleURLs.library) SimpleURLs.trackedLinkURL =
                 SimpleURLs.canonicalLinkURL) by (vm_compute; reflexivity).
    rewrite Ec. intros c' Hc'.
    assert (E' : GoURL.url_Parse (NetURL := SimpleURLs.library)
                   (GoURL.url_String (NetURL := SimpleURLs.library) SimpleURLs.canonicalLinkURL) =
                 Some SimpleURLs.canonicalLinkURL) by (vm_compute; reflexivity).
    rewrite E' in Hc'. apply (inj Some) in Hc'. subst c'.
    split; [vm_compute; reflexivity |]. split; [vm_compute; reflexivity |].
    split; [vm_compute; reflexivity |]. split; vm_compute; reflexivity. }
  split; [vm_compute; reflexivity |].
  exact (proj1 (canonicalize_url (H := SimpleURLs.library) SimpleURLs.trackedLink Hround)).
Defined.

(** ** Text helpers: trimming, truncation, merging *)

Section Trimming.

Import TextHelpers.

Lemma TrimRightSpace_cons (c : ascii) (s : string) :
  TrimRightSpace (String c s) =
  match TrimRightSpace s with
  | EmptyString => if isSpace c then EmptyString else String c EmptyString
  | r => String c r
  end.
Proof. reflexivity. Qed.

Lemma TrimRightSpace_idempotent (s : string) :
  TrimRightSpace (TrimRightSpace s) = TrimRightSpace s.
Proof.
  induction s as [| c s IH]; [reflexivity |].
  rewrite TrimRightSpace_cons.
  destruct (TrimRightSpace s) as [| d r] eqn:E.
  - destruct (isSpace c) eqn:Ec; [reflexivity |].
    rewrite TrimRightSpace_cons. cbn [TrimRightSpace]. rewrite Ec. reflexivity.
  - rewrite TrimRightSpace_cons, IH. reflexivity.
Qed.

Lemma TrimLeftSpace_start (s : string) : startsWithSpace (TrimLeftSpace s) = false.
Proof.
  induction s as [| c s IH]; [reflexivity |].
  cbn [TrimLeftSpace]. destruct (isSpace c) eqn:Ec; [exact IH |]. cbn. exact Ec.
Qed.

Lemma TrimLeftSpace_fixed (s : string) : startsWithSpace s = false -> TrimLeftSpace s = s.
Proof. destruct s as [| c s]; [reflexivity |]. cbn. intros ->. reflexivity. Qed.

Lemma TrimRightSpace_start (s : string) :
  startsWithSpace s = false -> startsWithSpace (TrimRightSpace s) = false.
Proof.
  destruct s as [| c s]; [reflexivity |]. cbn [startsWithSpace]. intros Hc.
  rewrite TrimRightSpace_cons.
  destruct (TrimRightSpace s); [rewrite Hc |]; cbn [startsWithSpace]; exact Hc.
Qed.

Lemma TrimSpace_idempotent (s : string) : TrimSpace (TrimSpace s) = TrimSpace s.
Proof.
  unfold TrimSpace.
  rewrite (TrimLeftSpace_fixed (TrimRightSpace (TrimLeftSpace s))).
  - apply TrimRightSpace_idempotent.
  - apply TrimRightSpace_start, TrimLeftSpace_start.
Qed.

Lemma lowerFrom_length (lead : bool) (s : string) :
  String.length (lowerFrom lead s) = String.length s.
Proof.
  revert lead. induction s as [| c s IH]; intros lead; [reflexivity |].
  cbn [lowerFrom]. destruct (lead && latin1Upper c); cbn [String.length]; rewrite IH; reflexivity.
Qed.

Lemma ToLower_empty (s : string) : ToLower s = "" -> s = "".
Proof.
  intros Hs. pose proof (lowerFrom_length false s) as Hlen. unfold ToLower in Hs.
  rewrite Hs in Hlen. destruct s; [reflexivity | discriminate Hlen].
Qed.

End Trimming.

Section Substrings.

Lemma length_substring_0 (n : nat) (s : string) :
  String.length (substring 0 n s) = Nat.min n (String.length s).
Proof.
  revert s. induction n as [| n IH]; intros s.
  - destruct s; reflexivity.
  - destruct s as [| c s]; [reflexivity |]. cbn [substring String.length Nat.min]. rewrite IH.
    reflexivity.
Qed.

Lemma length_append (s t : string) :
  String.length (s +:+ t) = (String.length s + String.length t)%nat.
Proof.
  induction s as [| c s IH]; [reflexivity |].
  change (String c s +:+ t) with (String c (s +:+ t)).
  cbn [String.length Nat.add]. rewrite IH. reflexivity.
Qed.

Lemma substring_0_prefix (n : nat) (s : string) :
  exists rest, s = substring 0 n s +:+ rest.
Proof.
  revert s. induction n as [| n IH]; intros s.
  - exists s. destruct s; reflexivity.
  - destruct s as [| c s]; [exists ""; reflexivity |].
    destruct (IH s) as [rest Hrest]. exists rest. cbn [substring].
    change (String c (substring 0 n s) +:+ rest) with (String c (substring 0 n s +:+ rest)).
    rewrite <- Hrest. reflexivity.
Qed.

End Substrings.

Section Truncation.

Import TextHelpers.

(** X1. [TruncateText] returns a text that fits as it is; it cuts a longer
    text to exactly [maxLen] bytes, the last three being "..." when
    [maxLen] is more than 3; the result is never longer than [maxLen]; and
    a negative [maxLen] makes it panic, whatever the text. *)
Theorem truncate_text_bounds (text : string) (maxLen : Z) :
  (maxLen < 0 -> TruncateText text maxLen = None) /\
  (0 <= maxLen ->
   exists r, TruncateText text maxLen = Some r /\
     Z.of_nat (String.length r) <= maxLen /\
     (Z.of_nat (String.length text) <= maxLen -> r = text) /\
     (maxLen < Z.of_nat (String.length text) ->
        Z.of_nat (String.length r) = maxLen /\
        (3 < maxLen -> exists kept rest,
           r = kept +:+ "..." /\ text = kept +:+ rest) /\
        (maxLen <= 3 -> exists rest, text = r +:+ rest))).
Proof.
  unfold TruncateText. split.
  - intros Hneg.
    destruct (Z.leb_spec (Z.of_nat (String.length text)) maxLen); [lia |].
    destruct (Z.ltb_spec 3 maxLen); [lia |].
    destruct (Z.ltb_spec maxLen 0); [reflexivity | lia].
  - intros Hpos.
    destruct (Z.leb_spec (Z.of_nat (String.length text)) maxLen) as [Hfit | Hlong].
    { exists text. split; [reflexivity |]. split; [exact Hfit |]. split; [reflexivity | lia]. }
    destruct (Z.ltb_spec 3 maxLen) as [Hbig | Hsmall].
    + eexists. split; [reflexivity |].
      assert (Hlen : Z.of_nat (String.length (slice text 0 (Z.to_nat (maxLen - 3)) +:+ "..."))
                     = maxLen).
      { rewrite length_append. unfold slice. rewrite Nat.sub_0_r, length_substring_0.
        cbn [String.length]. lia. }
      split; [lia |]. split; [lia |]. intros _. split; [exact Hlen |].
      split; [| lia]. intros _.
      destruct (substring_0_prefix (Z.to_nat (maxLen - 3)) text) as [rest Hrest].
      exists (slice text 0 (Z.to_nat (maxLen - 3))), rest.
      split; [reflexivity |]. unfold slice. rewrite Nat.sub_0_r. exact Hrest.
    + destruct (Z.ltb_spec maxLen 0); [lia |].
      eexists. split; [reflexivity |].
      assert (Hlen : Z.of_nat (String.length (slice text 0 (Z.to_nat maxLen))) = maxLen).
      { unfold slice. rewrite Nat.sub_0_r, length_substring_0. lia. }
      split; [lia |]. split; [lia |]. intros _. split; [exact Hlen |].
      split; [lia |]. intros _.
      destruct (substring_0_prefix (Z.to_nat maxLen) text) as [rest Hrest].
      exists rest. unfold slice. rewrite Nat.sub_0_r. exact Hrest.
Qed.

End Truncation.


Section MergeUnique.

Import TextHelpers SourceAdapter.

Lemma existsb_eqb_elem (k : string) (seen : list string) :
  existsb (String.eqb k) seen = true <-> k ∈ seen.
Proof.
  rewrite existsb_exists. split.
  - intros (x & Hx & Heq). apply String.eqb_eq in Heq. subst x. apply list_elem_of_In. exact Hx.
  - intros Hk. exists k. split; [apply list_elem_of_In; exact Hk | apply String.eqb_refl].
Qed.

Lemma mergeItems_cons (seen : list string) (v : string) (rest : list string) :
  mergeItems seen (v :: rest) =
  if String.eqb (TrimSpace v) "" then mergeItems seen rest
  else if existsb (String.eqb (ToLower (TrimSpace v))) seen then mergeItems seen rest
  else TrimSpace v :: mergeItems (ToLower (TrimSpace v) :: seen) rest.
Proof. reflexivity. Qed.

Lemma mergeItems_elem (seen items : list string) (v : string) :
  v ∈ mergeItems seen items ->
  v <> "" /\ (exists item, item ∈ items /\ v = TrimSpace item) /\ ToLower v ∉ seen.
Proof.
  revert seen. induction items as [| item items IH]; intros seen Hv.
  { apply elem_of_nil in Hv. contradiction. }
  rewrite mergeItems_cons in Hv.
  assert (Hrest : forall seen', v ∈ mergeItems seen' items ->
            (forall k, k ∈ seen -> k ∈ seen') ->
            v <> "" /\ (exists item0, item0 ∈ item :: items /\ v = TrimSpace item0) /\
            ToLower v ∉ seen).
  { intros seen' Hin Hsub. destruct (IH seen' Hin) as (Hne & (i & Hi & Heq) & Hnot).
    split; [exact Hne |]. split.
    - exists i. split; [apply elem_of_cons; right; exact Hi | exact Heq].
    - intros Hk. apply Hnot, Hsub, Hk. }
  destruct (String.eqb_spec (TrimSpace item) "") as [Hblank | Hfull].
  { apply (Hrest seen Hv). auto. }
  destruct (existsb (String.eqb (ToLower (TrimSpace item))) seen) eqn:Hseen.
  { apply (Hrest seen Hv). auto. }
  apply elem_of_cons in Hv as [-> | Hv].
  - split; [exact Hfull |]. split.
    + exists item. split; [apply elem_of_cons; left; reflexivity | reflexivity].
    + intros Hk. apply existsb_eqb_elem in Hk. congruence.
  - apply (Hrest _ Hv). intros k Hk. apply elem_of_cons. right. exact Hk.
Qed.

Lemma mergeItems_NoDup (seen items : list string) : NoDup (ToLower <$> mergeItems seen items).
Proof.
  revert seen. induction items as [| item items IH]; intros seen; [apply NoDup_nil_2 |].
  rewrite mergeItems_cons.
  destruct (String.eqb (TrimSpace item) ""); [apply IH |].
  destruct (existsb (String.eqb (ToLower (TrimSpace item))) seen); [apply IH |].
  rewrite fmap_cons. apply NoDup_cons. split; [| apply IH].
  intros Hin. apply list_elem_of_fmap in Hin as (v & Hkey & Hv).
  apply mergeItems_elem in Hv as (_ & _ & Hnot).
  apply Hnot. rewrite <- Hkey. apply elem_of_cons. left. reflexivity.
Qed.

Lemma mergeItems_covers (seen items : list string) (item : string) :
  item ∈ items -> TrimSpace item <> "" ->
  ToLower (TrimSpace item) ∈ seen \/
  exists r, r ∈ mergeItems seen items /\ ToLower r = ToLower (TrimSpace item).
Proof.
  revert seen. induction items as [| x items IH]; intros seen Hin Hfull.
  { apply elem_of_nil in Hin. contradiction. }
  rewrite mergeItems_cons.
  apply elem_of_cons in Hin as [-> | Hin].
  - destruct (String.eqb_spec (TrimSpace x) ""); [contradiction |].
    destruct (existsb (String.eqb (ToLower (TrimSpace x))) seen) eqn:Hseen.
    + left. apply existsb_eqb_elem. exact Hseen.
    + right. exists (TrimSpace x). split; [apply elem_of_cons; left |]; reflexivity.
  - destruct (String.eqb (TrimSpace x) ""); [apply IH; assumption |].
    destruct (existsb (String.eqb (ToLower (TrimSpace x))) seen); [apply IH; assumption |].
    destruct (IH (ToLower (TrimSpace x) :: seen) Hin Hfull) as [Hk | (r & Hr & Heq)].
    + apply elem_of_cons in Hk as [Hk | Hk]; [| left; exact Hk].
      right. exists (TrimSpace x). split; [apply elem_of_cons; left; reflexivity |].
      symmetry. exact Hk.
    + right. exists r. split; [apply elem_of_cons; right; exact Hr | exact Heq].
Qed.

Lemma mergeItems_all_seen (seen items : list string) :
  (forall item, item ∈ items -> TrimSpace item <> "" -> ToLower (TrimSpace item) ∈ seen) ->
  mergeItems seen items = [].
Proof.
  induction items as [| x items IH]; intros Hall; [reflexivity |].
  rewrite mergeItems_cons.
  assert (Hrest : mergeItems seen items = []).
  { apply IH. intros item Hi. apply Hall. apply elem_of_cons. right. exact Hi. }
  destruct (String.eqb_spec (TrimSpace x) "") as [| Hfull]; [exact Hrest |].
  replace (existsb (String.eqb (ToLower (TrimSpace x))) seen) with true; [exact Hrest |].
  symmetry. apply existsb_eqb_elem. apply Hall; [apply elem_of_cons; left; reflexivity | exact Hfull].
Qed.

Lemma seen_of (dst : list string) (k : string) :
  k ∈ filter (fun k => k <> "") ((fun v => ToLower (TrimSpace v)) <$> dst) <->
  k <> "" /\ exists d, d ∈ dst /\ k = foldKey d.
Proof.
  rewrite list_elem_of_filter, list_elem_of_fmap. unfold foldKey. split.
  - intros (Hne & y & -> & Hy). split; [exact Hne |]. exists y. split; [exact Hy | reflexivity].
  - intros (Hne & y & Hy & ->). split; [exact Hne |]. exists y. split; [reflexivity | exact Hy].
Qed.

(** X2. [mergeUniqueFold] keeps [dst] as it is and appends items to it. What
    it appends is an item with the white space around it removed, is never
    empty, differs in lower case from every element of [dst] and from every
    other element appended; every item that is not blank is then
    represented in the result; and merging the same items again changes
    nothing. *)
Theorem merge_unique_fold_invariants (dst items : list string) :
  exists added,
    mergeUniqueFold dst items = dst ++ added /\
    (forall v, v ∈ added -> v <> "" /\ exists item, item ∈ items /\ v = TrimSpace item) /\
    NoDup (ToLower <$> added) /\
    (forall v d, v ∈ added -> d ∈ dst -> ToLower v <> foldKey d) /\
    (forall item, item ∈ items -> TrimSpace item <> "" ->
       exists r, r ∈ dst ++ added /\ foldKey r = foldKey item) /\
    mergeUniqueFold (dst ++ added) items = dst ++ added.
Proof.
  unfold mergeUniqueFold.
  set (seen := filter (fun k => k <> "") ((fun v => ToLower (TrimSpace v)) <$> dst)).
  exists (mergeItems seen items).
  assert (Hcover : forall item, item ∈ items -> TrimSpace item <> "" ->
            exists r, r ∈ dst ++ mergeItems seen items /\ foldKey r = foldKey item).
  { intros item Hi Hfull.
    destruct (mergeItems_covers seen items item Hi Hfull) as [Hk | (r & Hr & Heq)].
    - apply seen_of in Hk as (_ & d & Hd & Hkey). exists d.
      split; [apply elem_of_app; left; exact Hd | symmetry; exact Hkey].
    - exists r. split; [apply elem_of_app; right; exact Hr |].
      apply mergeItems_elem in Hr as (_ & (i & _ & ->) & _).
      unfold foldKey. rewrite TrimSpace_idempotent. exact Heq. }
  split; [reflexivity |]. split.
  { intros v Hv. apply mergeItems_elem in Hv as (Hne & Hitem & _). split; assumption. }
  split; [apply mergeItems_NoDup |]. split.
  { intros v d Hv Hd Heq. apply mergeItems_elem in Hv as (Hne & _ & Hnot).
    apply Hnot. apply seen_of. split.
    - intros Hempty. apply Hne. apply ToLower_empty. exact Hempty.
    - exists d. split; assumption. }
  split; [exact Hcover |].
  remember (mergeItems seen items) as added eqn:Hadded. clear Hadded.
  rewrite (mergeItems_all_seen
             (filter (fun k => k <> "") ((fun v => ToLower (TrimSpace v)) <$> dst ++ added))
             items); [apply app_nil_r |].
  intros item Hi Hfull. apply seen_of. split.
  - intros Hempty. apply Hfull. apply ToLower_empty. exact Hempty.
  - destruct (Hcover item Hi Hfull) as (r & Hr & Hkey). exists r. split; [exact Hr |].
    symmetry. exact Hkey.
Qed.


End MergeUnique.

Section Sanitize.

Import Store.

(** X4. [sanitizeStringSlice] returns the values with the white space around
    them removed, in their order, without those that are blank: no element
    of the result is empty, each one is trimmed, a value that is not blank
    is kept, and sanitizing twice is sanitizing once. *)
Theorem sanitize_string_slice (values : list string) :
  (forall s, s ∈ sanitizeStringSlice values <->
     s <> "" /\ exists v, v ∈ values /\ s = TrimSpace v) /\
  (forall s, s ∈ sanitizeStringSlice values -> TrimSpace s = s) /\
  (length (sanitizeStringSlice values) <= length values)%nat /\
  sanitizeStringSlice (sanitizeStringSlice values) = sanitizeStringSlice values.
Proof.
  unfold sanitizeStringSlice.
  assert (Hmem : forall s, s ∈ filter (fun s => s <> "") (TrimSpace <$> values) <->
            s <> "" /\ exists v, v ∈ values /\ s = TrimSpace v).
  { intros s. rewrite list_elem_of_filter, list_elem_of_fmap. split.
    - intros (Hne & y & -> & Hy). split; [exact Hne |]. exists y. split; [exact Hy | reflexivity].
    - intros (Hne & y & Hy & ->). split; [exact Hne |]. exists y. split; [reflexivity | exact Hy]. }
  split; [exact Hmem |]. split.
  { intros s Hs. apply Hmem in Hs as (_ & v & _ & ->). apply TrimSpace_idempotent. }
  split.
  { etransitivity; [apply length_filter |]. rewrite length_fmap. reflexivity. }
  clear Hmem. induction values as [| v values IH]; [reflexivity |].
  rewrite fmap_cons, filter_cons.
  destruct (decide (TrimSpace v <> "")) as [Hfull | Hblank]; [| exact IH].
  rewrite fmap_cons, filter_cons, TrimSpace_idempotent.
  destruct (decide (TrimSpace v <> "")); [| contradiction].
  f_equal. exact IH.
Qed.

End Sanitize.

(** ** The filters of the listing *)

Section ListingFilters.

Import GoTime Db Store.

Context `{StoreEnv}.

Lemma addIf_new (c : Condition) (where_ : list Condition) : c ∈ addIf true c where_.
Proof. cbn. apply elem_of_app. right. apply list_elem_of_singleton. reflexivity. Qed.

Lemma included_holds (params : ListParams) (now : Time) (row : Row) (c : Condition) :
  rowIncluded params now row = true -> c ∈ whereClause params -> holds (c now row) = true.
Proof.
  unfold rowIncluded. rewrite forallb_forall. intros Hall Hc.
  apply (Hall c). apply list_elem_of_In. exact Hc.
Qed.

Lemma holds_in (x : option string) (vs : list string) :
  holds (sql_in x vs) = true <-> exists s, x = Some s /\ s ∈ vs.
Proof.
  destruct x as [s |]; cbn.
  - destruct (existsb (String.eqb s) vs) eqn:E; split.
    + intros _. exists s. split; [reflexivity |].
      apply existsb_exists in E as (v & Hv & Heq). apply String.eqb_eq in Heq. subst v.
      apply list_elem_of_In. exact Hv.
    + reflexivity.
    + discriminate.
    + intros (s' & [= <-] & Hs). exfalso.
      assert (existsb (String.eqb s) vs = true); [| congruence].
      apply existsb_exists. exists s. split; [apply list_elem_of_In; exact Hs | apply String.eqb_refl].
  - split; [discriminate | intros (s & Hs & _); discriminate].
Qed.

Lemma holds_eq_text (x : string) (v : string) :
  holds (sql_eq_text (Some x) v) = true <-> x = v.
Proof. cbn. destruct (String.eqb_spec x v); split; congruence. Qed.

Lemma statusConditions_spec (status : string) (now : Time) (row : Row) :
  forallb (fun c : Condition => holds (c now row)) (statusConditions status) = true <->
  statusAdmits status now row.
Proof.
  unfold statusConditions, statusAdmits.
  destruct (String.eqb_spec status "") as [-> | Hne].
  { cbn [orb forallb]. change (String.eqb "open" "active") with false.
    cbn [String.eqb Ascii.eqb Bool.eqb forallb]. rewrite andb_true_r.
    apply buildOpenTabConstraint_spec. }
  cbn [orb].
  destruct (String.eqb_spec status "active") as [-> | Hna].
  { rewrite orb_true_r. cbn [String.eqb Ascii.eqb Bool.eqb forallb]. rewrite andb_true_r.
    apply buildOpenTabConstraint_spec. }
  rewrite orb_false_r.
  destruct (String.eqb_spec status "open") as [-> | Hno].
  { cbn [forallb]. rewrite andb_true_r. apply buildOpenTabConstraint_spec. }
  destruct (String.eqb_spec status "all") as [-> | Hnall]; [cbn; tauto |].
  destruct (String.eqb_spec status "closed") as [-> | Hnc].
  { cbn [forallb]. rewrite andb_true_r, holds_in. split.
    - intros (s & [= <-] & Hs). apply elem_of_cons in Hs as [-> | Hs]; [left; reflexivity |].
      apply list_elem_of_singleton in Hs. right. exact Hs.
    - intros [-> | ->]; eexists; (split; [reflexivity |]).
      + apply elem_of_cons. left. reflexivity.
      + apply elem_of_cons. right. apply list_elem_of_singleton. reflexivity. }
  cbn [forallb]. rewrite andb_true_r. apply holds_eq_text.
Qed.

Lemma forallb_app_true {A} (f : A -> bool) (l1 l2 : list A) :
  forallb f (l1 ++ l2) = true <-> forallb f l1 = true /\ forallb f l2 = true.
Proof. rewrite forallb_app, andb_true_iff. reflexivity. Qed.

(** X5. The status tab of a listing request: the tabs "", "open" and "active"
    ask for the open-tab condition; "all" asks nothing; "closed" lists the
    rows whose normalized status is closed or archived; every other tab
    asks for that normalized status, "posted" standing for "open" (without
    the other conditions of the open tab). A row that is listed satisfies
    the tab of the request, and for a request that sets the tab alone the
    rows listed are exactly those. *)
Theorem status_tab_filter (params : ListParams) (now : Time) (row : Row) :
  (rowIncluded params now row = true -> statusAdmits (Status params) now row) /\
  (rowIncluded (tabRequest (Status params)) now row = true <->
   statusAdmits (Status params) now row).
Proof.
  split.
  - intros Hrow. apply statusConditions_spec. apply forallb_forall. intros c Hc.
    apply (included_holds params now row c Hrow).
    apply whereClause_status. apply list_elem_of_In. exact Hc.
  - unfold rowIncluded. rewrite whereClause_tabRequest. apply statusConditions_spec.
Qed.

Lemma isRolling_incl (o : option bool) (f : bool -> Condition) (where_ : list Condition)
    (d : Condition) :
  d ∈ where_ ->
  d ∈ match o with
      | Some b => where_ ++ [f b]
      | None => where_
      end.
Proof. destruct o; [rewrite elem_of_app; tauto | tauto]. Qed.

Lemma nonempty_text (s : string) : s <> "" -> negb (String.eqb s "") = true.
Proof. destruct (String.eqb_spec s ""); [contradiction | reflexivity]. Qed.

Lemma nonempty_list {A} (l : list A) : l <> [] -> (0 <? Z.of_nat (length l)) = true.
Proof. destruct l; [contradiction |]. intros _. apply Z.ltb_lt. cbn [length]. lia. Qed.

Lemma positive_amount (q : Q) : (0 < q)%Q -> negb (Qle_bool q 0) = true.
Proof.
  intros Hq. destruct (Qle_bool q 0) eqn:E; [| reflexivity].
  apply Qle_bool_iff in E. exfalso. apply (Qlt_not_le _ _ Hq E).
Qed.

Lemma holds_eq_text_opt (x : option string) (v : string) :
  holds (sql_eq_text x v) = true <-> x = Some v.
Proof.
  destruct x as [s |]; cbn; [| split; discriminate].
  destruct (String.eqb_spec s v); split; congruence.
Qed.

Lemma holds_eq_bool (x : option bool) (v : bool) :
  holds (sql_eq_bool x v) = true <-> x = Some v.
Proof. destruct x as [[] |], v; cbn; split; congruence. Qed.

Lemma holds_ge_num (x : option Q) (v : Q) :
  holds (sql_ge_num x v) = true <-> exists a, x = Some a /\ (v <= a)%Q.
Proof.
  destruct x as [a |]; cbn.
  - destruct (Qle_bool v a) eqn:E; split.
    + intros _. exists a. split; [reflexivity | apply Qle_bool_iff; exact E].
    + reflexivity.
    + discriminate.
    + intros (a' & [= <-] & Ha). apply Qle_bool_iff in Ha. congruence.
  - split; [discriminate | intros (a & Ha & _); discriminate].
Qed.

Lemma holds_le_num (x : option Q) (v : Q) :
  holds (sql_le_num x v) = true <-> exists a, x = Some a /\ (a <= v)%Q.
Proof.
  destruct x as [a |]; cbn.
  - destruct (Qle_bool a v) eqn:E; split.
    + intros _. exists a. split; [reflexivity | apply Qle_bool_iff; exact E].
    + reflexivity.
    + discriminate.
    + intros (a' & [= <-] & Ha). apply Qle_bool_iff in Ha. congruence.
  - split; [discriminate | intros (a & Ha & _); discriminate].
Qed.

Lemma holds_overlap (a b : list string) : holds (sql_overlap a b) = true <-> overlap a b.
Proof.
  unfold sql_overlap, overlap. cbn [holds].
  destruct (existsb (fun x => existsb (String.eqb x) b) a) eqn:E; split.
  - intros _. apply existsb_exists in E as (x & Hx & Hb).
    apply existsb_exists in Hb as (y & Hy & Heq). apply String.eqb_eq in Heq. subst y.
    exists x. split; apply list_elem_of_In; assumption.
  - reflexivity.
  - discriminate.
  - intros (x & Hx & Hb). exfalso.
    assert (existsb (fun x => existsb (String.eqb x) b) a = true); [| congruence].
    apply existsb_exists. exists x. split; [apply list_elem_of_In; exact Hx |].
    apply existsb_exists. exists x. split; [apply list_elem_of_In; exact Hb | apply String.eqb_refl].
Qed.

Ltac descend :=
  first [ apply addIf_incl | apply isRolling_incl | (apply elem_of_app; left) ].

Tactic Notation "reach" integer(n) hyp(Hb) :=
  unfold whereClause; cbv zeta; do n descend; rewrite Hb; apply addIf_new.

(** X6. Every filter that a listing request sets holds of every row it
    lists: the source, the region, funder type, country and agency among
    the values asked, the amount bounds (a row without the amount is left
    out), the window of days for the next deadline unless the row is
    rolling, the rolling flag, a shared category and a shared eligibility
    entry among the values that are not blank, and the keyword match. *)
Theorem listing_filters_hold (params : ListParams) (now : Time) (row : Row) :
  rowIncluded params now row = true ->
  (Query params <> "" -> keywordMatch row (Query params) = Some true) /\
  (lpSource params <> "" -> source_domain row = lpSource params) /\
  (lpRegion params <> [] -> exists r, region row = Some r /\ r ∈ lpRegion params) /\
  (lpFunderType params <> [] -> exists f, funder_type row = Some f /\ f ∈ lpFunderType params) /\
  (lpCountry params <> [] -> exists c, country row = Some c /\ c ∈ lpCountry params) /\
  (lpAgencyCode params <> "" -> agency_code row = Some (lpAgencyCode params)) /\
  (lpAgencyName params <> [] -> exists a, agency_name row = Some a /\ a ∈ lpAgencyName params) /\
  ((0 < MinAmount params)%Q ->
     exists a, amount_max row = Some a /\ (MinAmount params <= a)%Q) /\
  ((0 < MaxAmount params)%Q ->
     exists a, amount_min row = Some a /\ (a <= MaxAmount params)%Q) /\
  (0 < DeadlineDays params ->
     is_rolling row = Some true \/
     exists t, next_deadline_at row = Some t /\
       unixNano now <= unixNano t <= unixNano now + DeadlineDays params * 86400 * 1000000000) /\
  (forall b, lpIsRolling params = Some b -> is_rolling row = Some b) /\
  (sanitizeStringSlice (lpCategories params) <> [] ->
     overlap (categories row) (sanitizeStringSlice (lpCategories params))) /\
  (sanitizeStringSlice (lpEligibility params) <> [] ->
     overlap (eligibility row) (sanitizeStringSlice (lpEligibility params))).
Proof.
  intros Hrow.
  pose proof (included_holds params now row) as Hc. specialize (Hc).
  repeat split.
  - intros Hq. apply nonempty_text in Hq.
    assert (Hin : (fun (_ : Time) (row : Row) => keywordMatch row (Query params))
                    ∈ whereClause params) by (reach 13 Hq).
    specialize (Hc _ Hrow Hin). cbn beta in Hc.
    destruct (keywordMatch row (Query params)) as [[] |]; [reflexivity | discriminate | discriminate].
  - intros Hs. apply nonempty_text in Hs.
    assert (Hin : (fun (_ : Time) (row : Row) =>
                     sql_eq_text (Some (source_domain row)) (lpSource params))
                    ∈ whereClause params) by (reach 12 Hs).
    apply holds_eq_text. exact (Hc _ Hrow Hin).
  - intros Hs. apply nonempty_list in Hs.
    assert (Hin : (fun (_ : Time) (row : Row) => sql_in (region row) (lpRegion params))
                    ∈ whereClause params) by (reach 11 Hs).
    apply holds_in. exact (Hc _ Hrow Hin).
  - intros Hs. apply nonempty_list in Hs.
    assert (Hin : (fun (_ : Time) (row : Row) => sql_in (funder_type row) (lpFunderType params))
                    ∈ whereClause params) by (reach 10 Hs).
    apply holds_in. exact (Hc _ Hrow Hin).
  - intros Hs. apply nonempty_list in Hs.
    assert (Hin : (fun (_ : Time) (row : Row) => sql_in (country row) (lpCountry params))
                    ∈ whereClause params) by (reach 9 Hs).
    apply holds_in. exact (Hc _ Hrow Hin).
  - intros Hs. apply nonempty_text in Hs.
    assert (Hin : (fun (_ : Time) (row : Row) =>
                     sql_eq_text (agency_code row) (lpAgencyCode params))
                    ∈ whereClause params) by (reach 8 Hs).
    apply holds_eq_text_opt. exact (Hc _ Hrow Hin).
  - intros Hs. apply nonempty_list in Hs.
    assert (Hin : (fun (_ : Time) (row : Row) => sql_in (agency_name row) (lpAgencyName params))
                    ∈ whereClause params) by (reach 7 Hs).
    apply holds_in. exact (Hc _ Hrow Hin).
  - intros Hs. apply positive_amount in Hs.
    assert (Hin : (fun (_ : Time) (row : Row) => sql_ge_num (amount_max row) (MinAmount params))
                    ∈ whereClause params) by (reach 6 Hs).
    apply holds_ge_num. exact (Hc _ Hrow Hin).
  - intros Hs. apply positive_amount in Hs.
    assert (Hin : (fun (_ : Time) (row : Row) => sql_le_num (amount_min row) (MaxAmount params))
                    ∈ whereClause params) by (reach 5 Hs).
    apply holds_le_num. exact (Hc _ Hrow Hin).
  - intros Hs. apply Z.ltb_lt in Hs.
    assert (Hin : (fun (now : Time) (row : Row) =>
                     sql_or (sql_eq_bool (is_rolling row) true)
                       (sql_and
                          (sql_and (Some (bool_decide (next_deadline_at row <> None)))
                                   (sql_ge_time (next_deadline_at row) now))
                          ((fun t => unixNano t <=?
                                       unixNano now + DeadlineDays params * 86400 * 1000000000)
                             <$> next_deadline_at row)))
                    ∈ whereClause params) by (reach 3 Hs).
    specialize (Hc _ Hrow Hin). cbn beta in Hc.
    apply holds_or in Hc as [Hroll | Hwin].
    + left. apply holds_eq_bool. exact Hroll.
    + right. apply holds_and in Hwin as [Hge Hle]. apply holds_and in Hge as [_ Hge].
      apply holds_ge_time in Hge as (t & Ht & Hlow). exists t. split; [exact Ht |].
      rewrite Ht in Hle. cbn in Hle.
      destruct (Z.leb_spec (unixNano t)
                  (unixNano now + DeadlineDays params * 86400 * 1000000000)); [lia | discriminate].
  - intros b Hb.
    assert (Hin : (fun (_ : Time) (row : Row) => sql_eq_bool (is_rolling row) b)
                    ∈ whereClause params).
    { unfold whereClause. cbv zeta. do 2 descend. rewrite Hb.
      apply elem_of_app. right. apply list_elem_of_singleton. reflexivity. }
    apply holds_eq_bool. exact (Hc _ Hrow Hin).
  - intros Hs. apply nonempty_list in Hs.
    assert (Hin : (fun (_ : Time) (row : Row) =>
                     sql_overlap (Db.categories row) (sanitizeStringSlice (lpCategories params)))
                    ∈ whereClause params) by (reach 1 Hs).
    apply holds_overlap. exact (Hc _ Hrow Hin).
  - intros Hs. apply nonempty_list in Hs.
    assert (Hin : (fun (_ : Time) (row : Row) =>
                     sql_overlap (Db.eligibility row) (sanitizeStringSlice (lpEligibility params)))
                    ∈ whereClause params) by (reach 0 Hs).
    apply holds_overlap. exact (Hc _ Hrow Hin).
Qed.

End ListingFilters.

(** X6, an example: a request for one source and for rows that are not
    rolling, and a row it lists. *)
Lemma listing_filters_hold_example :
  Store.rowIncluded (H := Store.titleStore) Store.sourceRequest Examples.at_2026_02_01
    (Store.listedRow "closed" false false None None) = true /\
  Db.source_domain (Store.listedRow "closed" false false None None) = "example.org" /\
  Db.is_rolling (Store.listedRow "closed" false false None None) = Some false.
Proof.
  assert (Hrow : Store.rowIncluded (H := Store.titleStore) Store.sourceRequest
                   Examples.at_2026_02_01 (Store.listedRow "closed" false false None None)
                 = true) by (vm_compute; reflexivity).
  pose proof (listing_filters_hold (H := Store.titleStore) _ _ _ Hrow) as Hall.
  split; [exact Hrow |]. split.
  - apply (proj1 (proj2 Hall)). discriminate.
  - apply (proj1 (proj2 (proj2 (proj2 (proj2 (proj2 (proj2 (proj2 (proj2 (proj2 (proj2 Hall))))))))))).
    reflexivity.
Defined.

(** ** The policy of the fetcher *)

Section FetcherPolicy.

Import Fetcher Ranges.


Lemma existsb_false_forall {A} (f : A -> bool) (l : list A) :
  existsb f l = false <-> forall x, x ∈ l -> f x = false.
Proof.
  split.
  - intros Hex x Hx. destruct (f x) eqn:E; [| reflexivity].
    assert (existsb f l = true); [| congruence].
    apply existsb_exists. exists x. split; [apply list_elem_of_In; exact Hx | exact E].
  - intros Hall. destruct (existsb f l) eqn:E; [| reflexivity].
    apply existsb_exists in E as (x & Hx & Hfx). rewrite (Hall x) in Hfx; [discriminate |].
    apply list_elem_of_In. exact Hx.
Qed.

(** X8. The dial goes ahead exactly when the lookup succeeds and none of the
    addresses is refused, also when the lookup returns no address at all.
    A redirect is followed exactly when it is at most the tenth, its scheme
    is http or https, its host is not empty, is not localhost and does not
    end in .local (in any letter case), and the host resolves to at least
    one address, none of which is refused. *)
Theorem fetch_proceeds_iff (LookupIP : Resolver) :
  (forall host,
     safeDialContext LookupIP host = Proceed <->
     exists ips, LookupIP host = Some ips /\ forall ip, ip ∈ ips -> isPrivateIP ip = false) /\
  (forall via scheme host,
     safeCheckRedirect LookupIP via scheme host = Proceed <->
     (via < 10)%nat /\ (scheme = "http" \/ scheme = "https") /\ host <> "" /\
     EqualFold host "localhost" = false /\ HasSuffix (ToLower host) ".local" = false /\
     exists ips, LookupIP host = Some ips /\ ips <> [] /\
       forall ip, ip ∈ ips -> isPrivateIP ip = false).
Proof.
  split.
  - intros host. unfold safeDialContext.
    destruct (LookupIP host) as [ips |]; [| split; [discriminate | intros (ips & Hips & _); discriminate]].
    destruct (existsb isPrivateIP ips) eqn:Hex; split.
    + discriminate.
    + intros (ips' & [= <-] & Hall). apply existsb_false_forall in Hall. congruence.
    + intros _. exists ips. split; [reflexivity |]. apply existsb_false_forall. exact Hex.
    + reflexivity.
  - intros via scheme host. unfold safeCheckRedirect.
    destruct (Nat.leb_spec 10 via) as [Hvia | Hvia].
    { split; [discriminate | intros (Hlt & _); lia]. }
    assert (Hscheme : negb (String.eqb scheme "http") && negb (String.eqb scheme "https") = false
                      <-> scheme = "http" \/ scheme = "https").
    { destruct (String.eqb_spec scheme "http"), (String.eqb_spec scheme "https"); cbn;
        intuition congruence. }
    destruct (negb (String.eqb scheme "http") && negb (String.eqb scheme "https")) eqn:Hs.
    { split; [discriminate |]. intros (_ & Hor & _). apply Hscheme in Hor. discriminate. }
    assert (Hor : scheme = "http" \/ scheme = "https") by (apply Hscheme; reflexivity).
    clear Hscheme.
    destruct (String.eqb_spec host "") as [-> | Hhost];
      [split; [discriminate | intros (_ & _ & Hne & _); contradiction] |].
    destruct (EqualFold host "localhost") eqn:Hlocal; cbn [orb];
      [split; [discriminate | intros (_ & _ & _ & Hl & _); discriminate] |].
    destruct (HasSuffix (ToLower host) ".local") eqn:Hsuffix;
      [split; [discriminate | intros (_ & _ & _ & _ & Hsf & _); discriminate] |].
    destruct (LookupIP host) as [[| ip ips] |];
      [ split; [discriminate | intros (_ & _ & _ & _ & _ & ips' & [= <-] & Hne & _); contradiction]
      | | split; [discriminate | intros (_ & _ & _ & _ & _ & ips' & Hips & _); discriminate] ].
    destruct (existsb isPrivateIP (ip :: ips)) eqn:Hex; split;
      [ discriminate
      | intros (_ & _ & _ & _ & _ & ips' & [= <-] & _ & Hall);
        apply existsb_false_forall in Hall; congruence
      | intros _; repeat (split; [first [lia | tauto | reflexivity | assumption] |]);
        exists (ip :: ips); split; [reflexivity |]; split; [discriminate |];
        apply existsb_false_forall; exact Hex
      | reflexivity ].
Qed.

End FetcherPolicy.


Section IPv4Policy.

Import Fetcher Ranges Calendar.

Lemma prefix_test (v p k : Z) :
  (Z.shiftr (Z.lxor v p) k =? 0) = (Z.shiftr v k =? Z.shiftr p k).
Proof.
  rewrite Z.shiftr_lxor.
  destruct (Z.eqb_spec (Z.shiftr v k) (Z.shiftr p k)) as [-> | Hne].
  - rewrite Z.lxor_nilpotent. reflexivity.
  - apply Z.eqb_neq. intros Hz. apply Z.lxor_eq in Hz. contradiction.
Qed.

Lemma PrefixContains_v4 (p bits v : Z) :
  PrefixContains (mkPrefix (mkAddr 32 p) bits) (mkAddr 32 v) =
  (Z.shiftr v (32 - bits) =? Z.shiftr p (32 - bits)).
Proof. unfold PrefixContains. cbn [prefixAddr bitLen addrValue prefixBits]. apply prefix_test. Qed.

Lemma PrefixContains_v6_v4 (p bits v : Z) :
  PrefixContains (mkPrefix (mkAddr 128 p) bits) (mkAddr 32 v) = false.
Proof. reflexivity. Qed.

Lemma value_v4 (a b c d : Z) :
  bytesValue [a; b; c; d] 0 = a * 16777216 + b * 65536 + c * 256 + d.
Proof. cbn [bytesValue]. lia. Qed.

Lemma shiftr_24 (a b c d : Z) :
  isByte b -> isByte c -> isByte d ->
  Z.shiftr (a * 16777216 + b * 65536 + c * 256 + d) 24 = a.
Proof.
  unfold isByte. intros Hb Hc Hd. rewrite Z.shiftr_div_pow2 by lia.
  change (2 ^ 24) with 16777216.
  symmetry. apply (Z.div_unique _ _ _ (b * 65536 + c * 256 + d)); lia.
Qed.

Lemma shiftr_16 (a b c d : Z) :
  isByte c -> isByte d ->
  Z.shiftr (a * 16777216 + b * 65536 + c * 256 + d) 16 = a * 256 + b.
Proof.
  unfold isByte. intros Hc Hd. rewrite Z.shiftr_div_pow2 by lia.
  change (2 ^ 16) with 65536.
  symmetry. apply (Z.div_unique _ _ _ (c * 256 + d)); lia.
Qed.

Lemma shiftr_20 (a b c d : Z) :
  isByte b -> isByte c -> isByte d ->
  Z.shiftr (a * 16777216 + b * 65536 + c * 256 + d) 20 = a * 16 + b / 16.
Proof.
  unfold isByte. intros Hb Hc Hd. rewrite Z.shiftr_div_pow2 by lia.
  change (2 ^ 20) with 1048576.
  pose proof (Z.div_mod b 16 ltac:(lia)) as Hdm.
  pose proof (Z.mod_pos_bound b 16 ltac:(lia)) as Hm.
  symmetry. apply (Z.div_unique _ _ _ ((b mod 16) * 65536 + c * 256 + d)); lia.
Qed.

(** A fact about two bytes, checked on all their values. *)
Lemma two_bytes (P : Z -> Z -> bool) (a b : Z) :
  allFrom (fun a => allFrom (P a) 256 0) 256 0 = true -> isByte a -> isByte b -> P a b = true.
Proof.
  intros Hall Ha Hb. unfold isByte in *.
  pose proof (allFrom_spec _ _ _ Hall a ltac:(lia)) as Hrow. cbv beta in Hrow.
  apply (allFrom_spec _ _ _ Hrow b). lia.
Qed.

Lemma IsUnspecified_v4 (a b c d : Z) :
  IsUnspecified [a; b; c; d] = bool_decide ([a; b; c; d] = [0; 0; 0; 0]).
Proof.
  unfold IsUnspecified, IPEqual.
  change (length [a; b; c; d] =? length IPv4zero)%nat with false.
  change (length [a; b; c; d] =? length IPv6unspecified)%nat with false.
  change (length [a; b; c; d] =? 4)%nat with true.
  change (length IPv4zero =? 16)%nat with true.
  change (length IPv6unspecified =? 16)%nat with true.
  cbn [andb].
  replace (bytesEqual (take 12 IPv4zero) v4InV6Prefix) with true by (vm_compute; reflexivity).
  replace (bytesEqual (take 12 IPv6unspecified) v4InV6Prefix) with false
    by (vm_compute; reflexivity).
  cbn [andb orb]. rewrite orb_false_r. reflexivity.
Qed.

Ltac by_two_bytes a b :=
  match goal with
  | |- ?X = true =>
      let P := eval pattern a, b in X in
      match P with
      | ?F a b => apply (two_bytes F a b); [vm_compute; reflexivity | assumption | assumption]
      end
  end.

(** X9. On an IPv4 address a.b.c.d the fetcher refuses exactly loopback
    127/8, link-local 169.254/16, the networks 10/8, 172.16/12 and
    192.168/16, multicast 224/4 and 0.0.0.0: the list of prefixes and the
    explicit tests of [isPrivateIP] add nothing to the predicates of the
    library. The check of the API handler refuses exactly these addresses
    and those of 100.64/10. *)
Theorem ipv4_refused_exactly (a b c d : Z) :
  isByte a -> isByte b -> isByte c -> isByte d ->
  isPrivateIP [a; b; c; d] = listedV4 a b [a; b; c; d] /\
  isPrivateOrSpecialIP [a; b; c; d] = (listedV4 a b [a; b; c; d] || inCGNAT [a; b; c; d]).
Proof.
  intros Ha Hb Hc Hd.
  assert (Hfetch : isPrivateIP [a; b; c; d] = listedV4 a b [a; b; c; d]).
  { unfold isPrivateIP.
    rewrite (bool_decide_eq_false_2 ([a; b; c; d] = [])) by discriminate.
    rewrite IsUnspecified_v4.
    unfold IsLoopback, IsLinkLocalMulticast, IsLinkLocalUnicast, IsMulticast, IsPrivate,
      AddrFromSlice, To4, byteAt, listedV4.
    change (length [a; b; c; d] =? 4)%nat with true. cbn [nth].
    unfold Unmap. cbn [bitLen addrValue]. change (32 =? 128) with false. cbn [andb].
    unfold blockedPrefixes. cbn [existsb].
    rewrite !PrefixContains_v4, !PrefixContains_v6_v4, !value_v4.
    change (32 - 8) with 24. change (32 - 12) with 20. change (32 - 16) with 16.
    rewrite (shiftr_24 a b c d), (shiftr_20 a b c d), (shiftr_16 a b c d) by assumption.
    assert (Hbyte : forall n, 0 <= n < 256 -> isByte n) by (intros n Hn; exact Hn).
    rewrite (shiftr_24 127 0 0 0), (shiftr_24 10 0 0 0), (shiftr_20 172 16 0 0),
      (shiftr_16 192 168 0 0), (shiftr_16 169 254 0 0) by (apply Hbyte; lia).
    clear Hbyte.
    apply eqb_prop.
    destruct (decide ([a; b; c; d] = [0; 0; 0; 0])) as [Hz | Hz].
    - rewrite !(bool_decide_eq_true_2 _ Hz). injection Hz as -> -> -> ->.
      vm_compute. reflexivity.
    - rewrite !(bool_decide_eq_false_2 _ Hz). generalize (c =? 0). intros cz.
      destruct cz; by_two_bytes a b. }
  split; [exact Hfetch |].
  unfold isPrivateOrSpecialIP, inCGNAT.
  rewrite (bool_decide_eq_false_2 ([a; b; c; d] = [])) by discriminate.
  rewrite IsUnspecified_v4.
  unfold IsLoopback, IsLinkLocalMulticast, IsLinkLocalUnicast, IsMulticast, IsPrivate,
    To4, byteAt, listedV4.
  change (length [a; b; c; d] =? 4)%nat with true. cbn [nth andb].
  apply eqb_prop.
  destruct (decide ([a; b; c; d] = [0; 0; 0; 0])) as [Hz | Hz].
  - rewrite !(bool_decide_eq_true_2 _ Hz). injection Hz as -> -> -> ->.
    vm_compute. reflexivity.
  - rewrite !(bool_decide_eq_false_2 _ Hz). generalize (c =? 0). intros cz.
    destruct cz; by_two_bytes a b.
Qed.

End IPv4Policy.

(** X9, an example: 172.20.1.1 and 100.64.0.1. *)
Lemma ipv4_refused_exactly_example :
  Fetcher.isPrivateIP [172; 20; 1; 1] = true /\
  Fetcher.isPrivateIP Fetcher.cgnatAddress = false /\
  Fetcher.isPrivateOrSpecialIP Fetcher.cgnatAddress = true.
Proof.
  assert (Hbyte : forall n, 0 <= n < 256 -> Ranges.isByte n) by (intros n Hn; exact Hn).
  destruct (ipv4_refused_exactly 172 20 1 1) as [H1 _]; try (apply Hbyte; lia).
  destruct (ipv4_refused_exactly 100 64 0 1) as [H2 H3]; try (apply Hbyte; lia).
  unfold Fetcher.cgnatAddress. rewrite H1, H2, H3. repeat split.
Defined.

(* ===================================================================== *)
(** ** The decision table of the status engine (status_engine.go) *)

Section DecisionTable.

Import DecisionSpec.

Context `{GoRuntime}.

Ltac in_table :=
  repeat first [ left; reflexivity | right ].

(** The status, the reason and the flag of a decision. *)
Lemma ComputeStatusDecision_row (opp : Opportunity) (now : Time) :
  let d := ComputeStatusDecision opp now in
  List.In (dNormalizedStatus d, dStatusReason d, dStatusConfidence d) decisionTable /\
  List.In (dNormalizedStatus d) statusValues /\
  (dIsResultsPage d = true <-> dStatusReason d = "results_page").
Proof.
  cbv zeta. unfold ComputeStatusDecision. cbv zeta.
  repeat match goal with
         | |- context [if ?c then _ else _] => destruct c
         end;
    cbn [dNormalizedStatus dStatusReason dStatusConfidence dIsResultsPage];
    (split; [unfold decisionTable; in_table |]);
    (split; [unfold statusValues; in_table |]);
    split; first [ discriminate | reflexivity ].
Qed.

(** X10. Every decision of the status engine is a row of the table of the
    source: the status is one of open, closed, upcoming, archived and
    needs_review, with the reason and the confidence of its rule, between
    0.2 and 0.99; the flag is_results_page is set exactly for the reason
    results_page; and a next deadline is withheld only for
    missing_deadline. *)
Theorem decision_is_a_table_row (opp : Opportunity) (now : Time) :
  let d := ComputeStatusDecision opp now in
  List.In (dNormalizedStatus d, dStatusReason d, dStatusConfidence d) decisionTable /\
  List.In (dNormalizedStatus d) statusValues /\
  (0.2 <= dStatusConfidence d)%Q /\ (dStatusConfidence d <= 0.99)%Q /\
  (dIsResultsPage d = true <-> dStatusReason d = "results_page") /\
  (dStatusReason d <> "missing_deadline" ->
   dNextDeadlineAt d = pickNextDeadline opp (UTC now)).
Proof.
  cbv zeta. unfold ComputeStatusDecision. cbv zeta.
  repeat match goal with
         | |- context [if ?c then _ else _] => destruct c
         end;
    cbn [dNormalizedStatus dStatusReason dStatusConfidence dIsResultsPage dNextDeadlineAt];
    (split; [unfold decisionTable; in_table |]);
    (split; [unfold statusValues; in_table |]);
    (split; [vm_compute; discriminate |]);
    (split; [vm_compute; discriminate |]);
    (split; [split; [try discriminate; reflexivity | try discriminate; reflexivity] |]);
    first [ intros _; reflexivity | intros Hne; exfalso; apply Hne; reflexivity ].
Qed.

(** X11. An opportunity is decided open only on evidence: it is not a
    results page, its source does not declare it closed or archived, its
    opening date is not ahead, and it has rolling evidence, a next deadline
    after now, or a closing date after now. The word open of the source is
    not enough. *)
Theorem open_needs_evidence (opp : Opportunity) (now : Time) :
  dNormalizedStatus (ComputeStatusDecision opp now) = "open" ->
  IsResultsPage opp = false /\ detectResultsPage opp = false /\
  declaredStatus opp <> "closed" /\ declaredStatus opp <> "archived" /\
  isAfter (OpenAt opp) (UTC now) = false /\
  (detectRollingEvidence opp = true \/
   isAfter (pickNextDeadline opp (UTC now)) (UTC now) = true \/
   isAfter (CloseAt opp) (UTC now) = true).
Proof.
  unfold ComputeStatusDecision, declaredStatus. cbv zeta.
  destruct (detectResultsPage opp) eqn:Hres; cbn [orb]; [discriminate |].
  destruct (IsResultsPage opp) eqn:Hflag; [discriminate |].
  set (mapped := if String.eqb (mapSourceStatusRaw (SourceStatusRaw opp)) ""
                 then mapSourceStatusRaw (OppStatus opp)
                 else mapSourceStatusRaw (SourceStatusRaw opp)).
  destruct (String.eqb_spec mapped "archived") as [Harch | Harch]; [discriminate |].
  destruct (String.eqb_spec mapped "closed") as [Hclosed | Hclosed].
  { destruct (_ || _ || _); discriminate. }
  destruct (isAfter (OpenAt opp) (UTC now)) eqn:Hopen; [discriminate |].
  destruct (detectRollingEvidence opp) eqn:Hroll.
  { cbn [negb andb]. rewrite andb_false_r. intros _. repeat (split; [congruence |]).
    left. reflexivity. }
  cbn [negb]. rewrite andb_true_r.
  destruct (IsRolling opp); [discriminate |].
  destruct (isAfter (pickNextDeadline opp (UTC now)) (UTC now)) eqn:Hnext.
  { intros _. repeat (split; [congruence |]). right. left. reflexivity. }
  destruct (isAfter (CloseAt opp) (UTC now)) eqn:Hclose.
  { intros _. repeat (split; [congruence |]). right. right. reflexivity. }
  repeat match goal with
         | |- context [if ?c then _ else _] => destruct c
         end; discriminate.
Qed.

End DecisionTable.

Lemma open_needs_evidence_example :
  dNormalizedStatus
    (ComputeStatusDecision (H := plainRuntime) (grantsGovDetailOpp at_2026_02_01)
       at_2026_02_01) = "open" /\
  isAfter (pickNextDeadline (H := plainRuntime) (grantsGovDetailOpp at_2026_02_01)
             (UTC at_2026_02_01)) (UTC at_2026_02_01) = true.
Proof.
  assert (Hopen : dNormalizedStatus
            (ComputeStatusDecision (H := plainRuntime) (grantsGovDetailOpp at_2026_02_01)
               at_2026_02_01) = "open") by (vm_compute; reflexivity).
  split; [exact Hopen |].
  destruct (open_needs_evidence (H := plainRuntime) (grantsGovDetailOpp at_2026_02_01)
              at_2026_02_01 Hopen) as (_ & _ & _ & _ & _ & [Hroll | [Hnext | Hclose]]).
  - vm_compute in Hroll. discriminate.
  - exact Hnext.
  - vm_compute in Hclose. discriminate.
Defined.

(* ===================================================================== *)
(** ** Invariants of the table under a write (pipeline.go, migration 008) *)

Section TableInvariants.

Import TableSpec.

Lemma COALESCE_stays {A} (a b : option A) : stays b (COALESCE a b).
Proof. intros Hb. destruct a; [by eexists | exact Hb]. Qed.

Lemma trigger_cases (now : Time) (r : Row) :
  update_opportunity_status_on_deadline now r = r \/
  update_opportunity_status_on_deadline now r = set_opp_status (Some "closed") r.
Proof. unfold update_opportunity_status_on_deadline. destruct (holds _); auto. Qed.

(** X12. A write touches one row: the rows of other keys are as they were,
    the key of the written row holds a row afterwards, the keys of the
    table are the old ones and this one, and the table stays keyed by
    (source_domain, source_id). *)
Theorem upsert_touches_one_row (now : Time) (tbl : Table) (r : Row) :
  wellKeyed tbl ->
  TableSpec.wellKeyed (upsert now tbl r) /\
  (forall k, k <> key r -> upsert now tbl r !! k = tbl !! k) /\
  is_Some (upsert now tbl r !! key r) /\
  dom (upsert now tbl r) = {[ key r ]} ∪ dom tbl.
Proof.
  intros Hkeyed. split; [| split; [| split]].
  - intros k stored. destruct (decide (k = key r)) as [-> | Hne].
    + rewrite upsert_lookup. intros Hst. apply (inj Some) in Hst. subst stored.
      destruct (tbl !! key r) as [old |] eqn:Hold.
      * rewrite trigger_key, on_conflict_key. exact (Hkeyed _ _ Hold).
      * apply trigger_key.
    + rewrite (upsert_lookup_ne now tbl r k Hne). apply Hkeyed.
  - intros k Hne. exact (upsert_lookup_ne now tbl r k Hne).
  - rewrite upsert_lookup. by eexists.
  - unfold upsert. cbv zeta. rewrite trigger_key.
    destruct (tbl !! key r); apply dom_insert_L.
Qed.

(** X13. A second write of a key never erases what the row holds: a
    deadline, an opening, closing or expiration date, a description, an
    amount, a currency, a number, a document type, a source status, the
    deadlines, the evidence or the embedding stay set, a list of
    categories, eligibility or CFDA numbers stays non-empty, and the
    link, agency, funder type, region and country of the first write are
    the stored ones for good. *)
Theorem upsert_never_erases (now : Time) (tbl : Table) (r old : Row) :
  tbl !! key r = Some old ->
  exists new,
    upsert now tbl r !! key r = Some new /\
    stays (deadline_at old) (deadline_at new) /\
    stays (open_date old) (open_date new) /\
    stays (open_at old) (open_at new) /\
    stays (close_at old) (close_at new) /\
    stays (expiration_at old) (expiration_at new) /\
    stays (description_html old) (description_html new) /\
    stays (amount_min old) (amount_min new) /\
    stays (amount_max old) (amount_max new) /\
    stays (currency old) (currency new) /\
    stays (close_date_raw old) (close_date_raw new) /\
    stays (doc_type old) (doc_type new) /\
    stays (opportunity_number old) (opportunity_number new) /\
    stays (source_status_raw old) (source_status_raw new) /\
    stays (deadlines old) (deadlines new) /\
    stays (source_evidence_json old) (source_evidence_json new) /\
    stays (embedding old) (embedding new) /\
    (categories old <> [] -> categories new <> []) /\
    (eligibility old <> [] -> eligibility new <> []) /\
    (cfda_list old <> [] -> cfda_list new <> []) /\
    external_url new = external_url old /\
    agency_name new = agency_name old /\
    agency_code new = agency_code old /\
    funder_type new = funder_type old /\
    region new = region old /\
    country new = country old.
Proof.
  intros Hold. rewrite upsert_lookup, Hold. eexists. split; [reflexivity |].
  set (excluded := update_opportunity_status_on_deadline now r).
  assert (Hlist : forall new old' : list string, old' <> [] -> keepIfEmpty new old' <> []).
  { intros new old' Hne. unfold keepIfEmpty. destruct new; [exact Hne | discriminate]. }
  destruct (trigger_cases now (on_conflict_update now old excluded)) as [-> | ->];
    cbn [set_opp_status on_conflict_update deadline_at open_date open_at close_at expiration_at
         description_html amount_min amount_max currency close_date_raw doc_type
         opportunity_number source_status_raw deadlines source_evidence_json embedding
         categories eligibility cfda_list external_url agency_name agency_code funder_type
         region country];
    repeat (split; [first [ apply COALESCE_stays | apply Hlist | reflexivity ] |]);
    reflexivity.
Qed.

(** X14. After a write, the row of its key with a deadline before the time
    of the write has opp_status closed, archived or funded, or has none:
    the trigger closes every other one. *)
Theorem upsert_closes_past_deadline (now : Time) (tbl : Table) (r stored : Row) :
  upsert now tbl r !! key r = Some stored ->
  deadlinePassed now stored ->
  opp_status stored = None \/ isProtected (opp_status stored) = true.
Proof.
  rewrite upsert_lookup. intros Hst (t & Ht & Hpast). apply (inj Some) in Hst.
  assert (Htrig : forall row, deadline_at row = Some t ->
            opp_status (update_opportunity_status_on_deadline now row) = None \/
            isProtected (opp_status (update_opportunity_status_on_deadline now row)) = true).
  { intros row Hrow. unfold update_opportunity_status_on_deadline. rewrite Hrow.
    replace (bool_decide (Some t <> None)) with true by reflexivity.
    unfold sql_lt_time. cbn [fmap option_fmap option_map]. unfold Before in Hpast.
    rewrite Hpast. destruct (opp_status row) as [s |] eqn:Hs; [| left; cbn; exact Hs].
    right. unfold isProtected, sql_in, sql_not, sql_and, holds.
    cbn [fmap option_fmap option_map andb].
    destruct (existsb (String.eqb s) ["closed"; "archived"; "funded"]) eqn:Hin;
      cbn [negb]; [rewrite Hs | reflexivity].
    cbn [fmap option_fmap option_map]. rewrite Hin. reflexivity. }
  destruct (tbl !! key r) as [old |]; subst stored;
    rewrite trigger_deadline in Ht; exact (Htrig _ Ht).
Qed.

End TableInvariants.

Lemma upsert_touches_one_row_example :
  TableSpec.wellKeyed ({[ exampleKey := archivedRow ]} : Table) /\
  TableSpec.wellKeyed (upsert at_2026_02_01 {[ exampleKey := archivedRow ]} postedPastRow) /\
  dom (upsert at_2026_02_01 {[ exampleKey := archivedRow ]} postedPastRow) =
    {[ key postedPastRow ]} ∪ dom ({[ exampleKey := archivedRow ]} : Table).
Proof.
  assert (Hkeyed : TableSpec.wellKeyed ({[ exampleKey := archivedRow ]} : Table)).
  { intros k r Hk. apply lookup_singleton_Some in Hk as [<- <-]. reflexivity. }
  split; [exact Hkeyed |].
  destruct (upsert_touches_one_row at_2026_02_01 {[ exampleKey := archivedRow ]} postedPastRow
              Hkeyed) as (Hk & _ & _ & Hdom).
  split; [exact Hk | exact Hdom].
Defined.

Lemma upsert_never_erases_example :
  ({[ exampleKey := postedPastRow ]} : Table) !! key noLongerRollingRow = Some postedPastRow /\
  exists new,
    upsert at_2026_02_01 {[ exampleKey := postedPastRow ]} noLongerRollingRow
      !! key noLongerRollingRow = Some new /\
    is_Some (deadline_at new).
Proof.
  assert (Hold : ({[ exampleKey := postedPastRow ]} : Table) !! key noLongerRollingRow
                 = Some postedPastRow) by apply lookup_singleton_eq.
  split; [exact Hold |].
  destruct (upsert_never_erases at_2026_02_01 _ noLongerRollingRow postedPastRow Hold)
    as (new & Hnew & Hdeadline & _).
  exists new. split; [exact Hnew |]. apply Hdeadline. by eexists.
Defined.

Lemma upsert_closes_past_deadline_example :
  upsert at_2026_02_01 ∅ postedPastRow !! key postedPastRow =
    Some (update_opportunity_status_on_deadline at_2026_02_01 postedPastRow) /\
  TableSpec.deadlinePassed at_2026_02_01
    (update_opportunity_status_on_deadline at_2026_02_01 postedPastRow) /\
  (opp_status (update_opportunity_status_on_deadline at_2026_02_01 postedPastRow) = None \/
   isProtected (opp_status (update_opportunity_status_on_deadline at_2026_02_01 postedPastRow))
     = true).
Proof.
  assert (Hst : upsert at_2026_02_01 ∅ postedPastRow !! key postedPastRow =
                Some (update_opportunity_status_on_deadline at_2026_02_01 postedPastRow)).
  { rewrite upsert_lookup, lookup_empty. reflexivity. }
  assert (Hpast : TableSpec.deadlinePassed at_2026_02_01
                    (update_opportunity_status_on_deadline at_2026_02_01 postedPastRow)).
  { eexists. split; [vm_compute; reflexivity | vm_compute; reflexivity]. }
  split; [exact Hst |]. split; [exact Hpast |].
  exact (upsert_closes_past_deadline at_2026_02_01 ∅ postedPastRow _ Hst Hpast).
Defined.

(* ===================================================================== *)
(** ** The periodic update of expired rows (migration 008) *)

Section PeriodicUpdate.

Import Maintenance.

Lemma expired_trigger (now : Time) (r : Row) :
  update_opportunity_status_on_deadline now r =
  if expired now r then set_opp_status (Some "closed") r else r.
Proof. reflexivity. Qed.

Lemma expired_closed (now : Time) (r : Row) :
  expired now (set_opp_status (Some "closed") r) = false.
Proof.
  unfold expired. cbn [set_opp_status deadline_at opp_status].
  destruct (deadline_at r) as [t |]; [| reflexivity].
  cbn. destruct (unixNano t <? unixNano now); reflexivity.
Qed.

Lemma updated_row (now : Time) (r : Row) :
  (if expired now r
   then update_opportunity_status_on_deadline now (set_opp_status (Some "closed") r)
   else r) =
  if expired now r then set_opp_status (Some "closed") r else r.
Proof.
  destruct (expired now r); [| reflexivity].
  rewrite expired_trigger, expired_closed. reflexivity.
Qed.

Lemma updated_row_not_expired (now : Time) (r : Row) :
  expired now (if expired now r then set_opp_status (Some "closed") r else r) = false.
Proof. destruct (expired now r) eqn:E; [apply expired_closed | exact E]. Qed.

(** X15. The periodic update closes the expired rows and only them: it
    keeps the keys, changes nothing but opp_status, leaves no row expired,
    returns a count between 0 and the size of the table, a count of 0 means
    the table is as before, and a second run at the same time changes
    nothing and returns 0. *)
Theorem periodic_update_idempotent (now : Time) (tbl : Table) :
  let updated := fst (update_expired_opportunities_status now tbl) in
  let count := snd (update_expired_opportunities_status now tbl) in
  dom updated = dom tbl /\
  (forall k, updated !! k =
     (fun r => if expired now r then set_opp_status (Some "closed") r else r) <$> tbl !! k) /\
  (forall k r, updated !! k = Some r -> expired now r = false) /\
  0 <= count <= Z.of_nat (size tbl) /\
  (count = 0 -> updated = tbl) /\
  update_expired_opportunities_status now updated = (updated, 0).
Proof.
  cbv zeta. unfold update_expired_opportunities_status. cbn [fst snd].
  assert (Hlookup : forall k,
            ((fun r => if expired now r
                       then update_opportunity_status_on_deadline now
                              (set_opp_status (Some "closed") r)
                       else r) <$> tbl) !! k =
            (fun r => if expired now r then set_opp_status (Some "closed") r else r)
              <$> tbl !! k).
  { intros k. rewrite lookup_fmap. destruct (tbl !! k) as [r |]; [| reflexivity].
    cbn [fmap option_fmap option_map]. rewrite updated_row. reflexivity. }
  assert (Hnone : forall k r,
            ((fun r => if expired now r
                       then update_opportunity_status_on_deadline now
                              (set_opp_status (Some "closed") r)
                       else r) <$> tbl) !! k = Some r -> expired now r = false).
  { intros k r. rewrite Hlookup. destruct (tbl !! k) as [r0 |]; [| discriminate].
    cbn [fmap option_fmap option_map]. intros Hr. apply (inj Some) in Hr. subst r.
    apply updated_row_not_expired. }
  split; [apply dom_fmap_L |]. split; [exact Hlookup |]. split; [exact Hnone |].
  split; [| split].
  - split; [lia |]. apply inj_le. apply map_subseteq_size, map_filter_subseteq.
  - intros Hcount. assert (Hempty : filter (fun kr => expired now kr.2 = true) tbl = ∅).
    { apply map_size_empty_iff. lia. }
    apply map_eq. intros k. rewrite Hlookup.
    destruct (tbl !! k) as [r |] eqn:Hk; [| reflexivity].
    cbn [fmap option_fmap option_map]. destruct (expired now r) eqn:E; [| reflexivity].
    exfalso. assert (Hin : filter (fun kr => expired now kr.2 = true) tbl !! k = Some r).
    { apply map_lookup_filter_Some. split; [exact Hk | exact E]. }
    rewrite Hempty, lookup_empty in Hin. discriminate.
  - f_equal.
    + apply map_eq. intros k. rewrite lookup_fmap.
      match goal with |- _ <$> ?m !! k = _ => destruct (m !! k) as [r |] eqn:Hk end;
        [| reflexivity].
      cbn [fmap option_fmap option_map]. rewrite (Hnone k r Hk). reflexivity.
    + match goal with |- Z.of_nat (size ?m) = 0 => assert (Hempty : m = ∅) end.
      { apply map_empty_filter_2. intros k r Hk. cbn. rewrite (Hnone k r Hk). discriminate. }
      rewrite Hempty, map_size_empty. reflexivity.
Qed.

End PeriodicUpdate.

(* ===================================================================== *)
(** ** Merged deadline evidence (pipeline.go) *)

Section MergedEvidence.

Import EvidenceSpec.

Context `{GoRuntime}.

Lemma existsb_eqb_false (k : string) (seen : list string) :
  existsb (String.eqb k) seen = false <-> k ∉ seen.
Proof.
  rewrite <- existsb_eqb_elem. destruct (existsb (String.eqb k) seen).
  - split; [discriminate | intros Hn; destruct Hn; reflexivity].
  - split; [intros _; discriminate | reflexivity].
Qed.

(** The first loop: what it appends and the dates it has seen. *)
Lemma mergeExisting_spec (existing : list DeadlineEvidenceT) (url : string) (seen : list string) :
  let out := fst (mergeExisting existing url seen) in
  let seen' := snd (mergeExisting existing url seen) in
  NoDup (dateKey <$> out) /\
  (forall k, k ∈ (dateKey <$> out) -> (k ∉ seen) /\ k <> "") /\
  (forall k, k ∈ seen' <-> k ∈ (dateKey <$> out) \/ k ∈ seen) /\
  (forall ev, ev ∈ existing -> dateKey ev <> "" -> dateKey ev ∈ seen') /\
  (forall ev, ev ∈ out -> filled url ev).
Proof.
  cbv zeta. revert seen. induction existing as [| ev rest IH]; intros seen.
  - cbn. split; [constructor |]. split; [intros k Hk; by apply elem_of_nil in Hk |].
    split; [intros k; split; [auto | intros [Hk | Hk]; [by apply elem_of_nil in Hk | exact Hk]] |].
    split; intros ev Hev; by apply elem_of_nil in Hev.
  - cbn [mergeExisting]. fold (dateKey ev).
    destruct (String.eqb_spec (dateKey ev) "") as [Hblank | Hblank]; cbn [orb].
    { destruct (IH seen) as (Hnd & Hnew & Hseen & Hcov & Hfill).
      split; [exact Hnd |]. split; [exact Hnew |]. split; [exact Hseen |].
      split; [| exact Hfill].
      intros ev' Hev' Hkey. apply elem_of_cons in Hev' as [-> | Hev'];
        [contradiction | exact (Hcov ev' Hev' Hkey)]. }
    destruct (existsb (String.eqb (dateKey ev)) seen) eqn:Hin.
    { destruct (IH seen) as (Hnd & Hnew & Hseen & Hcov & Hfill).
      split; [exact Hnd |]. split; [exact Hnew |]. split; [exact Hseen |].
      split; [| exact Hfill].
      intros ev' Hev' Hkey. apply elem_of_cons in Hev' as [-> | Hev'];
        [| exact (Hcov ev' Hev' Hkey)].
      apply Hseen. right. apply existsb_eqb_elem. exact Hin. }
    apply existsb_eqb_false in Hin.
    destruct (IH (dateKey ev :: seen)) as (Hnd & Hnew & Hseen & Hcov & Hfill).
    destruct (mergeExisting rest url (dateKey ev :: seen)) as [out seen'] eqn:Hrest.
    cbn [fst snd] in *. cbn [fmap list_fmap]. change (list_fmap _ _ dateKey out) with (dateKey <$> out).
    match goal with |- context [dateKey ?e :: _] => change (dateKey e) with (dateKey ev) end.
    split; [| split; [| split; [| split]]].
    + constructor; [| exact Hnd]. intros Hk. apply Hnew in Hk as [Hk _]. apply Hk. by left.
    + intros k Hk. apply elem_of_cons in Hk as [-> | Hk]; [split; assumption |].
      apply Hnew in Hk as [Hk Hne]. split; [| exact Hne]. intros Hs. apply Hk. by right.
    + intros k. rewrite Hseen, !elem_of_cons. tauto.
    + intros ev' Hev' Hkey. apply elem_of_cons in Hev' as [-> | Hev'];
        [| exact (Hcov ev' Hev' Hkey)].
      apply Hseen. right. by left.
    + intros ev' Hev'. apply elem_of_cons in Hev' as [-> | Hev']; [| exact (Hfill ev' Hev')].
      unfold filled. cbn [Source URL Confidence]. split; [| split].
      * destruct (String.eqb_spec (Source ev) ""); [discriminate | assumption].
      * destruct (Qeq_bool (Confidence ev) 0) eqn:E; [reflexivity | exact E].
      * intros Hurl. destruct (String.eqb_spec (URL ev) ""); assumption.
Qed.

(** The second loop. *)
Lemma mergeLegacy_spec (Htrim : formatsTrimmed) (legacy : list string) (url : string)
    (seen : list string) :
  let out := mergeLegacy legacy url seen in
  NoDup (dateKey <$> out) /\
  (forall k, k ∈ (dateKey <$> out) -> k ∉ seen) /\
  (forall raw dt, raw ∈ legacy -> parseDeadlineCandidate raw = Some dt ->
     time_FormatRFC3339 (UTC dt) ∈ (dateKey <$> out) \/ time_FormatRFC3339 (UTC dt) ∈ seen) /\
  (forall ev, ev ∈ out ->
     Source ev = "legacy" /\ URL ev = url /\ Qeq_bool (Confidence ev) 0 = false).
Proof.
  cbv zeta. revert seen. induction legacy as [| raw rest IH]; intros seen.
  - cbn. split; [constructor |]. split; [intros k Hk; by apply elem_of_nil in Hk |].
    split; [intros raw dt Hraw; by apply elem_of_nil in Hraw |].
    intros ev Hev. by apply elem_of_nil in Hev.
  - cbn [mergeLegacy]. destruct (parseDeadlineCandidate raw) as [dt |] eqn:Hparse.
    2:{ destruct (IH seen) as (Hnd & Hnew & Hcov & Hfill).
        split; [exact Hnd |]. split; [exact Hnew |]. split; [| exact Hfill].
        intros raw' dt' Hraw' Hdt'. apply elem_of_cons in Hraw' as [-> | Hraw'];
          [congruence | exact (Hcov raw' dt' Hraw' Hdt')]. }
    cbv zeta. set (iso := time_FormatRFC3339 (UTC dt)).
    destruct (existsb (String.eqb iso) seen) eqn:Hin.
    { destruct (IH seen) as (Hnd & Hnew & Hcov & Hfill).
      split; [exact Hnd |]. split; [exact Hnew |]. split; [| exact Hfill].
      intros raw' dt' Hraw' Hdt'. apply elem_of_cons in Hraw' as [-> | Hraw'];
        [| exact (Hcov raw' dt' Hraw' Hdt')].
      right. assert (dt' = dt) as -> by congruence. apply existsb_eqb_elem. exact Hin. }
    apply existsb_eqb_false in Hin.
    destruct (IH (iso :: seen)) as (Hnd & Hnew & Hcov & Hfill).
    cbn [fmap list_fmap].
    change (list_fmap _ _ dateKey (mergeLegacy rest url (iso :: seen)))
      with (dateKey <$> mergeLegacy rest url (iso :: seen)).
    assert (Hkey : dateKey (mkDeadlineEvidence "legacy" url raw iso "legacy_deadline" 0.5) = iso).
    { unfold dateKey. cbn [ParsedDateISO]. apply Htrim. }
    rewrite Hkey.
    split; [| split; [| split]].
    + constructor; [| exact Hnd]. intros Hk. apply Hnew in Hk. apply Hk. by left.
    + intros k Hk. apply elem_of_cons in Hk as [-> | Hk]; [exact Hin |].
      apply Hnew in Hk. intros Hs. apply Hk. by right.
    + intros raw' dt' Hraw' Hdt'. apply elem_of_cons in Hraw' as [-> | Hraw'].
      * left. assert (dt' = dt) as -> by congruence. by left.
      * destruct (Hcov raw' dt' Hraw' Hdt') as [Hk | Hk]; [left; by right |].
        apply elem_of_cons in Hk as [Hk | Hk]; [left; rewrite Hk; by left | right; exact Hk].
    + intros ev Hev. apply elem_of_cons in Hev as [-> | Hev]; [| exact (Hfill ev Hev)].
      cbn [Source URL Confidence]. repeat split; reflexivity.
Qed.

(** X16. Merging deadline evidence repeats no date and loses none: the
    merged entries have pairwise different dates, every entry given with a
    date that is not blank and every legacy date that parses has its date
    among them, and every merged entry has a source, a confidence other
    than 0 and, when a fallback is given, a link. *)
Theorem merge_deadline_evidence (existing : list DeadlineEvidenceT) (legacyDates : list string)
    (fallbackURL : string) :
  formatsTrimmed ->
  let merged := mergeDeadlineEvidence existing legacyDates fallbackURL in
  NoDup (dateKey <$> merged) /\
  (forall ev, ev ∈ existing -> dateKey ev <> "" -> dateKey ev ∈ (dateKey <$> merged)) /\
  (forall raw dt, raw ∈ legacyDates -> parseDeadlineCandidate raw = Some dt ->
     time_FormatRFC3339 (UTC dt) ∈ (dateKey <$> merged)) /\
  (forall ev, ev ∈ merged -> filled fallbackURL ev).
Proof.
  intros Htrim. cbv zeta. unfold mergeDeadlineEvidence.
  pose proof (mergeExisting_spec existing fallbackURL []) as Hfirst. cbv zeta in Hfirst.
  destruct (mergeExisting existing fallbackURL []) as [out seen] eqn:Hout.
  cbn [fst snd] in Hfirst. destruct Hfirst as (Hnd & Hnew & Hseen & Hcov & Hfill).
  destruct (mergeLegacy_spec Htrim legacyDates fallbackURL seen) as (Hnd2 & Hnew2 & Hcov2 & Hfill2).
  rewrite fmap_app. split; [| split; [| split]].
  - apply NoDup_app. split; [exact Hnd |]. split; [| exact Hnd2].
    intros k Hk Hk2. apply Hnew2 in Hk2. apply Hk2, Hseen. by left.
  - intros ev Hev Hkey. apply elem_of_app. left.
    destruct (proj1 (Hseen _) (Hcov ev Hev Hkey)) as [Hk | Hk]; [exact Hk |].
    by apply elem_of_nil in Hk.
  - intros raw dt Hraw Hdt. apply elem_of_app.
    destruct (Hcov2 raw dt Hraw Hdt) as [Hk | Hk]; [right; exact Hk |].
    apply Hseen in Hk as [Hk | Hk]; [left; exact Hk | by apply elem_of_nil in Hk].
  - intros ev Hev. apply elem_of_app in Hev as [Hev | Hev]; [exact (Hfill ev Hev) |].
    destruct (Hfill2 ev Hev) as (Hs & Hu & Hc). unfold filled.
    rewrite Hs, Hu. split; [discriminate |]. split; [exact Hc | auto].
Qed.

End MergedEvidence.

Section FormatTrimmed.

Import GoTimeModel TextHelpers.

Lemma digit_not_space (n : Z) : isSpace (digit n) = false.
Proof.
  unfold digit. pose proof (Z.mod_pos_bound n 10 ltac:(lia)) as Hb.
  assert (Hc : n mod 10 = 0 \/ n mod 10 = 1 \/ n mod 10 = 2 \/ n mod 10 = 3 \/ n mod 10 = 4 \/
               n mod 10 = 5 \/ n mod 10 = 6 \/ n mod 10 = 7 \/ n mod 10 = 8 \/ n mod 10 = 9)
    by lia.
  repeat (destruct Hc as [-> | Hc]; [reflexivity |]). rewrite Hc. reflexivity.
Qed.

Lemma append_not_empty (a b : string) : b <> "" -> a +:+ b <> "".
Proof. destruct a; [auto | discriminate]. Qed.

Lemma TrimRightSpace_app (a b : string) :
  TrimRightSpace b = b -> b <> "" -> TrimRightSpace (a +:+ b) = a +:+ b.
Proof.
  intros Hb Hne. induction a as [| c a IH]; [exact Hb |].
  change (String c a +:+ b) with (String c (a +:+ b)).
  rewrite TrimRightSpace_cons, IH.
  destruct (a +:+ b) eqn:E; [| reflexivity].
  exfalso. exact (append_not_empty a b Hne E).
Qed.

Lemma plainRuntime_formatsTrimmed : EvidenceSpec.formatsTrimmed (H := plainRuntime).
Proof.
  intros t. cbn [time_FormatRFC3339 plainRuntime]. unfold TrimSpace.
  rewrite TrimLeftSpace_fixed.
  2:{ unfold FormatRFC3339, pad4. cbn [String.append startsWithSpace]. apply digit_not_space. }
  unfold FormatRFC3339.
  repeat (apply TrimRightSpace_app;
          [| first [ discriminate | apply append_not_empty; discriminate
                   | unfold pad2; discriminate ] ]).
  reflexivity.
Qed.

End FormatTrimmed.

Lemma merge_deadline_evidence_example :
  EvidenceSpec.formatsTrimmed (H := plainRuntime) /\
  NoDup (EvidenceSpec.dateKey <$>
           mergeDeadlineEvidence (H := plainRuntime) (DeadlineEvidence labeledCloseOpp)
             [ "2026-02-20T23:59:59Z"; "2026-04-01" ] "https://example.org/call").
Proof.
  split; [exact plainRuntime_formatsTrimmed |].
  exact (proj1 (merge_deadline_evidence (H := plainRuntime) (DeadlineEvidence labeledCloseOpp)
                  [ "2026-02-20T23:59:59Z"; "2026-04-01" ] "https://example.org/call"
                  plainRuntime_formatsTrimmed)).
Defined.

(* ===================================================================== *)
(** ** What the evidence enrichment changes (pipeline.go) *)

Section EnrichmentFacts.

Import SourceAdapter Enrichment EnrichmentSpec.

Context `{GoRuntime}.

Lemma set_dates_same (opp : Opportunity) :
  set_CloseAt (CloseAt opp) (set_OpenAt (OpenAt opp) opp) = opp.
Proof. destruct opp. reflexivity. Qed.

Lemma kept_refl {A} (o : option A) : kept o o.
Proof. intros _. reflexivity. Qed.

Lemma notLater_refl (o : option Time) : notLater o o.
Proof. intros t Ht. exists t. split; [exact Ht | lia]. Qed.

Lemma notLater_trans (a b c : option Time) : notLater a b -> notLater b c -> notLater a c.
Proof.
  intros Hab Hbc t Ht. destruct (Hab t Ht) as (t' & Ht' & Hle).
  destruct (Hbc t' Ht') as (t'' & Ht'' & Hle'). exists t''. split; [exact Ht'' | lia].
Qed.

(** One evidence entry changes [OpenAt] and [CloseAt] only. *)
Lemma promoteStep_shape (opp : Opportunity) (ev : DeadlineEvidenceT) :
  exists o c, promoteStep opp ev = set_CloseAt c (set_OpenAt o opp) /\
    kept (OpenAt opp) o /\ notLater (CloseAt opp) c.
Proof.
  unfold promoteStep. destruct (parseDeadlineCandidate (ParsedDateISO ev)) as [parsed |].
  2:{ exists (OpenAt opp), (CloseAt opp). rewrite set_dates_same.
      split; [reflexivity |]. split; [apply kept_refl | apply notLater_refl]. }
  cbv zeta.
  set (label := ToLower (Label ev +:+ " " +:+ Snippet ev)).
  set (opening := Contains label "inicio" || Contains label "opening" || Contains label "open").
  set (closing := Contains label "cierre" || Contains label "deadline" ||
                  Contains label "closes" || Contains label "fecha máxima").
  assert (Hopen : exists o, (if opening && bool_decide (OpenAt opp = None)
                             then set_OpenAt (Some (UTC parsed)) opp else opp)
                            = set_OpenAt o opp /\ kept (OpenAt opp) o).
  { destruct (opening && bool_decide (OpenAt opp = None)) eqn:E.
    - exists (Some (UTC parsed)). split; [reflexivity |].
      apply andb_true_iff in E as [_ E]. apply bool_decide_eq_true in E.
      intros [t Ht]. congruence.
    - exists (OpenAt opp). split; [destruct opp; reflexivity | apply kept_refl]. }
  destruct Hopen as (o & -> & Hkept). exists o.
  change (CloseAt (set_OpenAt o opp)) with (CloseAt opp).
  destruct closing.
  - destruct (CloseAt opp) as [closeAt |] eqn:Hclose.
    + destruct (Before (UTC parsed) closeAt) eqn:Hb.
      * exists (Some (UTC parsed)). split; [reflexivity |]. split; [exact Hkept |].
        intros t Ht. apply (inj Some) in Ht. subst t. eexists. split; [reflexivity |].
        unfold Before in Hb. apply Z.ltb_lt in Hb. lia.
      * exists (Some closeAt). split; [| split; [exact Hkept | apply notLater_refl]].
        rewrite <- Hclose. destruct opp. reflexivity.
    + exists (Some (UTC parsed)). split; [reflexivity |]. split; [exact Hkept |].
      intros t Ht. discriminate.
  - exists (CloseAt opp). split; [destruct opp; reflexivity |].
    split; [exact Hkept | apply notLater_refl].
Qed.

Lemma promote_fold (evs : list DeadlineEvidenceT) (opp : Opportunity) :
  exists o c, fold_left promoteStep evs opp = set_CloseAt c (set_OpenAt o opp) /\
    kept (OpenAt opp) o /\ notLater (CloseAt opp) c.
Proof.
  revert opp. induction evs as [| ev evs IH]; intros opp.
  - exists (OpenAt opp), (CloseAt opp). cbn [fold_left]. rewrite set_dates_same.
    split; [reflexivity |]. split; [apply kept_refl | apply notLater_refl].
  - cbn [fold_left]. destruct (promoteStep_shape opp ev) as (o1 & c1 & -> & Hk1 & Hn1).
    destruct (IH (set_CloseAt c1 (set_OpenAt o1 opp))) as (o2 & c2 & -> & Hk2 & Hn2).
    exists o2, c2. split; [reflexivity |]. split.
    + intros Hs. rewrite <- (Hk1 Hs). apply Hk2. cbn. rewrite (Hk1 Hs). exact Hs.
    + apply (notLater_trans _ c1); [exact Hn1 | exact Hn2].
Qed.

(** X17. The enrichment only adds: the confidence is the larger of the two,
    the flags of a results page and of rolling evidence are never cleared,
    a deadline or an opening date that is set is kept, a closing date
    that is set stays set and never moves later, the old deadlines are a
    prefix of the new ones, the key and the link are the same; and when
    the page gives no deadline candidate, the dates, the deadlines and the
    evidence are all as before. *)
Theorem enrichment_only_adds (candidates : SourceAdapterCandidates) (opp : Opportunity) :
  let enriched := enrichWith candidates opp in
  (StatusConfidence opp <= StatusConfidence enriched)%Q /\
  (cStatusConfidence candidates <= StatusConfidence enriched)%Q /\
  IsResultsPage enriched = IsResultsPage opp || cIsResultsPage candidates /\
  RollingEvidence enriched = RollingEvidence opp || cRollingEvidence candidates /\
  IsRolling enriched = IsRolling opp || cRollingEvidence candidates /\
  kept (DeadlineAt opp) (DeadlineAt enriched) /\
  kept (OpenAt opp) (OpenAt enriched) /\
  notLater (CloseAt opp) (CloseAt enriched) /\
  Deadlines opp `prefix_of` Deadlines enriched /\
  SourceDomain enriched = SourceDomain opp /\
  SourceID enriched = SourceID opp /\
  ExternalURL enriched = ExternalURL opp /\
  (cDeadlineCandidates candidates = [] ->
   Deadlines enriched = Deadlines opp /\ DeadlineEvidence enriched = DeadlineEvidence opp /\
   DeadlineAt enriched = DeadlineAt opp /\ OpenAt enriched = OpenAt opp /\
   CloseAt enriched = CloseAt opp).
Proof.
  cbv zeta. unfold enrichWith. cbv zeta.
  set (o1 := if negb (String.eqb (cSourceStatusRaw candidates) "")
             then set_SourceStatusRaw (cSourceStatusRaw candidates) opp else opp).
  set (o2 := if cIsResultsPage candidates then set_IsResultsPage true o1 else o1).
  assert (H1 : StatusConfidence o2 = StatusConfidence opp /\
               IsResultsPage o2 = IsResultsPage opp || cIsResultsPage candidates /\
               RollingEvidence o2 = RollingEvidence opp /\ IsRolling o2 = IsRolling opp /\
               DeadlineAt o2 = DeadlineAt opp /\ OpenAt o2 = OpenAt opp /\
               CloseAt o2 = CloseAt opp /\ Deadlines o2 = Deadlines opp /\
               DeadlineEvidence o2 = DeadlineEvidence opp /\
               SourceDomain o2 = SourceDomain opp /\ SourceID o2 = SourceID opp /\
               ExternalURL o2 = ExternalURL opp).
  { subst o2 o1. destruct (negb _), (cIsResultsPage candidates);
      cbn; rewrite ?orb_true_r, ?orb_false_r; repeat split; reflexivity. }
  destruct H1 as (Hconf & Hres & Hroll & Hisroll & Hdl & Hopen & Hclose & Hds & Hev & Hdom & Hid & Hurl).
  clearbody o2. clear o1.
  set (o3 := match cDeadlineCandidates candidates with
             | [] => o2
             | first :: _ => _
             end).
  assert (H3 : StatusConfidence o3 = StatusConfidence opp /\
               IsResultsPage o3 = IsResultsPage opp || cIsResultsPage candidates /\
               RollingEvidence o3 = RollingEvidence opp /\ IsRolling o3 = IsRolling opp /\
               kept (DeadlineAt opp) (DeadlineAt o3) /\ kept (OpenAt opp) (OpenAt o3) /\
               notLater (CloseAt opp) (CloseAt o3) /\
               Deadlines opp `prefix_of` Deadlines o3 /\
               SourceDomain o3 = SourceDomain opp /\ SourceID o3 = SourceID opp /\
               ExternalURL o3 = ExternalURL opp /\
               (cDeadlineCandidates candidates = [] ->
                Deadlines o3 = Deadlines opp /\ DeadlineEvidence o3 = DeadlineEvidence opp /\
                DeadlineAt o3 = DeadlineAt opp /\ OpenAt o3 = OpenAt opp /\
                CloseAt o3 = CloseAt opp)).
  { subst o3. destruct (cDeadlineCandidates candidates) as [| first rest] eqn:Hc.
    - rewrite Hconf, Hres, Hroll, Hisroll, Hdl, Hopen, Hclose, Hds, Hev, Hdom, Hid, Hurl.
      repeat (split; [first [ reflexivity | apply kept_refl | apply notLater_refl ] |]).
      reflexivity.
    - match goal with
      | |- context [fold_left promoteStep ?evs ?X] =>
          destruct (promote_fold evs X) as (o & c & -> & Hk & Hn)
      end.
      cbn [CloseAt OpenAt set_DeadlineEvidence set_Deadlines] in Hk, Hn.
      rewrite Hopen in Hk. rewrite Hclose in Hn.
      assert (Hprefix : Deadlines opp `prefix_of` mergeUniqueFold (Deadlines o2) (first :: rest)).
      { rewrite Hds. unfold mergeUniqueFold. cbv zeta. apply prefix_app_r. reflexivity. }
      change (DeadlineAt (set_CloseAt c (set_OpenAt o _))) with (DeadlineAt o2).
      rewrite Hdl.
      destruct (DeadlineAt opp) as [d |] eqn:Hd.
      + cbn. rewrite Hconf, Hres, Hroll, Hisroll, Hdom, Hid, Hurl, ?Hdl, ?Hd.
        repeat (split; [first [ reflexivity | apply kept_refl | assumption ] |]).
        discriminate.
      + destruct (parseDeadlineCandidate first) as [parsed |];
          cbn; rewrite Hconf, Hres, Hroll, Hisroll, Hdom, Hid, Hurl, ?Hdl, ?Hd;
          (repeat (split; [first [ reflexivity | assumption | intros [? ?]; discriminate ] |]));
          discriminate. }
  clearbody o3.
  destruct H3 as (Hconf3 & Hres3 & Hroll3 & Hisroll3 & Hdl3 & Hopen3 & Hclose3 & Hds3 & Hdom3 &
                  Hid3 & Hurl3 & Hnone3).
  assert (Hq : forall a b : Q, (a <= (if negb (Qle_bool b a) then b else a))%Q /\
                               (b <= (if negb (Qle_bool b a) then b else a))%Q).
  { intros a b. destruct (Qle_bool b a) eqn:E; cbn [negb].
    - split; [apply Qle_refl | apply Qle_bool_iff; exact E].
    - split; [| apply Qle_refl]. apply Qlt_le_weak, Qnot_le_lt. intros Hle.
      apply Qle_bool_iff in Hle. congruence. }
  destruct (cRollingEvidence candidates);
    cbn [StatusConfidence set_SourceEvidenceJSON set_RollingEvidence set_IsRolling];
    destruct (Hq (StatusConfidence o3) (cStatusConfidence candidates)) as [Ha Hb];
    destruct (negb (Qle_bool (cStatusConfidence candidates) (StatusConfidence o3)));
    cbn; rewrite ?orb_true_r, ?orb_false_r; rewrite <- ?Hconf3;
    repeat (split; [first [ assumption | reflexivity ] |]); assumption.
Qed.

End EnrichmentFacts.

(* ===================================================================== *)
(** ** The end of a day (date_parser.go, pdf_deadline_extractor.go) *)

Section EndOfDay.

Import GoTime GoTimeModel DateParser DeadlineExtractor NormalizationSpec.

(** The day number and the clock of [time.Date] at a valid date in UTC. *)
Lemma Date_UTC_clock (z sec nsec : Z) :
  0 <= sec < 86400 -> 0 <= nsec < nanosPerSecond ->
  let '(y, m, d) := civil_from_days z in
  forall h mi s, h * 3600 + mi * 60 + s = sec ->
    unixNano (Date y m d h mi s nsec UTCLocation) = (z * 86400 + sec) * nanosPerSecond + nsec /\
    zoneOffset (Date y m d h mi s nsec UTCLocation) = 0 /\
    wallSeconds (Date y m d h mi s nsec UTCLocation) = z * 86400 + sec.
Proof.
  intros Hsec Hnsec. pose proof (days_from_civil_from_days z) as Hz.
  destruct (civil_from_days z) as [[y m] d]. destruct Hz as (Hdays & Hm & Hd).
  intros h mi s Hclock. unfold Date, UTCLocation.
  replace ((m - 1) / 12) with 0 by (symmetry; apply Z.div_small; lia).
  replace ((m - 1) mod 12 + 1) with m by (rewrite Z.mod_small; lia).
  replace (y + 0) with y by lia. rewrite Hdays.
  unfold wallSeconds. cbn [unixNano zoneOffset]. unfold nanosPerSecond in *.
  split; [lia |]. split; [reflexivity |].
  replace ((z * 86400 + h * 3600 + mi * 60 + s - 0) * 1000000000 + nsec)
    with (nsec + (z * 86400 + sec) * 1000000000) by lia.
  rewrite Z.div_add by lia. rewrite Z.div_small by lia. lia.
Qed.

(** X18. [toEndOfDay] gives the last nanosecond of the calendar day its
    argument shows: the result is in UTC, on the same date, at
    23:59:59.999999999; applying it again changes nothing; and a time
    given in UTC is never moved earlier, nor by a day or more. *)
Theorem to_end_of_day (t : Time) :
  zoneOffset (toEndOfDay t) = 0 /\
  civil (toEndOfDay t) = civil t /\
  Hour (toEndOfDay t) = 23 /\ Minute (toEndOfDay t) = 59 /\ Second (toEndOfDay t) = 59 /\
  unixNano (toEndOfDay t) mod nanosPerSecond = 999999999 /\
  toEndOfDay (toEndOfDay t) = toEndOfDay t /\
  (zoneOffset t = 0 ->
   unixNano t <= unixNano (toEndOfDay t) < unixNano t + 86400 * nanosPerSecond).
Proof.
  assert (Hfacts : forall u,
            unixNano (toEndOfDay u) =
              (wallSeconds u / 86400 * 86400 + 86399) * nanosPerSecond + 999999999 /\
            zoneOffset (toEndOfDay u) = 0 /\
            wallSeconds (toEndOfDay u) = wallSeconds u / 86400 * 86400 + 86399).
  { intros u. unfold toEndOfDay, Year, Month, Day, civil.
    pose proof (Date_UTC_clock (wallSeconds u / 86400) 86399 999999999
                  ltac:(lia) ltac:(unfold nanosPerSecond; lia)) as Hd.
    destruct (civil_from_days (wallSeconds u / 86400)) as [[y m] d]. cbn [fst snd].
    apply Hd. reflexivity. }
  destruct (Hfacts t) as (Hn & Hz & Hw).
  assert (Hday : wallSeconds (toEndOfDay t) / 86400 = wallSeconds t / 86400).
  { rewrite Hw. rewrite Z.add_comm, Z.div_add by lia. reflexivity. }
  split; [exact Hz |]. split; [unfold civil; rewrite Hday; reflexivity |].
  unfold Hour, Minute, Second. rewrite Hw.
  split; [rewrite Z.add_comm, Z.mod_add by lia; reflexivity |].
  split.
  { replace (wallSeconds t / 86400 * 86400 + 86399)
      with (86399 + (wallSeconds t / 86400 * 24) * 3600) by lia.
    rewrite Z.mod_add by lia. reflexivity. }
  split.
  { replace (wallSeconds t / 86400 * 86400 + 86399)
      with (86399 + (wallSeconds t / 86400 * 1440) * 60) by lia.
    rewrite Z.mod_add by lia. reflexivity. }
  split.
  { rewrite Hn. unfold nanosPerSecond. rewrite Z.add_comm, Z.mod_add by lia. reflexivity. }
  split.
  { destruct (Hfacts (toEndOfDay t)) as (Hn' & Hz' & _).
    assert (Heq : forall a b : Time,
              unixNano a = unixNano b -> zoneOffset a = zoneOffset b -> a = b).
    { intros [na za] [nb zb]. cbn [unixNano zoneOffset]. intros -> ->. reflexivity. }
    apply Heq; [rewrite Hn', Hn, Hday; reflexivity | rewrite Hz', Hz; reflexivity]. }
  intros Hutc. rewrite Hn. unfold wallSeconds, nanosPerSecond. rewrite Hutc, Z.add_0_r.
  pose proof (Z.div_mod (unixNano t) 1000000000 ltac:(lia)) as H1.
  pose proof (Z.mod_pos_bound (unixNano t) 1000000000 ltac:(lia)) as H2.
  pose proof (Z.div_mod (unixNano t / 1000000000) 86400 ltac:(lia)) as H3.
  pose proof (Z.mod_pos_bound (unixNano t / 1000000000) 86400 ltac:(lia)) as H4.
  lia.
Qed.

Context `{TimeZones}.

(** X19. A date without a time is set to 23:59:59 of its day in the zone
    of its source: America/Lima when the URL of the source contains
    gob.pe, proinnovate or prociencia, in any letter case, and the zone
    is known; UTC otherwise. The result is given in UTC, in whole
    seconds. *)
Theorem date_only_end_of_day (parsed : Time) (sourceURL : string) :
  endOfDayIn
    (match time_LoadLocation "America/Lima" with
     | Some lima => sourceLocation lima sourceURL
     | None => UTCLocation
     end)
    (civil parsed) (normalizeDateOnlyBySource parsed sourceURL).
Proof.
  destruct (time_LoadLocation "America/Lima") as [lima |] eqn:Hlima.
  - unfold normalizeDateOnlyBySource, sourceLocation. rewrite Hlima.
    destruct (limaSource sourceURL); apply Date_endOfDay.
  - unfold normalizeDateOnlyBySource. rewrite Hlima.
    destruct (limaSource sourceURL); apply Date_endOfDay.
Qed.

End EndOfDay.

(* ===================================================================== *)
(** ** Dates written and read back (status_engine.go, pdf_deadline_extractor.go) *)

Section IsoRoundTrip.

Import GoTime GoTimeModel Calendar MonthDays.

Lemma dayInMonthOK_all : allFrom dayInMonthOK (Z.to_nat 146097) 0 = true.
Proof. vm_compute. reflexivity. Qed.

Lemma isLeap_era (y era : Z) : isLeap (y + era * 400) = isLeap y.
Proof.
  unfold isLeap.
  replace ((y + era * 400) mod 4) with (y mod 4)
    by (replace (y + era * 400) with (y + (era * 100) * 4) by lia; rewrite Z.mod_add; lia).
  replace ((y + era * 400) mod 100) with (y mod 100)
    by (replace (y + era * 400) with (y + (era * 4) * 100) by lia; rewrite Z.mod_add; lia).
  replace ((y + era * 400) mod 400) with (y mod 400) by (rewrite Z.mod_add; lia).
  reflexivity.
Qed.

Lemma civil_from_days_era (z era : Z) :
  civil_from_days (z + era * 146097) =
  let '(y, m, d) := civil_from_days z in (y + era * 400, m, d).
Proof.
  unfold civil_from_days.
  replace (z + era * 146097 + 719468) with (z + 719468 + era * 146097) by lia.
  rewrite Z.div_add by lia.
  set (e := (z + 719468) / 146097).
  replace (z + 719468 + era * 146097 - (e + era) * 146097) with (z + 719468 - e * 146097) by lia.
  cbv zeta.
  set (doe := z + 719468 - e * 146097).
  set (yoe := (doe - doe / 1460 + doe / 36524 - doe / 146096) / 365).
  set (doy := doe - (365 * yoe + yoe / 4 - yoe / 100)).
  set (mp := (5 * doy + 2) / 153).
  destruct ((if mp <? 10 then mp + 3 else mp - 9) <=? 2); f_equal; f_equal; lia.
Qed.

(** The day of every date exists in its month. *)
Lemma civil_day_valid (z : Z) :
  let '(y, m, d) := civil_from_days z in 1 <= d <= daysIn m y.
Proof.
  set (z' := z + 719468).
  set (era := z' / 146097).
  set (doe := z' - era * 146097).
  assert (Hdoe : 0 <= doe < 146097).
  { subst doe era. pose proof (Z.div_mod z' 146097 ltac:(lia)) as Hdm.
    pose proof (Z.mod_pos_bound z' 146097 ltac:(lia)). lia. }
  assert (Hok : dayInMonthOK doe = true).
  { apply (allFrom_spec _ _ _ dayInMonthOK_all). lia. }
  replace z with (doe - 719468 + era * 146097) by (subst doe z'; lia).
  rewrite civil_from_days_era. unfold dayInMonthOK in Hok.
  destruct (civil_from_days (doe - 719468)) as [[y m] d].
  apply andb_true_iff in Hok as [H1 H2]. apply Z.leb_le in H1, H2.
  unfold daysIn in *. rewrite isLeap_era. lia.
Qed.

End IsoRoundTrip.

Section IsoParse.

Import GoTime GoTimeModel Calendar MonthDays.

Lemma substring_all (s : string) : substring 0 (String.length s) s = s.
Proof. induction s as [| c s IH]; [reflexivity |]. cbn. rewrite IH. reflexivity. Qed.

Lemma dropn_0 (s : string) : dropn 0 s = s.
Proof. unfold dropn. rewrite Nat.sub_0_r. apply substring_all. Qed.

Lemma dropn_S (n : nat) (c : ascii) (s : string) : dropn (S n) (String c s) = dropn n s.
Proof. reflexivity. Qed.

Lemma digitChar_test (c : ascii) (v : Z) :
  digitChar c v -> (48 <=? byte_of c) && (byte_of c <=? 57) = true.
Proof. intros [Hc Hv]. rewrite Hc. apply andb_true_iff. split; apply Z.leb_le; lia. Qed.

Lemma digitChar_digit (n : Z) : digitChar (digit n) (n mod 10).
Proof.
  unfold digitChar, digit. pose proof (Z.mod_pos_bound n 10 ltac:(lia)) as Hb.
  split; [| lia].
  assert (Hc : n mod 10 = 0 \/ n mod 10 = 1 \/ n mod 10 = 2 \/ n mod 10 = 3 \/ n mod 10 = 4 \/
               n mod 10 = 5 \/ n mod 10 = 6 \/ n mod 10 = 7 \/ n mod 10 = 8 \/ n mod 10 = 9)
    by lia.
  repeat (destruct Hc as [-> | Hc]; [reflexivity |]). rewrite Hc. reflexivity.
Qed.

Lemma getnum_two (c1 c2 : ascii) (v1 v2 : Z) (rest : string) (fixed : bool) :
  digitChar c1 v1 -> digitChar c2 v2 ->
  getnum (String c1 (String c2 rest)) fixed = Some (v1 * 10 + v2, rest).
Proof.
  intros H1 H2. unfold getnum, isDigit, digitAt. cbn [String.get].
  rewrite (digitChar_test c1 v1 H1), (digitChar_test c2 v2 H2). cbn [negb].
  rewrite !dropn_S, dropn_0. destruct H1 as [-> _], H2 as [-> _].
  f_equal. f_equal. lia.
Qed.

Lemma year_four (c1 c2 c3 c4 : ascii) (v1 v2 v3 v4 : Z) (rest : string) (f : fields) :
  digitChar c1 v1 -> digitChar c2 v2 -> digitChar c3 v3 -> digitChar c4 v4 ->
  parseVerb stdLongYear (String c1 (String c2 (String c3 (String c4 rest)))) f =
  Some (mkFields (v1 * 1000 + v2 * 100 + v3 * 10 + v4) (fMonth f) (fDay f) (fHour f) (fMin f)
          (fSec f) (fNsec f) (fPM f) (fAM f) (fZone f), rest).
Proof.
  intros H1 H2 H3 H4. unfold parseVerb, isDigit, digitAt. cbn [String.get String.length].
  rewrite (digitChar_test c1 v1 H1), (digitChar_test c2 v2 H2),
    (digitChar_test c3 v3 H3), (digitChar_test c4 v4 H4).
  cbn [negb orb]. replace (S (S (S (S (String.length rest)))) <? 4)%nat with false
    by (symmetry; apply Nat.ltb_ge; lia).
  rewrite !dropn_S, dropn_0.
  destruct H1 as [-> _], H2 as [-> _], H3 as [-> _], H4 as [-> _].
  f_equal. f_equal. f_equal. lia.
Qed.

Lemma month_two (c1 c2 : ascii) (v1 v2 : Z) (rest : string) (f : fields) :
  digitChar c1 v1 -> digitChar c2 v2 -> 1 <= v1 * 10 + v2 <= 12 ->
  parseVerb stdZeroMonth (String c1 (String c2 rest)) f =
  Some (mkFields (fYear f) (v1 * 10 + v2) (fDay f) (fHour f) (fMin f) (fSec f) (fNsec f)
          (fPM f) (fAM f) (fZone f), rest).
Proof.
  intros H1 H2 Hv. unfold parseVerb. rewrite (getnum_two c1 c2 v1 v2 rest true H1 H2).
  replace ((v1 * 10 + v2 <=? 0) || (12 <? v1 * 10 + v2)) with false; [reflexivity |].
  symmetry. apply orb_false_iff. split; [apply Z.leb_gt | apply Z.ltb_ge]; lia.
Qed.

Lemma day_two (c1 c2 : ascii) (v1 v2 : Z) (rest : string) (f : fields) :
  digitChar c1 v1 -> digitChar c2 v2 ->
  parseVerb stdZeroDay (String c1 (String c2 rest)) f =
  Some (mkFields (fYear f) (fMonth f) (v1 * 10 + v2) (fHour f) (fMin f) (fSec f) (fNsec f)
          (fPM f) (fAM f) (fZone f), rest).
Proof.
  intros H1 H2. unfold parseVerb. rewrite (getnum_two c1 c2 v1 v2 rest true H1 H2).
  reflexivity.
Qed.

Lemma hour_two (c1 c2 : ascii) (v1 v2 : Z) (rest : string) (f : fields) :
  digitChar c1 v1 -> digitChar c2 v2 -> v1 * 10 + v2 < 24 ->
  parseVerb stdHour (String c1 (String c2 rest)) f =
  Some (mkFields (fYear f) (fMonth f) (fDay f) (v1 * 10 + v2) (fMin f) (fSec f) (fNsec f)
          (fPM f) (fAM f) (fZone f), rest).
Proof.
  intros H1 H2 Hv. unfold parseVerb. rewrite (getnum_two c1 c2 v1 v2 rest false H1 H2).
  replace (24 <=? v1 * 10 + v2) with false; [reflexivity |].
  symmetry. apply Z.leb_gt. lia.
Qed.

Lemma minute_two (c1 c2 : ascii) (v1 v2 : Z) (rest : string) (f : fields) :
  digitChar c1 v1 -> digitChar c2 v2 -> v1 * 10 + v2 < 60 ->
  parseVerb stdZeroMinute (String c1 (String c2 rest)) f =
  Some (mkFields (fYear f) (fMonth f) (fDay f) (fHour f) (v1 * 10 + v2) (fSec f) (fNsec f)
          (fPM f) (fAM f) (fZone f), rest).
Proof.
  intros H1 H2 Hv. unfold parseVerb. rewrite (getnum_two c1 c2 v1 v2 rest true H1 H2).
  replace (60 <=? v1 * 10 + v2) with false; [reflexivity |].
  symmetry. apply Z.leb_gt. lia.
Qed.

Lemma second_two (c1 c2 : ascii) (v1 v2 : Z) (f : fields) :
  digitChar c1 v1 -> digitChar c2 v2 -> v1 * 10 + v2 < 60 ->
  parseVerb stdZeroSecond (String c1 (String c2 "Z")) f =
  Some (mkFields (fYear f) (fMonth f) (fDay f) (fHour f) (fMin f) (v1 * 10 + v2) 0
          (fPM f) (fAM f) (fZone f), "Z").
Proof.
  intros H1 H2 Hv. unfold parseVerb. rewrite (getnum_two c1 c2 v1 v2 "Z" true H1 H2).
  replace (60 <=? v1 * 10 + v2) with false; [reflexivity |].
  symmetry. apply Z.leb_gt. lia.
Qed.

Lemma chunks_RFC3339 :
  chunksFrom O RFC3339 =
  [ Std stdLongYear; Lit "-"; Std stdZeroMonth; Lit "-"; Std stdZeroDay; Lit "T";
    Std stdHour; Lit ":"; Std stdZeroMinute; Lit ":"; Std stdZeroSecond;
    Std stdISO8601ColonTZ ].
Proof. vm_compute. reflexivity. Qed.

(** [time.Parse(time.RFC3339, ...)] on the twenty bytes of a UTC stamp. *)
Lemma Parse_stamp (y1 y2 y3 y4 m1 m2 d1 d2 h1 h2 i1 i2 s1 s2 : ascii)
    (Y1 Y2 Y3 Y4 M1 M2 D1 D2 H1 H2 I1 I2 S1 S2 : Z) :
  digitChar y1 Y1 -> digitChar y2 Y2 -> digitChar y3 Y3 -> digitChar y4 Y4 ->
  digitChar m1 M1 -> digitChar m2 M2 -> digitChar d1 D1 -> digitChar d2 D2 ->
  digitChar h1 H1 -> digitChar h2 H2 -> digitChar i1 I1 -> digitChar i2 I2 ->
  digitChar s1 S1 -> digitChar s2 S2 ->
  1 <= M1 * 10 + M2 <= 12 -> H1 * 10 + H2 < 24 -> I1 * 10 + I2 < 60 -> S1 * 10 + S2 < 60 ->
  1 <= D1 * 10 + D2 <= daysIn (M1 * 10 + M2) (Y1 * 1000 + Y2 * 100 + Y3 * 10 + Y4) ->
  Parse RFC3339
    (String y1 (String y2 (String y3 (String y4 (String "-" (String m1 (String m2
     (String "-" (String d1 (String d2 (String "T" (String h1 (String h2 (String ":"
     (String i1 (String i2 (String ":" (String s1 (String s2 "Z"))))))))))))))))))) =
  Some (Date (Y1 * 1000 + Y2 * 100 + Y3 * 10 + Y4) (M1 * 10 + M2) (D1 * 10 + D2)
          (H1 * 10 + H2) (I1 * 10 + I2) (S1 * 10 + S2) 0 UTCLocation).
Proof.
  intros Hy1 Hy2 Hy3 Hy4 Hm1 Hm2 Hd1 Hd2 Hh1 Hh2 Hi1 Hi2 Hs1 Hs2 HM HH HI HS HD.
  unfold Parse. rewrite chunks_RFC3339.
  cbn [parseChunks]. rewrite (year_four _ _ _ _ _ _ _ _ _ _ Hy1 Hy2 Hy3 Hy4).
  cbn [parseChunks]. rewrite Ascii.eqb_refl.
  rewrite (month_two _ _ _ _ _ _ Hm1 Hm2 HM). rewrite Ascii.eqb_refl.
  rewrite (day_two _ _ _ _ _ _ Hd1 Hd2). rewrite Ascii.eqb_refl.
  rewrite (hour_two _ _ _ _ _ _ Hh1 Hh2 HH). rewrite Ascii.eqb_refl.
  rewrite (minute_two _ _ _ _ _ _ Hi1 Hi2 HI). rewrite Ascii.eqb_refl.
  rewrite (second_two _ _ _ _ _ Hs1 Hs2 HS).
  cbn [parseVerb String.eqb fYear fMonth fDay fHour fMin fSec fNsec fPM fAM fZone noFields
       andb default].
  replace (M1 * 10 + M2 <? 0) with false by (symmetry; apply Z.ltb_ge; lia).
  replace (D1 * 10 + D2 <? 0) with false by (symmetry; apply Z.ltb_ge; lia).
  replace ((D1 * 10 + D2 <? 1) ||
           (daysIn (M1 * 10 + M2) (Y1 * 1000 + Y2 * 100 + Y3 * 10 + Y4) <? D1 * 10 + D2))
    with false; [reflexivity |].
  symmetry. apply orb_false_iff. split; apply Z.ltb_ge; lia.
Qed.


(** X20. A date written as evidence is read back as the same instant: for
    a time in UTC with a year of four digits, the status engine parses the
    RFC 3339 text of the time to the time itself, cut to whole seconds. *)
Theorem evidence_date_round_trip (t : Time) :
  zoneOffset t = 0 -> 0 <= Year t <= 9999 ->
  parseDeadlineCandidate (H := plainRuntime) (time_FormatRFC3339 (GoRuntime := plainRuntime) t)
  = Some (wholeSeconds t).
Proof.
  intros Hutc Hyear. unfold parseDeadlineCandidate. cbv zeta.
  rewrite plainRuntime_formatsTrimmed.
  cbn [time_FormatRFC3339 plainRuntime].
  assert (Hne : String.eqb (FormatRFC3339 t) "" = false).
  { unfold FormatRFC3339, pad4. reflexivity. }
  rewrite Hne. cbn [firstParse deadlineFormats time_Parse plainRuntime].
  set (ws := wallSeconds t) in *.
  pose proof (days_from_civil_from_days (ws / 86400)) as Hciv.
  pose proof (civil_day_valid (ws / 86400)) as Hvalid.
  pose proof (Date_UTC_clock (ws / 86400) (ws mod 86400) 0
                (Z.mod_pos_bound ws 86400 ltac:(lia)) ltac:(unfold nanosPerSecond; lia)) as Hdate.
  unfold FormatRFC3339, Year, Month, Day, Hour, Minute, Second, civil in *. fold ws in Hyear |- *.
  destruct (civil_from_days (ws / 86400)) as [[y m] d]. cbn [fst snd] in *.
  destruct Hciv as (_ & Hm & _).
  set (h := ws mod 86400 / 3600). set (mi := ws mod 3600 / 60). set (sec := ws mod 60).
  assert (Hh : 0 <= h < 24) by (subst h; Z.div_mod_to_equations; lia).
  assert (Hmi : 0 <= mi < 60) by (subst mi; Z.div_mod_to_equations; lia).
  assert (Hsec : 0 <= sec < 60) by (subst sec; Z.div_mod_to_equations; lia).
  assert (Hclock : h * 3600 + mi * 60 + sec = ws mod 86400)
    by (subst h mi sec; Z.div_mod_to_equations; lia).
  assert (Hd : 1 <= d <= 31).
  { unfold daysIn in Hvalid.
    destruct (m =? 2); [destruct (isLeap y) |]; [lia | lia |].
    destruct ((m =? 4) || (m =? 6) || (m =? 9) || (m =? 11)); lia. }
  assert (H4 : y / 1000 mod 10 * 1000 + y / 100 mod 10 * 100 + y / 10 mod 10 * 10 + y mod 10 = y)
    by (Z.div_mod_to_equations; lia).
  assert (H2 : forall n, 0 <= n < 100 -> n / 10 mod 10 * 10 + n mod 10 = n)
    by (intros n Hn; Z.div_mod_to_equations; lia).
  unfold pad4, pad2. repeat (rewrite !append_String || rewrite !append_empty).
  erewrite Parse_stamp; cycle 1.
  1-14: apply digitChar_digit.
  1-5: rewrite ?H4, ?H2 by lia; lia.
  rewrite H4, !H2 by lia. f_equal.
  destruct (Hdate h mi sec Hclock) as (Hn & Hz & _).
  unfold wholeSeconds.
  destruct (Date y m d h mi sec 0 UTCLocation) as [n z]. cbn [unixNano zoneOffset] in Hn, Hz.
  subst n z. f_equal. subst ws. unfold wallSeconds. rewrite Hutc, Z.add_0_r.
  unfold nanosPerSecond. Z.div_mod_to_equations. lia.
Qed.

End IsoParse.

Lemma evidence_date_round_trip_example :
  zoneOffset at_2026_02_20_eod = 0 /\
  0 <= GoTimeModel.Year at_2026_02_20_eod <= 9999 /\
  parseDeadlineCandidate (H := plainRuntime)
    (time_FormatRFC3339 (GoRuntime := plainRuntime) at_2026_02_20_eod)
  = Some (MonthDays.wholeSeconds at_2026_02_20_eod).
Proof.
  assert (Hz : zoneOffset at_2026_02_20_eod = 0) by reflexivity.
  assert (Hy : 0 <= GoTimeModel.Year at_2026_02_20_eod <= 9999) by (vm_compute; split; discriminate).
  split; [exact Hz |]. split; [exact Hy |].
  exact (evidence_date_round_trip at_2026_02_20_eod Hz Hy).
Defined.

(* ===================================================================== *)
(** ** The evidence extracted from a text (pdf_deadline_extractor.go) *)

Section ExtractedEvidence.

Import GoTimeModel DateParser DeadlineExtractor ExtractionSpec TokenSpec.

Context `{GoRuntime} `{TimeZones}.

Lemma insertByTime_perm (ev : DeadlineEvidenceT) (l : list DeadlineEvidenceT) :
  insertByTime ev l ≡ₚ ev :: l.
Proof.
  induction l as [| x l IH]; [reflexivity |]. cbn [insertByTime].
  destruct (Before _ _); [reflexivity |]. rewrite IH. apply Permutation_swap.
Qed.

Lemma sortByTime_perm (l : list DeadlineEvidenceT) : sortByTime l ≡ₚ l.
Proof.
  induction l as [| x l IH]; [reflexivity |]. unfold sortByTime. cbn [fold_right].
  rewrite insertByTime_perm. apply Permutation_cons; [reflexivity | exact IH].
Qed.

Lemma insertByTime_sorted (ev : DeadlineEvidenceT) (l : list DeadlineEvidenceT) :
  StronglySorted notAfterISO l -> StronglySorted notAfterISO (insertByTime ev l).
Proof.
  induction l as [| x l IH]; intros Hs.
  - cbn. constructor; [constructor | constructor].
  - cbn [insertByTime]. apply StronglySorted_inv in Hs as [Hl Hx].
    destruct (Before (isoTime (ParsedDateISO ev)) (isoTime (ParsedDateISO x))) eqn:Hb.
    + constructor; [constructor; assumption |].
      unfold Before in Hb. apply Z.ltb_lt in Hb.
      constructor; [unfold notAfterISO; lia |].
      eapply Forall_impl; [exact Hx |]. intros y Hy. unfold notAfterISO in *. lia.
    + constructor; [apply IH; exact Hl |].
      unfold Before in Hb. apply Z.ltb_ge in Hb.
      apply Forall_forall. intros y Hy.
      rewrite insertByTime_perm in Hy.
      apply elem_of_cons in Hy as [-> | Hy]; [exact Hb |].
      rewrite Forall_forall in Hx. apply Hx. exact Hy.
Qed.

Lemma sortByTime_sorted (l : list DeadlineEvidenceT) : StronglySorted notAfterISO (sortByTime l).
Proof.
  induction l as [| x l IH]; [constructor |]. unfold sortByTime. cbn [fold_right].
  apply insertByTime_sorted. exact IH.
Qed.

Lemma uniqueISO_NoDup (seen : list string) (l : list DeadlineEvidenceT) :
  NoDup (ParsedDateISO <$> l) ->
  (forall ev, ev ∈ l -> ParsedDateISO ev ∉ seen) ->
  uniqueISO seen l = ParsedDateISO <$> l.
Proof.
  revert seen. induction l as [| ev l IH]; intros seen Hnd Hseen; [reflexivity |].
  cbn [uniqueISO fmap list_fmap]. cbv zeta.
  replace (existsb (String.eqb (ParsedDateISO ev)) seen) with false.
  2:{ symmetry. apply existsb_eqb_false. apply Hseen. by left. }
  f_equal. apply NoDup_cons in Hnd as [Hev Hnd]. apply IH; [exact Hnd |].
  intros ev' Hev' Hin. apply elem_of_cons in Hin as [Heq | Hin].
  - apply Hev. rewrite <- Heq. apply list_elem_of_fmap. exists ev'. split; [reflexivity | exact Hev'].
  - apply (Hseen ev'); [by right | exact Hin].
Qed.


Variable order : nat -> nat -> nat -> list (string * string).
Variables text source sourceURL : string.
Variable defaultConfidence : Q.

Let instantOf := tokenInstant order text sourceURL.

Let step (matches : gmap string DeadlineEvidenceT) (m : nat * nat * (nat * nat))
    : gmap string DeadlineEvidenceT :=
  match matchEntry (order (fst (fst m)) (snd (fst m))) text source sourceURL
          defaultConfidence (snd m) with
  | Some (iso, ev) => <[iso := ev]> matches
  | None => matches
  end.

Let good (ms : list (nat * nat * (nat * nat))) (k : string) (ev : DeadlineEvidenceT) : Prop :=
  ParsedDateISO ev = k /\ extractedWith source sourceURL defaultConfidence ev /\
  exists m t, m ∈ ms /\ instantOf m = Some t /\ k = time_FormatRFC3339 t.

Lemma matchEntry_cases (m : nat * nat * (nat * nat)) :
  match instantOf m with
  | None => step = step /\ forall matches, step matches m = matches
  | Some t =>
      exists ev, ParsedDateISO ev = time_FormatRFC3339 t /\
        extractedWith source sourceURL defaultConfidence ev /\
        forall matches, step matches m = <[time_FormatRFC3339 t := ev]> matches
  end.
Proof.
  unfold step, instantOf, tokenInstant, matchEntry. cbv zeta.
  destruct (tokenTime _ _ _) as [t |]; [| split; reflexivity].
  eexists. split; [| split; [| intros matches; reflexivity]]; [reflexivity |].
  unfold extractedWith. cbn [Source URL Confidence Label Snippet].
  repeat (split; [reflexivity |]). split.
  - match goal with |- context [List.find ?f ?l] => destruct (List.find f l) as [hint |] eqn:Hfind end.
    + right. apply find_some in Hfind as [Hin _]. apply list_elem_of_In. exact Hin.
    + left. reflexivity.
  - apply TrimSpace_idempotent.
Qed.

Lemma fold_step_good (all ms : list (nat * nat * (nat * nat)))
    (matches : gmap string DeadlineEvidenceT) :
  (forall m, m ∈ ms -> m ∈ all) ->
  (forall k ev, matches !! k = Some ev -> good all k ev) ->
  forall k ev, fold_left step ms matches !! k = Some ev -> good all k ev.
Proof.
  revert matches. induction ms as [| m ms IH]; intros matches Hsub Hgood; [exact Hgood |].
  cbn [fold_left]. apply IH; [intros m' Hm'; apply Hsub; by right |].
  pose proof (matchEntry_cases m) as Hm.
  destruct (instantOf m) as [t |] eqn:Ht.
  - destruct Hm as (ev & Hiso & Hext & Hstep). rewrite Hstep. intros k ev' Hk.
    destruct (decide (k = time_FormatRFC3339 t)) as [-> | Hne].
    + rewrite lookup_insert_eq in Hk. apply (inj Some) in Hk. subst ev'.
      split; [exact Hiso |]. split; [exact Hext |].
      exists m, t. split; [apply Hsub; by left |]. split; [exact Ht | reflexivity].
    + rewrite lookup_insert_ne in Hk by congruence. exact (Hgood k ev' Hk).
  - destruct Hm as [_ Hstep]. rewrite Hstep. exact Hgood.
Qed.

Lemma fold_step_keeps (ms : list (nat * nat * (nat * nat)))
    (matches : gmap string DeadlineEvidenceT) (k : string) :
  is_Some (matches !! k) -> is_Some (fold_left step ms matches !! k).
Proof.
  revert matches. induction ms as [| m ms IH]; intros matches Hk; [exact Hk |].
  cbn [fold_left]. apply IH. pose proof (matchEntry_cases m) as Hm.
  destruct (instantOf m) as [t |].
  - destruct Hm as (ev & _ & _ & Hstep). rewrite Hstep.
    destruct (decide (k = time_FormatRFC3339 t)) as [-> | Hne].
    + rewrite lookup_insert_eq. by eexists.
    + rewrite lookup_insert_ne by congruence. exact Hk.
  - destruct Hm as [_ Hstep]. rewrite Hstep. exact Hk.
Qed.

Lemma fold_step_covers (ms : list (nat * nat * (nat * nat)))
    (matches : gmap string DeadlineEvidenceT) (m : nat * nat * (nat * nat)) (t : Time) :
  m ∈ ms -> instantOf m = Some t ->
  is_Some (fold_left step ms matches !! time_FormatRFC3339 t).
Proof.
  revert matches. induction ms as [| m' ms IH]; intros matches Hin Ht;
    [by apply elem_of_nil in Hin |].
  cbn [fold_left]. apply elem_of_cons in Hin as [<- | Hin]; [| exact (IH _ Hin Ht)].
  apply fold_step_keeps. pose proof (matchEntry_cases m) as Hm. rewrite Ht in Hm.
  destruct Hm as (ev & _ & _ & Hstep). rewrite Hstep, lookup_insert_eq. by eexists.
Qed.

(** No date twice. *)
Lemma parseDeadlineEvidenceFromText_NoDup :
  NoDup (ParsedDateISO <$>
           parseDeadlineEvidenceFromText order text source sourceURL defaultConfidence).
Proof.
  unfold parseDeadlineEvidenceFromText. cbv zeta. fold step.
  set (matches := fold_left step (allMatches text) ∅).
  assert (Hgood : forall k ev, matches !! k = Some ev -> good (allMatches text) k ev).
  { apply fold_step_good; [auto |]. intros k ev Hk. rewrite lookup_empty in Hk. discriminate. }
  rewrite (sortByTime_perm (snd <$> map_to_list matches)).
  replace (ParsedDateISO <$> (snd <$> map_to_list matches)) with (fst <$> map_to_list matches);
    [apply NoDup_fst_map_to_list |].
  rewrite <- list_fmap_compose. apply list_fmap_ext. intros i [k ev] Hi.
  apply list_elem_of_lookup_2, elem_of_map_to_list in Hi. cbn.
  symmetry. exact (proj1 (Hgood k ev Hi)).
Qed.

(** Every entry is built from the arguments. *)
Lemma parseDeadlineEvidenceFromText_fields (ev : DeadlineEvidenceT) :
  ev ∈ parseDeadlineEvidenceFromText order text source sourceURL defaultConfidence ->
  extractedWith source sourceURL defaultConfidence ev.
Proof.
  unfold parseDeadlineEvidenceFromText. cbv zeta. fold step.
  set (matches := fold_left step (allMatches text) ∅).
  assert (Hgood : forall k ev, matches !! k = Some ev -> good (allMatches text) k ev).
  { apply fold_step_good; [auto |]. intros k ev' Hk. rewrite lookup_empty in Hk. discriminate. }
  intros Hev. rewrite sortByTime_perm in Hev.
  apply list_elem_of_fmap in Hev as ([k ev'] & -> & Hin). cbn [snd].
  apply elem_of_map_to_list in Hin. exact (proj1 (proj2 (Hgood k ev' Hin))).
Qed.

(** X21. The evidence extracted from a text holds the dates of the tokens
    that parse, each date once, sorted by instant: every entry carries the
    source, the link and the confidence given, a label that is deadline
    or one of the hints, a trimmed snippet, and the date of a token of the
    text; and every token that parses has its date among the entries. *)
Theorem extracted_evidence :
  let evidence := parseDeadlineEvidenceFromText order text source sourceURL defaultConfidence in
  NoDup (ParsedDateISO <$> evidence) /\
  StronglySorted notAfterISO evidence /\
  (forall ev, ev ∈ evidence ->
     extractedWith source sourceURL defaultConfidence ev /\
     exists m t, m ∈ allMatches text /\ tokenInstant order text sourceURL m = Some t /\
       ParsedDateISO ev = time_FormatRFC3339 t) /\
  (forall m t, m ∈ allMatches text -> tokenInstant order text sourceURL m = Some t ->
     time_FormatRFC3339 t ∈ ParsedDateISO <$> evidence).
Proof.
  cbv zeta. unfold parseDeadlineEvidenceFromText. cbv zeta. fold step.
  set (matches := fold_left step (allMatches text) ∅).
  assert (Hgood : forall k ev, matches !! k = Some ev -> good (allMatches text) k ev).
  { apply fold_step_good; [auto |]. intros k ev Hk. rewrite lookup_empty in Hk. discriminate. }
  assert (Hkeys : ParsedDateISO <$> (snd <$> map_to_list matches) = fst <$> map_to_list matches).
  { rewrite <- list_fmap_compose. apply list_fmap_ext. intros i [k ev] Hi.
    apply list_elem_of_lookup_2, elem_of_map_to_list in Hi. cbn.
    exact (proj1 (Hgood k ev Hi)). }
  split; [| split; [| split]].
  - rewrite (sortByTime_perm (snd <$> map_to_list matches)), Hkeys.
    apply NoDup_fst_map_to_list.
  - apply sortByTime_sorted.
  - intros ev Hev. rewrite sortByTime_perm in Hev.
    apply list_elem_of_fmap in Hev as ([k ev'] & -> & Hin). cbn [snd].
    apply elem_of_map_to_list in Hin. destruct (Hgood k ev' Hin) as (Hiso & Hext & m & t & Hm & Ht & Hk).
    split; [exact Hext |]. exists m, t. split; [exact Hm |]. split; [exact Ht | congruence].
  - intros m t Hm Ht. rewrite (sortByTime_perm (snd <$> map_to_list matches)), Hkeys.
    destruct (fold_step_covers (allMatches text) ∅ m t Hm Ht) as [ev Hev]. fold matches in Hev.
    apply list_elem_of_fmap. exists (time_FormatRFC3339 t, ev). split; [reflexivity |].
    apply elem_of_map_to_list. exact Hev.
Qed.

End ExtractedEvidence.

Section ExtractedDates.

Import GoTimeModel DateParser DeadlineExtractor ExtractionSpec TokenSpec.

Context `{GoRuntime} `{TimeZones}.

(** X22. The date candidates of a text are the dates of the evidence
    extracted from it with an empty link, in the same order; none is
    repeated. *)
Theorem date_candidates_are_evidence_dates
    (order : nat -> nat -> nat -> list (string * string)) (text : string) :
  parseDateCandidatesFromText order text =
    ParsedDateISO <$> parseDeadlineEvidenceFromText order text "text" "" 0.7 /\
  NoDup (parseDateCandidatesFromText order text).
Proof.
  pose proof (parseDeadlineEvidenceFromText_NoDup order text "text" "" 0.7%Q) as Hnd.
  assert (Heq : parseDateCandidatesFromText order text =
                ParsedDateISO <$> parseDeadlineEvidenceFromText order text "text" "" 0.7).
  { unfold parseDateCandidatesFromText. apply uniqueISO_NoDup; [exact Hnd |].
    intros ev _ Hin. by apply elem_of_nil in Hin. }
  split; [exact Heq | rewrite Heq; exact Hnd].
Qed.

End ExtractedDates.

(* ===================================================================== *)
(** ** The rows a save writes (pipeline.go) *)

Section SavedRows.

Import DecisionSpec.

Context `{GoRuntime} `{PipelineEnv}.

(** The status fields [finalize] leaves are those of the decision; the
    confidence may be raised for a source with an API. *)
Lemma finalize_status (now : Time) (opp : Opportunity) :
  exists d,
    NormalizedStatus (finalize now opp) = dNormalizedStatus d /\
    StatusReason (finalize now opp) = dStatusReason d /\
    IsResultsPage (finalize now opp) = dIsResultsPage d /\
    (dStatusConfidence d <= StatusConfidence (finalize now opp))%Q /\
    List.In (dNormalizedStatus d, dStatusReason d, dStatusConfidence d) decisionTable /\
    List.In (dNormalizedStatus d) statusValues /\
    (dIsResultsPage d = true <-> dStatusReason d = "results_page").
Proof.
  set (o1 := set_RollingEvidence (detectRollingEvidence opp) opp).
  pose proof (ComputeStatusDecision_row o1 now) as Hrow. cbv zeta in Hrow.
  destruct Hrow as (Htable & Hstatus & Hres).
  exists (ComputeStatusDecision o1 now).
  assert (Hfields :
            NormalizedStatus (finalize now opp) = dNormalizedStatus (ComputeStatusDecision o1 now) /\
            StatusReason (finalize now opp) = dStatusReason (ComputeStatusDecision o1 now) /\
            IsResultsPage (finalize now opp) = dIsResultsPage (ComputeStatusDecision o1 now) /\
            (dStatusConfidence (ComputeStatusDecision o1 now)
             <= StatusConfidence (finalize now opp))%Q).
  { unfold finalize. cbv zeta. fold o1.
    set (d := ComputeStatusDecision o1 now). clearbody d. clear Htable Hstatus Hres.
    repeat match goal with
           | |- context [if ?c then _ else _] => destruct c eqn:?
           | |- context [match ?c with Some _ => _ | None => _ end] => destruct c eqn:?
           end;
      cbn; repeat (split; [reflexivity |]); try apply Qle_refl.
    all: match goal with
         | Hc : negb (Qle_bool 0.95 _) = true |- _ =>
             cbn in Hc; apply negb_true_iff in Hc; apply Qlt_le_weak, Qnot_le_lt;
             intros Hle; apply Qle_bool_iff in Hle; congruence
         end. }
  destruct Hfields as (H1 & H2 & H3 & H4).
  repeat (split; [assumption |]). exact Hres.
Qed.

Lemma table_reason_not_empty (status reason : string) (confidence : Q) :
  List.In (status, reason, confidence) decisionTable -> reason <> "".
Proof.
  unfold decisionTable. cbn [List.In]. intros Hin.
  repeat (destruct Hin as [Hin | Hin]; [injection Hin as <- <- <-; discriminate |]).
  contradiction.
Qed.

Lemma trigger_status_fields (now : Time) (r : Row) :
  normalized_status (update_opportunity_status_on_deadline now r) = normalized_status r /\
  status_reason (update_opportunity_status_on_deadline now r) = status_reason r /\
  is_results_page (update_opportunity_status_on_deadline now r) = is_results_page r.
Proof. destruct (trigger_cases now r) as [-> | ->]; repeat split; reflexivity. Qed.

Lemma SaveOpportunity_row (now dbNow : Time) (tbl tbl' : Table) (opp : Opportunity) :
  SaveOpportunity now dbNow tbl opp = Ok tbl' ->
  exists opp', tbl' = upsert dbNow tbl (proposedRow dbNow (finalize now opp')) /\
    SourceDomain (finalize now opp') <> "".
Proof.
  unfold SaveOpportunity. cbv zeta.
  destruct (String.eqb (TrimSpace (SourceID (augment tbl opp))) ""); [discriminate |].
  match goal with |- context [finalize now ?o] => set (opp' := o) end.
  destruct (String.eqb_spec (SourceDomain (finalize now opp')) "") as [| Hdomain]; [discriminate |].
  intros Heq. injection Heq as <-. exists opp'. split; [reflexivity | exact Hdomain].
Qed.

Lemma proposedRow_status (dbNow : Time) (opp : Opportunity) :
  normalized_status (proposedRow dbNow opp) = NormalizedStatus opp /\
  status_reason (proposedRow dbNow opp) = nilIfEmpty (StatusReason opp) /\
  is_results_page (proposedRow dbNow opp) = IsResultsPage opp /\
  status_confidence (proposedRow dbNow opp) = StatusConfidence opp /\
  fst (key (proposedRow dbNow opp)) = SourceDomain opp.
Proof. repeat split; reflexivity. Qed.

Lemma on_conflict_status (now : Time) (old excluded : Row) :
  normalized_status (on_conflict_update now old excluded) = normalized_status excluded /\
  status_reason (on_conflict_update now old excluded) = status_reason excluded /\
  is_results_page (on_conflict_update now old excluded) = is_results_page excluded /\
  status_confidence (on_conflict_update now old excluded) =
    GREATEST (status_confidence excluded) (status_confidence old).
Proof. repeat split; reflexivity. Qed.

(** X23. Every row a save writes is classified: the save writes the row of
    one key, whose source_domain is not empty, and leaves the others; the
    stored normalized_status and status_reason are those of a row of the
    decision table, so the status is one of open, closed, upcoming,
    archived and needs_review; the stored confidence is at least that of
    the rule; and is_results_page is stored true exactly for the reason
    results_page. *)
Theorem saved_row_is_classified (now dbNow : Time) (tbl tbl' : Table) (opp : Opportunity) :
  SaveOpportunity now dbNow tbl opp = Ok tbl' ->
  exists k stored reason confidence,
    tbl' !! k = Some stored /\
    (forall k', k' <> k -> tbl' !! k' = tbl !! k') /\
    fst k <> "" /\
    status_reason stored = Some reason /\
    List.In (normalized_status stored, reason, confidence) decisionTable /\
    List.In (normalized_status stored) statusValues /\
    (confidence <= status_confidence stored)%Q /\
    (is_results_page stored = true <-> reason = "results_page").
Proof.
  intros Hsave. apply SaveOpportunity_row in Hsave as (opp' & -> & Hdomain).
  destruct (finalize_status now opp') as (d & Hst & Hreason & Hres & Hconf & Htable & Hvalues & Hflag).
  destruct (proposedRow_status dbNow (finalize now opp')) as (Hp1 & Hp2 & Hp3 & Hp4 & Hp5).
  rewrite Hst in Hp1. rewrite Hreason in Hp2. rewrite Hres in Hp3. rewrite <- Hp4 in Hconf.
  rewrite <- Hp5 in Hdomain.
  assert (Hsome : nilIfEmpty (dStatusReason d) = Some (dStatusReason d)).
  { unfold nilIfEmpty. destruct (String.eqb_spec (dStatusReason d) "") as [He |]; [| reflexivity].
    exfalso. exact (table_reason_not_empty _ _ _ Htable He). }
  rewrite Hsome in Hp2. clear Hsome Hst Hreason Hres Hp4 Hp5.
  generalize dependent (proposedRow dbNow (finalize now opp')). intros proposed Hdomain Hconf Hp1 Hp2 Hp3.
  destruct (trigger_status_fields dbNow proposed) as (Ht1 & Ht2 & Ht3).
  pose proof (trigger_confidence dbNow proposed) as Ht4.
  exists (key proposed).
  rewrite upsert_lookup.
  destruct (tbl !! key proposed) as [old |]; eexists; exists (dStatusReason d), (dStatusConfidence d);
    (split; [reflexivity |]);
    (split; [intros k' Hk'; apply upsert_lookup_ne; exact Hk' |]);
    (split; [exact Hdomain |]).
  - destruct (trigger_status_fields dbNow
                (on_conflict_update dbNow old (update_opportunity_status_on_deadline dbNow proposed)))
      as (-> & -> & ->).
    rewrite trigger_confidence.
    destruct (on_conflict_status dbNow old (update_opportunity_status_on_deadline dbNow proposed))
      as (-> & -> & -> & ->).
    rewrite Ht1, Ht2, Ht3, Ht4, Hp1, Hp2, Hp3.
    split; [reflexivity |]. split; [exact Htable |]. split; [exact Hvalues |].
    split; [| exact Hflag].
    eapply Qle_trans; [exact Hconf | apply GREATEST_ge_l].
  - rewrite Ht1, Ht2, Ht3, Ht4, Hp1, Hp2, Hp3.
    split; [reflexivity |]. split; [exact Htable |]. split; [exact Hvalues |].
    split; [exact Hconf | exact Hflag].
Qed.

End SavedRows.

Lemma saved_row_is_classified_example :
  SaveOpportunity (H := plainRuntime) (H0 := SaveExamples.offlineEnv) at_2026_02_01 at_2026_02_01
    ∅ SaveExamples.grantsGovSaved =
  Ok (upsert at_2026_02_01 ∅
        (proposedRow (H := plainRuntime) at_2026_02_01
           (finalize (H := plainRuntime) at_2026_02_01 SaveExamples.grantsGovSaved))) /\
  exists k stored reason confidence,
    upsert at_2026_02_01 ∅
      (proposedRow (H := plainRuntime) at_2026_02_01
         (finalize (H := plainRuntime) at_2026_02_01 SaveExamples.grantsGovSaved)) !! k
      = Some stored /\
    List.In (normalized_status stored, reason, confidence) DecisionSpec.decisionTable.
Proof.
  assert (Hsave :
    SaveOpportunity (H := plainRuntime) (H0 := SaveExamples.offlineEnv) at_2026_02_01
      at_2026_02_01 ∅ SaveExamples.grantsGovSaved =
    Ok (upsert at_2026_02_01 ∅
          (proposedRow (H := plainRuntime) at_2026_02_01
             (finalize (H := plainRuntime) at_2026_02_01 SaveExamples.grantsGovSaved)))).
  { vm_compute. reflexivity. }
  split; [exact Hsave |].
  destruct (saved_row_is_classified (H := plainRuntime) (H0 := SaveExamples.offlineEnv)
              at_2026_02_01 at_2026_02_01 ∅ _ SaveExamples.grantsGovSaved Hsave)
    as (k & stored & reason & confidence & Hk & _ & _ & _ & Htable & _).
  exists k, stored, reason, confidence. split; [exact Hk | exact Htable].
Defined.

(* ===================================================================== *)
(** ** What the adapter reports (source_adapter.go) *)

Section CandidatesSummary.

Import TextHelpers DeadlineExtractor SourceAdapter ExtractionSpec CandidatesSpec.

Context `{GoRuntime} `{TimeZones} `{Goquery}.

Lemma mergeUniqueFold_NoDup (dst items : list string) :
  NoDup dst -> NoDup (mergeUniqueFold dst items).
Proof.
  intros Hnd. unfold mergeUniqueFold. cbv zeta. apply NoDup_app. split; [exact Hnd |]. split.
  - intros x Hx Hadded. apply mergeItems_elem in Hadded as (Hne & (item & _ & Hitem) & Hnot).
    apply Hnot. apply seen_of. split.
    + intros He. apply Hne. exact (ToLower_empty x He).
    + exists x. split; [exact Hx |]. unfold foldKey. rewrite Hitem, TrimSpace_idempotent.
      reflexivity.
  - apply (NoDup_fmap_1 ToLower). apply mergeItems_NoDup.
Qed.

Lemma mergeUniqueFold_prefix (dst items : list string) : dst `prefix_of` mergeUniqueFold dst items.
Proof. unfold mergeUniqueFold. cbv zeta. apply prefix_app_r. reflexivity. Qed.

(** The loop over the attachments. *)
Lemma attachmentsLoop_spec (order : nat -> nat -> nat -> nat -> list (string * string))
    (url : string) (texts : list (string * string)) :
  forall (k : nat) (candidates : list string) (evidence : list DeadlineEvidenceT) (parsed : Z)
         (found : bool),
    let result := attachmentsLoop order k url texts (candidates, evidence, parsed, found) in
    candidates `prefix_of` fst (fst (fst result)) /\
    (NoDup candidates -> NoDup (fst (fst (fst result)))) /\
    snd (fst result) = parsed + Z.of_nat (length texts) /\
    ((found = true -> candidates <> []) -> snd result = true -> fst (fst (fst result)) <> []) /\
    (forall ev, ev ∈ snd (fst (fst result)) ->
       ev ∈ evidence \/ (URL ev = url /\ Source ev = "pdf" /\ Confidence ev = 0.85%Q)).
Proof.
  induction texts as [| [name attachmentText] rest IH]; intros k candidates evidence parsed found.
  - cbn. split; [reflexivity |]. split; [auto |]. split; [lia |]. split; [auto |]. auto.
  - cbn [attachmentsLoop]. cbv zeta.
    set (candidates' := mergeUniqueFold candidates
                          (parseDateCandidatesFromText (order k) (ToLower attachmentText))).
    set (pdfEvidence := parseDeadlineEvidenceFromText (order (S k)) (ToLower attachmentText)
                          "pdf" url 0.85).
    specialize (IH (S (S k)) candidates' (evidence ++ pdfEvidence) (parsed + 1)
                  (found || (length candidates <? length candidates')%nat)).
    cbv zeta in IH. destruct IH as (Hpre & Hnd & Hn & Hfound & Hev).
    split; [| split; [| split; [| split]]].
    + etransitivity; [apply mergeUniqueFold_prefix | exact Hpre].
    + intros Hc. apply Hnd. apply mergeUniqueFold_NoDup. exact Hc.
    + rewrite Hn. cbn [length]. lia.
    + intros Hinit. apply Hfound. intros Hor. apply orb_true_iff in Hor as [Hf | Hlt].
      * intros He. apply (Hinit Hf).
        pose proof (mergeUniqueFold_prefix candidates
                      (parseDateCandidatesFromText (order k) (ToLower attachmentText))) as Hp.
        fold candidates' in Hp. rewrite He in Hp. apply prefix_nil_inv in Hp. exact Hp.
      * apply Nat.ltb_lt in Hlt. intros He. rewrite He in Hlt. cbn in Hlt. lia.
    + intros ev Hin. destruct (Hev ev Hin) as [Hold | Hpdf]; [| right; exact Hpdf].
      apply elem_of_app in Hold as [Hold | Hnew]; [left; exact Hold |].
      right. subst pdfEvidence. apply parseDeadlineEvidenceFromText_fields in Hnew.
      destruct Hnew as (Hs & Hu & Hc & _). auto.
Qed.

(** X24. What the adapter reports for a page: the status is closed,
    results, open, calendar_discovery_only or empty, and the page is a
    results page exactly when it is results; the confidence is 0.3, 0.4,
    0.7, 0.8 or 0.95, and without any date candidate it is not 0.7 or 0.8;
    the candidates start with those of the page and hold no date twice;
    deadlines_added is their number and pdfs_parsed the number of
    attachment texts; every evidence entry carries the URL of the page
    and is html at 0.8 or pdf at 0.85. *)
Theorem extract_candidates_summary
    (order : nat -> nat -> nat -> nat -> list (string * string)) (raw : SourceAdapterRaw) :
  let c := ExtractCandidates order raw in
  List.In (cSourceStatusRaw c) adapterStatuses /\
  (cIsResultsPage c = true <-> cSourceStatusRaw c = "results") /\
  List.In (cStatusConfidence c) adapterConfidences /\
  (cDeadlineCandidates c = [] ->
   cStatusConfidence c <> 0.7%Q /\ cStatusConfidence c <> 0.8%Q) /\
  parseDateCandidatesFromText (order 1%nat)
    (ToLower (buildStructuredExtractionText (rBodyHTML raw)))
    `prefix_of` cDeadlineCandidates c /\
  NoDup (cDeadlineCandidates c) /\
  cDeadlinesAdded c = Z.of_nat (length (cDeadlineCandidates c)) /\
  cPDFsParsed c = Z.of_nat (length (rAttachmentTexts raw)) /\
  (forall ev, ev ∈ cDeadlineEvidence c -> fromPageOrAttachment (rURL raw) ev).
Proof.
  cbv zeta. unfold ExtractCandidates. cbv zeta.
  set (text := ToLower (buildStructuredExtractionText (rBodyHTML raw))).
  set (htmlCandidates := parseDateCandidatesFromText (order 1%nat) text).
  set (htmlEvidence := parseDeadlineEvidenceFromText (order 0%nat) text "html" (rURL raw) 0.8).
  pose proof (attachmentsLoop_spec order (rURL raw) (rAttachmentTexts raw) 2%nat htmlCandidates
                htmlEvidence 0 false) as Hloop.
  cbv zeta in Hloop.
  destruct (attachmentsLoop order 2 (rURL raw) (rAttachmentTexts raw)
              (htmlCandidates, htmlEvidence, 0, false))
    as [[[candidates deadlineEvidence] pdfsParsed] found].
  cbn [fst snd] in Hloop. destruct Hloop as (Hpre & Hnd & Hn & Hfound & Hev).
  cbn [cSourceStatusRaw cIsResultsPage cStatusConfidence cDeadlineCandidates cDeadlinesAdded
       cPDFsParsed cDeadlineEvidence].
  assert (Hcands : NoDup htmlCandidates).
  { subst htmlCandidates. unfold parseDateCandidatesFromText.
    rewrite uniqueISO_NoDup.
    - apply parseDeadlineEvidenceFromText_NoDup.
    - apply parseDeadlineEvidenceFromText_NoDup.
    - intros ev _ Hin. by apply elem_of_nil in Hin. }
  assert (Hempty : candidates = [] -> (0 <? length htmlCandidates)%nat = false /\ found = false).
  { intros He. split.
    - rewrite He in Hpre. apply prefix_nil_inv in Hpre. rewrite Hpre. reflexivity.
    - destruct found; [| reflexivity]. exfalso. apply Hfound; [discriminate | reflexivity | exact He]. }
  set (closed := Contains text "closed" || Contains text "cerrad" || Contains text "finalizada").
  set (results := Contains text "results" || Contains text "winners" || Contains text "ganadores" ||
                  Contains text "resultados finales" || Contains text "ranking").
  set (open := Contains text "open" || Contains text "abierta" || Contains text "vigente").
  set (hasHTML := (0 <? length htmlCandidates)%nat) in *.
  set (pro := Contains (ToLower (rDomain raw)) "proinnovate").
  split; [| split; [| split; [| split; [| split; [| split; [| split; [| split]]]]]]].
  - destruct closed, results, open, pro, (length candidates =? 0)%nat; cbn;
      unfold adapterStatuses; cbn [List.In]; tauto.
  - destruct closed, results, open, pro, (length candidates =? 0)%nat; cbn;
      split; first [ reflexivity | discriminate ].
  - destruct closed, results, open, pro, (length candidates =? 0)%nat, hasHTML, found; cbn;
      unfold adapterConfidences; cbn [List.In]; tauto.
  - intros He. destruct (Hempty He) as [Hh Hf]. rewrite Hh, Hf.
    destruct closed, results, open, pro, (length candidates =? 0)%nat; cbn;
      split; intros Hq; inversion Hq.
  - exact Hpre.
  - apply Hnd. exact Hcands.
  - reflexivity.
  - rewrite Hn. lia.
  - intros ev Hin. unfold fromPageOrAttachment.
    destruct (Hev ev Hin) as [Hhtml | (Hu & Hs & Hc)]; [| auto].
    subst htmlEvidence. apply parseDeadlineEvidenceFromText_fields in Hhtml.
    destruct Hhtml as (Hs & Hu & Hc & _). auto.
Qed.

End CandidatesSummary.

(* ===================================================================== *)
(** ** Clean text (helpers.go, normalizer) *)

Section CleanText.

Import TextHelpers WordSpec.

Lemma append_empty_r (s : string) : s +:+ "" = s.
Proof.
  induction s as [| c s IH]; [reflexivity |].
  change (String c s +:+ "") with (String c (s +:+ "")). rewrite IH. reflexivity.
Qed.

(** A run without white space is taken into the field under construction. *)
Lemma fieldsFrom_word (w rest : string) (cur : list ascii) :
  noSpace w = true ->
  fieldsFrom cur (w +:+ rest) = fieldsFrom (rev (list_ascii_of_string w) ++ cur) rest.
Proof.
  revert cur. induction w as [| c w IH]; intros cur Hw; [reflexivity |].
  cbn [noSpace] in Hw. apply andb_true_iff in Hw as [Hc Hw]. apply negb_true_iff in Hc.
  change (String c w +:+ rest) with (String c (w +:+ rest)).
  cbn [fieldsFrom]. rewrite Hc. rewrite (IH (c :: cur) Hw).
  cbn [list_ascii_of_string rev]. rewrite <- app_assoc. reflexivity.
Qed.

Lemma fieldsFrom_end (w : string) :
  w <> "" -> fieldsFrom (rev (list_ascii_of_string w)) "" = [w].
Proof.
  intros Hw. cbn [fieldsFrom].
  destruct (rev (list_ascii_of_string w)) as [| c l] eqn:E.
  - exfalso. apply Hw. apply (f_equal (@rev ascii)) in E. rewrite rev_involutive in E.
    cbn in E. rewrite <- (string_of_list_ascii_of_string w), E. reflexivity.
  - rewrite <- E, rev_involutive, string_of_list_ascii_of_string. reflexivity.
Qed.

Lemma fieldsFrom_space (w rest : string) :
  w <> "" ->
  fieldsFrom (rev (list_ascii_of_string w)) (String " " rest) = w :: fieldsFrom [] rest.
Proof.
  intros Hw. cbn [fieldsFrom].
  change (isSpace " ") with true. cbv iota.
  destruct (rev (list_ascii_of_string w)) as [| c l] eqn:E.
  - exfalso. apply Hw. apply (f_equal (@rev ascii)) in E. rewrite rev_involutive in E.
    cbn in E. rewrite <- (string_of_list_ascii_of_string w), E. reflexivity.
  - rewrite <- E, rev_involutive, string_of_list_ascii_of_string. reflexivity.
Qed.

(** The fields of words joined by single spaces are the words. *)
Lemma Fields_Join (ws : list string) :
  Forall isWord ws -> Fields (Join ws " ") = ws.
Proof.
  unfold Fields. induction ws as [| w ws IH]; intros Hws; [reflexivity |].
  apply Forall_cons in Hws as [[Hne Hw] Hws]. destruct ws as [| w2 ws].
  - cbn [Join]. rewrite <- (append_empty_r w) at 1.
    rewrite (fieldsFrom_word w "" [] Hw), app_nil_r. apply fieldsFrom_end. exact Hne.
  - change (Join (w :: w2 :: ws) " ") with (w +:+ " " +:+ Join (w2 :: ws) " ").
    rewrite (fieldsFrom_word w _ [] Hw), app_nil_r.
    change (" " +:+ Join (w2 :: ws) " ") with (String " " (Join (w2 :: ws) " ")).
    rewrite (fieldsFrom_space w _ Hne). f_equal. apply IH. exact Hws.
Qed.


Lemma noSpace_of_list (l : list ascii) :
  Forall (fun c => isSpace c = false) l -> noSpace (string_of_list_ascii l) = true.
Proof.
  induction 1 as [| c l Hc _ IH]; [reflexivity |]. cbn. rewrite Hc, IH. reflexivity.
Qed.

Lemma flushed_word (cur : list ascii) :
  cur <> [] -> Forall (fun c => isSpace c = false) cur ->
  isWord (string_of_list_ascii (rev cur)).
Proof.
  intros Hne Hcur. split.
  - destruct (rev cur) as [| c l] eqn:E; [| discriminate].
    apply (f_equal (@rev ascii)) in E. rewrite rev_involutive in E. contradiction.
  - apply noSpace_of_list. apply Forall_rev. exact Hcur.
Qed.

(** The fields of a text are words. *)
Lemma fieldsFrom_words (s : string) (cur : list ascii) :
  Forall (fun c => isSpace c = false) cur -> Forall isWord (fieldsFrom cur s).
Proof.
  revert cur. induction s as [| c s IH]; intros cur Hcur.
  - cbn [fieldsFrom]. destruct cur as [| d cur]; [constructor |].
    constructor; [apply flushed_word; [discriminate | exact Hcur] | constructor].
  - cbn [fieldsFrom]. destruct (isSpace c) eqn:Hc.
    + destruct cur as [| d cur]; [apply IH; constructor |].
      constructor; [apply flushed_word; [discriminate | exact Hcur] | apply IH; constructor].
    + apply IH. constructor; assumption.
Qed.

Lemma Fields_words (s : string) : Forall isWord (Fields s).
Proof. apply fieldsFrom_words. constructor. Qed.

Lemma Join_words_start (ws : list string) :
  Forall isWord ws -> startsWithSpace (Join ws " ") = false /\ (ws <> [] -> Join ws " " <> "").
Proof.
  destruct ws as [| w ws]; [split; [reflexivity | congruence] |].
  intros Hws. apply Forall_cons in Hws as [[Hne Hw] _].
  destruct w as [| c w]; [contradiction |].
  cbn [noSpace] in Hw. apply andb_true_iff in Hw as [Hc _]. apply negb_true_iff in Hc.
  destruct ws as [| w2 ws]; cbn; (split; [exact Hc | discriminate]).
Qed.

Lemma TrimRightSpace_word (w : string) : noSpace w = true -> TrimRightSpace w = w.
Proof.
  induction w as [| c w IH]; [reflexivity |]. cbn [noSpace]. intros Hw.
  apply andb_true_iff in Hw as [Hc Hw]. apply negb_true_iff in Hc.
  rewrite TrimRightSpace_cons, (IH Hw). destruct w; [rewrite Hc |]; reflexivity.
Qed.

Lemma TrimRightSpace_Join (ws : list string) :
  Forall isWord ws -> TrimRightSpace (Join ws " ") = Join ws " ".
Proof.
  induction ws as [| w ws IH]; intros Hws; [reflexivity |].
  apply Forall_cons in Hws as [[Hne Hw] Hws]. destruct ws as [| w2 ws].
  - cbn [Join]. apply TrimRightSpace_word. exact Hw.
  - change (Join (w :: w2 :: ws) " ") with (w +:+ " " +:+ Join (w2 :: ws) " ").
    assert (HJ : Join (w2 :: ws) " " <> "") by (apply Join_words_start; [exact Hws | discriminate]).
    apply TrimRightSpace_app.
    + apply TrimRightSpace_app; [apply IH; exact Hws | exact HJ].
    + discriminate.
Qed.

Lemma space_not_nonspace (c : ascii) : isSpace c = false -> Ascii.eqb c " " = false.
Proof.
  intros Hc. destruct (Ascii.eqb_spec c " ") as [-> |]; [| reflexivity]. discriminate Hc.
Qed.

Lemma spacesOnly_word (w rest : string) :
  noSpace w = true -> spacesOnly (w +:+ rest) = spacesOnly rest.
Proof.
  induction w as [| c w IH]; [reflexivity |]. cbn [noSpace]. intros Hw.
  apply andb_true_iff in Hw as [Hc Hw].
  change (String c w +:+ rest) with (String c (w +:+ rest)). cbn [spacesOnly].
  rewrite Hc, (IH Hw). reflexivity.
Qed.

Lemma Contains_double_word (w rest : string) :
  noSpace w = true -> Contains (w +:+ rest) "  " = Contains rest "  ".
Proof.
  induction w as [| c w IH]; [reflexivity |]. cbn [noSpace]. intros Hw.
  apply andb_true_iff in Hw as [Hc Hw]. apply negb_true_iff in Hc.
  change (String c w +:+ rest) with (String c (w +:+ rest)). cbn [Contains HasPrefix].
  rewrite (space_not_nonspace c Hc), (IH Hw). reflexivity.
Qed.

Lemma Join_single_spaces (ws : list string) :
  Forall isWord ws ->
  spacesOnly (Join ws " ") = true /\ Contains (Join ws " ") "  " = false.
Proof.
  induction ws as [| w ws IH]; intros Hws; [split; reflexivity |].
  apply Forall_cons in Hws as [[Hne Hw] Hws]. destruct ws as [| w2 ws].
  - cbn [Join]. rewrite <- (append_empty_r w).
    rewrite (spacesOnly_word w "" Hw), (Contains_double_word w "" Hw). split; reflexivity.
  - change (Join (w :: w2 :: ws) " ") with (w +:+ String " " (Join (w2 :: ws) " ")).
    rewrite (spacesOnly_word w _ Hw), (Contains_double_word w _ Hw).
    destruct (IH Hws) as [Hs Hc].
    destruct (Join_words_start (w2 :: ws) Hws) as [Hstart _].
    set (J := Join (w2 :: ws) " ") in *. split.
    + cbn [spacesOnly]. rewrite Hs. reflexivity.
    + change (Contains (String " " J) "  ") with (HasPrefix (String " " J) "  " || Contains J "  ").
      rewrite Hc, orb_false_r. destruct J as [| d J']; [reflexivity |].
      cbn [startsWithSpace] in Hstart. cbn [HasPrefix].
      rewrite (space_not_nonspace d Hstart). reflexivity.
Qed.

(** X25. [cleanText] brings a text to a normal form: the result has the
    same fields as the text, separated by single spaces; it has no white
    space at either end, no white space other than the space and no two
    spaces in a row; it is empty exactly when the text has no field; and
    cleaning it again changes nothing. *)
Theorem clean_text_normal_form (s : string) :
  cleanText (cleanText s) = cleanText s /\
  Fields (cleanText s) = Fields s /\
  TrimSpace (cleanText s) = cleanText s /\
  spacesOnly (cleanText s) = true /\
  Contains (cleanText s) "  " = false /\
  (cleanText s = "" <-> Fields s = []).
Proof.
  unfold cleanText, normalizeSpace.
  pose proof (Fields_words s) as Hws.
  assert (Hfields : Fields (Join (Fields s) " ") = Fields s) by (apply Fields_Join; exact Hws).
  destruct (Join_words_start (Fields s) Hws) as [Hstart Hne].
  destruct (Join_single_spaces (Fields s) Hws) as [Hs Hc].
  split; [rewrite Hfields; reflexivity |]. split; [exact Hfields |].
  split; [| split; [exact Hs | split; [exact Hc |]]].
  - unfold TrimSpace. rewrite (TrimLeftSpace_fixed _ Hstart). apply TrimRightSpace_Join. exact Hws.
  - split.
    + intros He. destruct (Fields s) as [| w ws]; [reflexivity |].
      exfalso. apply Hne; [discriminate | exact He].
    + intros ->. reflexivity.
Qed.

Lemma cleanText_idempotent (s : string) : cleanText (cleanText s) = cleanText s.
Proof.
  unfold cleanText, normalizeSpace. rewrite Fields_Join; [reflexivity | apply Fields_words].
Qed.

(** X26. Normalizing an opportunity twice is normalizing it once: the
    title, the summary, the region, the country, the funder type and the
    agency name it leaves are clean. *)
Theorem normalize_opportunity_idempotent (opp : Opportunity) :
  NormalizeOpportunity (NormalizeOpportunity opp) = NormalizeOpportunity opp /\
  Forall (fun field => cleanText field = field)
    [ Title (NormalizeOpportunity opp); Summary (NormalizeOpportunity opp);
      Region (NormalizeOpportunity opp); Country (NormalizeOpportunity opp);
      FunderType (NormalizeOpportunity opp); AgencyName (NormalizeOpportunity opp) ].
Proof.
  unfold NormalizeOpportunity, normalizeRegion, normalizeCountry, normalizeFunderType.
  pose proof cleanText_idempotent as Hidem. revert Hidem. generalize cleanText.
  intros clean Hidem. destruct opp. split.
  - cbv. rewrite !Hidem. reflexivity.
  - cbv [set_Title set_Summary set_Region set_Country set_FunderType set_AgencyName
         Title Summary Region Country FunderType AgencyName].
    repeat (constructor; [apply Hidem |]). constructor.
Qed.

End CleanText.

(* ===================================================================== *)
(** ** The domain of a URL (pipeline.go) *)

Section DomainOfURL.

Import Domains.

Lemma prefix_eqb (substr t : string) :
  String.eqb (substring 0 (String.length substr) t) substr = HasPrefix t substr.
Proof.
  revert t. induction substr as [| p substr IH]; intros t.
  - destruct t; reflexivity.
  - destruct t as [| c t]; [reflexivity |]. cbn [String.length substring HasPrefix String.eqb].
    rewrite IH. reflexivity.
Qed.

Lemma substring_skip (a t : string) (n : nat) :
  substring (String.length a) n (a +:+ t) = substring 0 n t.
Proof.
  induction a as [| c a IH]; [reflexivity |].
  change (String c a +:+ t) with (String c (a +:+ t)). cbn [String.length substring]. exact IH.
Qed.

Lemma indexFrom_short (i : nat) (t substr : string) :
  (String.length t < String.length substr)%nat -> indexFrom i t substr = None.
Proof.
  revert i. induction t as [| c t IH]; intros i Hlen.
  - destruct substr; [cbn in Hlen; lia | reflexivity].
  - cbn [indexFrom]. replace (HasPrefix (String c t) substr) with false.
    + apply IH. cbn [String.length] in Hlen. lia.
    + symmetry. rewrite <- prefix_eqb. apply String.eqb_neq. intros Heq.
      apply (f_equal String.length) in Heq. rewrite length_substring_0 in Heq. lia.
Qed.

Lemma append_assoc_char (a : string) (c : ascii) (t : string) :
  (a +:+ String c "") +:+ t = a +:+ String c t.
Proof.
  induction a as [| d a IH]; [reflexivity |].
  change ((String d a +:+ String c "") +:+ t) with (String d ((a +:+ String c "") +:+ t)).
  rewrite IH. reflexivity.
Qed.

(** The loop, on the part of the text that is left. *)
Lemma findLoop_indexFrom (t a substr : string) :
  (String.length substr <= String.length t)%nat ->
  findLoop (S (String.length t - String.length substr)) (String.length a) (a +:+ t) substr =
  match indexFrom (String.length a) t substr with
  | Some j => Z.of_nat j
  | None => -1
  end.
Proof.
  revert a. induction t as [| c t IH]; intros a Hlen.
  - destruct substr; [| cbn in Hlen; lia]. cbn [findLoop indexFrom HasPrefix String.length].
    unfold slice. replace (String.length a + 0 - String.length a)%nat with 0%nat by lia.
    rewrite substring_skip. reflexivity.
  - cbn [findLoop indexFrom]. unfold slice.
    replace (String.length a + String.length substr - String.length a)%nat
      with (String.length substr) by lia.
    rewrite substring_skip, prefix_eqb.
    destruct (HasPrefix (String c t) substr); [reflexivity |].
    cbn [String.length] in Hlen |- *.
    destruct (Nat.eq_dec (String.length substr) (S (String.length t))) as [Heq | Hne].
    + replace (S (String.length t) - String.length substr)%nat with 0%nat by lia.
      cbn [findLoop]. rewrite indexFrom_short by lia. reflexivity.
    + replace (S (String.length t) - String.length substr)%nat
        with (S (String.length t - String.length substr)) by lia.
      specialize (IH (a +:+ String c "") ltac:(lia)).
      rewrite length_append in IH. cbn [String.length] in IH.
      replace (String.length a + 1)%nat with (S (String.length a)) in IH by lia.
      rewrite append_assoc_char in IH. exact IH.
Qed.

Lemma findSubstring_Index (s substr : string) :
  findSubstring s substr =
  match Index s substr with
  | Some j => Z.of_nat j
  | None => -1
  end.
Proof.
  unfold findSubstring, Index. destruct (String.length substr <=? String.length s)%nat eqn:Hlen.
  - apply Nat.leb_le in Hlen. exact (findLoop_indexFrom s "" substr Hlen).
  - apply Nat.leb_gt in Hlen. rewrite indexFrom_short by exact Hlen. reflexivity.
Qed.


Lemma HasPrefix_split (b substr : string) :
  HasPrefix b substr = true -> exists r, b = substr +:+ r.
Proof.
  revert b. induction substr as [| p substr IH]; intros b Hb; [exists b; reflexivity |].
  destruct b as [| c b]; [discriminate |]. cbn [HasPrefix] in Hb.
  apply andb_true_iff in Hb as [Hc Hb]. apply Ascii.eqb_eq in Hc. subst p.
  destruct (IH b Hb) as [r ->]. exists r. reflexivity.
Qed.

Lemma HasPrefix_app_l (a b substr : string) :
  HasPrefix a substr = true -> HasPrefix (a +:+ b) substr = true.
Proof.
  revert a. induction substr as [| p substr IH]; intros a Ha; [destruct (a +:+ b); reflexivity |].
  destruct a as [| c a]; [discriminate |]. cbn [HasPrefix] in Ha.
  apply andb_true_iff in Ha as [Hc Ha].
  change (String c a +:+ b) with (String c (a +:+ b)). cbn [HasPrefix].
  rewrite Hc, (IH a Ha). reflexivity.
Qed.

(** The first occurrence cuts the text in two. *)
Lemma indexFrom_cut (s substr : string) (i j : nat) :
  substr <> "" -> indexFrom i s substr = Some j ->
  exists a r, s = a +:+ substr +:+ r /\ j = (i + String.length a)%nat /\
    Contains a substr = false.
Proof.
  intros Hne. revert i. induction s as [| c s IH]; intros i Hj.
  - cbn [indexFrom] in Hj. destruct substr; [contradiction | discriminate].
  - cbn [indexFrom] in Hj. destruct (HasPrefix (String c s) substr) eqn:Hp.
    + injection Hj as <-. destruct (HasPrefix_split _ _ Hp) as [r Hr].
      exists "", r. split; [exact Hr |]. split; [cbn; lia |].
      destruct substr; [contradiction | reflexivity].
    + destruct (IH (S i) Hj) as (a & r & -> & -> & Ha).
      exists (String c a), r. split; [reflexivity |]. split; [cbn [String.length]; lia |].
      cbn [Contains]. rewrite Ha, orb_false_r.
      destruct (HasPrefix (String c a) substr) eqn:Hpa; [| reflexivity].
      apply (HasPrefix_app_l _ (substr +:+ r)) in Hpa.
      change (String c a +:+ substr +:+ r) with (String c (a +:+ substr +:+ r)) in Hpa.
      congruence.
Qed.

Lemma indexFrom_none (s substr : string) (i : nat) :
  indexFrom i s substr = None -> Contains s substr = false.
Proof.
  revert i. induction s as [| c s IH]; intros i Hn; cbn [indexFrom Contains] in *.
  - destruct (HasPrefix "" substr); [discriminate | reflexivity].
  - destruct (HasPrefix (String c s) substr); [discriminate |]. exact (IH _ Hn).
Qed.

Lemma Contains_none_index (s substr : string) (i : nat) :
  Contains s substr = false -> indexFrom i s substr = None.
Proof.
  revert i. induction s as [| c s IH]; intros i Hc; cbn [indexFrom Contains] in *.
  - rewrite orb_false_r in Hc. rewrite Hc. reflexivity.
  - apply orb_false_iff in Hc as [Hp Hc]. rewrite Hp. exact (IH _ Hc).
Qed.

Lemma slice_prefix (a b : string) : slice (a +:+ b) 0 (String.length a) = a.
Proof.
  unfold slice. rewrite Nat.sub_0_r. induction a as [| c a IH]; [destruct b; reflexivity |].
  change (String c a +:+ b) with (String c (a +:+ b)). cbn [String.length substring].
  rewrite IH. reflexivity.
Qed.

Lemma sliceFrom_suffix (a r : string) : sliceFrom (a +:+ r) (String.length a) = r.
Proof.
  unfold sliceFrom. rewrite length_append.
  replace (String.length a + String.length r - String.length a)%nat with (String.length r) by lia.
  rewrite substring_skip. apply substring_all.
Qed.

(** A pattern is not found before its first byte occurs. *)
Lemma indexFrom_skip (a b : string) (c : ascii) (t : string) (i : nat) :
  Contains a (String c "") = false ->
  indexFrom i (a +:+ b) (String c t) = indexFrom (i + String.length a) b (String c t).
Proof.
  revert i. induction a as [| d a IH]; intros i Ha.
  - cbn [String.length]. rewrite Nat.add_0_r. reflexivity.
  - change (String d a +:+ b) with (String d (a +:+ b)).
    cbn [Contains HasPrefix] in Ha. apply orb_false_iff in Ha as [Hd Ha].
    rewrite HasPrefix_empty, andb_true_r in Hd. cbn [indexFrom HasPrefix]. rewrite Hd. cbn [andb].
    rewrite (IH (S i) Ha). cbn [String.length]. f_equal. lia.
Qed.

Lemma no_slash_no_scheme (r : string) : Contains r "/" = false -> Contains r "://" = false.
Proof.
  induction r as [| c r IH]; [reflexivity |]. cbn [Contains]. intros Hc.
  apply orb_false_iff in Hc as [Hp Hc]. rewrite (IH Hc), orb_false_r.
  destruct (HasPrefix (String c r) "://") eqn:Hs; [| reflexivity].
  apply HasPrefix_split in Hs as [rest Hs]. injection Hs as -> ->.
  cbn in Hc. discriminate.
Qed.

Lemma extractDomain_Index (url : string) :
  extractDomain url =
  let u := match Index url "://" with
           | Some idx => sliceFrom url (idx + 3)
           | None => url
           end in
  match Index u "/" with
  | Some idx => slice u 0 idx
  | None => u
  end.
Proof.
  unfold extractDomain. cbv zeta. rewrite (findSubstring_Index url "://").
  destruct (Index url "://") as [idx |].
  - replace (0 <=? Z.of_nat idx) with true by (symmetry; apply Z.leb_le; lia).
    rewrite Nat2Z.id, findSubstring_Index.
    destruct (Index (sliceFrom url (idx + 3)) "/") as [idx' |]; [| reflexivity].
    replace (0 <=? Z.of_nat idx') with true by (symmetry; apply Z.leb_le; lia).
    rewrite Nat2Z.id. reflexivity.
  - change (0 <=? -1) with false. cbv iota. rewrite findSubstring_Index.
    destruct (Index url "/") as [idx' |]; [| reflexivity].
    replace (0 <=? Z.of_nat idx') with true by (symmetry; apply Z.leb_le; lia).
    rewrite Nat2Z.id. reflexivity.
Qed.

Lemma extractDomain_no_slash (url : string) : Contains (extractDomain url) "/" = false.
Proof.
  rewrite extractDomain_Index. cbv zeta.
  set (u := match Index url "://" with Some idx => sliceFrom url (idx + 3) | None => url end).
  unfold Index. destruct (indexFrom 0 u "/") as [idx |] eqn:Hidx.
  - destruct (indexFrom_cut u "/" 0 idx ltac:(discriminate) Hidx) as (a & r & -> & -> & Ha).
    cbn [Nat.add]. rewrite slice_prefix. exact Ha.
  - exact (indexFrom_none _ _ _ Hidx).
Qed.

Lemma extractDomain_plain (host : string) :
  Contains host "/" = false -> extractDomain host = host.
Proof.
  intros Hh. rewrite extractDomain_Index. cbv zeta. unfold Index.
  rewrite (Contains_none_index host "://" 0 (no_slash_no_scheme host Hh)).
  rewrite (Contains_none_index host "/" 0 Hh). reflexivity.
Qed.

(** X27. [extractDomain] drops what comes up to the first "://" and what
    comes from the next "/" on: its result holds no "/", extracting again
    changes nothing, a text without "/" is returned as it is, and a URL
    scheme://host or scheme://host/path gives host, whatever the path,
    when the scheme holds no ":" and the host no "/". *)
Theorem extract_domain (url : string) :
  Contains (extractDomain url) "/" = false /\
  extractDomain (extractDomain url) = extractDomain url /\
  (Contains url "/" = false -> extractDomain url = url) /\
  (forall scheme host path,
     Contains scheme ":" = false -> Contains host "/" = false ->
     url = scheme +:+ "://" +:+ host \/ url = scheme +:+ "://" +:+ host +:+ "/" +:+ path ->
     extractDomain url = host).
Proof.
  split; [apply extractDomain_no_slash |].
  split; [apply extractDomain_plain, extractDomain_no_slash |].
  split; [apply extractDomain_plain |].
  intros scheme host path Hscheme Hhost Hurl.
  rewrite extractDomain_Index. cbv zeta. unfold Index.
  assert (Hfirst : forall rest, indexFrom 0 (scheme +:+ "://" +:+ rest) "://"
                                = Some (String.length scheme)).
  { intros rest. rewrite (indexFrom_skip scheme ("://" +:+ rest) ":" "//" 0 Hscheme).
    change ("://" +:+ rest) with (String ":" (String "/" (String "/" rest))).
    cbn [indexFrom HasPrefix Nat.add]. rewrite !Ascii.eqb_refl, HasPrefix_empty. reflexivity. }
  assert (Hcut : forall rest, sliceFrom (scheme +:+ "://" +:+ rest) (String.length scheme + 3)
                              = rest).
  { intros rest.
    replace (scheme +:+ "://" +:+ rest) with ((scheme +:+ "://") +:+ rest).
    - replace (String.length scheme + 3)%nat with (String.length (scheme +:+ "://"))
        by (rewrite length_append; reflexivity).
      apply sliceFrom_suffix.
    - clear. induction scheme as [| c scheme IH]; [reflexivity |].
      change ((String c scheme +:+ "://") +:+ rest) with (String c ((scheme +:+ "://") +:+ rest)).
      rewrite IH. reflexivity. }
  destruct Hurl as [-> | ->]; rewrite Hfirst, Hcut.
  - rewrite (Contains_none_index host "/" 0 Hhost). reflexivity.
  - rewrite (indexFrom_skip host ("/" +:+ path) "/" "" 0 Hhost).
    change ("/" +:+ path) with (String "/" path).
    cbn [indexFrom HasPrefix Nat.add]. rewrite Ascii.eqb_refl, HasPrefix_empty. cbn [andb].
    apply slice_prefix.
Qed.

End DomainOfURL.
